(** * SupplyChainPlanner: the allocation optimizer, the result ranker, the
    knowledge graph and the ontology, embedded from [solver/optimizer.py],
    [solver/ranker.py], [solver/knowledge_graph.py], [solver/ontology.py]
    and [solver/data_loader.py], with the restriction rules of
    [scripts/generate_data.py] and the marker size of
    [pages/1_Knowledge_Graph.py].

    Numbers: Python [int] is [Z]; Python [float] (costs, scores, solver
    values) is modelled by exact rationals [Q], compared with [Qeq], [Qle]
    and [Qlt].  What is stated of a computed float is its sign, its order
    with respect to other values, or its equality with a value obtained
    by the same operations: rounding to doubles preserves these.  pandas
    DataFrames are lists of row records in index order; Python dicts are
    [gmap]s, Python sets are [gset]s. *)

From Stdlib Require Import QArith Qround ZArith NArith Lia Lqa Ascii String DecimalString.
From Stdlib Require Import Permutation Sorted.
From stdpp Require Import base gmap strings list.

Local Open Scope string_scope.

(* ===================================================================== *)
(** ** Python and pandas primitives used by the solver package *)
(* ===================================================================== *)

Module Py.

(** Exceptions the modelled code can raise. *)
Inductive exn := ZeroDivisionError.

(** Result of a call that may raise. *)
Inductive result (A : Type) :=
| Ok (a : A)
| Raise (e : exn).
Arguments Ok {A} a.
Arguments Raise {A} e.

Definition bind {A B} (m : result A) (k : A -> result B) : result B :=
  match m with
  | Ok a => k a
  | Raise e => Raise e
  end.

(** [dict(zip(keys, values))]: a later pair overrides an earlier one. *)
Definition dict_of {V} (kv : list (string * V)) : gmap string V :=
  foldl (fun m p => <[p.1 := p.2]> m) ∅ kv.

(** [d.get(k, default)]. *)
Definition get_default {V} (d : gmap string V) (k : string) (dflt : V) : V :=
  match d !! k with
  | Some v => v
  | None => dflt
  end.

(** Built-in [round(x)]: nearest integer, ties to the even one. *)
Definition round (q : Q) : Z :=
  let f := Qfloor q in
  match Qcompare (q - inject_Z f) (1 # 2) with
  | Lt => f
  | Gt => (f + 1)%Z
  | Eq => if Z.even f then f else (f + 1)%Z
  end.

(** [round(x, ndigits)]. *)
Definition round_to (ndigits : nat) (q : Q) : Q :=
  let scale := inject_Z (10 ^ Z.of_nat ndigits) in
  (inject_Z (round (q * scale)) / scale)%Q.

(** [a / b] on two ints (true division). *)
Definition truediv (a b : Z) : result Q :=
  if Z.eqb b 0 then Raise ZeroDivisionError
  else Ok (inject_Z a / inject_Z b)%Q.

(** Digits of a natural number grouped in threes from the right. *)
Fixpoint group3 (rev_digits : list ascii) (k : nat) : list ascii :=
  match rev_digits with
  | [] => []
  | d :: rest =>
      match k, rest with
      | 2%nat, _ :: _ => d :: ","%char :: group3 rest 0
      | _, _ => d :: group3 rest (S k)
      end
  end.

(** [format(n, ",")], as used by the f-string [{n:,}]. *)
Definition format_thousands (n : Z) : string :=
  let digits := list_ascii_of_string (NilZero.string_of_uint (N.to_uint (Z.abs_N n))) in
  let body := string_of_list_ascii (rev (group3 (rev digits) 0)) in
  if (n <? 0)%Z then "-" ++ body else body.

(** [s.replace(old, "")] for a non-empty [old]: the occurrences of [old]
    are removed left to right, without overlap.  [skip] counts the
    characters of the current occurrence still to be dropped. *)
Fixpoint remove_all (old : string) (skip : nat) (s : string) : string :=
  match s with
  | EmptyString => EmptyString
  | String c s' =>
      match skip with
      | S k => remove_all old k s'
      | O =>
          if String.prefix old s
          then remove_all old (String.length old - 1) s'
          else String c (remove_all old 0 s')
      end
  end.

Definition replace_with_empty (old s : string) : string :=
  remove_all old 0 s.

(** [s.startswith(p)]. *)
Definition startswith (s p : string) : bool := String.prefix p s.

(** pandas [unique()] / [drop_duplicates(keep="first")]: the first row of
    every key, in order of appearance. *)
Fixpoint drop_duplicates {A} (key : A -> string) (seen : gset string)
         (l : list A) : list A :=
  match l with
  | [] => []
  | a :: rest =>
      if bool_decide (key a ∈ seen) then drop_duplicates key seen rest
      else a :: drop_duplicates key ({[key a]} ∪ seen) rest
  end.

Definition unique (l : list string) : list string :=
  drop_duplicates (fun s => s) ∅ l.

(** Stable insertion sort by a boolean order: Python's [sorted] and
    [list.sort] are stable. *)
Fixpoint insert_by {A} (leb : A -> A -> bool) (a : A) (l : list A) : list A :=
  match l with
  | [] => [a]
  | b :: rest => if leb a b then a :: l else b :: insert_by leb a rest
  end.

Fixpoint sorted_by {A} (leb : A -> A -> bool) (l : list A) : list A :=
  match l with
  | [] => []
  | a :: rest => insert_by leb a (sorted_by leb rest)
  end.

(** [a < b] on floats. *)
Definition Qltb (a b : Q) : bool := negb (Qle_bool b a).

(** [enumerate(l)]. *)
Definition enumerate {A} (l : list A) : list (nat * A) :=
  combine (seq 0 (length l)) l.

(** Sum and extrema of a float column. *)
Definition Qsum (l : list Q) : Q := foldr Qplus 0%Q l.
Definition Zsum (l : list Z) : Z := foldr Z.add 0%Z l.

Definition Qmax_list (l : list Q) : Q :=
  match l with
  | [] => 0%Q
  | a :: rest => foldl (fun m x => if Qle_bool m x then x else m) a rest
  end.

Definition Qmin_list (l : list Q) : Q :=
  match l with
  | [] => 0%Q
  | a :: rest => foldl (fun m x => if Qle_bool x m then x else m) a rest
  end.

(** Iterating over a string: its characters, as one-character strings. *)
Definition chars (s : string) : list string :=
  map (fun c => String c EmptyString) (list_ascii_of_string s).

End Py.

(* ===================================================================== *)
(** ** solver/data_loader.py *)
(* ===================================================================== *)

Module DataLoader.

Record RegionRow := {
  rg_region_id : string;
  rg_region_name : string }.

Record CountryRow := {
  co_country_code : string;
  co_country_name : string;
  co_region_id : string }.

Record FactoryRow := {
  fa_factory_id : string;
  fa_factory_name : string;
  fa_city : string;
  fa_country_code : string;
  fa_region_id : string;
  fa_cost_multiplier : Q }.

Record HubRow := {
  hu_hub_id : string;
  hu_hub_name : string;
  hu_city : string;
  hu_country_code : string;
  hu_region_id : string;
  hu_monthly_throughput_capacity : Z }.

Record CapacityRow := {
  cp_factory_id : string;
  cp_category_id : string;
  cp_unit_manufacturing_cost_usd : Q;
  cp_monthly_capacity_units : Z }.

(** One row of all_flows.csv. *)
Record FlowRow := {
  factory_id : string;
  hub_id : string;
  country_code : string;
  category_id : string;
  manufacturing_cost : Q;
  transport_cost : Q;
  hub_handling_cost : Q;
  last_mile_cost : Q;
  tariff_pct : Q;
  tariff_amount : Q;
  total_landed_cost : Q;
  transit_days : Z;
  max_lead_time_days : Z;
  is_lead_time_feasible : Z;
  is_geopolitically_restricted : Z }.

Record RestrictionRow := {
  gr_destination_country_code : string;
  gr_restricted_country_code : string;
  gr_restriction_type : string;
  gr_reason : string }.

(** The tables of [SupplyChainData] the solver package reads (the product
    and category tables are only used by the pages). *)
Record SupplyChainData := {
  regions : list RegionRow;
  countries : list CountryRow;
  factories : list FactoryRow;
  hubs : list HubRow;
  factory_capacity : list CapacityRow;
  all_flows : list FlowRow;
  geopolitical : list RestrictionRow }.

(** The lookup dictionaries built by [_load]. *)
Definition _country_region (d : SupplyChainData) : gmap string string :=
  Py.dict_of (map (fun r => (co_country_code r, co_region_id r)) (countries d)).
Definition _factory_region (d : SupplyChainData) : gmap string string :=
  Py.dict_of (map (fun r => (fa_factory_id r, fa_region_id r)) (factories d)).
Definition _factory_country (d : SupplyChainData) : gmap string string :=
  Py.dict_of (map (fun r => (fa_factory_id r, fa_country_code r)) (factories d)).
Definition _hub_region (d : SupplyChainData) : gmap string string :=
  Py.dict_of (map (fun r => (hu_hub_id r, hu_region_id r)) (hubs d)).
Definition _hub_country (d : SupplyChainData) : gmap string string :=
  Py.dict_of (map (fun r => (hu_hub_id r, hu_country_code r)) (hubs d)).
Definition _factory_names (d : SupplyChainData) : gmap string string :=
  Py.dict_of (map (fun r => (fa_factory_id r, fa_factory_name r)) (factories d)).
Definition _factory_cities (d : SupplyChainData) : gmap string string :=
  Py.dict_of (map (fun r => (fa_factory_id r, fa_city r)) (factories d)).
Definition _hub_names (d : SupplyChainData) : gmap string string :=
  Py.dict_of (map (fun r => (hu_hub_id r, hu_hub_name r)) (hubs d)).
Definition _hub_cities (d : SupplyChainData) : gmap string string :=
  Py.dict_of (map (fun r => (hu_hub_id r, hu_city r)) (hubs d)).

Definition is_feasible_for (category country : string) (r : FlowRow) : bool :=
  String.eqb (category_id r) category
  && String.eqb (country_code r) country
  && Z.eqb (is_geopolitically_restricted r) 0
  && Z.eqb (is_lead_time_feasible r) 1.

(** The rows passing both filters, re-indexed from 0. *)
Definition get_feasible_flows (d : SupplyChainData) (category country : string)
  : list FlowRow :=
  List.filter (is_feasible_for category country) (all_flows d).

Definition get_factory_capacity (d : SupplyChainData) (category : string)
  : gmap string Z :=
  let subset := List.filter (fun r => String.eqb (cp_category_id r) category)
                            (factory_capacity d) in
  Py.dict_of (map (fun r => (cp_factory_id r, cp_monthly_capacity_units r)) subset).

Definition get_hub_throughput (d : SupplyChainData) : gmap string Z :=
  Py.dict_of (map (fun r => (hu_hub_id r, hu_monthly_throughput_capacity r)) (hubs d)).

(** [dict.get(k)]: [None] for an unknown id. *)
Definition get_region_for_country (d : SupplyChainData) (c : string) : option string :=
  _country_region d !! c.
Definition get_region_for_factory (d : SupplyChainData) (f : string) : option string :=
  _factory_region d !! f.
Definition get_region_for_hub (d : SupplyChainData) (h : string) : option string :=
  _hub_region d !! h.

Definition factory_name (d : SupplyChainData) (f : string) : string :=
  Py.get_default (_factory_names d) f f.
Definition factory_city (d : SupplyChainData) (f : string) : string :=
  Py.get_default (_factory_cities d) f "".
Definition factory_country (d : SupplyChainData) (f : string) : string :=
  Py.get_default (_factory_country d) f "".
Definition hub_name (d : SupplyChainData) (h : string) : string :=
  Py.get_default (_hub_names d) h h.
Definition hub_city (d : SupplyChainData) (h : string) : string :=
  Py.get_default (_hub_cities d) h "".
Definition hub_country (d : SupplyChainData) (h : string) : string :=
  Py.get_default (_hub_country d) h "".

(** [get_countries_in_region]: the codes of the countries of a region, in
    table order. *)
Definition get_countries_in_region (d : SupplyChainData) (region : string)
  : list string :=
  map co_country_code
      (List.filter (fun r => String.eqb (co_region_id r) region) (countries d)).

(** The hard-coded primary country of the six regions. *)
Definition default_map : gmap string string :=
  Py.dict_of [("NAM", "US"); ("SAM", "BR"); ("EUR", "DE");
              ("MEA", "AE"); ("NEA", "CN"); ("SEA", "IN")].

(** [get_default_country]: [default_map.get(region_id, d)], where the
    default [d] is the first country of the region, or [None]. *)
Definition get_default_country (d : SupplyChainData) (region : string)
  : option string :=
  let region_countries := get_countries_in_region d region in
  match default_map !! region with
  | Some c => Some c
  | None => head region_countries
  end.

(** [get_region_list]. *)
Definition get_region_list (d : SupplyChainData) : list (string * string) :=
  map (fun r => (rg_region_id r, rg_region_name r)) (regions d).

End DataLoader.

(* ===================================================================== *)
(** ** The interface of the external MILP library (PuLP with CBC) *)
(* ===================================================================== *)

Module Pulp.

(** The decision variables [x[i]] and [y[i]], [i] a flow index. *)
Inductive var := X (i : nat) | Y (i : nat).

Inductive category := Continuous | Binary.

Record LpVariable := {
  v_var : var;
  v_lowBound : option Q;
  v_cat : category }.

(** An affine expression: [Σ coef·var + constant]. *)
Record LpAffineExpression := {
  terms : list (Q * var);
  constant : Q }.

Inductive sense := LpConstraintLE | LpConstraintEQ | LpConstraintGE.

(** The names given to the constraints by [solve]: one per distinct
    factory, per distinct hub and per flow index.  The names are kept as
    the ids they are built from.  PuLP replaces some characters of a
    name by an underscore and raises PulpError when two names of a
    problem coincide; neither is modelled, so an error of the library
    itself is outside every statement below. *)
Inductive cname :=
| MeetDemand
| FactoryCap (f_id : string)
| HubCap (h_id : string)
| Activate (i : nat)
| MinBatch (i : nat).

Record LpConstraint := {
  c_name : cname;
  c_lhs : LpAffineExpression;
  c_sense : sense;
  c_rhs : LpAffineExpression }.

(** An [LpProblem] with sense [LpMinimize]. *)
Record LpProblem := {
  variables : list LpVariable;
  objective : LpAffineExpression;
  constraints : list LpConstraint }.

(** [pulp.LpStatus]: the status codes and their strings. *)
Inductive status_code :=
| LpStatusNotSolved
| LpStatusOptimal
| LpStatusInfeasible
| LpStatusUnbounded
| LpStatusUndefined.

Definition LpStatus (c : status_code) : string :=
  match c with
  | LpStatusNotSolved => "Not Solved"
  | LpStatusOptimal => "Optimal"
  | LpStatusInfeasible => "Infeasible"
  | LpStatusUnbounded => "Unbounded"
  | LpStatusUndefined => "Undefined"
  end.

(** The solver command: [msg] and the optional [timeLimit] in seconds
    ([None] is the constructor's default: no limit). *)
Record PULP_CBC_CMD := {
  msg : Z;
  timeLimit : option Q }.

(** What [prob.solve] leaves behind: [prob.status] and every variable's
    [varValue] ([None] when the engine assigned nothing). *)
Record solution := {
  sol_status : status_code;
  varValue : var -> option Q }.

(** The engine is external: any function from a command and a problem to
    a solution. *)
Definition engine := PULP_CBC_CMD -> LpProblem -> solution.

(** *** Meaning of a problem *)

Definition assignment := var -> Q.

Definition eval (a : assignment) (e : LpAffineExpression) : Q :=
  (foldr (fun t acc => fst t * a (snd t) + acc) 0 (terms e) + constant e)%Q.

Definition holds (a : assignment) (c : LpConstraint) : Prop :=
  match c_sense c with
  | LpConstraintLE => (eval a (c_lhs c) <= eval a (c_rhs c))%Q
  | LpConstraintEQ => (eval a (c_lhs c) == eval a (c_rhs c))%Q
  | LpConstraintGE => (eval a (c_rhs c) <= eval a (c_lhs c))%Q
  end.

Definition in_domain (a : assignment) (v : LpVariable) : Prop :=
  match v_lowBound v with
  | Some lb => (lb <= a (v_var v))%Q
  | None => True
  end /\
  match v_cat v with
  | Binary => (a (v_var v) == 0)%Q \/ (a (v_var v) == 1)%Q
  | Continuous => True
  end.

Definition feasible (p : LpProblem) (a : assignment) : Prop :=
  Forall (in_domain a) (variables p) /\ Forall (holds a) (constraints p).

(** [a] is an optimal solution of the minimisation problem [p]. *)
Definition optimal (p : LpProblem) (a : assignment) : Prop :=
  feasible p a /\
  forall a', feasible p a' -> (eval a (objective p) <= eval a' (objective p))%Q.

(** The solution reports the assignment [a] on the variables of [p]. *)
Definition reports (s : solution) (p : LpProblem) (a : assignment) : Prop :=
  forall v, In v (variables p) -> varValue s (v_var v) = Some (a (v_var v)).

End Pulp.

(* ===================================================================== *)
(** ** solver/optimizer.py *)
(* ===================================================================== *)

Module Optimizer.
Import DataLoader Pulp.

(** A row of the feasible-flow frame after [solve] has added the
    [effective_cost] column. *)
Record ScoredFlow := {
  sf_row : FlowRow;
  effective_cost : Q }.

(** One dict of [chosen_flows]. *)
Record ChosenFlow := {
  cf_factory_id : string;
  cf_hub_id : string;
  units_allocated : Z;
  cost_per_unit : Q;
  effective_cost_per_unit : Q;
  cf_total_cost : Q;
  cf_manufacturing_cost : Q;
  cf_transport_cost : Q;
  cf_hub_handling_cost : Q;
  cf_last_mile_cost : Q;
  cf_tariff_pct : Q;
  cf_tariff_amount : Q;
  cf_transit_days : Z }.

Record SolverResult := {
  status : string;
  chosen_flows : list ChosenFlow;
  total_cost : Q;
  total_units : Z;
  feasible_flows : list ScoredFlow }.

(** [SolverResult(status=s)] and [SolverResult(status=s, feasible_flows=f)]:
    the other fields take the dataclass defaults. *)
Definition SolverResult_default (s : string) (f : list ScoredFlow) : SolverResult :=
  {| status := s; chosen_flows := []; total_cost := 0; total_units := 0;
     feasible_flows := f |}.

(** Step 2 of [solve]: the [effective_cost] column. *)
Definition regional_penalty (data : SupplyChainData) (dest_region : option string)
           (r : FlowRow) : Q :=
  if bool_decide (get_region_for_factory data (factory_id r) = dest_region) then 0
  else if bool_decide (get_region_for_hub data (hub_id r) = dest_region) then 1 # 2
  else 1.

Definition effective_cost_column (data : SupplyChainData) (country : string)
           (flows : list FlowRow) (cost_weight time_weight regional_weight : Z)
  : Py.result (list Q) :=
  let dest_region := get_region_for_country data country in
  let cost_vals := map total_landed_cost flows in
  let cost_range := (Py.Qmax_list cost_vals - Py.Qmin_list cost_vals)%Q in
  let cost_norm := fun v : Q =>
    if Py.Qltb 0 cost_range then ((v - Py.Qmin_list cost_vals) / cost_range)%Q else 0%Q in
  let time_vals := map (fun r => inject_Z (transit_days r)) flows in
  let time_range := (Py.Qmax_list time_vals - Py.Qmin_list time_vals)%Q in
  let time_norm := fun v : Q =>
    if Py.Qltb 0 time_range then ((v - Py.Qmin_list time_vals) / time_range)%Q else 0%Q in
  let w_total := (cost_weight + time_weight + regional_weight)%Z in
  Py.bind (Py.truediv cost_weight w_total) (fun cw =>
  Py.bind (Py.truediv time_weight w_total) (fun tw =>
  Py.bind (Py.truediv regional_weight w_total) (fun rw =>
  Py.Ok (map (fun r =>
                (cw * cost_norm (total_landed_cost r)
                 + tw * time_norm (inject_Z (transit_days r))
                 + rw * regional_penalty data dest_region r)%Q) flows)))).

Definition with_effective_cost (flows : list FlowRow) (col : list Q) : list ScoredFlow :=
  map (fun p => {| sf_row := fst p; effective_cost := snd p |}) (combine flows col).

(** Step 3: the capacity of the factories present in the flows. *)
Definition available_factories (flows : list ScoredFlow) : list string :=
  Py.unique (map (fun f => factory_id (sf_row f)) flows).

Definition available_hubs (flows : list ScoredFlow) : list string :=
  Py.unique (map (fun f => hub_id (sf_row f)) flows).

Definition total_capacity (factory_cap : gmap string Z) (flows : list ScoredFlow) : Z :=
  Py.Zsum (map (fun f => Py.get_default factory_cap f 0%Z) (available_factories flows)).

Definition insufficient_capacity_status (capacity volume : Z) : string :=
  "Infeasible: total factory capacity (" ++ Py.format_thousands capacity
    ++ ") < volume (" ++ Py.format_thousands volume ++ ")".

(** Step 4: the MILP. *)
Definition flow_ids (flows : list ScoredFlow) : list nat := seq 0 (length flows).

Definition indices_where (p : ScoredFlow -> bool) (flows : list ScoredFlow) : list nat :=
  map fst (List.filter (fun q => p (snd q)) (Py.enumerate flows)).

Definition lpSum_x (ids : list nat) : LpAffineExpression :=
  {| terms := map (fun i => (1%Q, X i)) ids; constant := 0 |}.

Definition const_expr (q : Q) : LpAffineExpression :=
  {| terms := []; constant := q |}.

Definition build_problem (flows : list ScoredFlow)
           (factory_cap hub_throughput : gmap string Z)
           (volume min_batch : Z) : LpProblem :=
  let ids := flow_ids flows in
  let x := map (fun i => {| v_var := X i; v_lowBound := Some 0%Q; v_cat := Continuous |}) ids in
  let y := map (fun i => {| v_var := Y i; v_lowBound := Some 0%Q; v_cat := Binary |}) ids in
  let obj := {| terms := map (fun q => (effective_cost (snd q), X (fst q)))
                             (Py.enumerate flows);
                constant := 0 |} in
  let meet_demand :=
    {| c_name := MeetDemand; c_lhs := lpSum_x ids; c_sense := LpConstraintEQ;
       c_rhs := const_expr (inject_Z volume) |} in
  let factory_caps :=
    map (fun f_id =>
           {| c_name := FactoryCap f_id;
              c_lhs := lpSum_x (indices_where
                                  (fun r => String.eqb (factory_id (sf_row r)) f_id) flows);
              c_sense := LpConstraintLE;
              c_rhs := const_expr (inject_Z (Py.get_default factory_cap f_id 0%Z)) |})
        (available_factories flows) in
  let hub_caps :=
    map (fun h_id =>
           {| c_name := HubCap h_id;
              c_lhs := lpSum_x (indices_where
                                  (fun r => String.eqb (hub_id (sf_row r)) h_id) flows);
              c_sense := LpConstraintLE;
              c_rhs := const_expr (inject_Z (Py.get_default hub_throughput h_id 0%Z)) |})
        (available_hubs flows) in
  let activate :=
    map (fun i =>
           {| c_name := Activate i; c_lhs := lpSum_x [i]; c_sense := LpConstraintLE;
              c_rhs := {| terms := [(inject_Z volume, Y i)]; constant := 0 |} |}) ids in
  let minbatch :=
    map (fun i =>
           {| c_name := MinBatch i; c_lhs := lpSum_x [i]; c_sense := LpConstraintGE;
              c_rhs := {| terms := [(inject_Z min_batch, Y i)]; constant := 0 |} |}) ids in
  {| variables := (x ++ y)%list;
     objective := obj;
     constraints := (meet_demand :: factory_caps ++ hub_caps ++ activate ++ minbatch)%list |}.

(** Step 5: the command [solve] hands to the engine, [PULP_CBC_CMD(msg=0)]. *)
Definition solver_command : PULP_CBC_CMD := {| msg := 0; timeLimit := None |}.

(** Step 6: one pass of the extraction loop. *)
Definition extract_step (values : var -> option Q)
           (acc : list ChosenFlow * Q * Z) (q : nat * ScoredFlow)
  : list ChosenFlow * Q * Z :=
  let '(chosen, total_cost, total_units) := acc in
  match values (X (fst q)) with
  | Some alloc =>
      if Py.Qltb (1 # 2) alloc then
        let row := sf_row (snd q) in
        let units := Py.round alloc in
        let cost := (inject_Z units * total_landed_cost row)%Q in
        ((chosen ++ [ {| cf_factory_id := factory_id row;
                        cf_hub_id := hub_id row;
                        units_allocated := units;
                        cost_per_unit := total_landed_cost row;
                        effective_cost_per_unit := effective_cost (snd q);
                        cf_total_cost := Py.round_to 2 cost;
                        cf_manufacturing_cost := manufacturing_cost row;
                        cf_transport_cost := transport_cost row;
                        cf_hub_handling_cost := hub_handling_cost row;
                        cf_last_mile_cost := last_mile_cost row;
                        cf_tariff_pct := tariff_pct row;
                        cf_tariff_amount := tariff_amount row;
                        cf_transit_days := transit_days row |} ])%list,
         (total_cost + cost)%Q,
         (total_units + units)%Z)
      else acc
  | None => acc
  end.

Definition extract (values : var -> option Q) (flows : list ScoredFlow)
  : list ChosenFlow * Q * Z :=
  foldl (extract_step values) ([], 0%Q, 0%Z) (Py.enumerate flows).

(** [chosen.sort(key=units_allocated, reverse=True)]: stable. *)
Definition sort_chosen (chosen : list ChosenFlow) : list ChosenFlow :=
  Py.sorted_by (fun a b => (units_allocated b <=? units_allocated a)%Z) chosen.

(** The calls made to the external engine, in order. *)
Definition engine_log := list (PULP_CBC_CMD * LpProblem).

Definition solve (cbc : engine) (data : SupplyChainData)
           (category country : string) (volume : Z)
           (cost_weight time_weight regional_weight min_batch : Z)
  : Py.result (SolverResult * engine_log) :=
  let rows := get_feasible_flows data category country in
  match rows with
  | [] => Py.Ok (SolverResult_default "No feasible flows found" [], [])
  | _ :: _ =>
      let factory_cap := get_factory_capacity data category in
      let hub_throughput := get_hub_throughput data in
      Py.bind (effective_cost_column data country rows
                                     cost_weight time_weight regional_weight)
        (fun col =>
           let flows := with_effective_cost rows col in
           let capacity := total_capacity factory_cap flows in
           if (capacity <? volume)%Z then
             Py.Ok (SolverResult_default
                      (insufficient_capacity_status capacity volume) flows, [])
           else
             let prob := build_problem flows factory_cap hub_throughput
                                       volume min_batch in
             let sol := cbc solver_command prob in
             let log := [(solver_command, prob)] in
             let st := LpStatus (sol_status sol) in
             if negb (String.eqb st "Optimal") then
               Py.Ok (SolverResult_default st flows, log)
             else
               let '(chosen, cost, units) := extract (varValue sol) flows in
               Py.Ok ({| status := "Optimal";
                         chosen_flows := sort_chosen chosen;
                         total_cost := Py.round_to 2 cost;
                         total_units := units;
                         feasible_flows := flows |}, log))
  end.

End Optimizer.

(* ===================================================================== *)
(** ** solver/ranker.py *)
(* ===================================================================== *)

Module Ranker.
Import DataLoader Optimizer.

(** pandas [DataFrame.sort_values(column)] on a float column, ascending.
    pandas sorts with an unstable algorithm by default, so the order of
    rows with equal keys is unspecified: the ranker is modelled over any
    function that returns the rows rearranged in non-decreasing key
    order. *)
Class DataFrameSort := {
  sort_values : forall {A : Type}, (A -> Q) -> list A -> list A;
  sort_values_perm : forall (A : Type) (key : A -> Q) (l : list A),
      Permutation (sort_values key l) l;
  sort_values_sorted : forall (A : Type) (key : A -> Q) (l : list A),
      StronglySorted (fun a b => (key a <= key b)%Q) (sort_values key l) }.

(** One concrete sort: the stable one ([kind="stable"]). *)
Definition stable_sort_values {A : Type} (key : A -> Q) (l : list A) : list A :=
  Py.sorted_by (fun a b => Qle_bool (key a) (key b)) l.

(** Step "regional penalty" of [_compute_composite_scores]. *)
Definition regional_penalty (data : SupplyChainData) (dest_region : option string)
           (r : FlowRow) : Q :=
  if bool_decide (get_region_for_factory data (factory_id r) = dest_region) then 0
  else if bool_decide (get_region_for_hub data (hub_id r) = dest_region) then 1 # 2
  else 1.

Definition _compute_composite_scores (flows : list ScoredFlow) (data : SupplyChainData)
           (country : string) (cost_weight time_weight regional_weight : Z)
  : Py.result (list Q) :=
  let dest_region := get_region_for_country data country in
  let cost := map (fun f => total_landed_cost (sf_row f)) flows in
  let days := map (fun f => inject_Z (transit_days (sf_row f))) flows in
  let cost_range := (Py.Qmax_list cost - Py.Qmin_list cost)%Q in
  let days_range := (Py.Qmax_list days - Py.Qmin_list days)%Q in
  let cost_norm := fun v : Q =>
    if Py.Qltb 0 cost_range then ((v - Py.Qmin_list cost) / cost_range)%Q else 0%Q in
  let days_norm := fun v : Q =>
    if Py.Qltb 0 days_range then ((v - Py.Qmin_list days) / days_range)%Q else 0%Q in
  let w_total := (cost_weight + time_weight + regional_weight)%Z in
  Py.bind (Py.truediv cost_weight w_total) (fun cw =>
  Py.bind (Py.truediv time_weight w_total) (fun tw =>
  Py.bind (Py.truediv regional_weight w_total) (fun rw =>
  Py.Ok (map (fun f =>
                (cw * cost_norm (total_landed_cost (sf_row f))
                 + tw * days_norm (inject_Z (transit_days (sf_row f)))
                 + rw * regional_penalty data dest_region (sf_row f))%Q) flows)))).

(** The reason of the first MADE_IN restriction between the factory's
    country and the destination, if any. *)
Definition _get_restriction_reason (data : SupplyChainData) (f_id country : string)
  : option string :=
  let factory_cc := factory_country data f_id in
  let matches :=
    List.filter (fun r => String.eqb (gr_destination_country_code r) country
                          && String.eqb (gr_restricted_country_code r) factory_cc
                          && String.eqb (gr_restriction_type r) "MADE_IN")
                (geopolitical data) in
  match matches with
  | r :: _ => Some (gr_reason r)
  | [] => None
  end.

(** A feasible flow with its [composite_score] column. *)
Record RankedFlow := {
  rf_flow : ScoredFlow;
  composite_score : Q }.

Definition rf_factory_id (r : RankedFlow) : string := factory_id (sf_row (rf_flow r)).
Definition rf_hub_id (r : RankedFlow) : string := hub_id (sf_row (rf_flow r)).

Record Tier1Entry := {
  t1_flow : ChosenFlow;
  t1_factory_name : string;
  t1_factory_city : string;
  t1_factory_country : string;
  t1_hub_name : string;
  t1_hub_city : string;
  t1_hub_country : string }.

Record Tier2Entry := {
  rank : Z;
  t2_factory_id : string;
  t2_factory_name : string;
  t2_factory_city : string;
  t2_factory_country : string;
  t2_hub_id : string;
  t2_hub_name : string;
  t2_hub_city : string;
  t2_cost_per_unit : Q;
  t2_effective_cost_per_unit : Q;
  t2_transit_days : Z;
  t2_composite_score : Q }.

Record Tier3Entry := {
  t3_factory_id : string;
  t3_factory_name : string;
  t3_factory_city : string;
  t3_factory_country : string;
  best_hub_id : option string;
  best_hub_name : string;
  t3_cost_per_unit : option Q;
  t3_transit_days : option Z;
  t3_composite_score : option Q;
  t3_status : string }.

Record Ranked := {
  r_chosen_flows : list Tier1Entry;
  other_available : list Tier2Entry;
  alternative_factories : list Tier3Entry }.

Definition tier1_entry (data : SupplyChainData) (cf : ChosenFlow) : Tier1Entry :=
  {| t1_flow := cf;
     t1_factory_name := factory_name data (cf_factory_id cf);
     t1_factory_city := factory_city data (cf_factory_id cf);
     t1_factory_country := factory_country data (cf_factory_id cf);
     t1_hub_name := hub_name data (cf_hub_id cf);
     t1_hub_city := hub_city data (cf_hub_id cf);
     t1_hub_country := hub_country data (cf_hub_id cf) |}.

(** One pass of the Tier-2 loop: the rank is [len(tier2) + 2]. *)
Definition tier2_step (data : SupplyChainData)
           (acc : gset string * list Tier2Entry) (row : RankedFlow)
  : gset string * list Tier2Entry :=
  let '(used, tier2) := acc in
  ({[rf_factory_id row]} ∪ used,
   (tier2 ++ [ {| rank := Z.of_nat (length tier2) + 2;
                  t2_factory_id := rf_factory_id row;
                  t2_factory_name := factory_name data (rf_factory_id row);
                  t2_factory_city := factory_city data (rf_factory_id row);
                  t2_factory_country := factory_country data (rf_factory_id row);
                  t2_hub_id := rf_hub_id row;
                  t2_hub_name := hub_name data (rf_hub_id row);
                  t2_hub_city := hub_city data (rf_hub_id row);
                  t2_cost_per_unit := total_landed_cost (sf_row (rf_flow row));
                  t2_effective_cost_per_unit := effective_cost (rf_flow row);
                  t2_transit_days := transit_days (sf_row (rf_flow row));
                  t2_composite_score := Py.round_to 4 (composite_score row) |} ])%list).

Definition tier3_available (data : SupplyChainData) (row : RankedFlow) : Tier3Entry :=
  {| t3_factory_id := rf_factory_id row;
     t3_factory_name := factory_name data (rf_factory_id row);
     t3_factory_city := factory_city data (rf_factory_id row);
     t3_factory_country := factory_country data (rf_factory_id row);
     best_hub_id := Some (rf_hub_id row);
     best_hub_name := hub_name data (rf_hub_id row);
     t3_cost_per_unit := Some (total_landed_cost (sf_row (rf_flow row)));
     t3_transit_days := Some (transit_days (sf_row (rf_flow row)));
     t3_composite_score := Some (Py.round_to 4 (composite_score row));
     t3_status := "Available" |}.

(** The entry of a factory without any feasible route. *)
Definition tier3_blocked `{DataFrameSort} (data : SupplyChainData)
           (country : string) (all_cat_country : list FlowRow) (fid : string)
  : Tier3Entry :=
  let factory_flows := List.filter (fun r => String.eqb (factory_id r) fid) all_cat_country in
  let st :=
    match _get_restriction_reason data fid country with
    | Some reason => if String.eqb reason "" then "Exceeds lead time"
                     else "Restricted: " ++ reason
    | None => "Exceeds lead time"
    end in
  match sort_values total_landed_cost factory_flows with
  | best :: _ =>
      {| t3_factory_id := fid;
         t3_factory_name := factory_name data fid;
         t3_factory_city := factory_city data fid;
         t3_factory_country := factory_country data fid;
         best_hub_id := Some (hub_id best);
         best_hub_name := hub_name data (hub_id best);
         t3_cost_per_unit := Some (total_landed_cost best);
         t3_transit_days := Some (transit_days best);
         t3_composite_score := None;
         t3_status := st |}
  | [] =>
      {| t3_factory_id := fid;
         t3_factory_name := factory_name data fid;
         t3_factory_city := factory_city data fid;
         t3_factory_country := factory_country data fid;
         best_hub_id := None;
         best_hub_name := "N/A";
         t3_cost_per_unit := None;
         t3_transit_days := None;
         t3_composite_score := None;
         t3_status := st |}
  end.

Definition rank_flows `{DataFrameSort} (result : SolverResult) (data : SupplyChainData)
           (country : string) (cost_weight time_weight regional_weight : Z)
           (category : option string)
  : Py.result Ranked :=
  match feasible_flows result with
  | [] => Py.Ok {| r_chosen_flows := []; other_available := [];
                   alternative_factories := [] |}
  | _ :: _ =>
      Py.bind (_compute_composite_scores (feasible_flows result) data country
                                         cost_weight time_weight regional_weight)
        (fun scores =>
           let flows :=
             map (fun p => {| rf_flow := fst p; composite_score := snd p |})
                 (combine (feasible_flows result) scores) in
           (* Tier 1 *)
           let chosen_keys : gset (string * string) :=
             list_to_set (map (fun cf => (cf_factory_id cf, cf_hub_id cf))
                              (chosen_flows result)) in
           let tier1 := map (tier1_entry data) (chosen_flows result) in
           (* Tier 2 *)
           let remaining :=
             sort_values composite_score
               (List.filter
                  (fun r => negb (bool_decide ((rf_factory_id r, rf_hub_id r) ∈ chosen_keys)))
                  flows) in
           let '(tier2_factories_used, tier2) :=
             foldl (tier2_step data) (∅, []) (firstn 3 remaining) in
           (* Tier 3 *)
           let used_factories : gset string :=
             list_to_set (map cf_factory_id (chosen_flows result)) ∪ tier2_factories_used in
           let tier3_candidates :=
             List.filter (fun r => negb (bool_decide (rf_factory_id r ∈ used_factories)))
                         remaining in
           let best_per_factory :=
             match tier3_candidates with
             | [] => []
             | _ :: _ => Py.drop_duplicates rf_factory_id ∅
                           (sort_values composite_score tier3_candidates)
             end in
           let tier3_factory_ids : gset string :=
             list_to_set (map rf_factory_id best_per_factory) in
           let tier3 := map (tier3_available data) best_per_factory in
           (* Blocked factories *)
           let blocked :=
             match category with
             | None => []
             | Some cat =>
                 let all_factory_ids : gset string :=
                   list_to_set (map fa_factory_id (factories data)) in
                 let missing := all_factory_ids ∖ used_factories ∖ tier3_factory_ids in
                 let all_cat_country :=
                   List.filter (fun r => String.eqb (category_id r) cat
                                         && String.eqb (country_code r) country)
                               (all_flows data) in
                 map (tier3_blocked data country all_cat_country)
                     (Py.sorted_by String.leb (elements missing))
             end in
           Py.Ok {| r_chosen_flows := tier1;
                    other_available := tier2;
                    alternative_factories := (tier3 ++ blocked)%list |})
  end.

End Ranker.

(* ===================================================================== *)
(** ** solver/knowledge_graph.py *)
(* ===================================================================== *)

Module KnowledgeGraph.
Import DataLoader.

(** Attribute values stored on nodes and edges. *)
Inductive attr :=
| AStr (s : string)
| AInt (z : Z)
| AFloat (q : Q).

(** A [networkx.DiGraph]: the node attribute dicts and the two adjacency
    dicts ([_succ[u][v]] and [_pred[v][u]] hold the attributes of the edge
    from [u] to [v]).  There is at most one edge per ordered pair. *)
Record DiGraph := {
  _node : gmap string (gmap string attr);
  _succ : gmap string (gmap string (gmap string attr));
  _pred : gmap string (gmap string (gmap string attr)) }.

Definition empty_graph : DiGraph := {| _node := ∅; _succ := ∅; _pred := ∅ |}.

(** [g.add_node(n, **a)]: creates the node, or updates its attributes. *)
Definition add_node (g : DiGraph) (n : string) (a : gmap string attr) : DiGraph :=
  match _succ g !! n with
  | None => {| _node := <[n := a]> (_node g);
               _succ := <[n := ∅]> (_succ g);
               _pred := <[n := ∅]> (_pred g) |}
  | Some _ => {| _node := <[n := a ∪ default ∅ (_node g !! n)]> (_node g);
                 _succ := _succ g;
                 _pred := _pred g |}
  end.

(** [g.add_edge(u, v, **a)]: creates missing end points, then creates the
    edge or updates the attributes of the existing one. *)
Definition add_edge (g : DiGraph) (u v : string) (a : gmap string attr) : DiGraph :=
  let g1 := match _succ g !! u with None => add_node g u ∅ | Some _ => g end in
  let g2 := match _succ g1 !! v with None => add_node g1 v ∅ | Some _ => g1 end in
  let datadict := a ∪ default ∅ (default ∅ (_succ g2 !! u) !! v) in
  {| _node := _node g2;
     _succ := <[u := <[v := datadict]> (default ∅ (_succ g2 !! u))]> (_succ g2);
     _pred := <[v := <[u := datadict]> (default ∅ (_pred g2 !! v))]> (_pred g2) |}.

(** [attrs.get("edge_type") == t]. *)
Definition has_edge_type (attrs : gmap string attr) (t : string) : bool :=
  match attrs !! "edge_type" with
  | Some (AStr s) => String.eqb s t
  | _ => false
  end.

(** [groupby([k1, k2]).agg(min, min)]: one row per distinct key pair with
    the minima of a float and of an int column. *)
Definition Qmin (a b : Q) : Q := if Qle_bool a b then a else b.

Definition groupby_min (key : FlowRow -> string * string)
           (fq : FlowRow -> Q) (fz : FlowRow -> Z) (rows : list FlowRow)
  : list (string * string * (Q * Z)) :=
  map_to_list
    (foldl (fun (m : gmap (string * string) (Q * Z)) r =>
              match m !! key r with
              | None => <[key r := (fq r, fz r)]> m
              | Some old => <[key r := (Qmin (fst old) (fq r), Z.min (snd old) (fz r))]> m
              end) ∅ rows).

(** [SupplyChainGraph._build]. *)
Definition add_region_nodes (data : SupplyChainData) (g : DiGraph) : DiGraph :=
  foldl (fun g row =>
           add_node g ("region:" ++ rg_region_id row)
                    (list_to_map [("node_type", AStr "region");
                                  ("name", AStr (rg_region_name row));
                                  ("region_id", AStr (rg_region_id row))]))
        g (regions data).

Definition add_country_nodes (data : SupplyChainData) (g : DiGraph) : DiGraph :=
  foldl (fun g row =>
           let cc := co_country_code row in
           let g' := add_node g ("country:" ++ cc)
                       (list_to_map [("node_type", AStr "country");
                                     ("name", AStr (co_country_name row));
                                     ("country_code", AStr cc);
                                     ("region_id", AStr (co_region_id row))]) in
           add_edge g' ("country:" ++ cc) ("region:" ++ co_region_id row)
                    {["edge_type" := AStr "IN_REGION"]})
        g (countries data).

Definition add_factory_nodes (data : SupplyChainData) (g : DiGraph) : DiGraph :=
  foldl (fun g row =>
           let fid := fa_factory_id row in
           let g' := add_node g ("factory:" ++ fid)
                       (list_to_map [("node_type", AStr "factory");
                                     ("factory_id", AStr fid);
                                     ("name", AStr (fa_factory_name row));
                                     ("city", AStr (fa_city row));
                                     ("country_code", AStr (fa_country_code row));
                                     ("region_id", AStr (fa_region_id row));
                                     ("cost_multiplier", AFloat (fa_cost_multiplier row))]) in
           add_edge g' ("factory:" ++ fid) ("region:" ++ fa_region_id row)
                    {["edge_type" := AStr "IN_REGION"]})
        g (factories data).

Definition add_hub_nodes (data : SupplyChainData) (g : DiGraph) : DiGraph :=
  foldl (fun g row =>
           let hid := hu_hub_id row in
           let g' := add_node g ("hub:" ++ hid)
                       (list_to_map [("node_type", AStr "hub");
                                     ("hub_id", AStr hid);
                                     ("name", AStr (hu_hub_name row));
                                     ("city", AStr (hu_city row));
                                     ("country_code", AStr (hu_country_code row));
                                     ("region_id", AStr (hu_region_id row));
                                     ("monthly_throughput_capacity",
                                      AInt (hu_monthly_throughput_capacity row))]) in
           add_edge g' ("hub:" ++ hid) ("region:" ++ hu_region_id row)
                    {["edge_type" := AStr "IN_REGION"]})
        g (hubs data).

Definition add_ships_to (data : SupplyChainData) (g : DiGraph) : DiGraph :=
  foldl (fun g row =>
           let '(f, h, (cost, days)) := row in
           add_edge g ("factory:" ++ f) ("hub:" ++ h)
                    (list_to_map [("edge_type", AStr "SHIPS_TO");
                                  ("min_transport_cost", AFloat cost);
                                  ("min_transit_days", AInt days)]))
        g (groupby_min (fun r => (factory_id r, hub_id r))
                       transport_cost transit_days (all_flows data)).

Definition add_delivers_to (data : SupplyChainData) (g : DiGraph) : DiGraph :=
  foldl (fun g row =>
           let '(h, c, (cost, days)) := row in
           add_edge g ("hub:" ++ h) ("country:" ++ c)
                    (list_to_map [("edge_type", AStr "DELIVERS_TO");
                                  ("min_last_mile_cost", AFloat cost);
                                  ("min_transit_days", AInt days)]))
        g (groupby_min (fun r => (hub_id r, country_code r))
                       last_mile_cost transit_days (all_flows data)).

Definition add_restricts (data : SupplyChainData) (g : DiGraph) : DiGraph :=
  foldl (fun g row =>
           add_edge g ("country:" ++ gr_destination_country_code row)
                    ("country:" ++ gr_restricted_country_code row)
                    (list_to_map [("edge_type", AStr "RESTRICTS");
                                  ("restriction_type", AStr (gr_restriction_type row));
                                  ("reason", AStr (gr_reason row))]))
        g (geopolitical data).

Definition build (data : SupplyChainData) : DiGraph :=
  add_restricts data
    (add_delivers_to data
       (add_ships_to data
          (add_hub_nodes data
             (add_factory_nodes data
                (add_country_nodes data
                   (add_region_nodes data empty_graph)))))).

(** [g.edges(n, data=True)] and [g.in_edges(n, data=True)] for a node of
    the graph: the neighbours with the edge attributes. *)
Definition out_edges (g : DiGraph) (n : string) : list (string * gmap string attr) :=
  map_to_list (default ∅ (_succ g !! n)).

Definition in_edges (g : DiGraph) (n : string) : list (string * gmap string attr) :=
  map_to_list (default ∅ (_pred g !! n)).

(** The countries served by a hub node (a Python set). *)
Definition served (g : DiGraph) (hub_node : string) : gset string :=
  list_to_set
    (map fst (List.filter
                (fun e => has_edge_type (snd e) "DELIVERS_TO"
                          && Py.startswith (fst e) "country:")
                (out_edges g hub_node))).

Definition serving_hubs (g : DiGraph) (country_node : string) : list string :=
  map fst (List.filter (fun e => has_edge_type (snd e) "DELIVERS_TO")
                       (in_edges g country_node)).

(** [SupplyChainGraph.impact_analysis].  The result follows the iteration
    order of the set [served], which Python leaves unspecified. *)
Definition impact_analysis (g : DiGraph) (hub_id : string) : list string :=
  let hub_node := "hub:" ++ hub_id in
  match _node g !! hub_node with
  | None => []
  | Some _ =>
      map (Py.replace_with_empty "country:")
          (List.filter
             (fun country_node =>
                match serving_hubs g country_node with
                | [h] => String.eqb h hub_node
                | _ => false
                end)
             (elements (served g hub_node)))
  end.

(** *** The other queries *)

(** [G.nbunch_iter(n)] for a string [n]: the node itself when it is a node
    of the graph; otherwise networkx reads [n] as a container of nodes,
    here its characters, and keeps those that are in the adjacency dict. *)
Definition nbunch_iter (g : DiGraph) (n : string) : list string :=
  match _node g !! n with
  | Some _ => [n]
  | None => List.filter (fun c => bool_decide (is_Some (_succ g !! c))) (Py.chars n)
  end.

(** [G.edges(n, data=True)] and [G.in_edges(n, data=True)] for any string
    [n]: the triples (source, target, attributes) of the edges leaving,
    respectively entering, the nodes of [dict.fromkeys(nbunch_iter(n))].
    Every end point of an edge is a key of the adjacency dicts. *)
Definition edges_data (g : DiGraph) (n : string)
  : list (string * string * gmap string attr) :=
  flat_map (fun u => map (fun e => (u, fst e, snd e))
                         (map_to_list (default ∅ (_succ g !! u))))
           (Py.unique (nbunch_iter g n)).

Definition in_edges_data (g : DiGraph) (n : string)
  : list (string * string * gmap string attr) :=
  flat_map (fun v => map (fun e => (fst e, v, snd e))
                         (map_to_list (default ∅ (_pred g !! v))))
           (Py.unique (nbunch_iter g n)).

(** [get_nodes_by_type]: the nodes whose [node_type] attribute is the
    given string.  The order is that of the node dict. *)
Definition get_nodes_by_type (g : DiGraph) (node_type : string) : list string :=
  map fst (List.filter
             (fun nd => match snd nd !! "node_type" with
                        | Some (AStr s) => String.eqb s node_type
                        | _ => false
                        end)
             (map_to_list (_node g))).

(** One dict of [find_all_routes]. *)
Record Route := {
  rt_factory_id : string;
  rt_hub_id : string;
  rt_country_code : string;
  rt_transport_cost : option attr;
  rt_last_mile_cost : option attr }.

Definition find_all_routes (g : DiGraph) (f_id c_code : string) : list Route :=
  let factory_node := "factory:" ++ f_id in
  let country_node := "country:" ++ c_code in
  match _node g !! factory_node with
  | None => []
  | Some _ =>
      flat_map
        (fun e1 =>
           let '(_, hub_node, ship_attrs) := e1 in
           if negb (has_edge_type ship_attrs "SHIPS_TO") then []
           else
             flat_map
               (fun e2 =>
                  let '(_, dest_node, deliver_attrs) := e2 in
                  if negb (has_edge_type deliver_attrs "DELIVERS_TO") then []
                  else if String.eqb dest_node country_node then
                    [ {| rt_factory_id := f_id;
                         rt_hub_id := Py.replace_with_empty "hub:" hub_node;
                         rt_country_code := c_code;
                         rt_transport_cost := ship_attrs !! "min_transport_cost";
                         rt_last_mile_cost := deliver_attrs !! "min_last_mile_cost" |} ]
                  else [])
               (edges_data g hub_node))
        (edges_data g factory_node)
  end.

(** [supply_diversity].  [nodes[factory_node].get("region_id", "unknown")]
    is an attribute value; the result dict is keyed by it.  A node of the
    graph always has an attribute dict. *)
Definition region_of (g : DiGraph) (factory_node : string) : attr :=
  match default ∅ (_node g !! factory_node) !! "region_id" with
  | Some a => a
  | None => AStr "unknown"
  end.

(** Equality of two attribute values as dict keys. *)
Definition attr_eqb (a b : attr) : bool :=
  match a, b with
  | AStr s, AStr t => String.eqb s t
  | AInt x, AInt y => Z.eqb x y
  | AFloat x, AFloat y => Qeq_bool x y
  | AInt x, AFloat y => Qeq_bool (inject_Z x) y
  | AFloat x, AInt y => Qeq_bool x (inject_Z y)
  | _, _ => false
  end.

(** [factories_by_region[region].add(factory_node)], creating the set of
    a region met for the first time at the end of the dict. *)
Fixpoint add_to_region (region : attr) (factory_node : string)
         (d : list (attr * gset string)) : list (attr * gset string) :=
  match d with
  | [] => [(region, {[factory_node]})]
  | (r, fs) :: rest =>
      if attr_eqb r region then (r, {[factory_node]} ∪ fs) :: rest
      else (r, fs) :: add_to_region region factory_node rest
  end.

Definition factories_by_region (g : DiGraph) (c_code : string)
  : list (attr * gset string) :=
  let country_node := "country:" ++ c_code in
  foldl (fun d e1 =>
           let '(hub_node, _, attrs) := e1 in
           if negb (has_edge_type attrs "DELIVERS_TO") then d
           else
             foldl (fun d e2 =>
                      let '(factory_node, _, ship_attrs) := e2 in
                      if negb (has_edge_type ship_attrs "SHIPS_TO") then d
                      else add_to_region (region_of g factory_node) factory_node d)
                   d (in_edges_data g hub_node))
        [] (in_edges_data g country_node).

Definition supply_diversity (g : DiGraph) (c_code : string) : list (attr * Z) :=
  map (fun rf => (fst rf, Z.of_nat (size (snd rf)))) (factories_by_region g c_code).

(** One dict of [get_restriction_graph]. *)
Record RestrictionEdge := {
  restricted_country : string;
  re_restriction_type : attr;
  re_reason : attr }.

(** [get_restriction_graph].  [attrs["restriction_type"]] and
    [attrs["reason"]] raise KeyError on an edge without them: the result
    is then [None]. *)
Definition get_restriction_graph (g : DiGraph) (c_code : string)
  : option (list RestrictionEdge) :=
  let country_node := "country:" ++ c_code in
  mapM (fun e =>
          let '(_, target, attrs) := e in
          match attrs !! "restriction_type", attrs !! "reason" with
          | Some ty, Some reason =>
              Some {| restricted_country := Py.replace_with_empty "country:" target;
                      re_restriction_type := ty;
                      re_reason := reason |}
          | _, _ => None
          end)
       (List.filter (fun e => has_edge_type (snd e) "RESTRICTS")
                    (edges_data g country_node)).

(** The dict of [hub_utilization_risk]. *)
Record HubRisk := {
  hr_hub_id : string;
  feeding_factories : list string;
  served_countries : list string;
  factory_count : Z;
  country_count : Z }.

Definition hub_utilization_risk (g : DiGraph) (h_id : string) : HubRisk :=
  let hub_node := "hub:" ++ h_id in
  let feeding :=
    map (fun e => Py.replace_with_empty "factory:" (fst (fst e)))
        (List.filter (fun e => has_edge_type (snd e) "SHIPS_TO")
                     (in_edges_data g hub_node)) in
  let served_c :=
    map (fun e => Py.replace_with_empty "country:" (snd (fst e)))
        (List.filter (fun e => has_edge_type (snd e) "DELIVERS_TO")
                     (edges_data g hub_node)) in
  {| hr_hub_id := h_id;
     feeding_factories := feeding;
     served_countries := served_c;
     factory_count := Z.of_nat (length feeding);
     country_count := Z.of_nat (length served_c) |}.

End KnowledgeGraph.

(* ===================================================================== *)
(** ** solver/ontology.py *)
(* ===================================================================== *)

Module Ontology.
Import DataLoader.

Record FactoryEntity := {
  fe_factory_id : string;
  fe_factory_name : string;
  fe_city : string;
  fe_country_code : string;
  fe_region_id : string;
  fe_cost_multiplier : Q }.

(** [FactoryEntity.manufacturing_cost]. *)
Definition fe_manufacturing_cost (self : FactoryEntity) (base_cost : Q) : Q :=
  Py.round_to 2 (base_cost * fe_cost_multiplier self).

(** [FactoryEntity.is_in_region]. *)
Definition fe_is_in_region (self : FactoryEntity) (region : string) : bool :=
  String.eqb (fe_region_id self) region.

Record HubEntity := {
  he_hub_id : string;
  he_hub_name : string;
  he_city : string;
  he_country_code : string;
  he_region_id : string;
  he_monthly_throughput_capacity : Z }.

(** [HubEntity.has_capacity_for]. *)
Definition has_capacity_for (self : HubEntity) (units : Z) : bool :=
  (units <=? he_monthly_throughput_capacity self)%Z.

(** [HubEntity.is_in_region]. *)
Definition he_is_in_region (self : HubEntity) (region : string) : bool :=
  String.eqb (he_region_id self) region.

Record CountryEntity := {
  ce_country_code : string;
  ce_country_name : string;
  ce_region_id : string }.

Record GeopoliticalRestriction := {
  destination_country_code : string;
  restricted_country_code : string;
  restriction_type : string;
  reason : string }.

(** The entity dicts of [SupplyChainOntology] (the category table is not
    among the tables modelled in [SupplyChainData]; the category entities
    are left out). *)
Record SupplyChainOntology := {
  o_factories : gmap string FactoryEntity;
  o_hubs : gmap string HubEntity;
  o_countries : gmap string CountryEntity;
  restrictions : list GeopoliticalRestriction }.

(** [_build_entities]: one entity per row, a later row of the same id
    replacing an earlier one. *)
Definition _build_entities (data : SupplyChainData) : SupplyChainOntology :=
  {| o_factories :=
       foldl (fun m row =>
                <[fa_factory_id row :=
                    {| fe_factory_id := fa_factory_id row;
                       fe_factory_name := fa_factory_name row;
                       fe_city := fa_city row;
                       fe_country_code := fa_country_code row;
                       fe_region_id := fa_region_id row;
                       fe_cost_multiplier := fa_cost_multiplier row |}]> m)
             ∅ (factories data);
     o_hubs :=
       foldl (fun m row =>
                <[hu_hub_id row :=
                    {| he_hub_id := hu_hub_id row;
                       he_hub_name := hu_hub_name row;
                       he_city := hu_city row;
                       he_country_code := hu_country_code row;
                       he_region_id := hu_region_id row;
                       he_monthly_throughput_capacity :=
                         hu_monthly_throughput_capacity row |}]> m)
             ∅ (hubs data);
     o_countries :=
       foldl (fun m row =>
                <[co_country_code row :=
                    {| ce_country_code := co_country_code row;
                       ce_country_name := co_country_name row;
                       ce_region_id := co_region_id row |}]> m)
             ∅ (countries data);
     restrictions :=
       map (fun row =>
              {| destination_country_code := gr_destination_country_code row;
                 restricted_country_code := gr_restricted_country_code row;
                 restriction_type := gr_restriction_type row;
                 reason := gr_reason row |})
           (geopolitical data) |}.

(** [get_factory], [get_hub], [get_country]: [dict.get]. *)
Definition get_factory (o : SupplyChainOntology) (f_id : string) : option FactoryEntity :=
  o_factories o !! f_id.
Definition get_hub (o : SupplyChainOntology) (h_id : string) : option HubEntity :=
  o_hubs o !! h_id.
Definition get_country (o : SupplyChainOntology) (c_code : string) : option CountryEntity :=
  o_countries o !! c_code.

Definition get_restrictions_for_country (o : SupplyChainOntology) (c_code : string)
  : list GeopoliticalRestriction :=
  List.filter (fun r => String.eqb (destination_country_code r) c_code)
              (restrictions o).

(** The loop of [validate_flow] over the restrictions of the destination:
    the first rule that applies decides. *)
Fixpoint check_restrictions (factory : FactoryEntity) (hub : HubEntity)
         (c_code : string) (rs : list GeopoliticalRestriction) : bool * string :=
  match rs with
  | [] => (true, "Flow is valid")
  | r :: rest =>
      if String.eqb (restriction_type r) "MADE_IN"
         && String.eqb (fe_country_code factory) (restricted_country_code r)
      then (false,
            "MADE_IN restriction: " ++ c_code ++ " blocks products made in "
              ++ restricted_country_code r ++ " (" ++ reason r ++ ")")
      else if String.eqb (restriction_type r) "ROUTED_THROUGH"
              && String.eqb (he_country_code hub) (restricted_country_code r)
      then (false,
            "ROUTED_THROUGH restriction: " ++ c_code ++ " blocks routing via "
              ++ restricted_country_code r ++ " (" ++ reason r ++ ")")
      else check_restrictions factory hub c_code rest
  end.

Definition validate_flow (o : SupplyChainOntology) (f_id h_id c_code : string)
  : bool * string :=
  match o_factories o !! f_id, o_hubs o !! h_id with
  | Some factory, Some hub =>
      check_restrictions factory hub c_code (get_restrictions_for_country o c_code)
  | _, _ => (false, "Unknown factory " ++ f_id ++ " or hub " ++ h_id)
  end.

(** [factories_in_region], [hubs_in_region]: the values of the entity
    dicts, in the order of the dicts. *)
Definition factories_in_region (o : SupplyChainOntology) (region : string)
  : list FactoryEntity :=
  List.filter (fun f => String.eqb (fe_region_id f) region)
              (map snd (map_to_list (o_factories o))).

Definition hubs_in_region (o : SupplyChainOntology) (region : string)
  : list HubEntity :=
  List.filter (fun h => String.eqb (he_region_id h) region)
              (map snd (map_to_list (o_hubs o))).

End Ontology.

(* ===================================================================== *)
(** ** scripts/generate_data.py: the restriction flag of a flow *)
(* ===================================================================== *)

Module GenerateData.
Import DataLoader.

Definition rule (dest restricted ty why : string) : RestrictionRow :=
  {| gr_destination_country_code := dest; gr_restricted_country_code := restricted;
     gr_restriction_type := ty; gr_reason := why |}.

Definition GEOPOLITICAL_RESTRICTIONS : list RestrictionRow :=
  [ rule "US" "CN" "MADE_IN" "US-China trade restrictions";
    rule "US" "CN" "ROUTED_THROUGH" "US security compliance";
    rule "US" "BR" "MADE_IN" "US-Brazil trade policy";
    rule "CA" "CN" "MADE_IN" "Aligned with US-China policy";
    rule "CA" "CN" "ROUTED_THROUGH" "Aligned with US security policy";
    rule "IN" "CN" "MADE_IN" "India-China border tensions";
    rule "IN" "CN" "ROUTED_THROUGH" "India security concerns";
    rule "CN" "US" "MADE_IN" "China reciprocal restrictions";
    rule "CN" "US" "ROUTED_THROUGH" "China reciprocal restrictions";
    rule "AU" "CN" "MADE_IN" "Australia-China trade dispute";
    rule "JP" "CN" "ROUTED_THROUGH" "Japan regional security policy" ].

(** The loop of [is_flow_restricted] over a rule table. *)
Fixpoint restricted_by (rules : list RestrictionRow)
         (factory_country hub_country dest_country : string) : bool :=
  match rules with
  | [] => false
  | r :: rest =>
      if negb (String.eqb (gr_destination_country_code r) dest_country)
      then restricted_by rest factory_country hub_country dest_country
      else if String.eqb (gr_restriction_type r) "MADE_IN"
              && String.eqb (gr_restricted_country_code r) factory_country
      then true
      else if String.eqb (gr_restriction_type r) "ROUTED_THROUGH"
              && String.eqb (gr_restricted_country_code r) hub_country
      then true
      else restricted_by rest factory_country hub_country dest_country
  end.

Definition is_flow_restricted (factory_country hub_country dest_country : string) : bool :=
  restricted_by GEOPOLITICAL_RESTRICTIONS factory_country hub_country dest_country.

End GenerateData.

(* ===================================================================== *)
(** ** pages/1_Knowledge_Graph.py: marker sizes *)
(* ===================================================================== *)

Module KnowledgeGraphPage.

(** [_factory_size_dynamic]: the marker size of a factory, from its
    capacity and the extreme capacities. *)
Definition _factory_size_dynamic (fid : string) (cap_series : gmap string Z)
           (cap_min cap_max : Z) : Q :=
  let cap := Py.get_default cap_series fid cap_min in
  if (cap_max =? cap_min)%Z then 12
  else (8 + inject_Z (10 * (cap - cap_min)) / inject_Z (cap_max - cap_min))%Q.

End KnowledgeGraphPage.

(* ===================================================================== *)
(** ** A small reference data set and fixed engines, for running the code *)
(* ===================================================================== *)

Module Scenario.
Import DataLoader Pulp.

Definition flow (f h c cat : string) (cost : Q) (days : Z) (lead_ok restricted : Z)
  : FlowRow :=
  {| factory_id := f; hub_id := h; country_code := c; category_id := cat;
     manufacturing_cost := cost; transport_cost := 0; hub_handling_cost := 0;
     last_mile_cost := 0; tariff_pct := 0; tariff_amount := 0;
     total_landed_cost := cost; transit_days := days; max_lead_time_days := 120;
     is_lead_time_feasible := lead_ok; is_geopolitically_restricted := restricted |}.

Definition factory (f name city cc region : string) : FactoryRow :=
  {| fa_factory_id := f; fa_factory_name := name; fa_city := city;
     fa_country_code := cc; fa_region_id := region; fa_cost_multiplier := 1 |}.

Definition hub (h name city cc region : string) : HubRow :=
  {| hu_hub_id := h; hu_hub_name := name; hu_city := city; hu_country_code := cc;
     hu_region_id := region; hu_monthly_throughput_capacity := 100000 |}.

Definition capacity (f cat : string) (units : Z) : CapacityRow :=
  {| cp_factory_id := f; cp_category_id := cat;
     cp_unit_manufacturing_cost_usd := 100; cp_monthly_capacity_units := units |}.

(** Three product categories shipped to the US:
    - CAT01: two routes with the same cost, transit time and region;
    - CAT02: a cheap route and two dearer ones with equal scores, one of
      them from the cheap route's factory through another hub;
    - CAT03: a fast route from abroad, a slightly slower and dearer local
      one, and a slow expensive one. *)
Definition data : SupplyChainData :=
  {| regions := [ {| rg_region_id := "NAM"; rg_region_name := "North America" |};
                  {| rg_region_id := "SEA"; rg_region_name := "South East Asia" |};
                  {| rg_region_id := "EUR"; rg_region_name := "Europe" |};
                  {| rg_region_id := "NEA"; rg_region_name := "North East Asia" |} ];
     countries := [ {| co_country_code := "US"; co_country_name := "United States";
                       co_region_id := "NAM" |};
                    {| co_country_code := "VN"; co_country_name := "Vietnam";
                       co_region_id := "SEA" |};
                    {| co_country_code := "DE"; co_country_name := "Germany";
                       co_region_id := "EUR" |};
                    {| co_country_code := "CN"; co_country_name := "China";
                       co_region_id := "NEA" |} ];
     factories := [ factory "F_US_01" "Detroit Electronics" "Detroit" "US" "NAM";
                    factory "F_US_02" "Austin Assembly" "Austin" "US" "NAM";
                    factory "F_VN_01" "Hanoi Assembly Plant" "Hanoi" "VN" "SEA";
                    factory "F_DE_01" "Munich Precision Works" "Munich" "DE" "EUR";
                    factory "F_CN_01" "Shenzhen Electronics Hub" "Shenzhen" "CN" "NEA" ];
     hubs := [ hub "H_US_01" "Houston Hub" "Houston" "US" "NAM";
               hub "H_US_02" "Chicago Hub" "Chicago" "US" "NAM";
               hub "H_VN_01" "Haiphong Hub" "Haiphong" "VN" "SEA" ];
     factory_capacity :=
       [ capacity "F_US_01" "CAT01" 2000; capacity "F_US_02" "CAT01" 2000;
         capacity "F_US_01" "CAT02" 2000; capacity "F_US_02" "CAT02" 2000;
         capacity "F_US_01" "CAT03" 2000; capacity "F_VN_01" "CAT03" 2000;
         capacity "F_DE_01" "CAT03" 2000 ];
     all_flows :=
       [ flow "F_US_01" "H_US_01" "US" "CAT01" 100 5 1 0;
         flow "F_US_02" "H_US_01" "US" "CAT01" 100 5 1 0;
         flow "F_CN_01" "H_US_01" "US" "CAT01" 40 20 1 1;
         flow "F_DE_01" "H_VN_01" "US" "CAT01" 150 130 0 0;
         flow "F_US_01" "H_US_01" "US" "CAT02" 100 5 1 0;
         flow "F_US_01" "H_US_02" "US" "CAT02" 110 6 1 0;
         flow "F_US_02" "H_US_01" "US" "CAT02" 110 6 1 0;
         flow "F_VN_01" "H_US_01" "US" "CAT03" 100 10 1 0;
         flow "F_US_01" "H_US_01" "US" "CAT03" 105 11 1 0;
         flow "F_DE_01" "H_VN_01" "US" "CAT03" 200 110 1 0;
         flow "F_VN_01" "H_VN_01" "VN" "CAT01" 60 3 1 0 ];
     geopolitical :=
       [ {| gr_destination_country_code := "US"; gr_restricted_country_code := "CN";
            gr_restriction_type := "MADE_IN";
            gr_reason := "Section 301 tariffs" |} ] |}.

(** An engine that answers every call with the same status and values:
    [xs] for the [x[i]], [ys] for the [y[i]]. *)
Definition fixed_engine (st : status_code) (xs ys : list Q) : engine :=
  fun _ _ =>
    {| sol_status := st;
       varValue := fun v => match v with X i => xs !! i | Y i => ys !! i end |}.

Definition fixed_assignment (xs ys : list Q) : assignment :=
  fun v => match v with X i => default 0%Q (xs !! i) | Y i => default 0%Q (ys !! i) end.

End Scenario.

(* ===================================================================== *)
(** ** A wider data set *)
(* ===================================================================== *)

Module WideScenario.
Import DataLoader.

(** The reference data with a factory in Mexico, a hub in China, the rule
    table of the data generator, and a fourth category shipped to the US:
    six feasible routes from three factories, two routes of the Chinese
    factory blocked by a MADE_IN rule, one route routed through the
    Chinese hub, and a route from Mexico. *)
Definition data : SupplyChainData :=
  {| regions := regions Scenario.data;
     countries :=
       (countries Scenario.data
        ++ [ {| co_country_code := "MX"; co_country_name := "Mexico";
                co_region_id := "NAM" |} ])%list;
     factories :=
       (factories Scenario.data
        ++ [ Scenario.factory "F_MX_01" "Monterrey Manufacturing" "Monterrey" "MX" "NAM" ])%list;
     hubs :=
       (hubs Scenario.data
        ++ [ Scenario.hub "H_CN_01" "Shanghai Hub" "Shanghai" "CN" "NEA" ])%list;
     factory_capacity :=
       (factory_capacity Scenario.data
        ++ [ Scenario.capacity "F_US_01" "CAT04" 2000;
             Scenario.capacity "F_US_02" "CAT04" 2000;
             Scenario.capacity "F_VN_01" "CAT04" 2000;
             Scenario.capacity "F_MX_01" "CAT04" 2000 ])%list;
     all_flows :=
       (all_flows Scenario.data
        ++ [ Scenario.flow "F_US_01" "H_US_01" "US" "CAT04" 100 5 1 0;
             Scenario.flow "F_US_01" "H_US_02" "US" "CAT04" 110 6 1 0;
             Scenario.flow "F_US_02" "H_US_01" "US" "CAT04" 120 7 1 0;
             Scenario.flow "F_US_02" "H_US_02" "US" "CAT04" 130 8 1 0;
             Scenario.flow "F_VN_01" "H_US_01" "US" "CAT04" 140 20 1 0;
             Scenario.flow "F_VN_01" "H_VN_01" "US" "CAT04" 150 25 1 0;
             Scenario.flow "F_CN_01" "H_US_01" "US" "CAT04" 45 21 1 1;
             Scenario.flow "F_CN_01" "H_US_02" "US" "CAT04" 40 20 1 1;
             Scenario.flow "F_DE_01" "H_CN_01" "US" "CAT04" 160 30 1 1;
             Scenario.flow "F_MX_01" "H_US_01" "US" "CAT04" 155 9 1 0 ])%list;
     geopolitical := GenerateData.GEOPOLITICAL_RESTRICTIONS |}.

End WideScenario.

(* ===================================================================== *)
(** * Vocabulary of the properties *)
(* ===================================================================== *)

Import DataLoader Pulp Optimizer Ranker KnowledgeGraph.

(** ** The optimizer: what [solve] posts and how it returns *)

(** What [solve] computes before it consults the engine. *)
Definition scored_flows (data : SupplyChainData) (category country : string)
           (col : list Q) : list ScoredFlow :=
  with_effective_cost (get_feasible_flows data category country) col.

Definition posted_problem (data : SupplyChainData) (category country : string)
           (col : list Q) (volume min_batch : Z) : LpProblem :=
  build_problem (scored_flows data category country col)
                (get_factory_capacity data category) (get_hub_throughput data)
                volume min_batch.

(** The four ways in which [solve] returns. *)
Inductive solve_outcome (cbc : engine) (data : SupplyChainData)
          (category country : string) (volume min_batch : Z) (col : list Q)
  : SolverResult -> engine_log -> Prop :=
| NoFeasibleFlows :
    get_feasible_flows data category country = [] ->
    solve_outcome cbc data category country volume min_batch col
      (SolverResult_default "No feasible flows found" []) []
| InsufficientCapacity :
    let flows := scored_flows data category country col in
    let cap := total_capacity (get_factory_capacity data category) flows in
    get_feasible_flows data category country <> [] ->
    (cap < volume)%Z ->
    solve_outcome cbc data category country volume min_batch col
      (SolverResult_default (insufficient_capacity_status cap volume) flows) []
| EngineNotOptimal :
    let flows := scored_flows data category country col in
    let prob := posted_problem data category country col volume min_batch in
    get_feasible_flows data category country <> [] ->
    (volume <= total_capacity (get_factory_capacity data category) flows)%Z ->
    sol_status (cbc solver_command prob) <> LpStatusOptimal ->
    solve_outcome cbc data category country volume min_batch col
      (SolverResult_default (LpStatus (sol_status (cbc solver_command prob))) flows)
      [(solver_command, prob)]
| EngineOptimal :
    let flows := scored_flows data category country col in
    let prob := posted_problem data category country col volume min_batch in
    let ex := extract (varValue (cbc solver_command prob)) flows in
    get_feasible_flows data category country <> [] ->
    (volume <= total_capacity (get_factory_capacity data category) flows)%Z ->
    sol_status (cbc solver_command prob) = LpStatusOptimal ->
    solve_outcome cbc data category country volume min_batch col
      {| status := "Optimal";
         chosen_flows := sort_chosen (fst (fst ex));
         total_cost := Py.round_to 2 (snd (fst ex));
         total_units := snd ex;
         feasible_flows := flows |}
      [(solver_command, prob)].

(** The capacity of the origins present in the feasible set. *)
Definition feasible_origin_capacity (data : SupplyChainData) (category country : string) : Z :=
  Py.Zsum (map (fun f => Py.get_default (get_factory_capacity data category) f 0%Z)
               (Py.unique (map factory_id (get_feasible_flows data category country)))).

(** The entry the loop emits for flow [q] when the engine's value [alloc]
    passes the noise threshold. *)
Definition chosen_entry (q : nat * ScoredFlow) (alloc : Q) : ChosenFlow :=
  let row := sf_row (snd q) in
  let units := Py.round alloc in
  {| cf_factory_id := factory_id row;
     cf_hub_id := hub_id row;
     units_allocated := units;
     cost_per_unit := total_landed_cost row;
     effective_cost_per_unit := effective_cost (snd q);
     cf_total_cost := Py.round_to 2 (inject_Z units * total_landed_cost row);
     cf_manufacturing_cost := manufacturing_cost row;
     cf_transport_cost := transport_cost row;
     cf_hub_handling_cost := hub_handling_cost row;
     cf_last_mile_cost := last_mile_cost row;
     cf_tariff_pct := tariff_pct row;
     cf_tariff_amount := tariff_amount row;
     cf_transit_days := transit_days row |}.

Definition retained (values : var -> option Q) (q : nat * ScoredFlow) : option ChosenFlow :=
  match values (X (fst q)) with
  | Some alloc => if Py.Qltb (1 # 2) alloc then Some (chosen_entry q alloc) else None
  | None => None
  end.

(** ** Contracts of the external engine *)

(** The engine contract used below: on the calls of the log, an answer
    with status Optimal reports an assignment that satisfies the problem
    it was given. *)
Definition answers_feasibly (cbc : engine) (log : engine_log) : Prop :=
  forall cmd prob,
    In (cmd, prob) log ->
    sol_status (cbc cmd prob) = LpStatusOptimal ->
    exists a, reports (cbc cmd prob) prob a /\ feasible prob a.

(** The engine's assignment takes whole values on the [x[i]]. *)
Definition integral_x (a : assignment) (ids : list nat) : Prop :=
  forall i, In i ids -> exists z : Z, (a (X i) == inject_Z z)%Q.

(** The contract of an engine that returns whole-unit solutions. *)
Definition answers_integrally (cbc : engine) (log : engine_log) : Prop :=
  forall cmd prob,
    In (cmd, prob) log ->
    sol_status (cbc cmd prob) = LpStatusOptimal ->
    exists a, reports (cbc cmd prob) prob a /\ feasible prob a /\
              forall i, exists z : Z, (a (X i) == inject_Z z)%Q.

(** The contract of an exact engine that returns whole-unit solutions:
    its Optimal answer reports an optimal solution of the problem it was
    given, whole on every flow. *)
Definition answers_optimally_in_whole_units (cbc : engine) (log : engine_log) : Prop :=
  forall cmd prob,
    In (cmd, prob) log ->
    sol_status (cbc cmd prob) = LpStatusOptimal ->
    exists a, reports (cbc cmd prob) prob a /\ optimal prob a /\
              forall i, exists z : Z, (a (X i) == inject_Z z)%Q.

(** An engine that meets the contract on the three routes of CAT03 (with
    capacity to spare): all units go to the first or to the second route,
    whichever has the lower objective coefficient. *)
Definition first_or_second_engine : engine :=
  fun _ p =>
    match terms (objective p) with
    | (s0, _) :: (s1, _) :: _ =>
        if Qle_bool s0 s1
        then Scenario.fixed_engine LpStatusOptimal [1000; 0; 0]%Q [1; 0; 0]%Q
                                   solver_command p
        else Scenario.fixed_engine LpStatusOptimal [0; 1000; 0]%Q [0; 1; 0]%Q
                                   solver_command p
    | _ => {| sol_status := LpStatusUndefined; varValue := fun _ => None |}
    end.

(** ** The ranker: rows, pairs and origins *)

(** The rows the ranker works on: the frame with its score column. *)
Definition ranked_rows (result : SolverResult) (scores : list Q) : list RankedFlow :=
  map (fun p => {| rf_flow := fst p; composite_score := snd p |})
      (combine (feasible_flows result) scores).

Definition chosen_pairs (result : SolverResult) : list (string * string) :=
  map (fun cf => (cf_factory_id cf, cf_hub_id cf)) (chosen_flows result).

Definition not_chosen (result : SolverResult) (r : RankedFlow) : bool :=
  negb (bool_decide ((rf_factory_id r, rf_hub_id r)
                       ∈ (list_to_set (chosen_pairs result) : gset (string * string)))).

(** The feasible flows outside Tier 1, by ascending score. *)
Definition remaining_rows `{DataFrameSort} (result : SolverResult) (scores : list Q)
  : list RankedFlow :=
  sort_values composite_score (List.filter (not_chosen result) (ranked_rows result scores)).

(** The Tier-2 entry built from the [i]-th of the first three rows. *)
Definition tier2_entry (data : SupplyChainData) (i : nat) (row : RankedFlow) : Tier2Entry :=
  {| rank := Z.of_nat i + 2;
     t2_factory_id := rf_factory_id row;
     t2_factory_name := factory_name data (rf_factory_id row);
     t2_factory_city := factory_city data (rf_factory_id row);
     t2_factory_country := factory_country data (rf_factory_id row);
     t2_hub_id := rf_hub_id row;
     t2_hub_name := hub_name data (rf_hub_id row);
     t2_hub_city := hub_city data (rf_hub_id row);
     t2_cost_per_unit := total_landed_cost (sf_row (rf_flow row));
     t2_effective_cost_per_unit := effective_cost (rf_flow row);
     t2_transit_days := transit_days (sf_row (rf_flow row));
     t2_composite_score := Py.round_to 4 (composite_score row) |}.

Definition tier1_origins (ranked : Ranked) : list string :=
  map (fun e => cf_factory_id (t1_flow e)) (r_chosen_flows ranked).
Definition tier2_origins (ranked : Ranked) : list string :=
  map t2_factory_id (other_available ranked).
Definition tier3_origins (ranked : Ranked) : list string :=
  map t3_factory_id (alternative_factories ranked).

(** ** The knowledge graph: edges, in-degree, invariant *)

(** The attributes of the edge from [u] to [v], read from the successor
    dicts. *)
Definition edge (g : DiGraph) (u v : string) : option (gmap string attr) :=
  _succ g !! u ≫= (fun nbrs => nbrs !! v).

(** There is a DELIVERS_TO edge from [u] to [v]. *)
Definition delivers_to (g : DiGraph) (u v : string) : Prop :=
  exists attrs, edge g u v = Some attrs /\ has_edge_type attrs "DELIVERS_TO" = true.

Definition delivers_tob (g : DiGraph) (u v : string) : bool :=
  match edge g u v with
  | Some attrs => has_edge_type attrs "DELIVERS_TO"
  | None => false
  end.

(** The DELIVERS_TO in-degree of [v]: the number of nodes with a
    DELIVERS_TO edge to [v]. *)
Definition delivers_in_degree (g : DiGraph) (v : string) : nat :=
  length (List.filter (fun u => delivers_tob g u v) (elements (dom (_succ g)))).

(** The invariant networkx keeps: the two adjacency dicts have the same
    nodes and describe the same edges. *)
Record well_formed (g : DiGraph) : Prop := {
  wf_nodes : forall n, _succ g !! n = None <-> _pred g !! n = None;
  wf_edges : forall u v,
      _pred g !! v ≫= (fun nbrs => nbrs !! u) = edge g u v }.

(** [old] occurs somewhere in [s] ([old in s]). *)
Fixpoint occurs (old s : string) : bool :=
  match s with
  | EmptyString => String.prefix old s
  | String _ s' => String.prefix old s || occurs old s'
  end.

(** ** Transit days and the linear forms of the objective *)

(** The volume-weighted transit days of an allocation, and their
    average. *)
Definition weighted_transit_days (chosen : list ChosenFlow) : Z :=
  Py.Zsum (map (fun cf => units_allocated cf * cf_transit_days cf)%Z chosen).

Definition average_transit_days (chosen : list ChosenFlow) : Q :=
  (inject_Z (weighted_transit_days chosen)
   / inject_Z (Py.Zsum (map units_allocated chosen)))%Q.

(** [Σ f(row_j) · x[k + j]] over the rows. *)
Fixpoint lin (f : FlowRow -> Q) (a : assignment) (k : nat) (rows : list FlowRow) : Q :=
  match rows with
  | [] => 0
  | r :: rest => f r * a (X k) + lin f a (S k) rest
  end.

(** The scores [solve] posts, flow by flow. *)
Definition cost_norm_of (rows : list FlowRow) (v : Q) : Q :=
  let vals := map total_landed_cost rows in
  if Py.Qltb 0 (Py.Qmax_list vals - Py.Qmin_list vals)
  then ((v - Py.Qmin_list vals) / (Py.Qmax_list vals - Py.Qmin_list vals))%Q else 0%Q.

Definition time_norm_of (rows : list FlowRow) (v : Q) : Q :=
  let vals := map (fun r => inject_Z (transit_days r)) rows in
  if Py.Qltb 0 (Py.Qmax_list vals - Py.Qmin_list vals)
  then ((v - Py.Qmin_list vals) / (Py.Qmax_list vals - Py.Qmin_list vals))%Q else 0%Q.

(** The three linear forms of the objective. *)
Definition cost_form (rows : list FlowRow) (a : assignment) : Q :=
  lin (fun r => cost_norm_of rows (total_landed_cost r)) a 0 rows.
Definition time_form (rows : list FlowRow) (a : assignment) : Q :=
  lin (fun r => time_norm_of rows (inject_Z (transit_days r))) a 0 rows.
Definition region_form (data : SupplyChainData) (country : string)
           (rows : list FlowRow) (a : assignment) : Q :=
  lin (Optimizer.regional_penalty data (get_region_for_country data country)) a 0 rows.

(** ** The ontology: the entity of a row *)

Definition factory_entity (row : FactoryRow) : Ontology.FactoryEntity :=
  {| Ontology.fe_factory_id := fa_factory_id row;
     Ontology.fe_factory_name := fa_factory_name row;
     Ontology.fe_city := fa_city row;
     Ontology.fe_country_code := fa_country_code row;
     Ontology.fe_region_id := fa_region_id row;
     Ontology.fe_cost_multiplier := fa_cost_multiplier row |}.

Definition hub_entity (row : HubRow) : Ontology.HubEntity :=
  {| Ontology.he_hub_id := hu_hub_id row;
     Ontology.he_hub_name := hu_hub_name row;
     Ontology.he_city := hu_city row;
     Ontology.he_country_code := hu_country_code row;
     Ontology.he_region_id := hu_region_id row;
     Ontology.he_monthly_throughput_capacity := hu_monthly_throughput_capacity row |}.

Definition country_entity (row : CountryRow) : Ontology.CountryEntity :=
  {| Ontology.ce_country_code := co_country_code row;
     Ontology.ce_country_name := co_country_name row;
     Ontology.ce_region_id := co_region_id row |}.

Definition restriction_entity (row : RestrictionRow) : Ontology.GeopoliticalRestriction :=
  {| Ontology.destination_country_code := gr_destination_country_code row;
     Ontology.restricted_country_code := gr_restricted_country_code row;
     Ontology.restriction_type := gr_restriction_type row;
     Ontology.reason := gr_reason row |}.

(** ** The knowledge graph as a sequence of insertions *)

(** [_build] is a sequence of [add_node] and [add_edge] calls. *)
Inductive graph_op :=
| AddNode (n : string) (a : gmap string attr)
| AddEdge (u v : string) (a : gmap string attr).

Definition apply_op (g : DiGraph) (o : graph_op) : DiGraph :=
  match o with
  | AddNode n a => add_node g n a
  | AddEdge u v a => add_edge g u v a
  end.

Definition region_op (row : RegionRow) : list graph_op :=
  [ AddNode ("region:" ++ rg_region_id row)
            (list_to_map [("node_type", AStr "region");
                          ("name", AStr (rg_region_name row));
                          ("region_id", AStr (rg_region_id row))]) ].

Definition country_op (row : CountryRow) : list graph_op :=
  [ AddNode ("country:" ++ co_country_code row)
            (list_to_map [("node_type", AStr "country");
                          ("name", AStr (co_country_name row));
                          ("country_code", AStr (co_country_code row));
                          ("region_id", AStr (co_region_id row))]);
    AddEdge ("country:" ++ co_country_code row) ("region:" ++ co_region_id row)
            {["edge_type" := AStr "IN_REGION"]} ].

Definition factory_op (row : FactoryRow) : list graph_op :=
  [ AddNode ("factory:" ++ fa_factory_id row)
            (list_to_map [("node_type", AStr "factory");
                          ("factory_id", AStr (fa_factory_id row));
                          ("name", AStr (fa_factory_name row));
                          ("city", AStr (fa_city row));
                          ("country_code", AStr (fa_country_code row));
                          ("region_id", AStr (fa_region_id row));
                          ("cost_multiplier", AFloat (fa_cost_multiplier row))]);
    AddEdge ("factory:" ++ fa_factory_id row) ("region:" ++ fa_region_id row)
            {["edge_type" := AStr "IN_REGION"]} ].

Definition hub_op (row : HubRow) : list graph_op :=
  [ AddNode ("hub:" ++ hu_hub_id row)
            (list_to_map [("node_type", AStr "hub");
                          ("hub_id", AStr (hu_hub_id row));
                          ("name", AStr (hu_hub_name row));
                          ("city", AStr (hu_city row));
                          ("country_code", AStr (hu_country_code row));
                          ("region_id", AStr (hu_region_id row));
                          ("monthly_throughput_capacity",
                           AInt (hu_monthly_throughput_capacity row))]);
    AddEdge ("hub:" ++ hu_hub_id row) ("region:" ++ hu_region_id row)
            {["edge_type" := AStr "IN_REGION"]} ].

Definition ships_to_attrs (cost : Q) (days : Z) : gmap string attr :=
  list_to_map [("edge_type", AStr "SHIPS_TO");
               ("min_transport_cost", AFloat cost);
               ("min_transit_days", AInt days)].

Definition delivers_to_attrs (cost : Q) (days : Z) : gmap string attr :=
  list_to_map [("edge_type", AStr "DELIVERS_TO");
               ("min_last_mile_cost", AFloat cost);
               ("min_transit_days", AInt days)].

Definition restricts_attrs (row : RestrictionRow) : gmap string attr :=
  list_to_map [("edge_type", AStr "RESTRICTS");
               ("restriction_type", AStr (gr_restriction_type row));
               ("reason", AStr (gr_reason row))].

Definition ships_to_op (row : string * string * (Q * Z)) : list graph_op :=
  [ AddEdge ("factory:" ++ fst (fst row)) ("hub:" ++ snd (fst row))
            (ships_to_attrs (fst (snd row)) (snd (snd row))) ].

Definition delivers_to_op (row : string * string * (Q * Z)) : list graph_op :=
  [ AddEdge ("hub:" ++ fst (fst row)) ("country:" ++ snd (fst row))
            (delivers_to_attrs (fst (snd row)) (snd (snd row))) ].

Definition restricts_op (row : RestrictionRow) : list graph_op :=
  [ AddEdge ("country:" ++ gr_destination_country_code row)
            ("country:" ++ gr_restricted_country_code row)
            (restricts_attrs row) ].

(** The (factory, hub) and (hub, country) groups of the flow table. *)
Definition ships_to_groups (data : SupplyChainData) : list (string * string * (Q * Z)) :=
  groupby_min (fun r => (factory_id r, hub_id r)) transport_cost transit_days
              (all_flows data).

Definition delivers_to_groups (data : SupplyChainData) : list (string * string * (Q * Z)) :=
  groupby_min (fun r => (hub_id r, country_code r)) last_mile_cost transit_days
              (all_flows data).

Definition build_ops (data : SupplyChainData) : list graph_op :=
  (flat_map region_op (regions data)
   ++ flat_map country_op (countries data)
   ++ flat_map factory_op (factories data)
   ++ flat_map hub_op (hubs data)
   ++ flat_map ships_to_op (ships_to_groups data)
   ++ flat_map delivers_to_op (delivers_to_groups data)
   ++ flat_map restricts_op (geopolitical data))%list.

(** How one insertion changes the edge from [u] to [v] and the node [n]. *)
Definition edge_step (u v : string) (cur : option (gmap string attr)) (o : graph_op)
  : option (gmap string attr) :=
  match o with
  | AddEdge u' v' a =>
      if decide (u' = u /\ v' = v) then Some (a ∪ default ∅ cur) else cur
  | AddNode _ _ => cur
  end.

Definition node_step (n : string) (cur : option (gmap string attr)) (o : graph_op)
  : option (gmap string attr) :=
  match o with
  | AddNode n' a => if decide (n' = n) then Some (a ∪ default ∅ cur) else cur
  | AddEdge u v _ => if decide (u = n \/ v = n) then Some (default ∅ cur) else cur
  end.

(** The node dict and the adjacency dict have the same keys. *)
Definition nodes_ok (g : DiGraph) : Prop :=
  forall n, _node g !! n = None <-> _succ g !! n = None.

(** The rows of the flow table with a given key. *)
Definition flows_with (data : SupplyChainData) (key : FlowRow -> string * string)
           (k : string * string) : list FlowRow :=
  List.filter (fun r => bool_decide (key r = k)) (all_flows data).

(** There is an edge of type [T] from [u] to [v]. *)
Definition typed_edge (g : DiGraph) (T : string) (u v : string) : Prop :=
  exists attrs, edge g u v = Some attrs /\ has_edge_type attrs T = true.

(** The route from a factory through a hub to a country, as
    [find_all_routes] reports it. *)
Definition route_via (g : DiGraph) (f h c : string) : Route :=
  {| rt_factory_id := f;
     rt_hub_id := Py.replace_with_empty "hub:" ("hub:" ++ h);
     rt_country_code := c;
     rt_transport_cost :=
       edge g ("factory:" ++ f) ("hub:" ++ h) ≫= (fun a => a !! "min_transport_cost");
     rt_last_mile_cost :=
       edge g ("hub:" ++ h) ("country:" ++ c) ≫= (fun a => a !! "min_last_mile_cost") |}.

(** The rules of the restriction table for a destination, and those for
    a destination and a restricted country. *)
Definition rules_of (c : string) (geo : list RestrictionRow) : list RestrictionRow :=
  List.filter (fun row => bool_decide (gr_destination_country_code row = c)) geo.

Definition rules_of_pair (c r : string) (geo : list RestrictionRow) : list RestrictionRow :=
  List.filter (fun row => bool_decide (gr_destination_country_code row = c /\
                                       gr_restricted_country_code row = r)) geo.

(** ** Supply diversity on the tables *)

(** Some row of the flow table links the factory to a hub and some row
    links that hub to the country. *)
Definition reaches (data : SupplyChainData) (f c : string) : Prop :=
  exists h,
    (exists row, In row (all_flows data) /\ factory_id row = f /\ hub_id row = h) /\
    (exists row, In row (all_flows data) /\ hub_id row = h /\ country_code row = c).

(** The region the data loader gives for a factory, ["unknown"] for a
    factory without a row. *)
Definition region_or_unknown (data : SupplyChainData) (f : string) : string :=
  Py.get_default (_factory_region data) f "unknown".

(* ===================================================================== *)
(** * Properties *)
(* ===================================================================== *)


(** ** Python primitives *)

Example round_half_even_1 : Py.round (3 # 2) = 2%Z. Proof. reflexivity. Qed.
Example round_half_even_2 : Py.round (5 # 2) = 2%Z. Proof. reflexivity. Qed.
Example round_half_even_3 : Py.round (1 # 2) = 0%Z. Proof. reflexivity. Qed.
Example round_down : Py.round (14 # 10) = 1%Z. Proof. reflexivity. Qed.
Example round_negative : Py.round (- (3 # 2)) = (-2)%Z. Proof. reflexivity. Qed.
Example format_millions : Py.format_thousands 1234567 = "1,234,567". Proof. reflexivity. Qed.
Example format_hundreds : Py.format_thousands 999 = "999". Proof. reflexivity. Qed.
Example format_zero : Py.format_thousands 0 = "0". Proof. reflexivity. Qed.
Example format_negative : Py.format_thousands (-1000) = "-1,000". Proof. reflexivity. Qed.
Example replace_prefix : Py.replace_with_empty "country:" "country:US" = "US".
Proof. reflexivity. Qed.
Example replace_everywhere : Py.replace_with_empty "ab" "xabyabab" = "xy".
Proof. reflexivity. Qed.
Example replace_no_overlap : Py.replace_with_empty "aa" "aaa" = "a".
Proof. reflexivity. Qed.
Example unique_keeps_first : Py.unique ["b"; "a"; "b"; "c"; "a"] = ["b"; "a"; "c"].
Proof. reflexivity. Qed.

Lemma Qltb_lt (a b : Q) : Py.Qltb a b = true <-> (a < b)%Q.
Proof.
  unfold Py.Qltb. rewrite negb_true_iff.
  destruct (Qle_bool b a) eqn:E.
  - apply Qle_bool_iff in E. split; [discriminate|]. intros H.
    exfalso. apply (Qlt_not_le _ _ H E).
  - split; [|reflexivity]. intros _. apply Qnot_le_lt. intros H.
    apply Qle_bool_iff in H. congruence.
Qed.

(** [round] never goes below the floor, so it is at least every integer
    below its argument. *)
Lemma round_floor_le (q : Q) : (Qfloor q <= Py.round q)%Z.
Proof.
  unfold Py.round. destruct (Qcompare _ _); [destruct (Z.even _)|..]; lia.
Qed.

Lemma round_lower_bound (z : Z) (q : Q) : (inject_Z z <= q)%Q -> (z <= Py.round q)%Z.
Proof.
  intros H. apply Qfloor_resp_le in H. rewrite Qfloor_Z in H.
  pose proof (round_floor_le q). lia.
Qed.

(** Above the noise threshold, [round] yields at least one unit. *)
Lemma round_above_half (q : Q) : (1 # 2 < q)%Q -> (1 <= Py.round q)%Z.
Proof.
  intros H.
  assert (H0 : (0 <= Qfloor q)%Z).
  { rewrite <- (Qfloor_Z 0). apply Qfloor_resp_le.
    apply Qlt_le_weak. eapply Qlt_trans; [|exact H]. reflexivity. }
  destruct (Z.eq_dec (Qfloor q) 0%Z) as [E|E].
  - unfold Py.round. rewrite E.
    assert (Hc : Qcompare (q - inject_Z 0) (1 # 2) = Gt).
    { apply Qgt_alt. change (inject_Z 0) with 0%Q. lra. }
    rewrite Hc. lia.
  - pose proof (round_floor_le q). lia.
Qed.

(** An integral value is its own rounding. *)
Lemma round_inject_Z (z : Z) : Py.round (inject_Z z) = z.
Proof.
  unfold Py.round. rewrite Qfloor_Z.
  assert (Hc : Qcompare (inject_Z z - inject_Z z) (1 # 2) = Lt).
  { assert (E : (inject_Z z - inject_Z z == 0)%Q) by ring.
    now rewrite (Qcompare_comp _ _ E _ _ (Qeq_refl _)). }
  now rewrite Hc.
Qed.

Lemma round_proper (p q : Q) : (p == q)%Q -> Py.round p = Py.round q.
Proof.
  intros H. unfold Py.round. rewrite (Qfloor_comp _ _ H).
  assert (Hc : Qcompare (p - inject_Z (Qfloor q)) (1 # 2)
               = Qcompare (q - inject_Z (Qfloor q)) (1 # 2)).
  { apply Qcompare_comp; [now rewrite H | reflexivity]. }
  now rewrite Hc.
Qed.

(** The stable insertion sort rearranges its input. *)
Lemma insert_by_perm {A} (leb : A -> A -> bool) (a : A) (l : list A) :
  Permutation (Py.insert_by leb a l) (a :: l).
Proof.
  induction l as [|b l IH]; simpl; [reflexivity|].
  destruct (leb a b); [reflexivity|].
  rewrite IH. apply perm_swap.
Qed.

Lemma sorted_by_perm {A} (leb : A -> A -> bool) (l : list A) :
  Permutation (Py.sorted_by leb l) l.
Proof.
  induction l as [|a l IH]; simpl; [reflexivity|].
  rewrite insert_by_perm. now apply perm_skip.
Qed.

Lemma insert_by_sorted {A} (leb : A -> A -> bool) (R : A -> A -> Prop) (a : A) (l : list A) :
  (forall x y, leb x y = true -> R x y) ->
  (forall x y, leb x y = false -> R y x) ->
  (forall x y z, R x y -> R y z -> R x z) ->
  StronglySorted R l -> StronglySorted R (Py.insert_by leb a l).
Proof.
  intros Ht Hf Htr. induction 1 as [|b l Hs IH Hall]; simpl.
  - constructor; [constructor|constructor].
  - destruct (leb a b) eqn:E.
    + constructor; [now constructor|].
      constructor; [now apply Ht|].
      eapply List.Forall_impl; [|exact Hall]. intros c Hc. apply (Htr a b c); [now apply Ht|exact Hc].
    + constructor; [exact IH|].
      eapply Permutation_Forall; [symmetry; apply insert_by_perm|].
      constructor; [now apply Hf|exact Hall].
Qed.

Lemma sorted_by_sorted {A} (leb : A -> A -> bool) (R : A -> A -> Prop) (l : list A) :
  (forall x y, leb x y = true -> R x y) ->
  (forall x y, leb x y = false -> R y x) ->
  (forall x y z, R x y -> R y z -> R x z) ->
  StronglySorted R (Py.sorted_by leb l).
Proof.
  intros Ht Hf Htr. induction l as [|a l IH]; simpl; [constructor|].
  now apply (insert_by_sorted leb R).
Qed.

(** The stable sort is a [sort_values]. *)
#[export] Instance stable_sort : DataFrameSort.
Proof.
  refine {| sort_values := @stable_sort_values |}.
  - intros A key l. apply sorted_by_perm.
  - intros A key l. apply sorted_by_sorted.
    + intros x y H. now apply Qle_bool_iff.
    + intros x y H. apply Qlt_le_weak. apply Qnot_le_lt. intros Hle.
      apply Qle_bool_iff in Hle. congruence.
    + intros x y z. apply Qle_trans.
Defined.

(** ** The optimizer *)

(** The only status string of PuLP equal to "Optimal" is that of
    [LpStatusOptimal]. *)
Lemma LpStatus_optimal (c : status_code) :
  String.eqb (LpStatus c) "Optimal" = true <-> c = LpStatusOptimal.
Proof. destruct c; simpl; split; intros H; congruence. Qed.

Lemma solve_inv cbc data category country volume wc wt wr min_batch r log :
  solve cbc data category country volume wc wt wr min_batch = Py.Ok (r, log) ->
  exists col,
    (get_feasible_flows data category country <> [] ->
     effective_cost_column data country (get_feasible_flows data category country)
                           wc wt wr = Py.Ok col) /\
    solve_outcome cbc data category country volume min_batch col r log.
Proof.
  unfold solve. intros H.
  destruct (get_feasible_flows data category country) as [|row rows] eqn:Erows.
  - exists []. split; [congruence|].
    injection H as <- <-. now constructor.
  - destruct (effective_cost_column _ _ _ _ _ _) as [col|e] eqn:Ecol; simpl in H;
      [|discriminate].
    exists col. split; [reflexivity|].
    assert (Hne : get_feasible_flows data category country <> []) by congruence.
    pose proof (InsufficientCapacity cbc data category country volume min_batch col Hne) as HI.
    pose proof (EngineNotOptimal cbc data category country volume min_batch col Hne) as HN.
    pose proof (EngineOptimal cbc data category country volume min_batch col Hne) as HO.
    unfold posted_problem, scored_flows in *. rewrite Erows in HI, HN, HO.
    cbv zeta in HI, HN, HO.
    destruct (Z.ltb_spec (total_capacity (get_factory_capacity data category)
                                         (with_effective_cost (row :: rows) col)) volume)
      as [Hlt|Hge].
    + injection H as <- <-. now apply HI.
    + destruct (String.eqb (LpStatus _) "Optimal") eqn:Est; simpl in H.
      * apply LpStatus_optimal in Est.
        specialize (HO Hge Est). revert H HO.
        destruct (extract _ _) as [[ch c] u]. simpl.
        intros H HO. injection H as <- <-. exact HO.
      * injection H as <- <-. apply HN; [exact Hge|].
        intros Hs. apply LpStatus_optimal in Hs. congruence.
Qed.

Lemma effective_cost_column_length data country rows wc wt wr col :
  effective_cost_column data country rows wc wt wr = Py.Ok col ->
  length col = length rows.
Proof.
  unfold effective_cost_column, Py.truediv.
  destruct (Z.eqb _ 0); simpl; [discriminate|].
  intros H. injection H as <-. now rewrite length_map.
Qed.

Lemma effective_cost_column_returns data country rows wc wt wr :
  (wc + wt + wr <> 0)%Z ->
  exists col, effective_cost_column data country rows wc wt wr = Py.Ok col.
Proof.
  intros Hw. unfold effective_cost_column, Py.truediv.
  destruct (Z.eqb_spec (wc + wt + wr) 0) as [E|_]; [contradiction|].
  simpl. eauto.
Qed.

Lemma with_effective_cost_rows (rows : list FlowRow) (col : list Q) :
  length col = length rows ->
  map sf_row (with_effective_cost rows col) = rows.
Proof.
  unfold with_effective_cost. revert col.
  induction rows as [|r rows IH]; intros [|c col] Hlen; simpl in *; try discriminate;
    [reflexivity|].
  f_equal. apply IH. lia.
Qed.

Lemma with_effective_cost_col (rows : list FlowRow) (col : list Q) :
  length col = length rows ->
  map effective_cost (with_effective_cost rows col) = col.
Proof.
  unfold with_effective_cost. revert col.
  induction rows as [|r rows IH]; intros [|c col] Hlen; simpl in *; try discriminate;
    [reflexivity|].
  f_equal. apply IH. lia.
Qed.

(** [solve] returns a result on every request whose weights do not sum to
    zero (and on every request without feasible flows). *)
Lemma solve_returns cbc data category country volume wc wt wr min_batch :
  (wc + wt + wr <> 0)%Z ->
  exists r log, solve cbc data category country volume wc wt wr min_batch = Py.Ok (r, log).
Proof.
  intros Hw. unfold solve.
  destruct (get_feasible_flows data category country) as [|row rows]; [eauto|].
  destruct (effective_cost_column_returns data country (row :: rows) wc wt wr Hw)
    as [col ->].
  simpl. destruct (_ <? _)%Z; [eauto|].
  destruct (negb _); [eauto|].
  destruct (extract _ _) as [[ch c] u]. eauto.
Qed.

Lemma total_capacity_scored data category country col :
  length col = length (get_feasible_flows data category country) ->
  total_capacity (get_factory_capacity data category)
                 (scored_flows data category country col)
  = feasible_origin_capacity data category country.
Proof.
  intros Hlen. unfold total_capacity, feasible_origin_capacity, available_factories,
    scored_flows.
  rewrite <- (with_effective_cost_rows _ _ Hlen) at 2.
  now rewrite map_map.
Qed.

(** The frame [solve] returns carries, as its [effective_cost] column, the
    scores the optimizer computed over the rows of that frame. *)
Lemma solved_frame_scores cbc data category country volume wc wt wr min_batch r log :
  solve cbc data category country volume wc wt wr min_batch = Py.Ok (r, log) ->
  feasible_flows r <> [] ->
  effective_cost_column data country (map sf_row (feasible_flows r)) wc wt wr
  = Py.Ok (map effective_cost (feasible_flows r)).
Proof.
  intros Hs Hne. destruct (solve_inv _ _ _ _ _ _ _ _ _ _ _ Hs) as (col & Hcol & Hout).
  assert (Hrows : get_feasible_flows data category country <> []).
  { inversion Hout; subst; auto. }
  specialize (Hcol Hrows).
  pose proof (effective_cost_column_length _ _ _ _ _ _ _ Hcol) as Hlen.
  assert (Hf : feasible_flows r = scored_flows data category country col).
  { inversion Hout; subst; try reflexivity. simpl in Hne. congruence. }
  rewrite Hf. unfold scored_flows.
  rewrite with_effective_cost_rows, with_effective_cost_col by exact Hlen.
  exact Hcol.
Qed.

(** C4.  The score column the optimizer computes over a flow set (its
    [effective_cost]) and the score column the ranker computes over the
    same set, destination and weights ([_compute_composite_scores]) are the
    same list, flow by flow, and both raise on a zero weight sum; so on
    the frame [solve] returns, the ranker's score of every flow is the
    [effective_cost] stored with it. *)
Theorem ranker_scores_equal_optimizer_scores :
  (forall (flows : list ScoredFlow) (data : SupplyChainData) (country : string)
          (cost_weight time_weight regional_weight : Z),
      _compute_composite_scores flows data country
                                cost_weight time_weight regional_weight
      = effective_cost_column data country (map sf_row flows)
                              cost_weight time_weight regional_weight) /\
  (forall (cbc : engine) (data : SupplyChainData) (category country : string)
          (volume cost_weight time_weight regional_weight min_batch : Z)
          (r : SolverResult) (log : engine_log),
      solve cbc data category country volume
            cost_weight time_weight regional_weight min_batch = Py.Ok (r, log) ->
      feasible_flows r <> [] ->
      _compute_composite_scores (feasible_flows r) data country
                                cost_weight time_weight regional_weight
      = Py.Ok (map effective_cost (feasible_flows r))).
Proof.
  assert (Heq : forall flows data country wc wt wr,
             _compute_composite_scores flows data country wc wt wr
             = effective_cost_column data country (map sf_row flows) wc wt wr).
  { intros flows data country wc wt wr.
    unfold _compute_composite_scores, effective_cost_column.
    rewrite !map_map.
    destruct (Py.truediv wc _) as [cw|e]; [|reflexivity].
    destruct (Py.truediv wt _) as [tw|e]; [|reflexivity].
    destruct (Py.truediv wr _) as [rw|e]; [|reflexivity].
    cbn [Py.bind]. rewrite map_map. reflexivity. }
  split; [exact Heq|].
  intros cbc data category country volume wc wt wr min_batch r log Hs Hne.
  rewrite Heq. exact (solved_frame_scores _ _ _ _ _ _ _ _ _ _ _ Hs Hne).
Qed.

(** On the CAT02 run, the three scores the ranker computes are the three
    stored [effective_cost] values. *)
Lemma ranker_scores_equal_optimizer_scores_witness :
  exists r log,
    solve (Scenario.fixed_engine LpStatusOptimal [1000; 0; 0]%Q [1; 0; 0]%Q)
          Scenario.data "CAT02" "US" 1000 8 5 3 500 = Py.Ok (r, log) /\
    feasible_flows r <> [] /\
    length (feasible_flows r) = 3%nat /\
    _compute_composite_scores (feasible_flows r) Scenario.data "US" 8 5 3
    = Py.Ok (map effective_cost (feasible_flows r)).
Proof.
  eexists _, _.
  match goal with
  | |- ?E /\ _ => assert (Hs : E) by (vm_compute; reflexivity)
  end.
  split; [exact Hs|].
  split; [discriminate|]. split; [reflexivity|].
  apply (proj2 ranker_scores_equal_optimizer_scores _ _ _ _ _ _ _ _ _ _ _ Hs).
  discriminate.
Defined.

(** The formula both compute is the weighted mean of the spec: for a
    non-zero weight sum, [(wc/w)·c + (wt/w)·t + (wr/w)·p] is
    [(wc·c + wt·t + wr·p) / w]. *)
Lemma weighted_mean_form (wc wt wr : Z) (c t p : Q) :
  (wc + wt + wr <> 0)%Z ->
  (inject_Z wc / inject_Z (wc + wt + wr) * c
   + inject_Z wt / inject_Z (wc + wt + wr) * t
   + inject_Z wr / inject_Z (wc + wt + wr) * p
   == (inject_Z wc * c + inject_Z wt * t + inject_Z wr * p)
      / inject_Z (wc + wt + wr))%Q.
Proof.
  intros Hw. field. intros H.
  apply Hw. unfold Qeq in H. simpl in H. lia.
Qed.

(** The three families of status strings never coincide. *)
Lemma status_strings_distinct (cap volume : Z) (c : status_code) :
  "No feasible flows found" <> insufficient_capacity_status cap volume /\
  "No feasible flows found" <> LpStatus c /\
  insufficient_capacity_status cap volume <> LpStatus c /\
  insufficient_capacity_status cap volume <> "Optimal".
Proof.
  unfold insufficient_capacity_status.
  repeat split; try (destruct c); simpl; discriminate.
Qed.

(** C5.  Without feasible flows [solve] returns the status "No feasible
    flows found", and with feasible flows whose origins' capacities sum to
    less than the volume it returns the "Infeasible: total factory capacity
    (...) < volume (...)" status; in both cases the engine is not invoked
    (the call log is empty), and the two statuses differ from each other
    and from every status of the engine.  The capacity check comes after
    the emptiness check and after the scores, which need a non-zero weight
    sum (the weights are documented as 1 to 10). *)
Theorem pre_checks_return_without_engine
        (cbc : engine) (data : SupplyChainData) (category country : string)
        (volume cost_weight time_weight regional_weight min_batch : Z) :
  (get_feasible_flows data category country = [] ->
   solve cbc data category country volume cost_weight time_weight regional_weight min_batch
   = Py.Ok (SolverResult_default "No feasible flows found" [], [])) /\
  (get_feasible_flows data category country <> [] ->
   (cost_weight + time_weight + regional_weight <> 0)%Z ->
   (feasible_origin_capacity data category country < volume)%Z ->
   exists flows,
     solve cbc data category country volume cost_weight time_weight regional_weight min_batch
     = Py.Ok (SolverResult_default
                (insufficient_capacity_status
                   (feasible_origin_capacity data category country) volume) flows,
              [])) /\
  (forall cap c,
      "No feasible flows found" <> insufficient_capacity_status cap volume /\
      "No feasible flows found" <> LpStatus c /\
      insufficient_capacity_status cap volume <> LpStatus c).
Proof.
  split; [|split].
  - intros E. unfold solve. now rewrite E.
  - intros Hne Hw Hcap.
    destruct (effective_cost_column_returns data country
                (get_feasible_flows data category country) _ _ _ Hw) as [col Hcol].
    pose proof (effective_cost_column_length _ _ _ _ _ _ _ Hcol) as Hlen.
    pose proof (total_capacity_scored data category country col Hlen) as Htc.
    unfold scored_flows in Htc.
    exists (with_effective_cost (get_feasible_flows data category country) col).
    unfold solve.
    destruct (get_feasible_flows data category country) as [|row rows] eqn:E;
      [congruence|].
    rewrite Hcol. simpl. rewrite Htc.
    destruct (Z.ltb_spec (feasible_origin_capacity data category country) volume);
      [reflexivity|lia].
  - intros cap c. pose proof (status_strings_distinct cap volume c). tauto.
Qed.

(** Both pre-checks fire on the reference data: no flow of CAT09 reaches
    the US, and 500000 units of CAT03 exceed the 6000 units of capacity. *)
Lemma pre_checks_return_without_engine_witness :
  (get_feasible_flows Scenario.data "CAT09" "US" = [] /\
   solve (Scenario.fixed_engine LpStatusOptimal [] []) Scenario.data "CAT09" "US"
         2000 8 5 3 500
   = Py.Ok (SolverResult_default "No feasible flows found" [], [])) /\
  (get_feasible_flows Scenario.data "CAT03" "US" <> [] /\
   (8 + 5 + 3 <> 0)%Z /\
   (feasible_origin_capacity Scenario.data "CAT03" "US" < 500000)%Z /\
   exists flows,
     solve (Scenario.fixed_engine LpStatusOptimal [] []) Scenario.data "CAT03" "US"
           500000 8 5 3 500
     = Py.Ok (SolverResult_default
                (insufficient_capacity_status
                   (feasible_origin_capacity Scenario.data "CAT03" "US") 500000) flows,
              [])).
Proof.
  split.
  - split; [reflexivity|].
    apply (pre_checks_return_without_engine
             (Scenario.fixed_engine LpStatusOptimal [] []) Scenario.data "CAT09" "US"
             2000 8 5 3 500).
    reflexivity.
  - split; [vm_compute; discriminate|].
    split; [lia|].
    split; [vm_compute; reflexivity|].
    apply (pre_checks_return_without_engine
             (Scenario.fixed_engine LpStatusOptimal [] []) Scenario.data "CAT03" "US"
             500000 8 5 3 500).
    + vm_compute; discriminate.
    + lia.
    + vm_compute; reflexivity.
Defined.

Example insufficient_capacity_message :
  insufficient_capacity_status (feasible_origin_capacity Scenario.data "CAT03" "US") 500000
  = "Infeasible: total factory capacity (6,000) < volume (500,000)".
Proof. reflexivity. Qed.

(** C6.  Whenever [solve] returns a status other than "Optimal", the
    result has no allocation entry, total cost 0 and total units 0. *)
Theorem non_optimal_result_is_empty
        (cbc : engine) (data : SupplyChainData) (category country : string)
        (volume cost_weight time_weight regional_weight min_batch : Z)
        (r : SolverResult) (log : engine_log) :
  solve cbc data category country volume cost_weight time_weight regional_weight min_batch
  = Py.Ok (r, log) ->
  status r <> "Optimal" ->
  chosen_flows r = [] /\ total_cost r = 0%Q /\ total_units r = 0%Z.
Proof.
  intros Hs Hst.
  destruct (solve_inv _ _ _ _ _ _ _ _ _ _ _ Hs) as (col & _ & Hout).
  inversion Hout; subst; simpl in *; auto.
  congruence.
Qed.

(** An engine reporting "Infeasible" on a request that passes both
    pre-checks. *)
Lemma non_optimal_result_is_empty_witness :
  exists r log,
    solve (Scenario.fixed_engine LpStatusInfeasible [] []) Scenario.data "CAT01" "US"
          3000 8 5 3 500 = Py.Ok (r, log) /\
    status r = "Infeasible" /\
    chosen_flows r = [] /\ total_cost r = 0%Q /\ total_units r = 0%Z.
Proof.
  eexists _, _. split; [vm_compute; reflexivity|].
  split; [reflexivity|].
  eapply (non_optimal_result_is_empty
            (Scenario.fixed_engine LpStatusInfeasible [] []) Scenario.data "CAT01" "US"
            3000 8 5 3 500).
  - vm_compute; reflexivity.
  - discriminate.
Defined.

(** C3, as stated, asks for a time limit in the command handed to the
    engine.  On this request, which reaches the engine, the command has
    none. *)
Lemma engine_invoked_without_time_limit :
  exists r cmd prob,
    solve (Scenario.fixed_engine LpStatusNotSolved [] []) Scenario.data "CAT01" "US"
          3000 8 5 3 500 = Py.Ok (r, [(cmd, prob)]) /\
    timeLimit cmd = None /\
    status r = "Not Solved".
Proof.
  eexists _, _, _. split; [vm_compute; reflexivity|].
  split; reflexivity.
Qed.

(** C3, amended.  A request that reaches the engine invokes it exactly
    once, with the fixed command [PULP_CBC_CMD(msg=0)], which carries no
    time limit; a status of the engine other than Optimal is returned as it
    is, with no allocation, so the statuses [solve] can return are the two
    pre-check strings and PuLP's five. *)
Theorem engine_status_surfaced_verbatim
        (cbc : engine) (data : SupplyChainData) (category country : string)
        (volume cost_weight time_weight regional_weight min_batch : Z)
        (r : SolverResult) (log : engine_log) :
  solve cbc data category country volume cost_weight time_weight regional_weight min_batch
  = Py.Ok (r, log) ->
  (log = [] /\
   (status r = "No feasible flows found" \/
    exists cap, status r = insufficient_capacity_status cap volume)) \/
  (exists prob,
      log = [({| msg := 0; timeLimit := None |}, prob)] /\
      status r = LpStatus (sol_status (cbc {| msg := 0; timeLimit := None |} prob)) /\
      (sol_status (cbc {| msg := 0; timeLimit := None |} prob) <> LpStatusOptimal ->
       chosen_flows r = [] /\ total_cost r = 0%Q /\ total_units r = 0%Z)).
Proof.
  intros Hs.
  destruct (solve_inv _ _ _ _ _ _ _ _ _ _ _ Hs) as (col & _ & Hout).
  inversion Hout; subst; unfold solver_command in *.
  - left. split; [reflexivity|]. now left.
  - left. split; [reflexivity|]. right. eexists. reflexivity.
  - right. eexists. split; [reflexivity|]. split; [reflexivity|]. now intros _.
  - right. eexists. split; [reflexivity|]. split.
    + simpl. match goal with H : sol_status _ = _ |- _ => now rewrite H end.
    + intros Hn. contradiction.
Qed.

Lemma engine_status_surfaced_verbatim_witness :
  exists r prob,
    solve (Scenario.fixed_engine LpStatusUndefined [] []) Scenario.data "CAT01" "US"
          3000 8 5 3 500 = Py.Ok (r, [(solver_command, prob)]) /\
    status r = "Undefined" /\ chosen_flows r = [].
Proof.
  eexists _, _. split; [vm_compute; reflexivity|].
  destruct (engine_status_surfaced_verbatim
              (Scenario.fixed_engine LpStatusUndefined [] []) Scenario.data "CAT01" "US"
              3000 8 5 3 500 _ _ ltac:(vm_compute; reflexivity))
    as [[Hlog _]|(prob & Hlog & Hst & Hempty)].
  - discriminate Hlog.
  - split; [reflexivity|]. apply Hempty. discriminate.
Defined.

(** *** The extraction loop *)

Lemma extract_step_retained values ch c u (q : nat * ScoredFlow) :
  extract_step values (ch, c, u) q
  = match retained values q with
    | Some cf => ((ch ++ [cf])%list,
                  (c + inject_Z (units_allocated cf) * total_landed_cost (sf_row (snd q)))%Q,
                  (u + units_allocated cf)%Z)
    | None => (ch, c, u)
    end.
Proof.
  unfold extract_step, retained.
  destruct (values (X (fst q))) as [alloc|]; [|reflexivity].
  destruct (Py.Qltb (1 # 2) alloc); reflexivity.
Qed.

Lemma extract_fold values (l : list (nat * ScoredFlow)) ch c u :
  fst (fst (foldl (extract_step values) (ch, c, u) l)) = (ch ++ omap (retained values) l)%list /\
  snd (foldl (extract_step values) (ch, c, u) l)
  = (u + Py.Zsum (map units_allocated (omap (retained values) l)))%Z.
Proof.
  revert ch c u. induction l as [|q l IH]; intros ch c u; cbn [foldl omap list_omap].
  - simpl. rewrite app_nil_r. split; [reflexivity|lia].
  - rewrite extract_step_retained.
    destruct (retained values q) as [cf|]; [|apply IH].
    destruct (IH (ch ++ [cf])%list
                 (c + inject_Z (units_allocated cf) * total_landed_cost (sf_row (snd q)))%Q
                 (u + units_allocated cf)%Z) as [IH1 IH2].
    rewrite IH1, IH2, <- app_assoc. simpl. split; [reflexivity|lia].
Qed.

Lemma extract_chosen values flows :
  fst (fst (extract values flows)) = omap (retained values) (Py.enumerate flows).
Proof. unfold extract. now destruct (extract_fold values (Py.enumerate flows) [] 0%Q 0%Z). Qed.

Lemma extract_units values flows :
  snd (extract values flows)
  = Py.Zsum (map units_allocated (omap (retained values) (Py.enumerate flows))).
Proof.
  unfold extract.
  destruct (extract_fold values (Py.enumerate flows) [] 0%Q 0%Z) as [_ ->]. lia.
Qed.

Lemma enumerate_index {A} (l : list A) (i : nat) (a : A) :
  In (i, a) (Py.enumerate l) -> In i (seq 0 (length l)).
Proof. unfold Py.enumerate. apply in_combine_l. Qed.

(** Every emitted entry comes from a flow whose value passed the
    threshold, and carries that value rounded. *)
Lemma retained_entry values flows cf :
  In cf (omap (retained values) (Py.enumerate flows)) ->
  exists i alloc,
    In i (seq 0 (length flows)) /\ values (X i) = Some alloc /\
    (1 # 2 < alloc)%Q /\ units_allocated cf = Py.round alloc.
Proof.
  intros H. apply list_elem_of_In, list_elem_of_omap in H.
  destruct H as ([i f] & Hin & Hret). apply list_elem_of_In in Hin.
  unfold retained in Hret. simpl in Hret.
  destruct (values (X i)) as [alloc|] eqn:Ev; [|discriminate].
  destruct (Py.Qltb (1 # 2) alloc) eqn:Elt; [|discriminate].
  injection Hret as <-. exists i, alloc.
  split; [eapply enumerate_index; eauto|].
  split; [exact Ev|]. split; [now apply Qltb_lt|reflexivity].
Qed.

Lemma sort_chosen_perm (chosen : list ChosenFlow) :
  Permutation (sort_chosen chosen) chosen.
Proof. apply sorted_by_perm. Qed.

(** *** What a feasible assignment of the posted problem satisfies *)

Section PostedProblem.
Variables (flows : list ScoredFlow) (factory_cap hub_throughput : gmap string Z).
Variables (volume min_batch : Z) (a : assignment).
Let prob := build_problem flows factory_cap hub_throughput volume min_batch.
Hypothesis Hfeasible : feasible prob a.

Lemma feasible_meet_demand :
  (eval a (lpSum_x (flow_ids flows)) == inject_Z volume)%Q.
Proof.
  destruct Hfeasible as [_ Hc]. rewrite List.Forall_forall in Hc.
  specialize (Hc _ (or_introl eq_refl)).
  unfold holds, eval in *. simpl in *. lra.
Qed.

Lemma feasible_x_nonneg i : In i (flow_ids flows) -> (0 <= a (X i))%Q.
Proof.
  intros Hi. destruct Hfeasible as [Hv _]. rewrite List.Forall_forall in Hv.
  destruct (Hv {| v_var := X i; v_lowBound := Some 0%Q; v_cat := Continuous |}) as [H _].
  - simpl. apply in_or_app. left. now apply (in_map (fun i => _) _ i).
  - exact H.
Qed.

Lemma feasible_y_binary i :
  In i (flow_ids flows) -> (a (Y i) == 0)%Q \/ (a (Y i) == 1)%Q.
Proof.
  intros Hi. destruct Hfeasible as [Hv _]. rewrite List.Forall_forall in Hv.
  destruct (Hv {| v_var := Y i; v_lowBound := Some 0%Q; v_cat := Binary |}) as [_ H].
  - simpl. apply in_or_app. right. now apply (in_map (fun i => _) _ i).
  - exact H.
Qed.

Lemma feasible_activate i :
  In i (flow_ids flows) -> (a (X i) <= inject_Z volume * a (Y i))%Q.
Proof.
  intros Hi. destruct Hfeasible as [_ Hc]. rewrite List.Forall_forall in Hc.
  specialize (Hc {| c_name := Activate i; c_lhs := lpSum_x [i];
                    c_sense := LpConstraintLE;
                    c_rhs := {| terms := [(inject_Z volume, Y i)]; constant := 0 |} |}).
  unfold holds, eval in Hc. simpl in Hc.
  assert (H : (1 * a (X i) + 0 + 0 <= inject_Z volume * a (Y i) + 0 + 0)%Q).
  { apply Hc. right. apply in_or_app. right. apply in_or_app. right.
    apply in_or_app. left. now apply (in_map (fun i => _) _ i). }
  lra.
Qed.

Lemma feasible_min_batch i :
  In i (flow_ids flows) -> (inject_Z min_batch * a (Y i) <= a (X i))%Q.
Proof.
  intros Hi. destruct Hfeasible as [_ Hc]. rewrite List.Forall_forall in Hc.
  specialize (Hc {| c_name := MinBatch i; c_lhs := lpSum_x [i];
                    c_sense := LpConstraintGE;
                    c_rhs := {| terms := [(inject_Z min_batch, Y i)]; constant := 0 |} |}).
  unfold holds, eval in Hc. simpl in Hc.
  assert (H : (inject_Z min_batch * a (Y i) + 0 + 0 <= 1 * a (X i) + 0 + 0)%Q).
  { apply Hc. right. apply in_or_app. right. apply in_or_app. right.
    apply in_or_app. right. now apply (in_map (fun i => _) _ i). }
  lra.
Qed.

(** A flow that carries more than the noise threshold is activated and
    carries at least the minimum batch. *)
Lemma feasible_carrying_flow i :
  In i (flow_ids flows) -> (1 # 2 < a (X i))%Q -> (inject_Z min_batch <= a (X i))%Q.
Proof.
  intros Hi Hx.
  pose proof (feasible_activate i Hi) as Ha.
  pose proof (feasible_min_batch i Hi) as Hm.
  destruct (feasible_y_binary i Hi) as [Hy|Hy]; rewrite Hy in Ha, Hm; lra.
Qed.

Lemma reports_x (s : solution) i :
  reports s prob a -> In i (flow_ids flows) -> varValue s (X i) = Some (a (X i)).
Proof.
  intros Hr Hi.
  apply (Hr {| v_var := X i; v_lowBound := Some 0%Q; v_cat := Continuous |}).
  simpl. apply in_or_app. left. now apply (in_map (fun i => _) _ i).
Qed.

End PostedProblem.

(** An emitted entry has at least one unit: it exists only for a value
    above the threshold 0.5, and such a value rounds to 1 or more. *)
Lemma entries_at_least_one
      (cbc : engine) (data : SupplyChainData) (category country : string)
      (volume wc wt wr min_batch : Z) (r : SolverResult) (log : engine_log) :
  solve cbc data category country volume wc wt wr min_batch = Py.Ok (r, log) ->
  Forall (fun cf => (1 <= units_allocated cf)%Z) (chosen_flows r).
Proof.
  intros Hs.
  destruct (solve_inv _ _ _ _ _ _ _ _ _ _ _ Hs) as (col & _ & Hout).
  inversion Hout; subst; simpl; try constructor.
  eapply Permutation_Forall; [symmetry; apply sort_chosen_perm|].
  apply List.Forall_forall. intros cf Hcf. subst ex. rewrite extract_chosen in Hcf.
  destruct (retained_entry _ _ _ Hcf) as (i & alloc & _ & _ & Hgt & ->).
  now apply round_above_half.
Qed.

(** C7.  In an Optimal result every allocation entry has at least one
    unit (an entry exists only for a value above the threshold 0.5, and
    such a value rounds to 1 or more); and when the engine's answer
    satisfies the constraints it was given, every entry has at least
    [min_batch] units. *)
Theorem entries_positive_and_at_least_min_batch
        (cbc : engine) (data : SupplyChainData) (category country : string)
        (volume cost_weight time_weight regional_weight min_batch : Z)
        (r : SolverResult) (log : engine_log) :
  solve cbc data category country volume cost_weight time_weight regional_weight min_batch
  = Py.Ok (r, log) ->
  status r = "Optimal" ->
  Forall (fun cf => units_allocated cf <> 0%Z /\ (1 <= units_allocated cf)%Z)
         (chosen_flows r) /\
  (answers_feasibly cbc log ->
   Forall (fun cf => (min_batch <= units_allocated cf)%Z) (chosen_flows r)).
Proof.
  intros Hs Hst.
  destruct (solve_inv _ _ _ _ _ _ _ _ _ _ _ Hs) as (col & _ & Hout).
  inversion Hout; subst; simpl in Hst;
    try (exfalso; pose proof (status_strings_distinct cap volume LpStatusOptimal);
         simpl in *; intuition congruence);
    try discriminate.
  - exfalso. destruct (sol_status (cbc solver_command prob)); simpl in Hst; congruence.
  - simpl. split.
    + pose proof (entries_at_least_one _ _ _ _ _ _ _ _ _ _ _ Hs) as Hone.
      simpl in Hone. eapply List.Forall_impl; [|exact Hone].
      intros cf Hcf. simpl in Hcf. lia.
    + intros Hc. destruct (Hc solver_command prob (or_introl eq_refl)) as (a & Hrep & Hfeas);
        [assumption|].
      eapply Permutation_Forall; [symmetry; apply sort_chosen_perm|].
      apply List.Forall_forall. intros cf Hcf. subst ex. rewrite extract_chosen in Hcf.
      destruct (retained_entry _ _ _ Hcf) as (i & alloc & Hi & Hv & Hgt & ->).
      subst prob. unfold posted_problem in *. fold flows in Hi.
      change (length flows) with (length flows) in Hi.
      rewrite (reports_x _ _ _ _ _ _ _ i Hrep Hi) in Hv. injection Hv as <-.
      apply round_lower_bound.
      eapply feasible_carrying_flow; eauto.
Qed.

(** Closed goals over concrete rationals: comparisons, equations, and the
    conjunctions and disjunctions [in_domain] and [holds] unfold to. *)
Ltac concrete_Q :=
  vm_compute;
  repeat match goal with
         | |- _ /\ _ => split
         | |- True => exact I
         end;
  first [ reflexivity
        | (let H := fresh "H" in intro H; discriminate H)
        | (left; reflexivity)
        | (right; reflexivity) ].

Ltac concrete_feasible :=
  split; repeat (constructor; [concrete_Q|]); constructor.

Ltac concrete_reports :=
  let v := fresh "v" in
  let Hv := fresh "Hv" in
  intros v Hv; simpl in Hv;
  repeat (destruct Hv as [<-|Hv]; [reflexivity|]); contradiction.

Lemma entries_positive_and_at_least_min_batch_witness :
  exists r log,
    solve (Scenario.fixed_engine LpStatusOptimal [1000; 0; 0]%Q [1; 0; 0]%Q)
          Scenario.data "CAT02" "US" 1000 8 5 3 500 = Py.Ok (r, log) /\
    status r = "Optimal" /\
    answers_feasibly (Scenario.fixed_engine LpStatusOptimal [1000; 0; 0]%Q [1; 0; 0]%Q) log /\
    map units_allocated (chosen_flows r) = [1000%Z] /\
    Forall (fun cf => units_allocated cf <> 0%Z /\ (1 <= units_allocated cf)%Z)
           (chosen_flows r) /\
    Forall (fun cf => (500 <= units_allocated cf)%Z) (chosen_flows r).
Proof.
  eexists _, _. split; [vm_compute; reflexivity|].
  split; [reflexivity|].
  match goal with
  | |- answers_feasibly ?e ?l /\ _ => assert (Hc : answers_feasibly e l)
  end.
  { intros cmd prob [E|[]] _. injection E as <- <-.
    exists (Scenario.fixed_assignment [1000; 0; 0]%Q [1; 0; 0]%Q).
    split; [concrete_reports|concrete_feasible]. }
  split; [exact Hc|].
  split; [reflexivity|].
  destruct (entries_positive_and_at_least_min_batch
              (Scenario.fixed_engine LpStatusOptimal [1000; 0; 0]%Q [1; 0; 0]%Q)
              Scenario.data "CAT02" "US" 1000 8 5 3 500 _ _
              ltac:(vm_compute; reflexivity) eq_refl) as [H1 H2].
  split; [exact H1|]. apply H2. exact Hc.
Defined.

(** *** Total units against the requested volume *)

Lemma Zsum_perm (l1 l2 : list Z) : Permutation l1 l2 -> Py.Zsum l1 = Py.Zsum l2.
Proof. induction 1; simpl; lia. Qed.

Lemma Zsum_app (l1 l2 : list Z) : Py.Zsum (l1 ++ l2) = (Py.Zsum l1 + Py.Zsum l2)%Z.
Proof. induction l1; simpl; lia. Qed.

(** When the values are whole and non-negative, the units emitted for
    the flows [k, k+1, ...] add up to the sum of their values. *)
Lemma emitted_units_sum (values : var -> option Q) (a : assignment)
      (fl : list ScoredFlow) (k : nat) :
  (forall i, In i (seq k (length fl)) -> values (X i) = Some (a (X i))) ->
  (forall i, In i (seq k (length fl)) -> (0 <= a (X i))%Q) ->
  integral_x a (seq k (length fl)) ->
  (inject_Z (Py.Zsum (map units_allocated
                          (omap (retained values) (combine (seq k (length fl)) fl))))
   == foldr (fun t acc => fst t * a (snd t) + acc) 0
            (map (fun i => (1, X i)) (seq k (length fl))))%Q.
Proof.
  revert k. induction fl as [|f fl IH]; intros k Hv Hpos Hint; simpl; [reflexivity|].
  assert (Hk : In k (seq k (S (length fl)))) by (simpl; now left).
  assert (Hsub : forall i, In i (seq (S k) (length fl)) -> In i (seq k (S (length fl))))
    by (intros i Hi; simpl; now right).
  specialize (IH (S k) (fun i Hi => Hv i (Hsub i Hi)) (fun i Hi => Hpos i (Hsub i Hi))
                 (fun i Hi => Hint i (Hsub i Hi))).
  unfold retained at 1. simpl. rewrite (Hv k Hk).
  destruct (Hint k Hk) as [z Hz]. pose proof (Hpos k Hk) as H0.
  destruct (Py.Qltb (1 # 2) (a (X k))) eqn:E.
  - simpl. rewrite inject_Z_plus, IH, (round_proper _ _ Hz), round_inject_Z, Hz. ring.
  - rewrite IH.
    assert (Hle : (a (X k) <= 1 # 2)%Q).
    { apply Qnot_lt_le. intros Hlt. apply Qltb_lt in Hlt. congruence. }
    assert (Hz0 : z = 0%Z).
    { rewrite Hz in Hle, H0. unfold Qle in *. simpl in *. lia. }
    subst z. rewrite Hz. ring.
Qed.

(** When the engine's Optimal answer satisfies the posted constraints and
    is whole on every flow, the emitted units add up to the volume. *)
Lemma chosen_units_meet_demand
      (cbc : engine) (data : SupplyChainData) (category country : string)
      (volume cost_weight time_weight regional_weight min_batch : Z)
      (r : SolverResult) (log : engine_log) :
  solve cbc data category country volume cost_weight time_weight regional_weight min_batch
  = Py.Ok (r, log) ->
  status r = "Optimal" ->
  answers_integrally cbc log ->
  Py.Zsum (map units_allocated (chosen_flows r)) = volume.
Proof.
  intros Hs Hst Hc.
  destruct (solve_inv _ _ _ _ _ _ _ _ _ _ _ Hs) as (col & _ & Hout).
  inversion Hout; subst; simpl in Hst;
    try (exfalso; pose proof (status_strings_distinct cap volume LpStatusOptimal);
         simpl in *; intuition congruence);
    try discriminate.
  - exfalso. destruct (sol_status (cbc solver_command prob)); simpl in Hst; congruence.
  - destruct (Hc solver_command prob (or_introl eq_refl)) as (a & Hrep & Hfeas & Hint);
      [assumption|].
    cbn [chosen_flows].
    rewrite (Zsum_perm _ _ (Permutation_map units_allocated (sort_chosen_perm _))).
    subst ex. rewrite extract_chosen.
    enough (E : Py.Zsum (map units_allocated
                             (omap (retained (varValue (cbc solver_command prob)))
                                   (Py.enumerate flows))) = volume) by exact E.
    subst prob. unfold posted_problem in *. fold flows in Hrep, Hfeas |- *.
    pose proof (feasible_meet_demand _ _ _ _ _ _ Hfeas) as Hd.
    pose proof (emitted_units_sum
                  (varValue (cbc solver_command
                                 (build_problem flows (get_factory_capacity data category)
                                                (get_hub_throughput data) volume min_batch)))
                  a flows 0
                  (fun i Hi => reports_x _ _ _ _ _ _ _ i Hrep Hi)
                  (fun i Hi => feasible_x_nonneg _ _ _ _ _ _ Hfeas i Hi)
                  (fun i _ => Hint i)) as Hsum.
    unfold eval, lpSum_x, flow_ids in Hd. simpl in Hd.
    unfold Py.enumerate.
    rewrite <- Hsum in Hd.
    unfold Qeq in Hd. simpl in Hd. lia.
Qed.

(** [total_units] accumulates the units of the entries. *)
Lemma total_units_sum
      (cbc : engine) (data : SupplyChainData) (category country : string)
      (volume cost_weight time_weight regional_weight min_batch : Z)
      (r : SolverResult) (log : engine_log) :
  solve cbc data category country volume cost_weight time_weight regional_weight min_batch
  = Py.Ok (r, log) ->
  total_units r = Py.Zsum (map units_allocated (chosen_flows r)).
Proof.
  intros Hs.
  destruct (solve_inv _ _ _ _ _ _ _ _ _ _ _ Hs) as (col & _ & Hout).
  inversion Hout; subst; simpl; try reflexivity.
  rewrite (Zsum_perm _ _ (Permutation_map units_allocated (sort_chosen_perm _))).
  subst ex. now rewrite extract_units, extract_chosen.
Qed.

(** C1.  For every request on which [solve] returns the status Optimal,
    the units of the returned entries add up to the requested volume and
    [total_units] equals it, although every entry is rounded on its own,
    for an engine whose Optimal answer satisfies the constraints it was
    given and is whole on every flow: rounding then leaves every value
    as it is, and dropping the values up to 0.5 drops zeros only. *)
Theorem total_units_equal_volume_when_integral
      (cbc : engine) (data : SupplyChainData) (category country : string)
      (volume cost_weight time_weight regional_weight min_batch : Z)
      (r : SolverResult) (log : engine_log) :
  solve cbc data category country volume cost_weight time_weight regional_weight min_batch
  = Py.Ok (r, log) ->
  status r = "Optimal" ->
  answers_integrally cbc log ->
  total_units r = volume /\
  Py.Zsum (map units_allocated (chosen_flows r)) = volume.
Proof.
  intros Hs Hst Hc.
  pose proof (chosen_units_meet_demand _ _ _ _ _ _ _ _ _ _ _ Hs Hst Hc) as Hsum.
  split; [|exact Hsum].
  rewrite (total_units_sum _ _ _ _ _ _ _ _ _ _ _ Hs). exact Hsum.
Qed.

(** CAT01 has two routes with identical scores; 3001 units exceed the
    capacity of either factory, and the engine fills one and tops up
    from the other. *)
Lemma total_units_equal_volume_when_integral_witness :
  exists r log,
    solve (Scenario.fixed_engine LpStatusOptimal [2000; 1001]%Q [1; 1]%Q)
          Scenario.data "CAT01" "US" 3001 8 5 3 500 = Py.Ok (r, log) /\
    status r = "Optimal" /\
    answers_integrally (Scenario.fixed_engine LpStatusOptimal [2000; 1001]%Q [1; 1]%Q) log /\
    map units_allocated (chosen_flows r) = [2000; 1001]%Z /\
    total_units r = 3001%Z /\
    Py.Zsum (map units_allocated (chosen_flows r)) = 3001%Z.
Proof.
  eexists _, _.
  match goal with |- ?E /\ _ => assert (Hs : E) by (vm_compute; reflexivity) end.
  split; [exact Hs|]. split; [reflexivity|].
  match goal with
  | |- answers_integrally ?e ?l /\ _ => assert (Hc : answers_integrally e l)
  end.
  { intros cmd prob [E|[]] _. injection E as <- <-.
    exists (Scenario.fixed_assignment [2000; 1001]%Q [1; 1]%Q).
    split; [concrete_reports|]. split; [concrete_feasible|].
    intros [|[|i]]; [exists 2000%Z|exists 1001%Z|exists 0%Z]; reflexivity. }
  split; [exact Hc|]. split; [reflexivity|].
  exact (total_units_equal_volume_when_integral _ _ _ _ _ _ _ _ _ _ _ Hs eq_refl Hc).
Defined.

(** The contract on the engine is needed.  The two CAT01 routes tie, so
    every split of the volume between them solves the posted problem; an
    engine that answered the even split 1500.5 + 1500.5 of 3001 units,
    which meets the demand constraint exactly, would have both values
    rounded to 1500. *)
Lemma even_split_of_odd_volume_rounds_down :
  exists r prob,
    solve (Scenario.fixed_engine LpStatusOptimal [3001 # 2; 3001 # 2]%Q [1; 1]%Q)
          Scenario.data "CAT01" "US" 3001 8 5 3 500
    = Py.Ok (r, [(solver_command, prob)]) /\
    status r = "Optimal" /\
    map units_allocated (chosen_flows r) = [1500; 1500]%Z /\
    total_units r = 3000%Z /\
    reports (Scenario.fixed_engine LpStatusOptimal [3001 # 2; 3001 # 2]%Q [1; 1]%Q
                                   solver_command prob)
            prob (Scenario.fixed_assignment [3001 # 2; 3001 # 2]%Q [1; 1]%Q) /\
    optimal prob (Scenario.fixed_assignment [3001 # 2; 3001 # 2]%Q [1; 1]%Q).
Proof.
  eexists _, _. split; [vm_compute; reflexivity|].
  split; [reflexivity|]. split; [reflexivity|]. split; [reflexivity|].
  split; [concrete_reports|].
  split; [concrete_feasible|].
  intros a' _. unfold eval. simpl. lra.
Qed.

(** ** The ranker *)

(** [round] and [round(x, n)] are monotone. *)
Lemma round_le_floor_succ (q : Q) : (Py.round q <= Qfloor q + 1)%Z.
Proof.
  unfold Py.round. destruct (Qcompare _ _); [destruct (Z.even _)|..]; lia.
Qed.

Lemma round_mono (p q : Q) : (p <= q)%Q -> (Py.round p <= Py.round q)%Z.
Proof.
  intros Hpq. pose proof (Qfloor_resp_le _ _ Hpq) as Hf.
  destruct (Z.eq_dec (Qfloor p) (Qfloor q)) as [E|E].
  - unfold Py.round. rewrite E.
    destruct (Qcompare_spec (p - inject_Z (Qfloor q)) (1 # 2)) as [Hp|Hp|Hp];
      destruct (Qcompare_spec (q - inject_Z (Qfloor q)) (1 # 2)) as [Hq|Hq|Hq];
      try destruct (Z.even (Qfloor q)); try lia; exfalso; lra.
  - pose proof (round_le_floor_succ p). pose proof (round_floor_le q). lia.
Qed.

Lemma round_to_mono (n : nat) (p q : Q) :
  (p <= q)%Q -> (Py.round_to n p <= Py.round_to n q)%Q.
Proof.
  intros Hpq. unfold Py.round_to.
  assert (Hs : (0 < inject_Z (10 ^ Z.of_nat n))%Q).
  { rewrite <- (Zlt_Qlt 0). apply Z.pow_pos_nonneg; lia. }
  apply Qmult_le_compat_r.
  - rewrite <- Zle_Qle. apply round_mono. apply Qmult_le_compat_r; [exact Hpq|].
    now apply Qlt_le_weak.
  - apply Qlt_le_weak. now apply Qinv_lt_0_compat.
Qed.

Lemma tier2_step_entry (data : SupplyChainData) (used : gset string)
      (t2 : list Tier2Entry) (row : RankedFlow) :
  tier2_step data (used, t2) row
  = ({[rf_factory_id row]} ∪ used, (t2 ++ [tier2_entry data (length t2) row])%list).
Proof. reflexivity. Qed.

Lemma tier2_fold (data : SupplyChainData) (l : list RankedFlow)
      (used : gset string) (t2 : list Tier2Entry) :
  snd (foldl (tier2_step data) (used, t2) l)
  = (t2 ++ imap (fun i => tier2_entry data (length t2 + i)) l)%list /\
  forall x, x ∈ fst (foldl (tier2_step data) (used, t2) l)
            <-> x ∈ used \/ In x (map rf_factory_id l).
Proof.
  revert used t2. induction l as [|row l IH]; intros used t2; cbn [foldl].
  - simpl. rewrite app_nil_r. split; [reflexivity|]. intros x. tauto.
  - rewrite tier2_step_entry.
    destruct (IH ({[rf_factory_id row]} ∪ used)
                 (t2 ++ [tier2_entry data (length t2) row])%list) as [IH1 IH2].
    split.
    + rewrite IH1, <- app_assoc. cbn [app imap]. rewrite Nat.add_0_r.
      do 2 f_equal. apply imap_ext. intros i x _. cbn.
      rewrite length_app. cbn. f_equal. lia.
    + intros x. rewrite IH2. cbn [map]. rewrite elem_of_union, elem_of_singleton.
      cbn [In]. intuition congruence.
Qed.

(** What [rank_flows] returns on a non-empty frame. *)
Lemma rank_flows_inv `{DataFrameSort} result data country wc wt wr category ranked :
  rank_flows result data country wc wt wr category = Py.Ok ranked ->
  feasible_flows result <> [] ->
  exists scores (used : gset string),
    _compute_composite_scores (feasible_flows result) data country wc wt wr = Py.Ok scores /\
    let remaining := remaining_rows result scores in
    let candidates :=
      List.filter (fun r => negb (bool_decide (rf_factory_id r ∈ used))) remaining in
    let best := match candidates with
                | [] => []
                | _ :: _ => Py.drop_duplicates rf_factory_id ∅
                              (sort_values composite_score candidates)
                end in
    let tier3_ids : gset string := list_to_set (map rf_factory_id best) in
    (forall x, x ∈ used <-> In x (map cf_factory_id (chosen_flows result)) \/
                            In x (map rf_factory_id (firstn 3 remaining))) /\
    r_chosen_flows ranked = map (tier1_entry data) (chosen_flows result) /\
    other_available ranked = imap (tier2_entry data) (firstn 3 remaining) /\
    alternative_factories ranked
    = (map (tier3_available data) best
       ++ match category with
          | None => []
          | Some cat =>
              map (tier3_blocked data country
                     (List.filter (fun r => String.eqb (category_id r) cat
                                            && String.eqb (country_code r) country)
                                  (all_flows data)))
                  (Py.sorted_by String.leb
                     (elements ((list_to_set (map fa_factory_id (factories data))
                                 : gset string) ∖ used ∖ tier3_ids)))
          end)%list.
Proof.
  unfold rank_flows. intros Hr Hne.
  destruct (feasible_flows result) as [|f0 fl] eqn:Ef; [congruence|].
  destruct (_compute_composite_scores (f0 :: fl) data country wc wt wr) as [scores|e];
    simpl in Hr; [|discriminate].
  exists scores.
  unfold remaining_rows, ranked_rows, not_chosen, chosen_pairs. rewrite Ef.
  match type of Hr with
  | context [foldl (tier2_step data) (∅, []) ?l] =>
      destruct (tier2_fold data l ∅ []) as [Ht2 Hused];
      destruct (foldl (tier2_step data) (∅, []) l) as [t2used t2] eqn:Efold
  end.
  simpl in Ht2, Hused. 
  exists (list_to_set (map cf_factory_id (chosen_flows result)) ∪ t2used).
  split; [reflexivity|].
  injection Hr as <-. cbn zeta. simpl.
  split; [|split; [reflexivity|split; [exact Ht2|reflexivity]]].
  intros x. rewrite elem_of_union, elem_of_list_to_set, list_elem_of_In, Hused.
  rewrite elem_of_empty. tauto.
Qed.

(** *** Tier 2 *)

Lemma imap_tier2_from (data : SupplyChainData) (k : nat) (l : list RankedFlow) :
  imap (fun i => tier2_entry data (k + i)) l
  = map (fun p => tier2_entry data (fst p) (snd p)) (combine (seq k (length l)) l).
Proof.
  revert k. induction l as [|row l IH]; intros k; [reflexivity|].
  cbn [imap length seq combine map]. rewrite Nat.add_0_r. f_equal.
  rewrite <- (IH (S k)). apply imap_ext. intros i x _. cbn. f_equal. lia.
Qed.

Lemma imap_tier2 (data : SupplyChainData) (l : list RankedFlow) :
  imap (tier2_entry data) l
  = map (fun p => tier2_entry data (fst p) (snd p)) (combine (seq 0 (length l)) l).
Proof. apply (imap_tier2_from data 0 l). Qed.

Lemma combine_seq_fst {A} (k : nat) (l : list A) :
  map fst (combine (seq k (length l)) l) = seq k (length l).
Proof. revert k. induction l as [|a l IH]; intros k; simpl; [reflexivity|]. now rewrite IH. Qed.

Lemma combine_seq_snd {A} (k : nat) (l : list A) :
  map snd (combine (seq k (length l)) l) = l.
Proof. revert k. induction l as [|a l IH]; intros k; simpl; [reflexivity|]. now rewrite IH. Qed.

Lemma tier2_ranks (data : SupplyChainData) (l : list RankedFlow) :
  map rank (imap (tier2_entry data) l)
  = map (fun i => Z.of_nat i + 2)%Z (seq 0 (length l)).
Proof.
  rewrite imap_tier2, map_map.
  transitivity (map (fun i => Z.of_nat i + 2)%Z (map fst (combine (seq 0 (length l)) l))).
  - now rewrite map_map.
  - now rewrite combine_seq_fst.
Qed.

Lemma tier2_scores (data : SupplyChainData) (l : list RankedFlow) :
  map t2_composite_score (imap (tier2_entry data) l)
  = map (fun r => Py.round_to 4 (composite_score r)) l.
Proof.
  rewrite imap_tier2, map_map.
  transitivity (map (fun r => Py.round_to 4 (composite_score r))
                    (map snd (combine (seq 0 (length l)) l))).
  - now rewrite map_map.
  - now rewrite combine_seq_snd.
Qed.

Lemma tier2_entries (data : SupplyChainData) (P : Tier2Entry -> Prop) (l : list RankedFlow) :
  (forall i row, In row l -> P (tier2_entry data i row)) ->
  Forall P (imap (tier2_entry data) l).
Proof.
  intros HP. rewrite imap_tier2. apply List.Forall_forall. intros e He.
  apply in_map_iff in He. destruct He as ([i row] & <- & Hin).
  apply HP. eapply in_combine_r. exact Hin.
Qed.

Lemma length_imap_tier2 (data : SupplyChainData) (l : list RankedFlow) :
  length (imap (tier2_entry data) l) = length l.
Proof. apply length_imap. Qed.

Lemma StronglySorted_app_l {A} (R : A -> A -> Prop) (l1 l2 : list A) :
  StronglySorted R (l1 ++ l2) -> StronglySorted R l1.
Proof.
  induction l1 as [|a l1 IH]; intros Hs; [constructor|].
  simpl in Hs. inversion Hs as [|? ? Hs' Hall]; subst.
  constructor; [now apply IH|].
  apply List.Forall_app in Hall. tauto.
Qed.

Lemma StronglySorted_map {A B} (R : A -> A -> Prop) (S : B -> B -> Prop)
      (g : A -> B) (l : list A) :
  (forall a b, R a b -> S (g a) (g b)) ->
  StronglySorted R l -> StronglySorted S (map g l).
Proof.
  intros Hg. induction 1 as [|a l Hs IH Hall]; simpl; constructor; [exact IH|].
  apply List.Forall_map. eapply List.Forall_impl; [|exact Hall]. intros b. apply Hg.
Qed.

Lemma ranked_rows_feasible (result : SolverResult) (scores : list Q) (row : RankedFlow) :
  In row (ranked_rows result scores) -> In (rf_flow row) (feasible_flows result).
Proof.
  unfold ranked_rows. intros H. apply in_map_iff in H.
  destruct H as ([f s] & <- & Hin). simpl. eapply in_combine_l. exact Hin.
Qed.

Lemma not_chosen_spec (result : SolverResult) (row : RankedFlow) :
  not_chosen result row = true <->
  ~ In (rf_factory_id row, rf_hub_id row) (chosen_pairs result).
Proof.
  unfold not_chosen. rewrite negb_true_iff, bool_decide_eq_false.
  now rewrite elem_of_list_to_set, list_elem_of_In.
Qed.

Lemma remaining_rows_perm `{DataFrameSort} (result : SolverResult) (scores : list Q) :
  Permutation (remaining_rows result scores)
              (List.filter (not_chosen result) (ranked_rows result scores)).
Proof. apply sort_values_perm. Qed.

Lemma remaining_rows_in `{DataFrameSort} (result : SolverResult) (scores : list Q)
      (row : RankedFlow) :
  In row (remaining_rows result scores) <->
  In row (ranked_rows result scores) /\
  ~ In (rf_factory_id row, rf_hub_id row) (chosen_pairs result).
Proof.
  rewrite <- not_chosen_spec, <- filter_In.
  split; apply Permutation_in;
    [apply remaining_rows_perm | symmetry; apply remaining_rows_perm].
Qed.

Lemma In_firstn {A} (n : nat) (l : list A) (a : A) : In a (firstn n l) -> In a l.
Proof.
  intros H. rewrite <- (firstn_skipn n l). apply in_or_app. now left.
Qed.

(** The rows of Tier 2: the first three of the feasible flows outside
    Tier 1, arranged by non-decreasing score. *)
Lemma tier2_selection
      `{DataFrameSort} (result : SolverResult) (data : SupplyChainData)
      (country : string) (wc wt wr : Z) (category : option string) (ranked : Ranked) :
  rank_flows result data country wc wt wr category = Py.Ok ranked ->
  feasible_flows result <> [] ->
  exists scores picked rest,
    _compute_composite_scores (feasible_flows result) data country wc wt wr
    = Py.Ok scores /\
    Permutation (picked ++ rest)
                (List.filter (not_chosen result) (ranked_rows result scores)) /\
    StronglySorted (fun a b => (composite_score a <= composite_score b)%Q) (picked ++ rest) /\
    length picked = Nat.min 3 (length (picked ++ rest)) /\
    other_available ranked = imap (tier2_entry data) picked.
Proof.
  intros Hr Hne.
  destruct (rank_flows_inv _ _ _ _ _ _ _ _ Hr Hne)
    as (scores & used & Hsc & _ & _ & Ht2 & _).
  exists scores, (firstn 3 (remaining_rows result scores)),
    (skipn 3 (remaining_rows result scores)).
  rewrite firstn_skipn.
  split; [exact Hsc|]. split; [apply remaining_rows_perm|].
  split; [apply sort_values_sorted|]. split; [apply length_firstn|exact Ht2].
Qed.

(** C8, amended.  Tier 2 is built from feasible flows whose (origin, hub)
    pair is not in Tier 1, has at most three entries, carries the ranks
    2, 3, 4 in order, and is sorted by non-decreasing composite score: its
    rows are the first three rows, in a non-decreasing arrangement by
    score, of the feasible flows outside Tier 1, so two entries may carry
    the same score. *)
Theorem tier2_capped_ranked_and_sorted
        `{DataFrameSort} (result : SolverResult) (data : SupplyChainData)
        (country : string) (cost_weight time_weight regional_weight : Z)
        (category : option string) (ranked : Ranked) :
  rank_flows result data country cost_weight time_weight regional_weight category
  = Py.Ok ranked ->
  (length (other_available ranked) <= 3)%nat /\
  Forall (fun e =>
            (exists f, In f (feasible_flows result) /\
                       factory_id (sf_row f) = t2_factory_id e /\
                       hub_id (sf_row f) = t2_hub_id e) /\
            ~ In (t2_factory_id e, t2_hub_id e) (chosen_pairs result))
         (other_available ranked) /\
  map rank (other_available ranked)
  = map (fun i => Z.of_nat i + 2)%Z (seq 0 (length (other_available ranked))) /\
  StronglySorted Qle (map t2_composite_score (other_available ranked)) /\
  (feasible_flows result <> [] ->
   exists scores picked rest,
     _compute_composite_scores (feasible_flows result) data country
                               cost_weight time_weight regional_weight = Py.Ok scores /\
     Permutation (picked ++ rest)
                 (List.filter (not_chosen result) (ranked_rows result scores)) /\
     StronglySorted (fun a b => (composite_score a <= composite_score b)%Q) (picked ++ rest) /\
     length picked = Nat.min 3 (length (picked ++ rest)) /\
     other_available ranked = imap (tier2_entry data) picked).
Proof.
  intros Hr.
  destruct (feasible_flows result) as [|f0 fl] eqn:Ef.
  - unfold rank_flows in Hr. rewrite Ef in Hr. injection Hr as <-. simpl.
    repeat split; try constructor; try lia; congruence.
  - assert (Hne : feasible_flows result <> []) by congruence.
    rewrite <- Ef.
    destruct (tier2_selection _ _ _ _ _ _ _ _ Hr Hne)
      as (scores & picked & rest & Hsc & Hperm & Hsorted & Hlen & Ht2).
    rewrite Ht2.
    split; [rewrite length_imap_tier2, Hlen; lia|].
    split.
    { apply tier2_entries. intros i row Hin.
      assert (Hrow : In row (List.filter (not_chosen result) (ranked_rows result scores))).
      { eapply Permutation_in; [exact Hperm|]. apply in_or_app. now left. }
      apply filter_In in Hrow. destruct Hrow as [Hrow Hnc].
      apply not_chosen_spec in Hnc. split.
      - exists (rf_flow row). split; [now apply (ranked_rows_feasible result scores)|].
        split; reflexivity.
      - exact Hnc. }
    split; [rewrite tier2_ranks, length_imap_tier2; reflexivity|].
    split.
    { rewrite tier2_scores.
      apply (StronglySorted_map
               (fun a b => (composite_score a <= composite_score b)%Q)).
      - intros a b. apply round_to_mono.
      - apply (StronglySorted_app_l _ _ rest). exact Hsorted. }
    intros _. exists scores, picked, rest. tauto.
Qed.

(** The run used for the ranker: 1000 units of CAT02, all of them on the
    cheapest route. *)
Lemma tier2_capped_ranked_and_sorted_witness :
  exists r log ranked,
    solve (Scenario.fixed_engine LpStatusOptimal [1000; 0; 0]%Q [1; 0; 0]%Q)
          Scenario.data "CAT02" "US" 1000 8 5 3 500 = Py.Ok (r, log) /\
    rank_flows r Scenario.data "US" 8 5 3 (Some "CAT02") = Py.Ok ranked /\
    (length (other_available ranked) <= 3)%nat /\
    map rank (other_available ranked) = [2; 3]%Z /\
    StronglySorted Qle (map t2_composite_score (other_available ranked)).
Proof.
  eexists _, _, _. split; [vm_compute; reflexivity|].
  match goal with
  | |- ?E /\ _ => assert (Hr : E) by (vm_compute; reflexivity)
  end.
  split; [exact Hr|].
  destruct (tier2_capped_ranked_and_sorted _ _ _ _ _ _ _ _ Hr) as (H1 & _ & H3 & H4 & _).
  split; [exact H1|]. split; [exact H3|exact H4].
Defined.

(** C8, as stated, asks for strictly ascending scores.  The two
    alternatives of the CAT02 run have the same cost, transit time and
    region, hence the same score. *)
Lemma tier2_scores_can_tie :
  exists r log ranked s,
    solve (Scenario.fixed_engine LpStatusOptimal [1000; 0; 0]%Q [1; 0; 0]%Q)
          Scenario.data "CAT02" "US" 1000 8 5 3 500 = Py.Ok (r, log) /\
    rank_flows r Scenario.data "US" 8 5 3 (Some "CAT02") = Py.Ok ranked /\
    map t2_composite_score (other_available ranked) = [s; s] /\
    ~ StronglySorted Qlt (map t2_composite_score (other_available ranked)).
Proof.
  eexists _, _, _, _. split; [vm_compute; reflexivity|].
  split; [vm_compute; reflexivity|].
  split; [vm_compute; reflexivity|].
  intros Hs. vm_compute in Hs.
  inversion Hs as [|? ? _ Hall]; subst.
  inversion Hall as [|? ? Hlt _]; subst.
  vm_compute in Hlt. discriminate Hlt.
Qed.

(** The tie does not depend on how the sort arranges equal keys: with any
    [sort_values], the two alternatives carry equal scores. *)
Lemma tier2_scores_tie_for_every_sort (S : DataFrameSort) :
  exists r log,
    solve (Scenario.fixed_engine LpStatusOptimal [1000; 0; 0]%Q [1; 0; 0]%Q)
          Scenario.data "CAT02" "US" 1000 8 5 3 500 = Py.Ok (r, log) /\
    forall ranked,
      @rank_flows S r Scenario.data "US" 8 5 3 (Some "CAT02") = Py.Ok ranked ->
      ~ StronglySorted Qlt (map t2_composite_score (other_available ranked)).
Proof.
  eexists _, _. split; [vm_compute; reflexivity|].
  intros ranked Hr.
  match type of Hr with
  | rank_flows ?r _ _ _ _ _ _ = _ =>
      destruct (tier2_selection r _ _ _ _ _ _ _ Hr)
        as (scores & picked & rest & Hsc & Hperm & _ & Hlen & Ht2);
        [discriminate|]
  end.
  vm_compute in Hsc. injection Hsc as <-.
  assert (Hp : length (picked ++ rest) = 2%nat).
  { rewrite (Permutation_length Hperm). reflexivity. }
  rewrite Hp in Hlen. simpl in Hlen.
  assert (Hrest : rest = []).
  { rewrite length_app, Hlen in Hp. destruct rest; [reflexivity|simpl in Hp; lia]. }
  subst rest. rewrite app_nil_r in Hperm.
  assert (Hall : Forall (fun row => (composite_score row == 13 # 16)%Q) picked).
  { eapply Permutation_Forall; [symmetry; exact Hperm|].
    vm_compute. repeat constructor. }
  destruct picked as [|a [|b [|c picked]]]; simpl in Hlen; try discriminate.
  rewrite Ht2. cbn [imap map t2_composite_score tier2_entry].
  inversion Hall as [|? ? Ha Hall']; subst. inversion Hall' as [|? ? Hb _]; subst.
  intros Hs. inversion Hs as [|? ? _ Hlt]; subst.
  inversion Hlt as [|? ? Hab _]; subst.
  assert (E : (Py.round_to 4 (composite_score a) <= Py.round_to 4 (composite_score b))%Q
              /\ (Py.round_to 4 (composite_score b) <= Py.round_to 4 (composite_score a))%Q).
  { split; apply round_to_mono; rewrite Ha, Hb; apply Qle_refl. }
  destruct E as [_ E]. apply (Qlt_not_le _ _ Hab E).
Qed.

(** *** The tier partition *)

Section DropDuplicates.
Context {A : Type} (key : A -> string).

Lemma drop_duplicates_in (seen : gset string) (l : list A) (a : A) :
  In a (Py.drop_duplicates key seen l) -> In a l /\ key a ∉ seen.
Proof.
  revert seen. induction l as [|b l IH]; intros seen; simpl; [tauto|].
  destruct (bool_decide_reflect (key b ∈ seen)) as [Hb|Hb].
  - intros H. apply IH in H. tauto.
  - intros [<-|H]; [tauto|]. apply IH in H. destruct H as [H1 H2].
    split; [tauto|]. intros Hx. apply H2. apply elem_of_union. now right.
Qed.

Lemma drop_duplicates_NoDup (seen : gset string) (l : list A) :
  NoDup (map key (Py.drop_duplicates key seen l)).
Proof.
  revert seen. induction l as [|b l IH]; intros seen; simpl; [constructor|].
  destruct (bool_decide_reflect (key b ∈ seen)) as [Hb|Hb]; [apply IH|].
  simpl. constructor; [|apply IH].
  rewrite list_elem_of_In. intros H. apply in_map_iff in H.
  destruct H as (a & Ha & Hin). apply drop_duplicates_in in Hin.
  destruct Hin as [_ Hin]. apply Hin. apply elem_of_union. left.
  apply elem_of_singleton. congruence.
Qed.

Lemma drop_duplicates_complete (seen : gset string) (l : list A) (a : A) :
  In a l -> key a ∈ seen \/ In (key a) (map key (Py.drop_duplicates key seen l)).
Proof.
  revert seen. induction l as [|b l IH]; intros seen; simpl; [tauto|].
  intros [<-|H].
  - destruct (bool_decide_reflect (key b ∈ seen)) as [Hb|Hb]; [now left|].
    right. simpl. now left.
  - destruct (bool_decide_reflect (key b ∈ seen)) as [Hb|Hb]; [now apply IH|].
    destruct (IH ({[key b]} ∪ seen) H) as [Hs|Hs].
    + apply elem_of_union in Hs. destruct Hs as [Hs|Hs]; [|now left].
      apply elem_of_singleton in Hs. right. simpl. left. congruence.
    + right. simpl. now right.
Qed.
End DropDuplicates.

Lemma tier2_origin_ids (data : SupplyChainData) (l : list RankedFlow) :
  map t2_factory_id (imap (tier2_entry data) l) = map rf_factory_id l.
Proof.
  rewrite imap_tier2, map_map.
  transitivity (map rf_factory_id (map snd (combine (seq 0 (length l)) l))).
  - now rewrite map_map.
  - now rewrite combine_seq_snd.
Qed.

Lemma tier2_pairs (data : SupplyChainData) (l : list RankedFlow) :
  map (fun e => (t2_factory_id e, t2_hub_id e)) (imap (tier2_entry data) l)
  = map (fun r => (rf_factory_id r, rf_hub_id r)) l.
Proof.
  rewrite imap_tier2, map_map.
  transitivity (map (fun r => (rf_factory_id r, rf_hub_id r))
                    (map snd (combine (seq 0 (length l)) l))).
  - now rewrite map_map.
  - now rewrite combine_seq_snd.
Qed.

Lemma tier3_blocked_id `{DataFrameSort} data country flows fid :
  t3_factory_id (tier3_blocked data country flows fid) = fid.
Proof. unfold tier3_blocked. now destruct (sort_values _ _). Qed.

Lemma composite_scores_length flows data country wc wt wr scores :
  _compute_composite_scores flows data country wc wt wr = Py.Ok scores ->
  length scores = length flows.
Proof.
  unfold _compute_composite_scores, Py.truediv.
  destruct (Z.eqb _ 0); simpl; [discriminate|].
  intros H. injection H as <-. now rewrite length_map.
Qed.

Lemma ranked_rows_cover (result : SolverResult) (scores : list Q) (f : ScoredFlow) :
  length scores = length (feasible_flows result) ->
  In f (feasible_flows result) ->
  exists row, In row (ranked_rows result scores) /\ rf_flow row = f.
Proof.
  unfold ranked_rows. generalize (feasible_flows result). intros fl. revert scores.
  induction fl as [|g fl IH]; intros [|s scores] Hlen Hin; simpl in *;
    try discriminate; try contradiction.
  destruct Hin as [<-|Hin].
  - eexists. split; [left; reflexivity|reflexivity].
  - destruct (IH scores ltac:(lia) Hin) as (row & Hrow & E). eauto.
Qed.

(** C2, amended.  The origins of Tier 3 are pairwise distinct and occur
    neither in Tier 1 nor in Tier 2; Tier 1 and Tier 2 are disjoint by
    (origin, hub) pair (an origin of Tier 1 may return in Tier 2 through
    another hub); every origin of the feasible flow set occurs in some
    tier; and on a non-empty feasible set with a category context, every
    catalog origin occurs in some tier. *)
Theorem tiers_partition_origins
        `{DataFrameSort} (result : SolverResult) (data : SupplyChainData)
        (country : string) (cost_weight time_weight regional_weight : Z)
        (category : option string) (ranked : Ranked) :
  rank_flows result data country cost_weight time_weight regional_weight category
  = Py.Ok ranked ->
  (forall x, In x (tier3_origins ranked) ->
             ~ In x (tier1_origins ranked) /\ ~ In x (tier2_origins ranked)) /\
  NoDup (tier3_origins ranked) /\
  (forall e1 e2,
      In e1 (r_chosen_flows ranked) -> In e2 (other_available ranked) ->
      (cf_factory_id (t1_flow e1), cf_hub_id (t1_flow e1))
      <> (t2_factory_id e2, t2_hub_id e2)) /\
  (forall f, In f (feasible_flows result) ->
             In (factory_id (sf_row f))
                (tier1_origins ranked ++ tier2_origins ranked ++ tier3_origins ranked)) /\
  (feasible_flows result <> [] -> category <> None ->
   forall row, In row (factories data) ->
               In (fa_factory_id row)
                  (tier1_origins ranked ++ tier2_origins ranked ++ tier3_origins ranked)).
Proof.
  intros Hr.
  destruct (feasible_flows result) as [|f0 fl] eqn:Ef.
  { unfold rank_flows in Hr. rewrite Ef in Hr. injection Hr as <-.
    unfold tier1_origins, tier2_origins, tier3_origins. simpl.
    repeat split; try tauto; try constructor; congruence. }
  assert (Hne : feasible_flows result <> []) by congruence.
  rewrite <- Ef. clear Ef f0 fl.
  destruct (rank_flows_inv _ _ _ _ _ _ _ _ Hr Hne)
    as (scores & used & Hsc & Hused & Ht1 & Ht2 & Ht3).
  pose proof (composite_scores_length _ _ _ _ _ _ _ Hsc) as Hlen.
  set (rem := remaining_rows result scores) in *.
  set (cand := List.filter (fun r => negb (bool_decide (rf_factory_id r ∈ used))) rem) in *.
  set (best := match cand with
               | [] => []
               | _ :: _ => Py.drop_duplicates rf_factory_id ∅
                             (sort_values composite_score cand)
               end) in *.
  set (blocked_ids :=
         match category with
         | None => []
         | Some cat =>
             Py.sorted_by String.leb
               (elements (((list_to_set (map fa_factory_id (factories data)) : gset string)
                             ∖ used) ∖ (list_to_set (map rf_factory_id best))))
         end).
  (* the origin ids of the three tiers *)
  assert (E1 : tier1_origins ranked = map cf_factory_id (chosen_flows result)).
  { unfold tier1_origins. rewrite Ht1, map_map. reflexivity. }
  assert (E2 : tier2_origins ranked = map rf_factory_id (firstn 3 rem)).
  { unfold tier2_origins. rewrite Ht2. apply tier2_origin_ids. }
  assert (E3 : tier3_origins ranked = (map rf_factory_id best ++ blocked_ids)%list).
  { unfold tier3_origins. rewrite Ht3, map_app, map_map. f_equal.
    unfold blocked_ids. destruct category as [cat|]; [|reflexivity].
    rewrite map_map. erewrite map_ext; [apply map_id|].
    intros fid. apply tier3_blocked_id. }
  assert (Hused' : forall x, x ∈ used <->
                             In x (tier1_origins ranked) \/ In x (tier2_origins ranked)).
  { intros x. rewrite E1, E2. apply Hused. }
  (* the available part of Tier 3 *)
  assert (Hbest_in : forall row, In row best -> In row cand).
  { intros row Hrow. unfold best in Hrow. destruct cand as [|c0 cl] eqn:Ec;
      [contradiction|].
    apply drop_duplicates_in in Hrow. destruct Hrow as [Hrow _].
    eapply Permutation_in; [apply sort_values_perm|exact Hrow]. }
  assert (Hcand : forall row, In row cand <-> In row rem /\ rf_factory_id row ∉ used).
  { intros row. unfold cand. rewrite filter_In, negb_true_iff, bool_decide_eq_false.
    reflexivity. }
  assert (Hbest_unused : forall x, In x (map rf_factory_id best) -> x ∉ used).
  { intros x Hx. apply in_map_iff in Hx. destruct Hx as (row & <- & Hrow).
    apply Hbest_in, Hcand in Hrow. tauto. }
  assert (Hbest_nodup : NoDup (map rf_factory_id best)).
  { unfold best. destruct cand; [constructor|]. apply drop_duplicates_NoDup. }
  assert (Hbest_complete : forall row, In row cand -> In (rf_factory_id row)
                                                        (map rf_factory_id best)).
  { intros row Hrow. unfold best. destruct cand as [|c0 cl] eqn:Ec; [contradiction|].
    destruct (drop_duplicates_complete rf_factory_id ∅
                (sort_values composite_score (c0 :: cl)) row) as [Hs|Hs].
    - eapply Permutation_in; [symmetry; apply sort_values_perm|exact Hrow].
    - now apply elem_of_empty in Hs.
    - exact Hs. }
  (* the blocked part of Tier 3 *)
  assert (Hblocked : forall x, In x blocked_ids <->
                               category <> None /\
                               In x (map fa_factory_id (factories data)) /\
                               (x ∉ used) /\ ~ In x (map rf_factory_id best)).
  { intros x. unfold blocked_ids. destruct category as [cat|].
    - transitivity (In x (elements
                            (((list_to_set (map fa_factory_id (factories data))
                               : gset string) ∖ used)
                               ∖ (list_to_set (map rf_factory_id best))))).
      { split; apply Permutation_in;
          [apply sorted_by_perm | symmetry; apply sorted_by_perm]. }
      rewrite <- list_elem_of_In, elem_of_elements, !elem_of_difference,
        !elem_of_list_to_set, !list_elem_of_In.
      intuition congruence.
    - simpl. intuition congruence. }
  assert (Hblocked_nodup : NoDup blocked_ids).
  { unfold blocked_ids. destruct category as [cat|]; [|constructor].
    rewrite sorted_by_perm. apply NoDup_elements. }
  split; [|split; [|split; [|split]]].
  - (* Tier 3 is disjoint from Tiers 1 and 2 *)
    intros x Hx. rewrite E3 in Hx. apply in_app_or in Hx.
    assert (Hnot : x ∉ used).
    { destruct Hx as [Hx|Hx]; [now apply Hbest_unused|].
      apply Hblocked in Hx. tauto. }
    rewrite Hused' in Hnot. tauto.
  - (* Tier 3 has no repeated origin *)
    rewrite E3. apply NoDup_app. split; [exact Hbest_nodup|].
    split; [|exact Hblocked_nodup].
    intros x Hx Hb. apply list_elem_of_In in Hx, Hb. apply Hblocked in Hb. tauto.
  - (* Tiers 1 and 2 share no (origin, hub) pair *)
    intros e1 e2 He1 He2 Epair.
    assert (Hp2 : In (t2_factory_id e2, t2_hub_id e2)
                     (map (fun r => (rf_factory_id r, rf_hub_id r)) (firstn 3 rem))).
    { rewrite <- (tier2_pairs data), <- Ht2.
      apply (in_map (fun e => (t2_factory_id e, t2_hub_id e))). exact He2. }
    apply in_map_iff in Hp2. destruct Hp2 as (row & Erow & Hrow).
    apply In_firstn, remaining_rows_in in Hrow. destruct Hrow as [_ Hnc].
    apply Hnc. rewrite Erow, <- Epair. rewrite Ht1 in He1.
    apply in_map_iff in He1. destruct He1 as (cf & <- & Hcf).
    apply (in_map (fun cf => (cf_factory_id cf, cf_hub_id cf))). exact Hcf.
  - (* every feasible origin is in some tier *)
    intros f Hf.
    destruct (ranked_rows_cover result scores f Hlen Hf) as (row & Hrow & <-).
    change (factory_id (sf_row (rf_flow row))) with (rf_factory_id row).
    destruct (not_chosen result row) eqn:Enc.
    + apply not_chosen_spec in Enc.
      assert (Hrem : In row rem) by (apply remaining_rows_in; tauto).
      destruct (decide (rf_factory_id row ∈ used)) as [Hu|Hu].
      * apply Hused' in Hu. rewrite app_assoc. apply in_or_app. left.
        apply in_or_app. exact Hu.
      * apply in_or_app. right. apply in_or_app. right. rewrite E3.
        apply in_or_app. left. apply Hbest_complete. apply Hcand. tauto.
    + unfold not_chosen in Enc.
      rewrite negb_false_iff, bool_decide_eq_true, elem_of_list_to_set,
        list_elem_of_In in Enc.
      apply in_or_app. left. rewrite E1.
      apply in_map_iff in Enc. destruct Enc as (cf & Ecf & Hcf).
      injection Ecf as Ef _. rewrite <- Ef. now apply in_map.
  - (* with a category, every catalog origin is in some tier *)
    intros _ Hcat row Hrow.
    pose proof (in_map fa_factory_id _ _ Hrow) as Hid.
    destruct (decide (fa_factory_id row ∈ used)) as [Hu|Hu].
    + apply Hused' in Hu. rewrite app_assoc. apply in_or_app. left.
      apply in_or_app. exact Hu.
    + apply in_or_app. right. apply in_or_app. right. rewrite E3.
      destruct (in_dec string_dec (fa_factory_id row) (map rf_factory_id best))
        as [Hb|Hb].
      * apply in_or_app. now left.
      * apply in_or_app. right. apply Hblocked. tauto.
Qed.

Lemma tiers_partition_origins_witness :
  exists r log ranked,
    solve (Scenario.fixed_engine LpStatusOptimal [1000; 0; 0]%Q [1; 0; 0]%Q)
          Scenario.data "CAT02" "US" 1000 8 5 3 500 = Py.Ok (r, log) /\
    rank_flows r Scenario.data "US" 8 5 3 (Some "CAT02") = Py.Ok ranked /\
    feasible_flows r <> [] /\
    Some "CAT02" <> None /\
    tier3_origins ranked = ["F_CN_01"; "F_DE_01"; "F_VN_01"] /\
    NoDup (tier3_origins ranked) /\
    (forall x, In x (tier3_origins ranked) ->
               ~ In x (tier1_origins ranked) /\ ~ In x (tier2_origins ranked)) /\
    (forall row, In row (factories Scenario.data) ->
                 In (fa_factory_id row)
                    (tier1_origins ranked ++ tier2_origins ranked ++ tier3_origins ranked)).
Proof.
  eexists _, _, _. split; [vm_compute; reflexivity|].
  match goal with
  | |- ?E /\ _ => assert (Hr : E) by (vm_compute; reflexivity)
  end.
  split; [exact Hr|].
  split; [discriminate|]. split; [discriminate|].
  split; [vm_compute; reflexivity|].
  destruct (tiers_partition_origins _ _ _ _ _ _ _ _ Hr) as (H1 & H2 & _ & _ & H5).
  split; [exact H2|]. split; [exact H1|].
  apply H5; discriminate.
Defined.

(** C2, as stated, asks for pairwise disjoint origin sets.  In the CAT02
    run the chosen route leaves F_US_01 through H_US_01, and the route of
    the same factory through H_US_02 is the first alternative: F_US_01 is
    an origin of Tier 1 and of Tier 2. *)
Lemma tier1_origin_reappears_in_tier2 :
  exists r log ranked,
    solve (Scenario.fixed_engine LpStatusOptimal [1000; 0; 0]%Q [1; 0; 0]%Q)
          Scenario.data "CAT02" "US" 1000 8 5 3 500 = Py.Ok (r, log) /\
    status r = "Optimal" /\
    rank_flows r Scenario.data "US" 8 5 3 None = Py.Ok ranked /\
    tier1_origins ranked = ["F_US_01"] /\
    tier2_origins ranked = ["F_US_01"; "F_US_02"] /\
    In "F_US_01" (tier1_origins ranked) /\ In "F_US_01" (tier2_origins ranked).
Proof.
  eexists _, _, _. split; [vm_compute; reflexivity|].
  split; [reflexivity|].
  split; [vm_compute; reflexivity|].
  split; [reflexivity|]. split; [reflexivity|].
  split; left; reflexivity.
Qed.

(** The engine's answer in that run is an optimal solution of the posted
    problem: the first route has the lowest score and capacity for the
    whole volume. *)
Lemma cat02_run_is_optimal :
  exists r prob,
    solve (Scenario.fixed_engine LpStatusOptimal [1000; 0; 0]%Q [1; 0; 0]%Q)
          Scenario.data "CAT02" "US" 1000 8 5 3 500
    = Py.Ok (r, [(solver_command, prob)]) /\
    optimal prob (Scenario.fixed_assignment [1000; 0; 0]%Q [1; 0; 0]%Q).
Proof.
  eexists _, _. split; [vm_compute; reflexivity|].
  split; [concrete_feasible|].
  intros a' [Hv Hc].
  inversion Hv as [|? ? [H0 _] Hv1]; subst.
  inversion Hv1 as [|? ? [H1 _] Hv2]; subst.
  inversion Hv2 as [|? ? [H2 _] _]; subst.
  unfold eval. simpl in *. lra.
Qed.

(** Without feasible flows the ranker returns three empty lists whatever
    the category context: no catalog origin is listed. *)
Lemma empty_frame_lists_no_origin :
  exists r log,
    solve (Scenario.fixed_engine LpStatusOptimal [] []) Scenario.data "CAT09" "US"
          2000 8 5 3 500 = Py.Ok (r, log) /\
    rank_flows r Scenario.data "US" 8 5 3 (Some "CAT09")
    = Py.Ok {| r_chosen_flows := []; other_available := []; alternative_factories := [] |} /\
    factories Scenario.data <> [].
Proof.
  eexists _, _. split; [vm_compute; reflexivity|].
  split; [reflexivity|discriminate].
Qed.

(** ** The knowledge graph *)

Lemma delivers_tob_spec (g : DiGraph) (u v : string) :
  delivers_tob g u v = true <-> delivers_to g u v.
Proof.
  unfold delivers_tob, delivers_to. destruct (edge g u v) as [attrs|].
  - split; [eauto|]. intros (a & E & H). congruence.
  - split; [discriminate|]. intros (a & E & _). discriminate.
Qed.

Lemma well_formed_empty : well_formed empty_graph.
Proof. split; intros; unfold edge; simpl; rewrite ?lookup_empty; tauto. Qed.

Lemma default_lookup {V} (m : gmap string (gmap string V)) (u v : string) :
  default ∅ (m !! u) !! v = m !! u ≫= (fun nbrs => nbrs !! v).
Proof. destruct (m !! u); simpl; [reflexivity|apply lookup_empty]. Qed.

Lemma well_formed_add_node (g : DiGraph) (n : string) (a : gmap string attr) :
  well_formed g -> well_formed (add_node g n a).
Proof.
  intros [Hn He]. unfold add_node.
  destruct (_succ g !! n) as [m|] eqn:En; [split; assumption|].
  assert (Ep : _pred g !! n = None) by now apply Hn.
  split; unfold edge in *; simpl.
  - intros k. rewrite !lookup_insert. destruct (decide (n = k)); [split; discriminate|].
    apply Hn.
  - intros u v. rewrite !lookup_insert.
    destruct (decide (n = v)) as [Ev|Hv]; destruct (decide (n = u)) as [Eu|Hu];
      subst; simpl; rewrite ?lookup_empty; try reflexivity.
    + specialize (He u v). rewrite Ep in He. simpl in He. exact He.
    + specialize (He u v). rewrite En in He. simpl in He. exact He.
    + apply He.
Qed.

Lemma add_node_present (g : DiGraph) (n k : string) (a : gmap string attr) :
  is_Some (_succ g !! k) -> is_Some (_succ (add_node g n a) !! k).
Proof.
  unfold add_node. destruct (_succ g !! n) eqn:En; simpl; [tauto|].
  rewrite lookup_insert. destruct (decide (n = k)); eauto.
Qed.

Lemma add_node_self (g : DiGraph) (n : string) (a : gmap string attr) :
  is_Some (_succ (add_node g n a) !! n).
Proof.
  unfold add_node. destruct (_succ g !! n) eqn:En; simpl; [eauto|].
  rewrite lookup_insert_eq. eauto.
Qed.

Lemma well_formed_add_edge (g : DiGraph) (u v : string) (a : gmap string attr) :
  well_formed g -> well_formed (add_edge g u v a).
Proof.
  intros Hg. unfold add_edge.
  set (g1 := match _succ g !! u with None => add_node g u ∅ | Some _ => g end).
  set (g2 := match _succ g1 !! v with None => add_node g1 v ∅ | Some _ => g1 end).
  assert (H1 : well_formed g1).
  { unfold g1. destruct (_succ g !! u); [exact Hg|now apply well_formed_add_node]. }
  assert (Hu1 : is_Some (_succ g1 !! u)).
  { unfold g1. destruct (_succ g !! u) eqn:E; [rewrite E; eauto|apply add_node_self]. }
  assert (H2 : well_formed g2).
  { unfold g2. destruct (_succ g1 !! v); [exact H1|now apply well_formed_add_node]. }
  assert (Hu2 : is_Some (_succ g2 !! u)).
  { unfold g2. destruct (_succ g1 !! v); [exact Hu1|now apply add_node_present]. }
  assert (Hv2 : is_Some (_succ g2 !! v)).
  { unfold g2. destruct (_succ g1 !! v) eqn:E; [rewrite E; eauto|apply add_node_self]. }
  destruct H2 as [Hn He]. clearbody g2. clear g1 H1 Hu1 Hg.
  split; unfold edge in *; simpl.
  - intros k. rewrite !lookup_insert.
    destruct (decide (u = k)) as [Eu|Hku]; destruct (decide (v = k)) as [Ev|Hkv];
      subst; try (split; discriminate).
    + split; [discriminate|]. intros Hp. apply Hn in Hp. destruct Hu2. congruence.
    + split; [|discriminate]. intros Hs. destruct Hv2. congruence.
    + apply Hn.
  - intros u' v'. rewrite !lookup_insert.
    destruct (decide (v = v')) as [Ev|Hv]; destruct (decide (u = u')) as [Eu|Hu];
      subst; simpl.
    + now rewrite !lookup_insert_eq.
    + rewrite lookup_insert_ne by exact Hu. rewrite default_lookup. apply He.
    + rewrite lookup_insert_ne by exact Hv. rewrite default_lookup. apply He.
    + apply He.
Qed.

Lemma well_formed_foldl {A} (f : DiGraph -> A -> DiGraph) (l : list A) (g : DiGraph) :
  (forall g a, well_formed g -> well_formed (f g a)) ->
  well_formed g -> well_formed (foldl f g l).
Proof.
  intros Hf. revert g. induction l as [|a l IH]; intros g Hg; simpl; [exact Hg|].
  apply IH. now apply Hf.
Qed.

(** The graph built from the reference data keeps the invariant. *)
Lemma well_formed_build (data : SupplyChainData) : well_formed (build data).
Proof.
  unfold build, add_restricts, add_delivers_to, add_ships_to, add_hub_nodes,
    add_factory_nodes, add_country_nodes, add_region_nodes.
  repeat (apply well_formed_foldl;
          [intros g row Hg;
           repeat match goal with
                  | |- well_formed (let '(_, _) := ?p in _) => destruct p
                  | |- well_formed (add_edge _ _ _ _) => apply well_formed_add_edge
                  | |- well_formed (add_node _ _ _) => apply well_formed_add_node
                  end; exact Hg|]).
  apply well_formed_empty.
Qed.

Lemma NoDup_map_filter {A B} (g : A -> B) (f : A -> bool) (l : list A) :
  NoDup (map g l) -> NoDup (map g (List.filter f l)).
Proof.
  induction l as [|a l IH]; simpl; [tauto|].
  rewrite NoDup_cons. intros [Ha Hl]. destruct (f a); [|now apply IH].
  simpl. apply NoDup_cons. split; [|now apply IH].
  intros Hin. apply Ha. apply list_elem_of_In in Hin. apply list_elem_of_In.
  apply in_map_iff in Hin. destruct Hin as (b & E & Hb). apply filter_In in Hb.
  apply in_map_iff. exists b. tauto.
Qed.

Lemma in_out_edges (g : DiGraph) (n t : string) (attrs : gmap string attr) :
  In (t, attrs) (out_edges g n) <-> edge g n t = Some attrs.
Proof.
  unfold out_edges, edge.
  now rewrite <- list_elem_of_In, elem_of_map_to_list, default_lookup.
Qed.

Lemma in_in_edges (g : DiGraph) (t u : string) (attrs : gmap string attr) :
  well_formed g ->
  In (u, attrs) (in_edges g t) <-> edge g u t = Some attrs.
Proof.
  intros Hg. unfold in_edges.
  now rewrite <- list_elem_of_In, elem_of_map_to_list, default_lookup, (wf_edges g Hg).
Qed.

Lemma served_spec (g : DiGraph) (hub_node t : string) :
  t ∈ served g hub_node <->
  delivers_to g hub_node t /\ Py.startswith t "country:" = true.
Proof.
  unfold served, delivers_to.
  rewrite elem_of_list_to_set, list_elem_of_In, in_map_iff. split.
  - intros ([t' attrs] & E & Hin). simpl in E. subst t'.
    apply filter_In in Hin. destruct Hin as [Hin Hf]. simpl in Hf.
    apply andb_true_iff in Hf. apply in_out_edges in Hin.
    split; [exists attrs; tauto|tauto].
  - intros [(attrs & He & Ht) Hs]. exists (t, attrs). split; [reflexivity|].
    apply filter_In. split; [now apply in_out_edges|]. simpl.
    now rewrite Ht, Hs.
Qed.

Lemma serving_hubs_spec (g : DiGraph) (t u : string) :
  well_formed g -> In u (serving_hubs g t) <-> delivers_to g u t.
Proof.
  intros Hg. unfold serving_hubs, delivers_to. rewrite in_map_iff. split.
  - intros ([u' attrs] & E & Hin). simpl in E. subst u'.
    apply filter_In in Hin. destruct Hin as [Hin Hf].
    apply (in_in_edges g t u attrs Hg) in Hin. eauto.
  - intros (attrs & He & Ht). exists (u, attrs). split; [reflexivity|].
    apply filter_In. split; [now apply in_in_edges|exact Ht].
Qed.

Lemma serving_hubs_NoDup (g : DiGraph) (t : string) : NoDup (serving_hubs g t).
Proof.
  unfold serving_hubs, in_edges. apply NoDup_map_filter.
  apply (NoDup_fst_map_to_list (default ∅ (_pred g !! t))).
Qed.

(** The list the code measures has the length of the in-degree. *)
Lemma serving_hubs_length (g : DiGraph) (t : string) :
  well_formed g -> length (serving_hubs g t) = delivers_in_degree g t.
Proof.
  intros Hg. unfold delivers_in_degree. apply Permutation_length.
  apply NoDup_Permutation.
  - apply serving_hubs_NoDup.
  - rewrite <- (map_id (List.filter _ _)).
    apply NoDup_map_filter. rewrite map_id. apply NoDup_elements.
  - intros u. rewrite !list_elem_of_In, (serving_hubs_spec g t u Hg), filter_In,
      delivers_tob_spec, <- list_elem_of_In, elem_of_elements, elem_of_dom.
    split; [|tauto]. intros Hd. split; [|exact Hd].
    destruct Hd as (attrs & He & _). unfold edge in He.
    destruct (_succ g !! u); [eauto|discriminate].
Qed.

Lemma sole_hub_spec (g : DiGraph) (hub_node t : string) :
  well_formed g ->
  delivers_to g hub_node t ->
  match serving_hubs g t with
  | [h] => String.eqb h hub_node
  | _ => false
  end = true <->
  delivers_in_degree g t = 1%nat /\ (forall u, delivers_to g u t -> u = hub_node).
Proof.
  intros Hg Hd. rewrite <- (serving_hubs_length g t Hg).
  pose proof (fun u => serving_hubs_spec g t u Hg) as Hs.
  destruct (serving_hubs g t) as [|h [|h' l]]; simpl.
  - split; [discriminate|]. intros [E _]. discriminate.
  - rewrite String.eqb_eq. split.
    + intros ->. split; [reflexivity|]. intros u Hu. apply Hs in Hu.
      destruct Hu as [Hu|[]]. congruence.
    + intros [_ Hall]. apply Hall. apply Hs. now left.
  - split; [discriminate|]. intros [E _]. discriminate.
Qed.

(** C9 on any graph that keeps the networkx invariant. *)
Lemma impact_analysis_of_well_formed (g : DiGraph) (hub_id : string) :
  well_formed g ->
  (_node g !! ("hub:" ++ hub_id) = None -> impact_analysis g hub_id = []) /\
  (_node g !! ("hub:" ++ hub_id) <> None ->
   forall c,
     In c (impact_analysis g hub_id) <->
     exists t,
       c = Py.replace_with_empty "country:" t /\
       Py.startswith t "country:" = true /\
       delivers_to g ("hub:" ++ hub_id) t /\
       delivers_in_degree g t = 1%nat /\
       (forall u, delivers_to g u t -> u = "hub:" ++ hub_id)).
Proof.
  intros Hg. unfold impact_analysis. split.
  - intros ->. reflexivity.
  - intros Hn c. destruct (_node g !! ("hub:" ++ hub_id)); [|congruence].
    rewrite in_map_iff. split.
    + intros (t & <- & Hin). apply filter_In in Hin. destruct Hin as [Hin Hsole].
      apply list_elem_of_In, elem_of_elements, served_spec in Hin.
      destruct Hin as [Hd Hs].
      apply (sole_hub_spec g _ t Hg Hd) in Hsole.
      exists t. tauto.
    + intros (t & -> & Hs & Hd & Hdeg & Hall). exists t. split; [reflexivity|].
      apply filter_In. split.
      * apply list_elem_of_In, elem_of_elements, served_spec. tauto.
      * apply (sole_hub_spec g _ t Hg Hd). tauto.
Qed.

(** *** Node keys and country codes *)

Lemma prefix_split (p s : string) :
  String.prefix p s = true -> exists rest, s = p ++ rest.
Proof.
  revert s. induction p as [|c p IH]; intros s H; [exists s; reflexivity|].
  destruct s as [|d s]; simpl in H; [discriminate|].
  destruct (Ascii.ascii_dec c d) as [<-|]; [|discriminate].
  destruct (IH s H) as [rest ->]. exists rest. reflexivity.
Qed.

Lemma prefix_app (p s : string) : String.prefix p (p ++ s) = true.
Proof.
  induction p as [|c p IH]; simpl; [now destruct s|].
  destruct (Ascii.ascii_dec c c); [exact IH|congruence].
Qed.

Lemma remove_all_skip (old s1 s2 : string) :
  Py.remove_all old (String.length s1) (s1 ++ s2) = Py.remove_all old 0 s2.
Proof. induction s1 as [|c s1 IH]; simpl; [reflexivity|exact IH]. Qed.

(** Removing the prefix of a node key: what is left is the code, with
    its own occurrences of the prefix removed. *)
Lemma replace_prefixed (c : ascii) (old cc : string) :
  Py.replace_with_empty (String c old) (String c old ++ cc)
  = Py.replace_with_empty (String c old) cc.
Proof.
  unfold Py.replace_with_empty.
  change (String c old ++ cc) with (String c (old ++ cc)).
  cbn [Py.remove_all].
  change (String c (old ++ cc)) with (String c old ++ cc). rewrite prefix_app.
  replace (String.length (String c old) - 1) with (String.length old)
    by (cbn [String.length]; lia).
  apply remove_all_skip.
Qed.

(** A code in which the prefix does not occur is left as it is. *)
Lemma replace_absent (old s : string) :
  occurs old s = false -> Py.replace_with_empty old s = s.
Proof.
  unfold Py.replace_with_empty. induction s as [|c s IH]; [reflexivity|].
  cbn [occurs]. intros H. apply orb_false_iff in H. destruct H as [Hp Ho].
  cbn [Py.remove_all]. rewrite Hp. f_equal. now apply IH.
Qed.

Example country_key_US : Py.replace_with_empty "country:" ("country:" ++ "US") = "US".
Proof. reflexivity. Qed.

(** C9.  On the graph built from the reference data: for a hub that is
    not a node, [impact_analysis] returns the empty list; for a hub of the
    graph it returns exactly the destinations (the country node keys
    without their prefix) that the hub reaches by a DELIVERS_TO edge,
    whose DELIVERS_TO in-degree is one, and whose only delivering hub it
    is.  The order of the list is not specified. *)
Theorem impact_analysis_sole_hub (data : SupplyChainData) (hub_id : string) :
  (_node (build data) !! ("hub:" ++ hub_id) = None ->
   impact_analysis (build data) hub_id = []) /\
  (_node (build data) !! ("hub:" ++ hub_id) <> None ->
   forall c,
     In c (impact_analysis (build data) hub_id) <->
     exists cc,
       c = Py.replace_with_empty "country:" cc /\
       delivers_to (build data) ("hub:" ++ hub_id) ("country:" ++ cc) /\
       delivers_in_degree (build data) ("country:" ++ cc) = 1%nat /\
       (forall u, delivers_to (build data) u ("country:" ++ cc) -> u = "hub:" ++ hub_id)).
Proof.
  destruct (impact_analysis_of_well_formed (build data) hub_id (well_formed_build data))
    as [Hnone Hsome].
  split; [exact Hnone|].
  intros Hn c. rewrite (Hsome Hn c). split.
  - intros (t & -> & Hs & Hd & Hdeg & Hall).
    destruct (prefix_split _ _ Hs) as [cc ->]. exists cc.
    split; [apply (replace_prefixed "c" "ountry:" cc)|]. tauto.
  - intros (cc & -> & Hd & Hdeg & Hall). exists ("country:" ++ cc).
    split; [symmetry; apply (replace_prefixed "c" "ountry:" cc)|].
    split; [apply (prefix_app "country:" cc)|]. tauto.
Qed.

Lemma is_Some_None_ne {A} (o : option A) :
  match o with Some _ => true | None => false end = true -> o <> None.
Proof. destruct o; [discriminate|discriminate]. Qed.

(** On the reference data: Vietnam is delivered by H_VN_01 only, the US
    by three hubs, and H_XX_99 is no hub of the graph. *)
Lemma impact_analysis_sole_hub_witness :
  _node (build Scenario.data) !! ("hub:" ++ "H_XX_99") = None /\
  impact_analysis (build Scenario.data) "H_XX_99" = [] /\
  _node (build Scenario.data) !! ("hub:" ++ "H_VN_01") <> None /\
  impact_analysis (build Scenario.data) "H_VN_01" = ["VN"] /\
  impact_analysis (build Scenario.data) "H_US_01" = [] /\
  delivers_in_degree (build Scenario.data) "country:VN" = 1%nat /\
  delivers_in_degree (build Scenario.data) "country:US" = 3%nat /\
  (exists cc,
      "VN" = Py.replace_with_empty "country:" cc /\
      delivers_to (build Scenario.data) ("hub:" ++ "H_VN_01") ("country:" ++ cc) /\
      delivers_in_degree (build Scenario.data) ("country:" ++ cc) = 1%nat /\
      (forall u, delivers_to (build Scenario.data) u ("country:" ++ cc) ->
                 u = "hub:" ++ "H_VN_01")).
Proof.
  assert (Hn : _node (build Scenario.data) !! ("hub:" ++ "H_VN_01") <> None).
  { apply is_Some_None_ne. vm_compute. reflexivity. }
  assert (Hx : _node (build Scenario.data) !! ("hub:" ++ "H_XX_99") = None)
    by (vm_compute; reflexivity).
  split; [exact Hx|].
  split; [exact (proj1 (impact_analysis_sole_hub Scenario.data "H_XX_99") Hx)|].
  split; [exact Hn|].
  split; [vm_compute; reflexivity|].
  split; [vm_compute; reflexivity|].
  split; [vm_compute; reflexivity|].
  split; [vm_compute; reflexivity|].
  apply (proj1 (proj2 (impact_analysis_sole_hub Scenario.data "H_VN_01") Hn "VN")).
  vm_compute. now left.
Defined.

(** ** Weight sensitivity *)

(** C10, as stated, lets the other two weights change as long as the
    time weight rises relative to both.  CAT03 has a route from abroad
    through a local hub (100 per unit, 10 days), a local route (105 per
    unit, 11 days) and a remote one (200 per unit, 110 days).  With the
    weights (cost 10, time 1, region 1) the first route has the lowest
    score; with (cost 1, time 10, region 1), the two weight triples of the
    repository's own time-penalty test, the second one has.  Both engine
    answers are optimal solutions of the posted problems, and the average
    transit time rises from 10 to 11 days. *)
Lemma raising_time_weight_can_slow_allocation :
  exists r1 r2 p1 p2,
    solve (Scenario.fixed_engine LpStatusOptimal [1000; 0; 0]%Q [1; 0; 0]%Q)
          Scenario.data "CAT03" "US" 1000 10 1 1 500
    = Py.Ok (r1, [(solver_command, p1)]) /\
    solve (Scenario.fixed_engine LpStatusOptimal [0; 1000; 0]%Q [0; 1; 0]%Q)
          Scenario.data "CAT03" "US" 1000 1 10 1 500
    = Py.Ok (r2, [(solver_command, p2)]) /\
    status r1 = "Optimal" /\ status r2 = "Optimal" /\
    optimal p1 (Scenario.fixed_assignment [1000; 0; 0]%Q [1; 0; 0]%Q) /\
    optimal p2 (Scenario.fixed_assignment [0; 1000; 0]%Q [0; 1; 0]%Q) /\
    (1 < 10)%Z /\ (1 # 10 < 10 # 1)%Q /\ (1 # 1 < 10 # 1)%Q /\
    (average_transit_days (chosen_flows r1) == 10)%Q /\
    (average_transit_days (chosen_flows r2) == 11)%Q /\
    ~ (average_transit_days (chosen_flows r2) <= average_transit_days (chosen_flows r1))%Q.
Proof.
  eexists _, _, _, _. split; [vm_compute; reflexivity|].
  split; [vm_compute; reflexivity|].
  split; [reflexivity|]. split; [reflexivity|].
  split.
  { split; [concrete_feasible|].
    intros a' [Hv Hc].
    inversion Hv as [|? ? [H0 _] Hv1]; subst.
    inversion Hv1 as [|? ? [H1 _] Hv2]; subst.
    inversion Hv2 as [|? ? [H2 _] _]; subst.
    inversion Hc as [|? ? Hd _]; subst.
    unfold holds, eval in *. simpl in *. lra. }
  split.
  { split; [concrete_feasible|].
    intros a' [Hv Hc].
    inversion Hv as [|? ? [H0 _] Hv1]; subst.
    inversion Hv1 as [|? ? [H1 _] Hv2]; subst.
    inversion Hv2 as [|? ? [H2 _] _]; subst.
    inversion Hc as [|? ? Hd _]; subst.
    unfold holds, eval in *. simpl in *. lra. }
  split; [lia|]. split; [reflexivity|]. split; [reflexivity|].
  split; [reflexivity|]. split; [reflexivity|].
  intros H. vm_compute in H. apply H. reflexivity.
Qed.

(** *** The objective as a combination of three linear forms *)

Lemma lin_ext (f g : FlowRow -> Q) (a : assignment) (k : nat) (rows : list FlowRow) :
  (forall r, In r rows -> (f r == g r)%Q) ->
  (lin f a k rows == lin g a k rows)%Q.
Proof.
  revert k. induction rows as [|r rows IH]; intros k H; simpl; [reflexivity|].
  rewrite (H r (or_introl eq_refl)), (IH (S k)); [reflexivity|].
  intros r' Hr'. apply H. now right.
Qed.

Lemma lin_combination (f1 f2 f3 : FlowRow -> Q) (c1 c2 c3 : Q)
      (a : assignment) (k : nat) (rows : list FlowRow) :
  (lin (fun r => c1 * f1 r + c2 * f2 r + c3 * f3 r) a k rows
   == c1 * lin f1 a k rows + c2 * lin f2 a k rows + c3 * lin f3 a k rows)%Q.
Proof.
  revert k. induction rows as [|r rows IH]; intros k; simpl; [ring|].
  rewrite IH. ring.
Qed.

Lemma lin_affine (f : FlowRow -> Q) (c d : Q) (a : assignment) (k : nat)
      (rows : list FlowRow) :
  (lin (fun r => c * f r + d) a k rows
   == c * lin f a k rows + d * lin (fun _ => 1) a k rows)%Q.
Proof.
  revert k. induction rows as [|r rows IH]; intros k; simpl; [ring|].
  rewrite IH. ring.
Qed.

(** The objective posted for the score column [map g rows]. *)
Lemma objective_lin (g : FlowRow -> Q) (rows : list FlowRow)
      (factory_cap hub_throughput : gmap string Z) (volume min_batch : Z) (a : assignment) :
  (eval a (objective (build_problem (with_effective_cost rows (map g rows))
                                    factory_cap hub_throughput volume min_batch))
   == lin g a 0 rows)%Q.
Proof.
  unfold eval, build_problem, Py.enumerate, with_effective_cost. cbn [objective terms constant].
  rewrite Qplus_0_r. generalize 0%nat.
  induction rows as [|r rows IH]; intros k; simpl; [reflexivity|].
  rewrite IH. reflexivity.
Qed.

(** The demand constraint bounds the sum of the [x[i]]. *)
Lemma lpSum_lin (a : assignment) (k : nat) (rows : list FlowRow) :
  (foldr (fun t acc => fst t * a (snd t) + acc) 0
         (map (fun i => (1, X i)) (seq k (length rows)))
   == lin (fun _ => 1) a k rows)%Q.
Proof.
  revert k. induction rows as [|r rows IH]; intros k; simpl; [reflexivity|].
  now rewrite IH.
Qed.

Lemma effective_cost_column_inv data country rows wc wt wr col :
  effective_cost_column data country rows wc wt wr = Py.Ok col ->
  (wc + wt + wr <> 0)%Z /\
  col = map (fun r =>
               (inject_Z wc / inject_Z (wc + wt + wr)
                * cost_norm_of rows (total_landed_cost r)
                + inject_Z wt / inject_Z (wc + wt + wr)
                  * time_norm_of rows (inject_Z (transit_days r))
                + inject_Z wr / inject_Z (wc + wt + wr)
                  * Optimizer.regional_penalty data (get_region_for_country data country) r)%Q)
            rows.
Proof.
  unfold effective_cost_column, Py.truediv.
  destruct (Z.eqb_spec (wc + wt + wr) 0) as [E|E]; simpl; [discriminate|].
  intros H. injection H as <-. split; [exact E|reflexivity].
Qed.

(** The core of the sensitivity argument: when two assignments are each
    optimal for one of two objectives that differ in the time weight
    only, the one for the higher time weight has the lower time form. *)
Lemma higher_time_weight_lower_time_form (wc wt1 wt2 wr c1 t1 r1 c2 t2 r2 : Q) :
  (wt1 < wt2)%Q ->
  (wc * c1 + wt1 * t1 + wr * r1 <= wc * c2 + wt1 * t2 + wr * r2)%Q ->
  (wc * c2 + wt2 * t2 + wr * r2 <= wc * c1 + wt2 * t1 + wr * r1)%Q ->
  (t2 <= t1)%Q.
Proof. intros Hw H1 H2. nra. Qed.

Lemma scaled_objective_le (w x y z c1 t1 r1 c2 t2 r2 : Q) :
  (0 < w)%Q ->
  (x / w * c1 + y / w * t1 + z / w * r1 <= x / w * c2 + y / w * t2 + z / w * r2)%Q ->
  (x * c1 + y * t1 + z * r1 <= x * c2 + y * t2 + z * r2)%Q.
Proof.
  intros Hw H.
  assert (E : forall c t r, (x / w * c + y / w * t + z / w * r
                             == (x * c + y * t + z * r) * / w)%Q).
  { intros c t r. field. intros E0. rewrite E0 in Hw. now apply Qlt_irrefl in Hw. }
  rewrite !E in H. apply Qmult_le_r in H; [exact H|].
  now apply Qinv_lt_0_compat.
Qed.

(** *** The constraints do not depend on the scores *)

Lemma indices_where_rows (p : FlowRow -> bool) (flows : list ScoredFlow) :
  indices_where (fun r => p (sf_row r)) flows
  = map fst (List.filter (fun q => p (snd q))
                         (combine (seq 0 (length flows)) (map sf_row flows))).
Proof.
  unfold indices_where, Py.enumerate. generalize 0%nat.
  induction flows as [|f flows IH]; intros k; simpl; [reflexivity|].
  destruct (p (sf_row f)); simpl; now rewrite IH.
Qed.

Lemma build_problem_same_rows (f1 f2 : list ScoredFlow)
      (factory_cap hub_throughput : gmap string Z) (volume min_batch : Z) :
  map sf_row f1 = map sf_row f2 ->
  variables (build_problem f1 factory_cap hub_throughput volume min_batch)
  = variables (build_problem f2 factory_cap hub_throughput volume min_batch) /\
  constraints (build_problem f1 factory_cap hub_throughput volume min_batch)
  = constraints (build_problem f2 factory_cap hub_throughput volume min_batch).
Proof.
  intros E.
  assert (Hlen : length f1 = length f2).
  { rewrite <- (length_map sf_row f1), E. apply length_map. }
  assert (Hf : available_factories f1 = available_factories f2).
  { unfold available_factories.
    rewrite <- (map_map sf_row factory_id f1), <- (map_map sf_row factory_id f2).
    now rewrite E. }
  assert (Hh : available_hubs f1 = available_hubs f2).
  { unfold available_hubs.
    rewrite <- (map_map sf_row hub_id f1), <- (map_map sf_row hub_id f2).
    now rewrite E. }
  assert (Hi : forall p, indices_where (fun r => p (sf_row r)) f1
                         = indices_where (fun r => p (sf_row r)) f2).
  { intros p. now rewrite !indices_where_rows, E, Hlen. }
  unfold build_problem, flow_ids. cbn [variables constraints]. rewrite Hlen, Hf, Hh.
  split; [reflexivity|]. f_equal. f_equal; [|f_equal].
  - apply map_ext. intros f_id. f_equal. f_equal.
    apply (Hi (fun r => String.eqb (factory_id r) f_id)).
  - apply map_ext. intros h_id. f_equal. f_equal.
    apply (Hi (fun r => String.eqb (hub_id r) h_id)).
Qed.

Lemma feasible_same_rows (f1 f2 : list ScoredFlow)
      (factory_cap hub_throughput : gmap string Z) (volume min_batch : Z) (a : assignment) :
  map sf_row f1 = map sf_row f2 ->
  feasible (build_problem f1 factory_cap hub_throughput volume min_batch) a ->
  feasible (build_problem f2 factory_cap hub_throughput volume min_batch) a.
Proof.
  intros E. unfold feasible.
  destruct (build_problem_same_rows f1 f2 factory_cap hub_throughput volume min_batch E)
    as [-> ->].
  tauto.
Qed.

(** *** Transit days against the normalised time *)

Lemma fold_max_ge (l : list Q) (m : Q) :
  (m <= foldl (fun m x => if Qle_bool m x then x else m) m l)%Q /\
  forall v, In v l -> (v <= foldl (fun m x => if Qle_bool m x then x else m) m l)%Q.
Proof.
  revert m. induction l as [|x l IH]; intros m; simpl.
  - split; [apply Qle_refl|tauto].
  - destruct (Qle_bool m x) eqn:E.
    + apply Qle_bool_iff in E. destruct (IH x) as [H1 H2]. split.
      * eapply Qle_trans; eauto.
      * intros v [<-|Hv]; auto.
    + destruct (IH m) as [H1 H2]. split; [exact H1|].
      intros v [<-|Hv]; auto.
      eapply Qle_trans; [|exact H1]. apply Qlt_le_weak, Qnot_le_lt.
      intros Hle. apply Qle_bool_iff in Hle. congruence.
Qed.

Lemma fold_min_le (l : list Q) (m : Q) :
  (foldl (fun m x => if Qle_bool x m then x else m) m l <= m)%Q /\
  forall v, In v l -> (foldl (fun m x => if Qle_bool x m then x else m) m l <= v)%Q.
Proof.
  revert m. induction l as [|x l IH]; intros m; simpl.
  - split; [apply Qle_refl|tauto].
  - destruct (Qle_bool x m) eqn:E.
    + apply Qle_bool_iff in E. destruct (IH x) as [H1 H2]. split.
      * eapply Qle_trans; eauto.
      * intros v [<-|Hv]; auto.
    + destruct (IH m) as [H1 H2]. split; [exact H1|].
      intros v [<-|Hv]; auto.
      eapply Qle_trans; [exact H1|]. apply Qlt_le_weak, Qnot_le_lt.
      intros Hle. apply Qle_bool_iff in Hle. congruence.
Qed.

Lemma Qmax_list_ge (l : list Q) (v : Q) : In v l -> (v <= Py.Qmax_list l)%Q.
Proof.
  destruct l as [|x l]; [contradiction|]. simpl.
  destruct (fold_max_ge l x) as [H1 H2]. intros [<-|Hv]; auto.
Qed.

Lemma Qmin_list_le (l : list Q) (v : Q) : In v l -> (Py.Qmin_list l <= v)%Q.
Proof.
  destruct l as [|x l]; [contradiction|]. simpl.
  destruct (fold_min_le l x) as [H1 H2]. intros [<-|Hv]; auto.
Qed.

(** Each row's transit days are the range times its normalised time plus
    the minimum, also when the range is zero. *)
Lemma transit_days_of_norm (rows : list FlowRow) (r : FlowRow) :
  In r rows ->
  let vals := map (fun r => inject_Z (transit_days r)) rows in
  (0 <= Py.Qmax_list vals - Py.Qmin_list vals)%Q /\
  (inject_Z (transit_days r)
   == (Py.Qmax_list vals - Py.Qmin_list vals) * time_norm_of rows (inject_Z (transit_days r))
      + Py.Qmin_list vals)%Q.
Proof.
  intros Hr vals.
  assert (Hin : In (inject_Z (transit_days r)) vals).
  { unfold vals. now apply (in_map (fun r => inject_Z (transit_days r))). }
  pose proof (Qmax_list_ge vals _ Hin) as Hmax.
  pose proof (Qmin_list_le vals _ Hin) as Hmin.
  split; [lra|].
  unfold time_norm_of. fold vals.
  destruct (Py.Qltb 0 (Py.Qmax_list vals - Py.Qmin_list vals)) eqn:E.
  - apply Qltb_lt in E. field. lra.
  - assert (Hle : (Py.Qmax_list vals - Py.Qmin_list vals <= 0)%Q).
    { apply Qnot_lt_le. intros Hlt. apply Qltb_lt in Hlt. congruence. }
    lra.
Qed.

(** *** The emitted allocation against the engine's assignment *)

Lemma emitted_days_sum (values : var -> option Q) (a : assignment)
      (fl : list ScoredFlow) (k : nat) :
  (forall i, In i (seq k (length fl)) -> values (X i) = Some (a (X i))) ->
  (forall i, In i (seq k (length fl)) -> (0 <= a (X i))%Q) ->
  integral_x a (seq k (length fl)) ->
  (inject_Z (Py.Zsum (map (fun cf => units_allocated cf * cf_transit_days cf)%Z
                          (omap (retained values) (combine (seq k (length fl)) fl))))
   == lin (fun r => inject_Z (transit_days r)) a k (map sf_row fl))%Q.
Proof.
  revert k. induction fl as [|f fl IH]; intros k Hv Hpos Hint; simpl; [reflexivity|].
  assert (Hk : In k (seq k (S (length fl)))) by (simpl; now left).
  assert (Hsub : forall i, In i (seq (S k) (length fl)) -> In i (seq k (S (length fl))))
    by (intros i Hi; simpl; now right).
  specialize (IH (S k) (fun i Hi => Hv i (Hsub i Hi)) (fun i Hi => Hpos i (Hsub i Hi))
                 (fun i Hi => Hint i (Hsub i Hi))).
  unfold retained at 1. simpl. rewrite (Hv k Hk).
  destruct (Hint k Hk) as [z Hz]. pose proof (Hpos k Hk) as H0.
  destruct (Py.Qltb (1 # 2) (a (X k))) eqn:E.
  - simpl. rewrite inject_Z_plus, inject_Z_mult, IH, (round_proper _ _ Hz),
      round_inject_Z, Hz. ring.
  - rewrite IH.
    assert (Hle : (a (X k) <= 1 # 2)%Q).
    { apply Qnot_lt_le. intros Hlt. apply Qltb_lt in Hlt. congruence. }
    assert (Hz0 : z = 0%Z).
    { rewrite Hz in Hle, H0. unfold Qle in *. simpl in *. lia. }
    subst z. rewrite Hz. ring.
Qed.

(** What an Optimal return of [solve] is made of. *)
Lemma solve_optimal_inv cbc data category country volume wc wt wr min_batch r log :
  solve cbc data category country volume wc wt wr min_batch = Py.Ok (r, log) ->
  status r = "Optimal" ->
  exists col,
    get_feasible_flows data category country <> [] /\
    effective_cost_column data country (get_feasible_flows data category country)
                          wc wt wr = Py.Ok col /\
    let flows := scored_flows data category country col in
    let prob := posted_problem data category country col volume min_batch in
    log = [(solver_command, prob)] /\
    sol_status (cbc solver_command prob) = LpStatusOptimal /\
    chosen_flows r
    = sort_chosen (omap (retained (varValue (cbc solver_command prob)))
                        (Py.enumerate flows)).
Proof.
  intros Hs Hst.
  destruct (solve_inv _ _ _ _ _ _ _ _ _ _ _ Hs) as (col & Hcol & Hout).
  exists col.
  inversion Hout; subst; simpl in Hst;
    try (exfalso; pose proof (status_strings_distinct cap volume LpStatusOptimal);
         simpl in *; intuition congruence);
    try discriminate.
  - exfalso. destruct (sol_status (cbc solver_command prob)); simpl in Hst; congruence.
  - split; [assumption|]. split; [now apply Hcol|]. cbn zeta.
    split; [reflexivity|]. split; [assumption|].
    simpl. subst ex. now rewrite extract_chosen.
Qed.

Lemma whole_units_answers_integrally (cbc : engine) (log : engine_log) :
  answers_optimally_in_whole_units cbc log -> answers_integrally cbc log.
Proof.
  intros H cmd prob Hin Hst. destruct (H cmd prob Hin Hst) as (a & Hr & [Hf _] & Hi).
  exists a. tauto.
Qed.

Lemma whole_units_answers_feasibly (cbc : engine) (log : engine_log) :
  answers_optimally_in_whole_units cbc log -> answers_feasibly cbc log.
Proof.
  intros H cmd prob Hin Hst. destruct (H cmd prob Hin Hst) as (a & Hr & [Hf _] & Hi).
  exists a. tauto.
Qed.

(** The weighted transit days of an Optimal allocation, read off the
    engine's assignment. *)
Lemma weighted_transit_days_of_assignment
      cbc data category country volume wc wt wr min_batch r log col a :
  solve cbc data category country volume wc wt wr min_batch = Py.Ok (r, log) ->
  effective_cost_column data country (get_feasible_flows data category country)
                        wc wt wr = Py.Ok col ->
  chosen_flows r
  = sort_chosen (omap (retained (varValue
                                   (cbc solver_command
                                        (posted_problem data category country col
                                                        volume min_batch))))
                      (Py.enumerate (scored_flows data category country col))) ->
  reports (cbc solver_command (posted_problem data category country col volume min_batch))
          (posted_problem data category country col volume min_batch) a ->
  feasible (posted_problem data category country col volume min_batch) a ->
  (forall i, exists z : Z, (a (X i) == inject_Z z)%Q) ->
  (inject_Z (weighted_transit_days (chosen_flows r))
   == lin (fun r => inject_Z (transit_days r)) a 0
          (get_feasible_flows data category country))%Q.
Proof.
  intros Hs Hcol Hch Hrep Hfeas Hint.
  pose proof (effective_cost_column_length _ _ _ _ _ _ _ Hcol) as Hlen.
  unfold weighted_transit_days. rewrite Hch.
  rewrite (Zsum_perm _ _ (Permutation_map _ (sort_chosen_perm _))).
  unfold posted_problem in *. unfold Py.enumerate.
  rewrite (emitted_days_sum _ a (scored_flows data category country col) 0
             (fun i Hi => reports_x _ _ _ _ _ _ _ i Hrep Hi)
             (fun i Hi => feasible_x_nonneg _ _ _ _ _ _ Hfeas i Hi)
             (fun i _ => Hint i)).
  unfold scored_flows. now rewrite with_effective_cost_rows.
Qed.

Lemma posted_objective_form data category country volume min_batch wc wt wr col a :
  effective_cost_column data country (get_feasible_flows data category country)
                        wc wt wr = Py.Ok col ->
  (eval a (objective (posted_problem data category country col volume min_batch))
   == inject_Z wc / inject_Z (wc + wt + wr)
      * cost_form (get_feasible_flows data category country) a
      + inject_Z wt / inject_Z (wc + wt + wr)
        * time_form (get_feasible_flows data category country) a
      + inject_Z wr / inject_Z (wc + wt + wr)
        * region_form data country (get_feasible_flows data category country) a)%Q.
Proof.
  intros H. destruct (effective_cost_column_inv _ _ _ _ _ _ _ H) as [_ ->].
  unfold posted_problem, scored_flows, cost_form, time_form, region_form.
  etransitivity; [apply objective_lin|]. apply lin_combination.
Qed.

Lemma transit_days_form (rows : list FlowRow) (a : assignment) :
  rows <> [] ->
  let vals := map (fun r => inject_Z (transit_days r)) rows in
  (0 <= Py.Qmax_list vals - Py.Qmin_list vals)%Q /\
  (lin (fun r => inject_Z (transit_days r)) a 0 rows
   == (Py.Qmax_list vals - Py.Qmin_list vals) * time_form rows a
      + Py.Qmin_list vals * lin (fun _ => 1) a 0 rows)%Q.
Proof.
  intros Hne vals. split.
  - destruct rows as [|r rows]; [congruence|].
    apply (transit_days_of_norm (r :: rows) r). now left.
  - unfold time_form. etransitivity; [|apply lin_affine].
    apply lin_ext. intros r Hr. apply (transit_days_of_norm rows r Hr).
Qed.

Lemma demand_form data category country col volume min_batch a :
  length col = length (get_feasible_flows data category country) ->
  feasible (posted_problem data category country col volume min_batch) a ->
  (lin (fun _ => 1) a 0 (get_feasible_flows data category country) == inject_Z volume)%Q.
Proof.
  intros Hlen Hf. unfold posted_problem in Hf.
  pose proof (feasible_meet_demand _ _ _ _ _ _ Hf) as Hd.
  unfold eval, lpSum_x, flow_ids in Hd. cbn [terms constant] in Hd.
  rewrite Qplus_0_r in Hd. rewrite <- Hd.
  replace (length (scored_flows data category country col))
    with (length (get_feasible_flows data category country)).
  - symmetry. apply lpSum_lin.
  - unfold scored_flows. rewrite <- (length_map sf_row).
    now rewrite with_effective_cost_rows.
Qed.

Lemma Zsum_nonneg (l : list Z) : Forall (fun z => (1 <= z)%Z) l -> (0 <= Py.Zsum l)%Z.
Proof. induction 1; simpl; lia. Qed.

(** C10, amended.  With category, destination, volume, minimum batch,
    cost weight and region weight fixed and a positive weight sum,
    raising the time weight alone never raises the volume-weighted
    transit days of the Optimal allocation, nor their average, when the
    engine returns exact optimal solutions in whole units. *)
Theorem higher_time_weight_never_slower
        (cbc : engine) (data : SupplyChainData) (category country : string)
        (volume cost_weight regional_weight time_weight_low time_weight_high min_batch : Z)
        (r_low r_high : SolverResult) (log_low log_high : engine_log) :
  solve cbc data category country volume cost_weight time_weight_low regional_weight
        min_batch = Py.Ok (r_low, log_low) ->
  solve cbc data category country volume cost_weight time_weight_high regional_weight
        min_batch = Py.Ok (r_high, log_high) ->
  status r_low = "Optimal" ->
  status r_high = "Optimal" ->
  (time_weight_low < time_weight_high)%Z ->
  (0 < cost_weight + time_weight_low + regional_weight)%Z ->
  answers_optimally_in_whole_units cbc log_low ->
  answers_optimally_in_whole_units cbc log_high ->
  (weighted_transit_days (chosen_flows r_high)
   <= weighted_transit_days (chosen_flows r_low))%Z /\
  (average_transit_days (chosen_flows r_high)
   <= average_transit_days (chosen_flows r_low))%Q.
Proof.
  intros Hs1 Hs2 Hst1 Hst2 Hwt Hw He1 He2.
  destruct (solve_optimal_inv _ _ _ _ _ _ _ _ _ _ _ Hs1 Hst1)
    as (col1 & Hne & Hcol1 & Hlog1 & Hopt1 & Hch1).
  destruct (solve_optimal_inv _ _ _ _ _ _ _ _ _ _ _ Hs2 Hst2)
    as (col2 & _ & Hcol2 & Hlog2 & Hopt2 & Hch2).
  set (rows := get_feasible_flows data category country) in *.
  set (p1 := posted_problem data category country col1 volume min_batch) in *.
  set (p2 := posted_problem data category country col2 volume min_batch) in *.
  destruct (He1 solver_command p1) as (a1 & Hrep1 & [Hf1 Hmin1] & Hint1);
    [rewrite Hlog1; now left|exact Hopt1|].
  destruct (He2 solver_command p2) as (a2 & Hrep2 & [Hf2 Hmin2] & Hint2);
    [rewrite Hlog2; now left|exact Hopt2|].
  pose proof (effective_cost_column_length _ _ _ _ _ _ _ Hcol1) as Hlen1.
  pose proof (effective_cost_column_length _ _ _ _ _ _ _ Hcol2) as Hlen2.
  (* the two problems have the same feasible assignments *)
  assert (Erows : map sf_row (scored_flows data category country col1)
                  = map sf_row (scored_flows data category country col2)).
  { unfold scored_flows. fold rows. now rewrite !with_effective_cost_rows. }
  assert (Hf21 : feasible p1 a2).
  { unfold p1, p2, posted_problem in *. eapply feasible_same_rows; [symmetry; exact Erows|].
    exact Hf2. }
  assert (Hf12 : feasible p2 a1).
  { unfold p1, p2, posted_problem in *. eapply feasible_same_rows; [exact Erows|].
    exact Hf1. }
  (* optimality of each for its own objective *)
  pose proof (Hmin1 a2 Hf21) as Ho1. pose proof (Hmin2 a1 Hf12) as Ho2.
  unfold p1 in Ho1. unfold p2 in Ho2.
  rewrite !(posted_objective_form _ _ _ _ _ _ _ _ _ _ Hcol1) in Ho1.
  rewrite !(posted_objective_form _ _ _ _ _ _ _ _ _ _ Hcol2) in Ho2.
  fold rows in Ho1, Ho2.
  assert (Hw1 : (0 < inject_Z (cost_weight + time_weight_low + regional_weight))%Q).
  { rewrite <- (Zlt_Qlt 0). exact Hw. }
  assert (Hw2 : (0 < inject_Z (cost_weight + time_weight_high + regional_weight))%Q).
  { rewrite <- (Zlt_Qlt 0). lia. }
  apply (scaled_objective_le _ _ _ _ _ _ _ _ _ _ Hw1) in Ho1.
  apply (scaled_objective_le _ _ _ _ _ _ _ _ _ _ Hw2) in Ho2.
  assert (HT : (time_form rows a2 <= time_form rows a1)%Q).
  { eapply (higher_time_weight_lower_time_form
              (inject_Z cost_weight) (inject_Z time_weight_low)
              (inject_Z time_weight_high) (inject_Z regional_weight));
      [|exact Ho1|exact Ho2].
    rewrite <- Zlt_Qlt. exact Hwt. }
  (* from the time form to the transit days *)
  destruct (transit_days_form rows a1 Hne) as [Hrange Hd1].
  destruct (transit_days_form rows a2 Hne) as [_ Hd2].
  pose proof (demand_form _ _ _ _ _ _ _ Hlen1 Hf1) as Hv1.
  pose proof (demand_form _ _ _ _ _ _ _ Hlen2 Hf2) as Hv2.
  fold rows in Hv1, Hv2. rewrite Hv1 in Hd1. rewrite Hv2 in Hd2.
  pose proof (weighted_transit_days_of_assignment
                _ _ _ _ _ _ _ _ _ _ _ _ a1 Hs1 Hcol1 Hch1 Hrep1 Hf1 Hint1) as HW1.
  pose proof (weighted_transit_days_of_assignment
                _ _ _ _ _ _ _ _ _ _ _ _ a2 Hs2 Hcol2 Hch2 Hrep2 Hf2 Hint2) as HW2.
  fold rows in HW1, HW2. rewrite Hd1 in HW1. rewrite Hd2 in HW2.
  assert (HW : (inject_Z (weighted_transit_days (chosen_flows r_high))
                <= inject_Z (weighted_transit_days (chosen_flows r_low)))%Q).
  { rewrite HW1, HW2. apply Qplus_le_l.
    rewrite !(Qmult_comm (Py.Qmax_list _ - Py.Qmin_list _)).
    apply Qmult_le_compat_r; [exact HT|exact Hrange]. }
  split; [rewrite Zle_Qle; exact HW|].
  (* the averages share the denominator, the volume *)
  pose proof (chosen_units_meet_demand
                _ _ _ _ _ _ _ _ _ _ _ Hs1 Hst1 (whole_units_answers_integrally _ _ He1))
    as Hu1.
  pose proof (chosen_units_meet_demand
                _ _ _ _ _ _ _ _ _ _ _ Hs2 Hst2 (whole_units_answers_integrally _ _ He2))
    as Hu2.
  pose proof (entries_at_least_one _ _ _ _ _ _ _ _ _ _ _ Hs1) as Hpos.
  assert (Hvol : (0 <= volume)%Z).
  { rewrite <- Hu1. apply Zsum_nonneg. apply List.Forall_map. exact Hpos. }
  unfold average_transit_days. rewrite Hu1, Hu2. unfold Qdiv.
  apply Qmult_le_compat_r; [exact HW|].
  apply Qinv_le_0_compat. rewrite <- (Zle_Qle 0). exact Hvol.
Qed.

(** With cost weight 9 and region weight 1, raising the time weight from 1
    to 10 moves the allocation from the 11-day route to the 10-day one. *)
Lemma higher_time_weight_never_slower_witness :
  exists r_low r_high log_low log_high,
    solve first_or_second_engine Scenario.data "CAT03" "US" 1000 9 1 1 500
    = Py.Ok (r_low, log_low) /\
    solve first_or_second_engine Scenario.data "CAT03" "US" 1000 9 10 1 500
    = Py.Ok (r_high, log_high) /\
    status r_low = "Optimal" /\ status r_high = "Optimal" /\
    (1 < 10)%Z /\ (0 < 9 + 1 + 1)%Z /\
    answers_optimally_in_whole_units first_or_second_engine log_low /\
    answers_optimally_in_whole_units first_or_second_engine log_high /\
    weighted_transit_days (chosen_flows r_low) = 11000%Z /\
    weighted_transit_days (chosen_flows r_high) = 10000%Z /\
    (weighted_transit_days (chosen_flows r_high)
     <= weighted_transit_days (chosen_flows r_low))%Z /\
    (average_transit_days (chosen_flows r_high)
     <= average_transit_days (chosen_flows r_low))%Q.
Proof.
  eexists _, _, _, _.
  match goal with
  | |- ?E /\ _ => assert (Hs1 : E) by (vm_compute; reflexivity)
  end.
  split; [exact Hs1|].
  match goal with
  | |- ?E /\ _ => assert (Hs2 : E) by (vm_compute; reflexivity)
  end.
  split; [exact Hs2|].
  split; [reflexivity|]. split; [reflexivity|].
  split; [lia|]. split; [lia|].
  match goal with
  | |- ?E /\ _ => assert (He1 : E)
  end.
  { intros cmd prob [E|[]] _. injection E as <- <-.
    exists (Scenario.fixed_assignment [0; 1000; 0]%Q [0; 1; 0]%Q).
    split; [concrete_reports|]. split.
    - split; [concrete_feasible|].
      intros a' [Hv Hc].
      inversion Hv as [|? ? [H0 _] Hv1]; subst.
      inversion Hv1 as [|? ? [H1 _] Hv2]; subst.
      inversion Hv2 as [|? ? [H2 _] _]; subst.
      inversion Hc as [|? ? Hd _]; subst.
      unfold holds, eval in *. simpl in *. lra.
    - intros [|[|[|i]]]; [exists 0%Z|exists 1000%Z|exists 0%Z|exists 0%Z]; reflexivity. }
  split; [exact He1|].
  match goal with
  | |- ?E /\ _ => assert (He2 : E)
  end.
  { intros cmd prob [E|[]] _. injection E as <- <-.
    exists (Scenario.fixed_assignment [1000; 0; 0]%Q [1; 0; 0]%Q).
    split; [concrete_reports|]. split.
    - split; [concrete_feasible|].
      intros a' [Hv Hc].
      inversion Hv as [|? ? [H0 _] Hv1]; subst.
      inversion Hv1 as [|? ? [H1 _] Hv2]; subst.
      inversion Hv2 as [|? ? [H2 _] _]; subst.
      inversion Hc as [|? ? Hd _]; subst.
      unfold holds, eval in *. simpl in *. lra.
    - intros [|[|[|i]]]; [exists 1000%Z|exists 0%Z|exists 0%Z|exists 0%Z]; reflexivity. }
  split; [exact He2|].
  split; [reflexivity|]. split; [reflexivity|].
  exact (higher_time_weight_never_slower
           first_or_second_engine Scenario.data "CAT03" "US" 1000 9 1 1 10 500
           _ _ _ _ Hs1 Hs2 eq_refl eq_refl ltac:(lia) ltac:(lia) He1 He2).
Defined.

(* ===================================================================== *)
(** * Further properties of the code *)
(* ===================================================================== *)

(** ** The lookups of the data loader *)

(** A dict built by [dict(zip(keys, values))] maps a key to the value of
    its last pair. *)
Lemma dict_of_lookup {V} (kv : list (string * V)) (k : string) :
  Py.dict_of kv !! k = last (map snd (List.filter (fun p => String.eqb (fst p) k) kv)).
Proof.
  unfold Py.dict_of. induction kv as [|p kv IH] using rev_ind; [reflexivity|].
  rewrite foldl_app, List.filter_app, map_app. simpl.
  destruct (String.eqb_spec (fst p) k) as [E|N]; simpl.
  - rewrite last_snoc, E. apply lookup_insert_eq.
  - rewrite app_nil_r, lookup_insert_ne by exact N. exact IH.
Qed.

Lemma filter_map_comm {A B} (g : A -> B) (p : B -> bool) (l : list A) :
  List.filter p (map g l) = map g (List.filter (fun a => p (g a)) l).
Proof.
  induction l as [|a l IH]; simpl; [reflexivity|].
  destruct (p (g a)); simpl; now rewrite IH.
Qed.

Lemma last_map {A B} (g : A -> B) (l : list A) : last (map g l) = g <$> last l.
Proof.
  induction l as [|a [|b l] IH]; [reflexivity|reflexivity|exact IH].
Qed.

Lemma dict_of_rows {R V} (key : R -> string) (val : R -> V) (rows : list R) (k : string) :
  Py.dict_of (map (fun r => (key r, val r)) rows) !! k
  = val <$> last (List.filter (fun r => String.eqb (key r) k) rows).
Proof.
  rewrite dict_of_lookup, filter_map_comm, map_map. simpl. apply last_map.
Qed.

Lemma filter_filter {A} (p q : A -> bool) (l : list A) :
  List.filter q (List.filter p l) = List.filter (fun a => p a && q a) l.
Proof.
  induction l as [|a l IH]; simpl; [reflexivity|].
  destruct (p a); simpl; [destruct (q a)|]; now rewrite IH.
Qed.

(** X1.  The lookups of the data loader follow the last row of an id: the
    region, name, city and country of a factory are those of the last row
    of the factories table with that id, and its capacity for a category
    that of the last capacity row of the factory and category.  For an id
    without a row the region and the capacity are [None], the name is the
    id itself, the city and the country are empty. *)
Theorem lookups_follow_last_row (d : SupplyChainData) (category f : string) :
  let rows := List.filter (fun r => String.eqb (fa_factory_id r) f) (factories d) in
  let caps := List.filter (fun r => String.eqb (cp_category_id r) category
                                    && String.eqb (cp_factory_id r) f)
                          (factory_capacity d) in
  get_region_for_factory d f = fa_region_id <$> last rows /\
  factory_name d f = from_option fa_factory_name f (last rows) /\
  factory_city d f = from_option fa_city "" (last rows) /\
  factory_country d f = from_option fa_country_code "" (last rows) /\
  get_factory_capacity d category !! f = cp_monthly_capacity_units <$> last caps.
Proof.
  cbv zeta.
  unfold get_region_for_factory, factory_name, factory_city, factory_country,
    get_factory_capacity, Py.get_default,
    _factory_region, _factory_names, _factory_cities, _factory_country.
  rewrite !dict_of_rows, filter_filter.
  destruct (last (List.filter _ (factories d))); simpl; repeat split; reflexivity.
Qed.

(** ** The default country of a region *)

Lemma default_map_lookup (region : string) :
  default_map !! region
  = if String.eqb region "NAM" then Some "US"
    else if String.eqb region "SAM" then Some "BR"
    else if String.eqb region "EUR" then Some "DE"
    else if String.eqb region "MEA" then Some "AE"
    else if String.eqb region "NEA" then Some "CN"
    else if String.eqb region "SEA" then Some "IN"
    else None.
Proof.
  unfold default_map. rewrite dict_of_lookup. cbn [List.filter map fst snd].
  rewrite !(String.eqb_sym _ region).
  destruct (String.eqb region "NAM") eqn:E1;
    [apply String.eqb_eq in E1; subst; reflexivity|].
  destruct (String.eqb region "SAM") eqn:E2;
    [apply String.eqb_eq in E2; subst; reflexivity|].
  destruct (String.eqb region "EUR") eqn:E3;
    [apply String.eqb_eq in E3; subst; reflexivity|].
  destruct (String.eqb region "MEA") eqn:E4;
    [apply String.eqb_eq in E4; subst; reflexivity|].
  destruct (String.eqb region "NEA") eqn:E5;
    [apply String.eqb_eq in E5; subst; reflexivity|].
  destruct (String.eqb region "SEA") eqn:E6;
    [apply String.eqb_eq in E6; subst; reflexivity|].
  reflexivity.
Qed.

(** X2.  [get_default_country] answers [None] exactly for a region outside
    the six hard-coded ones that has no country in the table; for a region
    outside the six with a country it answers the first country of the
    region in table order; for one of the six it answers the hard-coded
    code whatever the table holds. *)
Theorem default_country_of_region (d : SupplyChainData) (region : string) :
  (get_default_country d region = None <->
   default_map !! region = None /\
   forall row, In row (countries d) -> co_region_id row <> region) /\
  (default_map !! region = None ->
   get_default_country d region = head (get_countries_in_region d region)) /\
  (forall c, default_map !! region = Some c ->
             forall d', get_default_country d' region = Some c) /\
  (forall c, In c (get_countries_in_region d region) <->
             exists row, In row (countries d) /\ co_region_id row = region /\
                         co_country_code row = c).
Proof.
  assert (Hin : forall c, In c (get_countries_in_region d region) <->
             exists row, In row (countries d) /\ co_region_id row = region /\
                         co_country_code row = c).
  { intros c. unfold get_countries_in_region. rewrite in_map_iff. split.
    - intros (row & E & H). apply filter_In in H. destruct H as [H1 H2].
      apply String.eqb_eq in H2. eauto.
    - intros (row & H1 & H2 & E). exists row. split; [exact E|].
      apply filter_In. split; [exact H1|]. now apply String.eqb_eq. }
  split; [|split; [|split; [|exact Hin]]].
  - unfold get_default_country.
    destruct (default_map !! region) as [c|]; [split; [discriminate|intros [? _]; discriminate]|].
    split.
    + intros Hh. split; [reflexivity|]. intros row Hrow E.
      destruct (get_countries_in_region d region) as [|c l] eqn:El; [|discriminate].
      apply (proj2 (Hin (co_country_code row))). eauto.
    + intros [_ Hno]. destruct (get_countries_in_region d region) as [|c l] eqn:El;
        [reflexivity|].
      exfalso. destruct (proj1 (Hin c)) as (row & H1 & H2 & _); [now left|].
      exact (Hno row H1 H2).
  - unfold get_default_country. now intros ->.
  - intros c Hc d'. unfold get_default_country. now rewrite Hc.
Qed.

Lemma default_country_of_region_witness :
  default_map !! "OCE" = None /\
  get_default_country Scenario.data "OCE" = None /\
  get_default_country Scenario.data "SAM" = Some "BR" /\
  get_countries_in_region Scenario.data "SAM" = [].
Proof.
  assert (H : default_map !! "OCE" = None) by (rewrite default_map_lookup; reflexivity).
  split; [exact H|].
  split.
  - rewrite (proj1 (proj2 (default_country_of_region Scenario.data "OCE")) H). reflexivity.
  - split; [|reflexivity].
    apply (proj1 (proj2 (proj2 (default_country_of_region Scenario.data "SAM"))) "BR").
    rewrite default_map_lookup. reflexivity.
Defined.

(** ** The optimizer: errors, scores, totals *)

(** X3.  [solve] raises ZeroDivisionError exactly when there are feasible
    flows and the three weights sum to zero: without a feasible flow the
    weights are never divided, and with a non-zero sum no division
    fails. *)
Theorem solve_raises_exactly_on_zero_weight_sum
        (cbc : engine) (data : SupplyChainData) (category country : string)
        (volume wc wt wr min_batch : Z) :
  solve cbc data category country volume wc wt wr min_batch
  = Py.Raise Py.ZeroDivisionError
  <-> get_feasible_flows data category country <> [] /\ (wc + wt + wr = 0)%Z.
Proof.
  split.
  - intros H. destruct (Z.eq_dec (wc + wt + wr)%Z 0%Z) as [E|N].
    + split; [|exact E]. intros Hf. unfold solve in H. rewrite Hf in H. discriminate.
    + destruct (solve_returns cbc data category country volume wc wt wr min_batch N)
        as (r & log & E). congruence.
  - intros [Hne E]. unfold solve.
    destruct (get_feasible_flows data category country) as [|row rows]; [congruence|].
    unfold effective_cost_column, Py.truediv. rewrite E. reflexivity.
Qed.

(** *** Scores are not negative and respect dominance *)

Lemma norm_nonneg (vals : list Q) (v : Q) :
  In v vals ->
  (0 <= (if Py.Qltb 0 (Py.Qmax_list vals - Py.Qmin_list vals)
         then (v - Py.Qmin_list vals) / (Py.Qmax_list vals - Py.Qmin_list vals)
         else 0))%Q.
Proof.
  intros Hv. pose proof (Qmin_list_le vals v Hv) as Hmin.
  destruct (Py.Qltb 0 (Py.Qmax_list vals - Py.Qmin_list vals)) eqn:E.
  - apply Qltb_lt in E. apply Qle_shift_div_l; [exact E|]. lra.
  - apply Qle_refl.
Qed.

Lemma norm_mono (vals : list Q) (v w : Q) :
  (v <= w)%Q ->
  ((if Py.Qltb 0 (Py.Qmax_list vals - Py.Qmin_list vals)
    then (v - Py.Qmin_list vals) / (Py.Qmax_list vals - Py.Qmin_list vals)
    else 0)
   <= (if Py.Qltb 0 (Py.Qmax_list vals - Py.Qmin_list vals)
       then (w - Py.Qmin_list vals) / (Py.Qmax_list vals - Py.Qmin_list vals)
       else 0))%Q.
Proof.
  intros Hvw. destruct (Py.Qltb 0 (Py.Qmax_list vals - Py.Qmin_list vals)) eqn:E.
  - apply Qltb_lt in E. unfold Qdiv. apply Qmult_le_compat_r; [lra|].
    apply Qlt_le_weak. now apply Qinv_lt_0_compat.
  - apply Qle_refl.
Qed.

Lemma regional_penalty_nonneg data dest (row : FlowRow) :
  (0 <= Optimizer.regional_penalty data dest row)%Q.
Proof.
  unfold Optimizer.regional_penalty.
  destruct (bool_decide _); [|destruct (bool_decide _)]; unfold Qle; simpl; lia.
Qed.

Lemma weight_share_nonneg (w W : Z) : (0 <= w)%Z -> (0 < W)%Z -> (0 <= inject_Z w / inject_Z W)%Q.
Proof.
  intros Hw HW. apply Qle_shift_div_l.
  - now rewrite <- (Zlt_Qlt 0).
  - rewrite Qmult_0_l. now rewrite <- (Zle_Qle 0).
Qed.

Lemma map_eq_pointwise {A B C} (g : A -> C) (h : B -> C) (k : A -> B) (l : list A) :
  map g l = map h (map k l) -> forall x, In x l -> g x = h (k x).
Proof.
  rewrite map_map. intros E x Hx.
  induction l as [|a l IH]; [contradiction|].
  simpl in E. injection E as E1 E2. destruct Hx as [<-|Hx]; [exact E1|now apply IH].
Qed.

(** The emitted entry of a flow, in full. *)
Lemma retained_entry_of values flows cf :
  In cf (omap (retained values) (Py.enumerate flows)) ->
  exists i f alloc,
    In (i, f) (Py.enumerate flows) /\ values (X i) = Some alloc /\
    (1 # 2 < alloc)%Q /\ cf = chosen_entry (i, f) alloc.
Proof.
  intros H. apply list_elem_of_In, list_elem_of_omap in H.
  destruct H as ([i f] & Hin & Hret). apply list_elem_of_In in Hin.
  unfold retained in Hret. simpl in Hret.
  destruct (values (X i)) as [alloc|] eqn:Ev; [|discriminate].
  destruct (Py.Qltb (1 # 2) alloc) eqn:Elt; [|discriminate].
  injection Hret as <-. exists i, f, alloc.
  split; [exact Hin|]. split; [exact Ev|]. split; [now apply Qltb_lt|reflexivity].
Qed.

Lemma enumerate_in {A} (l : list A) (i : nat) (a : A) :
  In (i, a) (Py.enumerate l) -> In a l.
Proof. unfold Py.enumerate. apply in_combine_r. Qed.

(** Every entry of a result of [solve] is the entry of a flow of the
    returned frame. *)
Lemma chosen_flows_of_frame cbc data category country volume wc wt wr min_batch r log cf :
  solve cbc data category country volume wc wt wr min_batch = Py.Ok (r, log) ->
  In cf (chosen_flows r) ->
  exists i f alloc,
    In (i, f) (Py.enumerate (feasible_flows r)) /\ (1 # 2 < alloc)%Q /\
    cf = chosen_entry (i, f) alloc.
Proof.
  intros Hs Hcf.
  destruct (solve_inv _ _ _ _ _ _ _ _ _ _ _ Hs) as (col & _ & Hout).
  inversion Hout; subst; simpl in Hcf; try contradiction.
  apply (Permutation_in _ (sort_chosen_perm _)) in Hcf.
  subst ex. rewrite extract_chosen in Hcf.
  destruct (retained_entry_of _ _ _ Hcf) as (i & f & alloc & Hin & _ & Hgt & E).
  exists i, f, alloc. simpl. tauto.
Qed.

(** X4.  With non-negative weights no score [solve] computes is
    negative (the [effective_cost] of a row of the returned frame, the
    [effective_cost_per_unit] of an allocation entry), and the scores
    respect dominance: a flow of the frame that is no dearer, no slower
    and no farther from the destination's region than another never has
    the higher score. *)
Theorem scores_nonnegative_and_respect_dominance
        (cbc : engine) (data : SupplyChainData) (category country : string)
        (volume wc wt wr min_batch : Z) (r : SolverResult) (log : engine_log) :
  (0 <= wc)%Z -> (0 <= wt)%Z -> (0 <= wr)%Z ->
  solve cbc data category country volume wc wt wr min_batch = Py.Ok (r, log) ->
  Forall (fun f => (0 <= effective_cost f)%Q) (feasible_flows r) /\
  Forall (fun cf => (0 <= effective_cost_per_unit cf)%Q) (chosen_flows r) /\
  forall f g,
    In f (feasible_flows r) -> In g (feasible_flows r) ->
    (total_landed_cost (sf_row f) <= total_landed_cost (sf_row g))%Q ->
    (transit_days (sf_row f) <= transit_days (sf_row g))%Z ->
    (Optimizer.regional_penalty data (get_region_for_country data country) (sf_row f)
     <= Optimizer.regional_penalty data (get_region_for_country data country) (sf_row g))%Q ->
    (effective_cost f <= effective_cost g)%Q.
Proof.
  intros Hc Ht Hr Hs.
  destruct (feasible_flows r) as [|f0 fl] eqn:Ef.
  { split; [constructor|]. split; [|intros f g []].
    apply List.Forall_forall. intros cf Hcf.
    destruct (chosen_flows_of_frame _ _ _ _ _ _ _ _ _ _ _ _ Hs Hcf)
      as (i & f & alloc & Hin & _). rewrite Ef in Hin. destruct Hin. }
  rewrite <- Ef in *.
  assert (Hne : feasible_flows r <> []) by congruence.
  pose proof (solved_frame_scores _ _ _ _ _ _ _ _ _ _ _ Hs Hne) as Hcol.
  apply effective_cost_column_inv in Hcol. destruct Hcol as [Hw Hcol].
  assert (HW : (0 < wc + wt + wr)%Z) by lia.
  pose proof (weight_share_nonneg wc _ Hc HW) as Hcw.
  pose proof (weight_share_nonneg wt _ Ht HW) as Htw.
  pose proof (weight_share_nonneg wr _ Hr HW) as Hrw.
  assert (Hframe : Forall (fun f => (0 <= effective_cost f)%Q) (feasible_flows r)).
  { apply List.Forall_forall. intros f Hf.
    rewrite (map_eq_pointwise _ _ _ _ Hcol f Hf).
    assert (H1 : (0 <= cost_norm_of (map sf_row (feasible_flows r))
                                    (total_landed_cost (sf_row f)))%Q).
    { apply norm_nonneg. rewrite map_map.
      apply (in_map (fun x => total_landed_cost (sf_row x))). exact Hf. }
    assert (H2 : (0 <= time_norm_of (map sf_row (feasible_flows r))
                                    (inject_Z (transit_days (sf_row f))))%Q).
    { apply norm_nonneg. rewrite map_map.
      apply (in_map (fun x => inject_Z (transit_days (sf_row x)))). exact Hf. }
    pose proof (regional_penalty_nonneg data (get_region_for_country data country)
                                        (sf_row f)) as H3.
    nra. }
  split; [exact Hframe|]. split.
  - apply List.Forall_forall. intros cf Hcf.
    destruct (chosen_flows_of_frame _ _ _ _ _ _ _ _ _ _ _ _ Hs Hcf)
      as (i & f & alloc & Hin & _ & ->).
    simpl. rewrite List.Forall_forall in Hframe. apply Hframe.
    eapply enumerate_in. exact Hin.
  - intros f g Hf Hg Hcost Hdays Hpen.
    rewrite (map_eq_pointwise _ _ _ _ Hcol f Hf), (map_eq_pointwise _ _ _ _ Hcol g Hg).
    pose proof (norm_mono (map total_landed_cost (map sf_row (feasible_flows r)))
                          _ _ Hcost) as H1.
    assert (Hdays' : (inject_Z (transit_days (sf_row f))
                      <= inject_Z (transit_days (sf_row g)))%Q)
      by now rewrite <- Zle_Qle.
    pose proof (norm_mono (map (fun x => inject_Z (transit_days x))
                               (map sf_row (feasible_flows r)))
                          _ _ Hdays') as H2.
    fold (cost_norm_of (map sf_row (feasible_flows r)) (total_landed_cost (sf_row f))) in H1.
    fold (cost_norm_of (map sf_row (feasible_flows r)) (total_landed_cost (sf_row g))) in H1.
    fold (time_norm_of (map sf_row (feasible_flows r))
                       (inject_Z (transit_days (sf_row f)))) in H2.
    fold (time_norm_of (map sf_row (feasible_flows r))
                       (inject_Z (transit_days (sf_row g)))) in H2.
    nra.
Qed.

(** CAT03: the local route is dearer and slower than the fast route from
    abroad, the remote route is the dearest and slowest of the three. *)
Lemma scores_nonnegative_and_respect_dominance_witness :
  exists r log,
    solve (Scenario.fixed_engine LpStatusOptimal [1000; 0; 0]%Q [1; 0; 0]%Q)
          Scenario.data "CAT03" "US" 1000 8 5 3 500 = Py.Ok (r, log) /\
    length (feasible_flows r) = 3%nat /\ length (chosen_flows r) = 1%nat /\
    Forall (fun f => (0 <= effective_cost f)%Q) (feasible_flows r) /\
    Forall (fun cf => (0 <= effective_cost_per_unit cf)%Q) (chosen_flows r).
Proof.
  eexists _, _.
  match goal with |- ?E /\ _ => assert (Hs : E) by (vm_compute; reflexivity) end.
  split; [exact Hs|]. split; [reflexivity|]. split; [reflexivity|].
  assert (H := scores_nonnegative_and_respect_dominance
                 _ _ _ _ _ 8 5 3 _ _ _ ltac:(lia) ltac:(lia) ltac:(lia) Hs).
  split; [exact (proj1 H)|exact (proj1 (proj2 H))].
Defined.

(** *** The units of a result *)

(** X5.  In every result of [solve], [total_units] is the sum of the
    units of the entries, and the entries are listed by non-increasing
    units. *)
Theorem total_units_is_sum_of_sorted_entries
        (cbc : engine) (data : SupplyChainData) (category country : string)
        (volume wc wt wr min_batch : Z) (r : SolverResult) (log : engine_log) :
  solve cbc data category country volume wc wt wr min_batch = Py.Ok (r, log) ->
  total_units r = Py.Zsum (map units_allocated (chosen_flows r)) /\
  StronglySorted (fun x y => (units_allocated y <= units_allocated x)%Z) (chosen_flows r).
Proof.
  intros Hs. split; [exact (total_units_sum _ _ _ _ _ _ _ _ _ _ _ Hs)|].
  destruct (solve_inv _ _ _ _ _ _ _ _ _ _ _ Hs) as (col & _ & Hout).
  inversion Hout; subst; simpl; try constructor.
  unfold sort_chosen. apply sorted_by_sorted.
  - intros x y Hxy. now apply Z.leb_le.
  - intros x y Hxy. apply Z.leb_gt in Hxy. lia.
  - intros x y z Hxy Hyz. lia.
Qed.

Lemma total_units_is_sum_of_sorted_entries_witness :
  exists r log,
    solve (Scenario.fixed_engine LpStatusOptimal [400; 600; 0]%Q [1; 1; 0]%Q)
          Scenario.data "CAT03" "US" 1000 8 5 3 400 = Py.Ok (r, log) /\
    map units_allocated (chosen_flows r) = [600; 400]%Z /\
    total_units r = 1000%Z /\
    total_units r = Py.Zsum (map units_allocated (chosen_flows r)) /\
    StronglySorted (fun x y => (units_allocated y <= units_allocated x)%Z) (chosen_flows r).
Proof.
  eexists _, _.
  match goal with |- ?E /\ _ => assert (Hs : E) by (vm_compute; reflexivity) end.
  split; [exact Hs|]. split; [reflexivity|]. split; [reflexivity|].
  exact (total_units_is_sum_of_sorted_entries _ _ _ _ _ _ _ _ _ _ _ Hs).
Defined.

(** *** Allocations use feasible flows only *)

Lemma solve_frame_rows cbc data category country volume wc wt wr min_batch r log :
  solve cbc data category country volume wc wt wr min_batch = Py.Ok (r, log) ->
  map sf_row (feasible_flows r) = get_feasible_flows data category country.
Proof.
  intros Hs.
  destruct (solve_inv _ _ _ _ _ _ _ _ _ _ _ Hs) as (col & Hcol & Hout).
  inversion Hout; subst; simpl; [congruence|..];
    unfold flows, scored_flows; apply with_effective_cost_rows;
    eapply effective_cost_column_length; apply Hcol; assumption.
Qed.

Lemma get_feasible_flows_spec (d : SupplyChainData) (category country : string)
      (row : FlowRow) :
  In row (get_feasible_flows d category country) <->
  In row (all_flows d) /\ category_id row = category /\ country_code row = country /\
  is_geopolitically_restricted row = 0%Z /\ is_lead_time_feasible row = 1%Z.
Proof.
  unfold get_feasible_flows, is_feasible_for.
  rewrite filter_In, !andb_true_iff, !String.eqb_eq, !Z.eqb_eq. tauto.
Qed.

Lemma length_omap_le {A B} (f : A -> option B) (l : list A) :
  (length (omap f l) <= length l)%nat.
Proof.
  induction l as [|a l IH]; cbn [omap list_omap length]; [lia|].
  destruct (f a); cbn [length]; lia.
Qed.

(** X6.  The frame [solve] returns holds exactly the rows of the flow
    table for the requested category and destination that are neither
    geopolitically restricted nor late, in table order; every allocation
    entry is the entry of one of these rows (same factory, hub, cost per
    unit and transit days), and there are at most as many entries as
    rows. *)
Theorem allocations_use_feasible_flows
        (cbc : engine) (data : SupplyChainData) (category country : string)
        (volume wc wt wr min_batch : Z) (r : SolverResult) (log : engine_log) :
  solve cbc data category country volume wc wt wr min_batch = Py.Ok (r, log) ->
  map sf_row (feasible_flows r)
  = List.filter (is_feasible_for category country) (all_flows data) /\
  Forall (fun cf =>
            exists row,
              In row (all_flows data) /\
              category_id row = category /\ country_code row = country /\
              is_geopolitically_restricted row = 0%Z /\ is_lead_time_feasible row = 1%Z /\
              factory_id row = cf_factory_id cf /\ hub_id row = cf_hub_id cf /\
              total_landed_cost row = cost_per_unit cf /\
              transit_days row = cf_transit_days cf)
         (chosen_flows r) /\
  (length (chosen_flows r) <= length (feasible_flows r))%nat.
Proof.
  intros Hs. pose proof (solve_frame_rows _ _ _ _ _ _ _ _ _ _ _ Hs) as Hrows.
  split; [exact Hrows|]. split.
  - apply List.Forall_forall. intros cf Hcf.
    destruct (chosen_flows_of_frame _ _ _ _ _ _ _ _ _ _ _ _ Hs Hcf)
      as (i & f & alloc & Hin & _ & ->).
    exists (sf_row f). simpl.
    assert (Hf : In (sf_row f) (get_feasible_flows data category country)).
    { rewrite <- Hrows. apply in_map. eapply enumerate_in. exact Hin. }
    apply get_feasible_flows_spec in Hf. tauto.
  - destruct (solve_inv _ _ _ _ _ _ _ _ _ _ _ Hs) as (col & _ & Hout).
    inversion Hout; subst; simpl; try lia.
    rewrite (Permutation_length (sort_chosen_perm _)).
    subst ex. rewrite extract_chosen.
    etransitivity; [apply length_omap_le|].
    unfold Py.enumerate. rewrite length_combine, length_seq. lia.
Qed.

Lemma allocations_use_feasible_flows_witness :
  exists r log,
    solve (Scenario.fixed_engine LpStatusOptimal [3000; 0]%Q [1; 0]%Q)
          Scenario.data "CAT01" "US" 3000 8 5 3 500 = Py.Ok (r, log) /\
    length (List.filter (fun row => String.eqb (category_id row) "CAT01"
                                    && String.eqb (country_code row) "US")
                        (all_flows Scenario.data)) = 4%nat /\
    length (feasible_flows r) = 2%nat /\
    map cf_factory_id (chosen_flows r) = ["F_US_01"] /\
    map sf_row (feasible_flows r)
    = List.filter (is_feasible_for "CAT01" "US") (all_flows Scenario.data).
Proof.
  eexists _, _.
  match goal with |- ?E /\ _ => assert (Hs : E) by (vm_compute; reflexivity) end.
  split; [exact Hs|]. split; [reflexivity|]. split; [reflexivity|].
  split; [reflexivity|].
  exact (proj1 (allocations_use_feasible_flows _ _ _ _ _ _ _ _ _ _ _ Hs)).
Defined.

(** *** Capacities *)

Lemma lpSum_nonneg (a : assignment) (ids : list nat) :
  (forall j, In j ids -> (0 <= a (X j))%Q) -> (0 <= eval a (lpSum_x ids))%Q.
Proof.
  unfold eval, lpSum_x. simpl. induction ids as [|j ids IH]; intros Hpos; simpl; [lra|].
  pose proof (Hpos j (or_introl eq_refl)) as Hj.
  assert (IH' := IH (fun k Hk => Hpos k (or_intror Hk))). lra.
Qed.

Lemma lpSum_ge_term (a : assignment) (ids : list nat) (i : nat) :
  (forall j, In j ids -> (0 <= a (X j))%Q) -> In i ids ->
  (a (X i) <= eval a (lpSum_x ids))%Q.
Proof.
  induction ids as [|j ids IH]; intros Hpos Hi; [contradiction|].
  pose proof (Hpos j (or_introl eq_refl)) as Hj.
  pose proof (lpSum_nonneg a ids (fun k Hk => Hpos k (or_intror Hk))) as Hrest.
  assert (E : (eval a (lpSum_x (j :: ids)) == a (X j) + eval a (lpSum_x ids))%Q).
  { unfold eval, lpSum_x. simpl. ring. }
  rewrite E. destruct Hi as [->|Hi]; [lra|].
  assert (IH' := IH (fun k Hk => Hpos k (or_intror Hk)) Hi). lra.
Qed.

Lemma indices_where_in (p : ScoredFlow -> bool) (flows : list ScoredFlow)
      (i : nat) (f : ScoredFlow) :
  In (i, f) (Py.enumerate flows) -> p f = true -> In i (indices_where p flows).
Proof.
  intros Hin Hp. unfold indices_where.
  apply (in_map fst _ (i, f)). apply filter_In. split; [exact Hin|exact Hp].
Qed.

Lemma indices_where_flow_ids (p : ScoredFlow -> bool) (flows : list ScoredFlow) (i : nat) :
  In i (indices_where p flows) -> In i (flow_ids flows).
Proof.
  unfold indices_where. intros H. apply in_map_iff in H.
  destruct H as ([j f] & <- & H). apply filter_In in H. destruct H as [H _].
  eapply enumerate_index. exact H.
Qed.

Lemma unique_complete (l : list string) (s : string) : In s l -> In s (Py.unique l).
Proof.
  intros H. unfold Py.unique.
  destruct (drop_duplicates_complete (fun x => x) ∅ l s H) as [Hs|Hs].
  - exfalso. revert Hs. apply not_elem_of_empty.
  - now rewrite map_id in Hs.
Qed.

Section PostedCapacities.
Variables (flows : list ScoredFlow) (factory_cap hub_throughput : gmap string Z).
Variables (volume min_batch : Z) (a : assignment).
Let prob := build_problem flows factory_cap hub_throughput volume min_batch.
Hypothesis Hfeasible : feasible prob a.

Lemma feasible_factory_cap (f : string) :
  In f (available_factories flows) ->
  (eval a (lpSum_x (indices_where (fun r => String.eqb (factory_id (sf_row r)) f) flows))
   <= inject_Z (Py.get_default factory_cap f 0%Z))%Q.
Proof.
  intros Hf. destruct Hfeasible as [_ Hc]. rewrite List.Forall_forall in Hc.
  specialize (Hc {| c_name := FactoryCap f;
                    c_lhs := lpSum_x (indices_where
                                        (fun r => String.eqb (factory_id (sf_row r)) f) flows);
                    c_sense := LpConstraintLE;
                    c_rhs := const_expr (inject_Z (Py.get_default factory_cap f 0%Z)) |}).
  unfold holds in Hc. cbn [c_sense c_lhs c_rhs] in Hc.
  assert (E : (eval a (const_expr (inject_Z (Py.get_default factory_cap f 0%Z)))
               == inject_Z (Py.get_default factory_cap f 0%Z))%Q).
  { unfold eval, const_expr. simpl. ring. }
  rewrite <- E. apply Hc. right. apply in_or_app. left.
  now apply (in_map (fun f_id => _) _ f).
Qed.

Lemma feasible_hub_cap (h : string) :
  In h (available_hubs flows) ->
  (eval a (lpSum_x (indices_where (fun r => String.eqb (hub_id (sf_row r)) h) flows))
   <= inject_Z (Py.get_default hub_throughput h 0%Z))%Q.
Proof.
  intros Hh. destruct Hfeasible as [_ Hc]. rewrite List.Forall_forall in Hc.
  specialize (Hc {| c_name := HubCap h;
                    c_lhs := lpSum_x (indices_where
                                        (fun r => String.eqb (hub_id (sf_row r)) h) flows);
                    c_sense := LpConstraintLE;
                    c_rhs := const_expr (inject_Z (Py.get_default hub_throughput h 0%Z)) |}).
  unfold holds in Hc. cbn [c_sense c_lhs c_rhs] in Hc.
  assert (E : (eval a (const_expr (inject_Z (Py.get_default hub_throughput h 0%Z)))
               == inject_Z (Py.get_default hub_throughput h 0%Z))%Q).
  { unfold eval, const_expr. simpl. ring. }
  rewrite <- E. apply Hc. right. apply in_or_app. right. apply in_or_app. left.
  now apply (in_map (fun h_id => _) _ h).
Qed.

(** The value of a flow is bounded by the volume, by the capacity of its
    factory and by the throughput of its hub. *)
Lemma feasible_flow_bounds (i : nat) (f : ScoredFlow) :
  In (i, f) (Py.enumerate flows) ->
  (a (X i) <= inject_Z volume)%Q /\
  (a (X i) <= inject_Z (Py.get_default factory_cap (factory_id (sf_row f)) 0%Z))%Q /\
  (a (X i) <= inject_Z (Py.get_default hub_throughput (hub_id (sf_row f)) 0%Z))%Q.
Proof.
  intros Hin.
  pose proof (fun j => feasible_x_nonneg _ _ _ _ _ _ Hfeasible j) as Hpos.
  split; [|split].
  - rewrite <- (feasible_meet_demand _ _ _ _ _ _ Hfeasible).
    apply lpSum_ge_term; [exact Hpos|]. eapply enumerate_index. exact Hin.
  - eapply Qle_trans; [|apply feasible_factory_cap].
    + apply lpSum_ge_term.
      * intros j Hj. apply Hpos. eapply indices_where_flow_ids. exact Hj.
      * eapply indices_where_in; [exact Hin|]. apply String.eqb_refl.
    + apply unique_complete. apply (in_map (fun x => factory_id (sf_row x))).
      eapply enumerate_in. exact Hin.
  - eapply Qle_trans; [|apply feasible_hub_cap].
    + apply lpSum_ge_term.
      * intros j Hj. apply Hpos. eapply indices_where_flow_ids. exact Hj.
      * eapply indices_where_in; [exact Hin|]. apply String.eqb_refl.
    + apply unique_complete. apply (in_map (fun x => hub_id (sf_row x))).
      eapply enumerate_in. exact Hin.
Qed.

End PostedCapacities.

Lemma round_upper_bound (z : Z) (q : Q) : (q <= inject_Z z)%Q -> (Py.round q <= z)%Z.
Proof. intros H. rewrite <- (round_inject_Z z). now apply round_mono. Qed.

(** The entries of an Optimal result, with the values the engine gave. *)
Lemma solve_entry_values cbc data category country volume wc wt wr min_batch r log cf :
  solve cbc data category country volume wc wt wr min_batch = Py.Ok (r, log) ->
  In cf (chosen_flows r) ->
  exists col,
    let flows := scored_flows data category country col in
    let prob := posted_problem data category country col volume min_batch in
    log = [(solver_command, prob)] /\
    sol_status (cbc solver_command prob) = LpStatusOptimal /\
    feasible_flows r = flows /\
    chosen_flows r
    = sort_chosen (omap (retained (varValue (cbc solver_command prob)))
                        (Py.enumerate flows)) /\
    exists i f alloc,
      In (i, f) (Py.enumerate flows) /\
      varValue (cbc solver_command prob) (X i) = Some alloc /\
      (1 # 2 < alloc)%Q /\ cf = chosen_entry (i, f) alloc.
Proof.
  intros Hs Hcf.
  destruct (solve_inv _ _ _ _ _ _ _ _ _ _ _ Hs) as (col & _ & Hout).
  inversion Hout; subst; simpl in Hcf; try contradiction.
  exists col. cbv zeta. split; [reflexivity|]. split; [assumption|].
  split; [reflexivity|]. simpl.
  subst ex. rewrite extract_chosen in *. split; [reflexivity|].
  apply (Permutation_in _ (sort_chosen_perm _)) in Hcf.
  apply retained_entry_of. exact Hcf.
Qed.

(** X7.  When the engine's Optimal answer satisfies the constraints it was
    given, no allocation entry carries more units than the requested
    volume, than the capacity of its factory for the category, or than
    the throughput of its hub (a factory or hub without a capacity row
    counts as capacity 0). *)
Theorem entries_within_volume_and_capacities
        (cbc : engine) (data : SupplyChainData) (category country : string)
        (volume wc wt wr min_batch : Z) (r : SolverResult) (log : engine_log) :
  solve cbc data category country volume wc wt wr min_batch = Py.Ok (r, log) ->
  answers_feasibly cbc log ->
  Forall (fun cf =>
            (units_allocated cf <= volume)%Z /\
            (units_allocated cf
             <= Py.get_default (get_factory_capacity data category) (cf_factory_id cf) 0)%Z /\
            (units_allocated cf
             <= Py.get_default (get_hub_throughput data) (cf_hub_id cf) 0)%Z)
         (chosen_flows r).
Proof.
  intros Hs Hc. apply List.Forall_forall. intros cf Hcf.
  destruct (solve_entry_values _ _ _ _ _ _ _ _ _ _ _ _ Hs Hcf)
    as (col & Hlog & Hst & _ & _ & i & f & alloc & Hin & Hv & _ & ->).
  destruct (Hc solver_command _ ltac:(rewrite Hlog; now left) Hst) as (a & Hrep & Hfeas).
  unfold posted_problem in *.
  rewrite (reports_x _ _ _ _ _ _ _ i Hrep (enumerate_index _ _ _ Hin)) in Hv.
  injection Hv as <-.
  destruct (feasible_flow_bounds _ _ _ _ _ _ Hfeas i f Hin) as (H1 & H2 & H3).
  simpl. repeat split; now apply round_upper_bound.
Qed.

Lemma entries_within_volume_and_capacities_witness :
  exists r log,
    solve (Scenario.fixed_engine LpStatusOptimal [400; 600; 0]%Q [1; 1; 0]%Q)
          Scenario.data "CAT03" "US" 1000 8 5 3 400 = Py.Ok (r, log) /\
    answers_feasibly (Scenario.fixed_engine LpStatusOptimal [400; 600; 0]%Q [1; 1; 0]%Q) log /\
    map units_allocated (chosen_flows r) = [600; 400]%Z /\
    Forall (fun cf =>
              (units_allocated cf <= 1000)%Z /\
              (units_allocated cf
               <= Py.get_default (get_factory_capacity Scenario.data "CAT03")
                                 (cf_factory_id cf) 0)%Z /\
              (units_allocated cf
               <= Py.get_default (get_hub_throughput Scenario.data) (cf_hub_id cf) 0)%Z)
           (chosen_flows r).
Proof.
  eexists _, _.
  match goal with |- ?E /\ _ => assert (Hs : E) by (vm_compute; reflexivity) end.
  split; [exact Hs|].
  match goal with
  | |- answers_feasibly ?e ?l /\ _ => assert (Hc : answers_feasibly e l)
  end.
  { intros cmd prob [E|[]] _. injection E as <- <-.
    exists (Scenario.fixed_assignment [400; 600; 0]%Q [1; 1; 0]%Q).
    split; [concrete_reports|concrete_feasible]. }
  split; [exact Hc|]. split; [reflexivity|].
  exact (entries_within_volume_and_capacities _ _ _ _ _ _ _ _ _ _ _ Hs Hc).
Defined.

(** When the values are whole and non-negative, the units emitted for the
    flows [k, k+1, ...], each weighted by a number read off its row, add
    up to the weighted sum of the values. *)
Lemma emitted_weighted_sum (values : var -> option Q) (a : assignment)
      (gz : FlowRow -> Z) (gcf : ChosenFlow -> Z) (fl : list ScoredFlow) (k : nat) :
  (forall q alloc, gcf (chosen_entry q alloc) = gz (sf_row (snd q))) ->
  (forall i, In i (seq k (length fl)) -> values (X i) = Some (a (X i))) ->
  (forall i, In i (seq k (length fl)) -> (0 <= a (X i))%Q) ->
  integral_x a (seq k (length fl)) ->
  (inject_Z (Py.Zsum (map (fun cf => units_allocated cf * gcf cf)%Z
                          (omap (retained values) (combine (seq k (length fl)) fl))))
   == lin (fun r => inject_Z (gz r)) a k (map sf_row fl))%Q.
Proof.
  intros Hg. revert k.
  induction fl as [|f fl IH]; intros k Hv Hpos Hint; [reflexivity|].
  assert (Hk : In k (seq k (S (length fl)))) by (simpl; now left).
  assert (Hsub : forall i, In i (seq (S k) (length fl)) -> In i (seq k (S (length fl))))
    by (intros i Hi; simpl; now right).
  specialize (IH (S k) (fun i Hi => Hv i (Hsub i Hi)) (fun i Hi => Hpos i (Hsub i Hi))
                 (fun i Hi => Hint i (Hsub i Hi))).
  cbn [length seq combine omap list_omap map lin].
  destruct (Hint k Hk) as [z Hz]. pose proof (Hpos k Hk) as H0.
  destruct (retained values (k, f)) as [cf|] eqn:Er.
  - unfold retained in Er. cbn [fst] in Er. rewrite (Hv k Hk) in Er.
    destruct (Py.Qltb (1 # 2) (a (X k))) eqn:E; [|discriminate].
    injection Er as <-. cbn [map Py.Zsum foldr].
    rewrite Hg. cbn [snd units_allocated chosen_entry].
    change (foldr Z.add 0%Z ?l) with (Py.Zsum l).
    rewrite inject_Z_plus, inject_Z_mult, IH, (round_proper _ _ Hz), round_inject_Z, Hz.
    ring.
  - unfold retained in Er. cbn [fst] in Er. rewrite (Hv k Hk) in Er.
    destruct (Py.Qltb (1 # 2) (a (X k))) eqn:E; [discriminate|].
    rewrite IH.
    assert (Hle : (a (X k) <= 1 # 2)%Q).
    { apply Qnot_lt_le. intros Hlt. apply Qltb_lt in Hlt. congruence. }
    assert (Hz0 : z = 0%Z).
    { rewrite Hz in Hle, H0. unfold Qle in *. simpl in *. lia. }
    subst z. rewrite Hz. ring.
Qed.

Lemma Zsum_filter_indicator {A} (u : A -> Z) (p : A -> bool) (l : list A) :
  Py.Zsum (map u (List.filter p l))
  = Py.Zsum (map (fun x => u x * (if p x then 1 else 0))%Z l).
Proof.
  induction l as [|x l IH]; simpl; [reflexivity|].
  destruct (p x); simpl; rewrite IH; lia.
Qed.

Lemma lin_indicator (a : assignment) (p : FlowRow -> bool) (k : nat) (rows : list FlowRow) :
  (lin (fun r => inject_Z (if p r then 1 else 0)) a k rows
   == eval a (lpSum_x (map fst (List.filter (fun q => p (snd q))
                                            (combine (seq k (length rows)) rows)))))%Q.
Proof.
  revert k. induction rows as [|r rows IH]; intros k.
  - unfold eval, lpSum_x. simpl. ring.
  - cbn [lin length seq combine List.filter snd]. rewrite IH.
    destruct (p r); unfold eval, lpSum_x; simpl; ring.
Qed.

(** X8.  When the engine's Optimal answer satisfies the constraints it was
    given and is whole on every flow, the units of the entries that share
    a factory add up to at most the capacity of that factory for the
    category, and the units of the entries that share a hub to at most
    the throughput of that hub. *)
Theorem allocation_within_capacities
        (cbc : engine) (data : SupplyChainData) (category country : string)
        (volume wc wt wr min_batch : Z) (r : SolverResult) (log : engine_log) :
  solve cbc data category country volume wc wt wr min_batch = Py.Ok (r, log) ->
  answers_integrally cbc log ->
  Forall (fun cf =>
            (Py.Zsum (map units_allocated
                          (List.filter (fun c => String.eqb (cf_factory_id c) (cf_factory_id cf))
                                       (chosen_flows r)))
             <= Py.get_default (get_factory_capacity data category) (cf_factory_id cf) 0)%Z /\
            (Py.Zsum (map units_allocated
                          (List.filter (fun c => String.eqb (cf_hub_id c) (cf_hub_id cf))
                                       (chosen_flows r)))
             <= Py.get_default (get_hub_throughput data) (cf_hub_id cf) 0)%Z)
         (chosen_flows r).
Proof.
  intros Hs Hc. apply List.Forall_forall. intros cf Hcf.
  destruct (solve_entry_values _ _ _ _ _ _ _ _ _ _ _ _ Hs Hcf)
    as (col & Hlog & Hst & _ & Hch & i & f & alloc & Hin & _ & _ & ->).
  destruct (Hc solver_command _ ltac:(rewrite Hlog; now left) Hst)
    as (a & Hrep & Hfeas & Hint).
  unfold posted_problem in *.
  set (flows := scored_flows data category country col) in *.
  assert (Hsum : forall (prow : FlowRow -> string) (pcf : ChosenFlow -> string) (s : string),
             (forall q alloc, pcf (chosen_entry q alloc) = prow (sf_row (snd q))) ->
             (inject_Z (Py.Zsum (map units_allocated
                                     (List.filter (fun c => String.eqb (pcf c) s)
                                                  (chosen_flows r))))
              == eval a (lpSum_x (indices_where
                                    (fun x => String.eqb (prow (sf_row x)) s) flows)))%Q).
  { intros prow pcf s Hp.
    rewrite Zsum_filter_indicator, Hch.
    rewrite (Zsum_perm _ _ (Permutation_map _ (sort_chosen_perm _))).
    unfold Py.enumerate.
    rewrite (emitted_weighted_sum _ a
               (fun row => if String.eqb (prow row) s then 1%Z else 0%Z)
               (fun c => if String.eqb (pcf c) s then 1%Z else 0%Z) flows 0
               (fun q alloc => ltac:(cbv beta; rewrite Hp; reflexivity))
               (fun j Hj => reports_x _ _ _ _ _ _ _ j Hrep Hj)
               (fun j Hj => feasible_x_nonneg _ _ _ _ _ _ Hfeas j Hj)
               (fun j _ => Hint j)).
    rewrite (lin_indicator a (fun row => String.eqb (prow row) s)).
    rewrite length_map.
    now rewrite (indices_where_rows (fun row => String.eqb (prow row) s) flows). }
  cbn [cf_factory_id cf_hub_id chosen_entry snd]. split.
  - rewrite Zle_Qle.
    rewrite (Hsum factory_id cf_factory_id (factory_id (sf_row f)) (fun _ _ => eq_refl)).
    apply (feasible_factory_cap _ _ _ _ _ _ Hfeas).
    apply unique_complete. apply (in_map (fun x => factory_id (sf_row x))).
    eapply enumerate_in. exact Hin.
  - rewrite Zle_Qle.
    rewrite (Hsum hub_id cf_hub_id (hub_id (sf_row f)) (fun _ _ => eq_refl)).
    apply (feasible_hub_cap _ _ _ _ _ _ Hfeas).
    apply unique_complete. apply (in_map (fun x => hub_id (sf_row x))).
    eapply enumerate_in. exact Hin.
Qed.

(** CAT02: two routes of factory F_US_01 through two hubs, and a third
    route through the first hub. *)
Lemma allocation_within_capacities_witness :
  exists r log,
    solve (Scenario.fixed_engine LpStatusOptimal [800; 700; 500]%Q [1; 1; 1]%Q)
          Scenario.data "CAT02" "US" 2000 8 5 3 500 = Py.Ok (r, log) /\
    answers_integrally
      (Scenario.fixed_engine LpStatusOptimal [800; 700; 500]%Q [1; 1; 1]%Q) log /\
    map (fun cf => (cf_factory_id cf, cf_hub_id cf, units_allocated cf)) (chosen_flows r)
    = [("F_US_01", "H_US_01", 800%Z); ("F_US_01", "H_US_02", 700%Z);
       ("F_US_02", "H_US_01", 500%Z)] /\
    Forall (fun cf =>
              (Py.Zsum (map units_allocated
                            (List.filter
                               (fun c => String.eqb (cf_factory_id c) (cf_factory_id cf))
                               (chosen_flows r)))
               <= Py.get_default (get_factory_capacity Scenario.data "CAT02")
                                 (cf_factory_id cf) 0)%Z /\
              (Py.Zsum (map units_allocated
                            (List.filter (fun c => String.eqb (cf_hub_id c) (cf_hub_id cf))
                                         (chosen_flows r)))
               <= Py.get_default (get_hub_throughput Scenario.data) (cf_hub_id cf) 0)%Z)
           (chosen_flows r).
Proof.
  eexists _, _.
  match goal with |- ?E /\ _ => assert (Hs : E) by (vm_compute; reflexivity) end.
  split; [exact Hs|].
  match goal with
  | |- answers_integrally ?e ?l /\ _ => assert (Hc : answers_integrally e l)
  end.
  { intros cmd prob [E|[]] _. injection E as <- <-.
    exists (Scenario.fixed_assignment [800; 700; 500]%Q [1; 1; 1]%Q).
    split; [concrete_reports|]. split; [concrete_feasible|].
    intros [|[|[|i]]]; [exists 800%Z|exists 700%Z|exists 500%Z|exists 0%Z]; reflexivity. }
  split; [exact Hc|]. split; [reflexivity|].
  exact (allocation_within_capacities _ _ _ _ _ _ _ _ _ _ _ Hs Hc).
Defined.

(** *** The names of the posted constraints *)

Lemma unique_NoDup (l : list string) : NoDup (Py.unique l).
Proof.
  unfold Py.unique. rewrite <- (map_id (Py.drop_duplicates _ _ _)).
  apply (drop_duplicates_NoDup (fun s : string => s)).
Qed.

Lemma NoDup_map_inj {A B} (g : A -> B) (l : list A) :
  (forall x y, g x = g y -> x = y) -> NoDup l -> NoDup (map g l).
Proof.
  intros Hg. induction 1 as [|x l Hx Hl IH]; simpl; constructor; [|exact IH].
  rewrite list_elem_of_In, in_map_iff. intros (y & E & Hy). apply Hg in E. subst y.
  apply Hx. now apply list_elem_of_In.
Qed.

(** X9.  The constraints of every problem [solve] hands to the engine have
    pairwise distinct names: one demand constraint, one capacity
    constraint per factory and per hub of the frame, one activation and
    one minimum-batch constraint per flow. *)
Theorem posted_constraint_names_distinct
        (cbc : engine) (data : SupplyChainData) (category country : string)
        (volume wc wt wr min_batch : Z) (r : SolverResult) (log : engine_log) :
  solve cbc data category country volume wc wt wr min_batch = Py.Ok (r, log) ->
  Forall (fun call =>
            NoDup (map c_name (constraints (snd call))) /\
            map c_name (constraints (snd call))
            = (MeetDemand
                 :: map FactoryCap (available_factories (feasible_flows r))
                 ++ map HubCap (available_hubs (feasible_flows r))
                 ++ map Activate (seq 0 (length (feasible_flows r)))
                 ++ map MinBatch (seq 0 (length (feasible_flows r))))%list)
         log.
Proof.
  intros Hs.
  destruct (solve_inv _ _ _ _ _ _ _ _ _ _ _ Hs) as (col & _ & Hout).
  assert (Hnames : forall flows cap thr vol mb,
             map c_name (constraints (build_problem flows cap thr vol mb))
             = (MeetDemand
                  :: map FactoryCap (available_factories flows)
                  ++ map HubCap (available_hubs flows)
                  ++ map Activate (seq 0 (length flows))
                  ++ map MinBatch (seq 0 (length flows)))%list).
  { intros fl cap thr vol mb. unfold build_problem, flow_ids.
    cbn [constraints map c_name]. rewrite !map_app, !map_map. reflexivity. }
  assert (Hnd : forall flows,
             NoDup (MeetDemand
                      :: map FactoryCap (available_factories flows)
                      ++ map HubCap (available_hubs flows)
                      ++ map Activate (seq 0 (length flows))
                      ++ map MinBatch (seq 0 (length flows)))%list).
  { intros fl. apply NoDup_cons. split.
    - rewrite !elem_of_app, !list_elem_of_In, !in_map_iff.
      intros [H|[H|[H|H]]]; destruct H as (x & E & _); discriminate.
    - apply NoDup_app. split; [|split].
      + apply NoDup_map_inj; [now intros x y [= ->]|apply unique_NoDup].
      + intros n Hn. rewrite !elem_of_app, !list_elem_of_In, !in_map_iff.
        rewrite list_elem_of_In, in_map_iff in Hn. destruct Hn as (x & <- & _).
        intros [H|[H|H]]; destruct H as (y & E & _); discriminate.
      + apply NoDup_app. split; [|split].
        * apply NoDup_map_inj; [now intros x y [= ->]|apply unique_NoDup].
        * intros n Hn. rewrite !elem_of_app, !list_elem_of_In, !in_map_iff.
          rewrite list_elem_of_In, in_map_iff in Hn. destruct Hn as (x & <- & _).
          intros [H|H]; destruct H as (y & E & _); discriminate.
        * apply NoDup_app. split; [|split].
          -- apply NoDup_map_inj; [now intros x y [= ->]|apply NoDup_ListNoDup, seq_NoDup].
          -- intros n Hn. rewrite list_elem_of_In, in_map_iff.
             rewrite list_elem_of_In, in_map_iff in Hn. destruct Hn as (x & <- & _).
             intros (y & E & _); discriminate.
          -- apply NoDup_map_inj; [now intros x y [= ->]|apply NoDup_ListNoDup, seq_NoDup]. }
  inversion Hout; subst.
  - apply List.Forall_nil.
  - apply List.Forall_nil.
  - apply List.Forall_cons; [|apply List.Forall_nil].
    cbn [snd feasible_flows SolverResult_default].
    unfold prob, posted_problem. rewrite Hnames. split; [apply Hnd|reflexivity].
  - apply List.Forall_cons; [|apply List.Forall_nil].
    cbn [snd feasible_flows].
    unfold prob, posted_problem. rewrite Hnames. split; [apply Hnd|reflexivity].
Qed.

Lemma posted_constraint_names_distinct_witness :
  exists r log,
    solve (Scenario.fixed_engine LpStatusOptimal [1000; 0; 0]%Q [1; 0; 0]%Q)
          Scenario.data "CAT02" "US" 1000 8 5 3 500 = Py.Ok (r, log) /\
    map (fun call => map c_name (constraints (snd call))) log
    = [[MeetDemand; FactoryCap "F_US_01"; FactoryCap "F_US_02";
        HubCap "H_US_01"; HubCap "H_US_02";
        Activate 0; Activate 1; Activate 2; MinBatch 0; MinBatch 1; MinBatch 2]] /\
    Forall (fun call => NoDup (map c_name (constraints (snd call)))) log.
Proof.
  eexists _, _.
  match goal with |- ?E /\ _ => assert (Hs : E) by (vm_compute; reflexivity) end.
  split; [exact Hs|]. split; [reflexivity|].
  eapply List.Forall_impl;
    [|exact (posted_constraint_names_distinct _ _ _ _ _ _ _ _ _ _ _ Hs)].
  intros call [H _]. exact H.
Defined.

(** ** The ranker: errors, Tier 3 *)

Lemma composite_scores_raise flows data country wc wt wr :
  (_compute_composite_scores flows data country wc wt wr = Py.Raise Py.ZeroDivisionError
   <-> (wc + wt + wr = 0)%Z) /\
  ((wc + wt + wr <> 0)%Z ->
   exists scores, _compute_composite_scores flows data country wc wt wr = Py.Ok scores).
Proof.
  unfold _compute_composite_scores, Py.truediv.
  destruct (Z.eqb_spec (wc + wt + wr) 0) as [E|N]; simpl.
  - split; [tauto|contradiction].
  - split; [split; [discriminate|contradiction]|eauto].
Qed.

Lemma rank_flows_returns `{DataFrameSort} result data country wc wt wr category scores :
  _compute_composite_scores (feasible_flows result) data country wc wt wr = Py.Ok scores ->
  exists ranked, rank_flows result data country wc wt wr category = Py.Ok ranked.
Proof.
  intros Hsc. unfold rank_flows.
  destruct (feasible_flows result) as [|f0 fl]; [eauto|].
  rewrite Hsc. cbn [Py.bind].
  match goal with
  | |- context [foldl (tier2_step data) (∅, []) ?l] =>
      destruct (foldl (tier2_step data) (∅, []) l) as [used t2]
  end.
  eauto.
Qed.

(** X10.  [rank_flows] raises ZeroDivisionError exactly when the frame is
    not empty and the three weights sum to zero.  Ranking a result of
    [solve] with the weights it was solved with never raises, and Tier 1
    is then the list of allocation entries, in the same order, with the
    display names added. *)
Theorem rank_flows_raises_exactly_on_zero_weight_sum
        `{DataFrameSort} (data : SupplyChainData) (country : string)
        (wc wt wr : Z) (category : option string) :
  (forall result,
      rank_flows result data country wc wt wr category = Py.Raise Py.ZeroDivisionError
      <-> feasible_flows result <> [] /\ (wc + wt + wr = 0)%Z) /\
  (forall cbc cat volume min_batch result log,
      solve cbc data cat country volume wc wt wr min_batch = Py.Ok (result, log) ->
      exists ranked,
        rank_flows result data country wc wt wr category = Py.Ok ranked /\
        map t1_flow (r_chosen_flows ranked) = chosen_flows result).
Proof.
  split.
  - intros result. split.
    + intros Hr. destruct (feasible_flows result) as [|f0 fl] eqn:Ef.
      * unfold rank_flows in Hr. rewrite Ef in Hr. discriminate.
      * split; [discriminate|].
        destruct (Z.eq_dec (wc + wt + wr)%Z 0%Z) as [E|N]; [exact E|].
        destruct (proj2 (composite_scores_raise (feasible_flows result)
                           data country wc wt wr) N) as [scores Hsc].
        destruct (rank_flows_returns result data country wc wt wr category scores Hsc)
          as [ranked E].
        congruence.
    + intros [Hne E]. unfold rank_flows.
      destruct (feasible_flows result) as [|f0 fl]; [congruence|].
      rewrite (proj2 (proj1 (composite_scores_raise (f0 :: fl) data country wc wt wr)) E).
      reflexivity.
  - intros cbc cat volume min_batch result log Hs.
    destruct (feasible_flows result) as [|f0 fl] eqn:Ef.
    + exists {| r_chosen_flows := []; other_available := []; alternative_factories := [] |}.
      split; [unfold rank_flows; now rewrite Ef|].
      simpl. symmetry.
      destruct (solve_inv _ _ _ _ _ _ _ _ _ _ _ Hs) as (col & Hcol & Hout).
      inversion Hout; subst; try reflexivity. exfalso.
      assert (Hlen : length col = length (get_feasible_flows data cat country))
        by (eapply effective_cost_column_length; now apply Hcol).
      simpl in Ef. unfold flows, scored_flows in Ef.
      apply (f_equal (map sf_row)) in Ef.
      rewrite with_effective_cost_rows in Ef by exact Hlen. simpl in Ef. contradiction.
    + assert (Hne : feasible_flows result <> []) by congruence.
      pose proof (solved_frame_scores _ _ _ _ _ _ _ _ _ _ _ Hs Hne) as Hcol.
      apply effective_cost_column_inv in Hcol. destruct Hcol as [Hw _].
      destruct (proj2 (composite_scores_raise (feasible_flows result)
                         data country wc wt wr) Hw) as [scores Hsc].
      destruct (rank_flows_returns result data country wc wt wr category scores Hsc)
        as [ranked E].
      exists ranked. split; [exact E|].
      destruct (rank_flows_inv _ _ _ _ _ _ _ _ E Hne) as (sc & used & _ & _ & Ht1 & _).
      rewrite Ht1, map_map. simpl. apply map_id.
Qed.

Lemma rank_flows_raises_exactly_on_zero_weight_sum_witness :
  exists r log ranked,
    solve (Scenario.fixed_engine LpStatusOptimal [1000; 0; 0]%Q [1; 0; 0]%Q)
          Scenario.data "CAT02" "US" 1000 8 5 3 500 = Py.Ok (r, log) /\
    rank_flows r Scenario.data "US" 8 5 3 (Some "CAT02") = Py.Ok ranked /\
    map t1_flow (r_chosen_flows ranked) = chosen_flows r /\
    rank_flows r Scenario.data "US" 1 (-1) 0 (Some "CAT02")
    = Py.Raise Py.ZeroDivisionError.
Proof.
  eexists _, _.
  match goal with
  | |- exists ranked, ?E /\ _ => assert (Hs : E) by (vm_compute; reflexivity)
  end.
  destruct (proj2 (rank_flows_raises_exactly_on_zero_weight_sum
                     Scenario.data "US" 8 5 3 (Some "CAT02")) _ _ _ _ _ _ Hs)
    as (ranked & Hr & Ht1).
  exists ranked. split; [exact Hs|]. split; [exact Hr|]. split; [exact Ht1|].
  apply (proj1 (rank_flows_raises_exactly_on_zero_weight_sum
                  Scenario.data "US" 1 (-1) 0 (Some "CAT02"))).
  split; [discriminate|reflexivity].
Defined.

(** *** Tier 3: the best route of every remaining factory *)

Section DropDuplicatesFirst.
Context {A : Type} (key : A -> string).

(** [drop_duplicates] keeps, of every key, the first row. *)
Lemma drop_duplicates_first (seen : gset string) (l : list A) (b : A) :
  In b (Py.drop_duplicates key seen l) ->
  exists l1 l2, l = (l1 ++ b :: l2)%list /\ forall x, In x l1 -> key x <> key b.
Proof.
  revert seen. induction l as [|a l IH]; intros seen; simpl; [contradiction|].
  destruct (bool_decide_reflect (key a ∈ seen)) as [Ha|Ha].
  - intros Hb. pose proof (drop_duplicates_in key _ _ _ Hb) as [_ Hnb].
    destruct (IH _ Hb) as (l1 & l2 & -> & Hl1).
    exists (a :: l1), l2. split; [reflexivity|].
    intros x [<-|Hx]; [congruence|now apply Hl1].
  - intros [<-|Hb].
    + exists [], l. split; [reflexivity|]. intros x [].
    + pose proof (drop_duplicates_in key _ _ _ Hb) as [_ Hnb].
      destruct (IH _ Hb) as (l1 & l2 & -> & Hl1).
      exists (a :: l1), l2. split; [reflexivity|].
      intros x [<-|Hx]; [|now apply Hl1].
      intros E. apply Hnb. apply elem_of_union. left. apply elem_of_singleton.
      now symmetry.
Qed.

Lemma drop_duplicates_sorted (R : A -> A -> Prop) (seen : gset string) (l : list A) :
  StronglySorted R l -> StronglySorted R (Py.drop_duplicates key seen l).
Proof.
  intros Hs. revert seen. induction Hs as [|a l Hs IH Hall]; intros seen; simpl;
    [constructor|].
  destruct (bool_decide (key a ∈ seen)); [apply IH|].
  constructor; [apply IH|].
  apply List.Forall_forall. intros x Hx. apply drop_duplicates_in in Hx.
  rewrite List.Forall_forall in Hall. apply Hall. tauto.
Qed.

End DropDuplicatesFirst.

Lemma StronglySorted_after {A} (R : A -> A -> Prop) (l1 l2 : list A) (b c : A) :
  (forall x, R x x) ->
  StronglySorted R (l1 ++ b :: l2) -> In c (b :: l2) -> R b c.
Proof.
  intros Hrefl Hs Hc. induction l1 as [|a l1 IH]; simpl in Hs.
  - inversion Hs as [|? ? _ Hall]; subst. destruct Hc as [<-|Hc]; [apply Hrefl|].
    rewrite List.Forall_forall in Hall. now apply Hall.
  - inversion Hs; subst. now apply IH.
Qed.

(** X11.  Tier 3 starts with one entry per factory that has a feasible
    flow and appears neither in Tier 1 nor in Tier 2: the entries are
    listed by non-decreasing composite score, and each one shows a route
    of its factory with the lowest composite score among all feasible
    flows of that factory.  The entries that follow (the blocked
    factories) carry no composite score. *)
Theorem tier3_lists_best_route_per_factory
        `{DataFrameSort} (result : SolverResult) (data : SupplyChainData)
        (country : string) (wc wt wr : Z) (category : option string) (ranked : Ranked) :
  rank_flows result data country wc wt wr category = Py.Ok ranked ->
  feasible_flows result <> [] ->
  exists scores best blocked,
    _compute_composite_scores (feasible_flows result) data country wc wt wr = Py.Ok scores /\
    alternative_factories ranked = (map (tier3_available data) best ++ blocked)%list /\
    Forall (fun e => t3_composite_score e = None) blocked /\
    StronglySorted (fun a b => (composite_score a <= composite_score b)%Q) best /\
    Forall (fun b =>
              In b (ranked_rows result scores) /\
              ~ In (rf_factory_id b) (tier1_origins ranked) /\
              ~ In (rf_factory_id b) (tier2_origins ranked) /\
              forall c, In c (ranked_rows result scores) ->
                        rf_factory_id c = rf_factory_id b ->
                        (composite_score b <= composite_score c)%Q)
           best.
Proof.
  intros Hr Hne.
  destruct (rank_flows_inv _ _ _ _ _ _ _ _ Hr Hne)
    as (scores & used & Hsc & Hused & Ht1 & Ht2 & Ht3).
  cbv zeta in Hused, Ht3.
  set (remaining := remaining_rows result scores) in *.
  set (candidates := List.filter (fun r => negb (bool_decide (rf_factory_id r ∈ used)))
                                 remaining) in *.
  set (best := match candidates with
               | [] => []
               | _ :: _ => Py.drop_duplicates rf_factory_id ∅
                             (sort_values composite_score candidates)
               end) in *.
  assert (Hbest : best = Py.drop_duplicates rf_factory_id ∅
                           (sort_values composite_score candidates)).
  { unfold best. destruct candidates as [|c0 cs] eqn:Ec; [|reflexivity].
    pose proof (sort_values_perm _ composite_score (@nil RankedFlow)) as Hp.
    apply Permutation_sym, Permutation_nil in Hp. now rewrite Hp. }
  exists scores, best.
  eexists. split; [exact Hsc|]. split; [exact Ht3|].
  split.
  { destruct category as [cat|]; [|constructor].
    apply List.Forall_forall. intros e He. apply in_map_iff in He.
    destruct He as (fid & <- & _). unfold tier3_blocked.
    destruct (sort_values total_landed_cost _); reflexivity. }
  split.
  { rewrite Hbest. apply drop_duplicates_sorted. apply sort_values_sorted. }
  apply List.Forall_forall. intros b Hb. rewrite Hbest in Hb.
  pose proof (drop_duplicates_first rf_factory_id _ _ _ Hb) as (l1 & l2 & El & Hl1).
  assert (Hbc : In b candidates).
  { apply (Permutation_in _ (sort_values_perm _ composite_score candidates)).
    rewrite El. apply in_or_app. right. now left. }
  apply filter_In in Hbc. destruct Hbc as [Hbrem Hbused].
  apply negb_true_iff, bool_decide_eq_false in Hbused.
  assert (Hbrows : In b (ranked_rows result scores)).
  { apply (Permutation_in _ (remaining_rows_perm result scores)) in Hbrem.
    apply filter_In in Hbrem. tauto. }
  split; [exact Hbrows|].
  assert (Hn1 : ~ In (rf_factory_id b) (map cf_factory_id (chosen_flows result))).
  { intros Hin. apply Hbused. apply Hused. now left. }
  split.
  { unfold tier1_origins. rewrite Ht1, map_map. exact Hn1. }
  split.
  { unfold tier2_origins. rewrite Ht2, tier2_origin_ids.
    intros Hin. apply Hbused. apply Hused. now right. }
  intros c Hc Ef.
  assert (Hcc : In c candidates).
  { apply filter_In. split.
    - apply (Permutation_in _ (Permutation_sym (remaining_rows_perm result scores))).
      apply filter_In. split; [exact Hc|].
      apply not_chosen_spec. intros Hin. apply Hn1.
      unfold chosen_pairs in Hin. apply in_map_iff in Hin.
      destruct Hin as (cf & E & Hcf). apply in_map_iff. exists cf.
      split; [|exact Hcf]. injection E as E1 _. congruence.
    - apply negb_true_iff, bool_decide_eq_false. now rewrite Ef. }
  apply (Permutation_in _ (Permutation_sym (sort_values_perm _ composite_score candidates)))
    in Hcc.
  rewrite El in Hcc. apply in_app_or in Hcc. destruct Hcc as [Hcc|Hcc].
  - exfalso. exact (Hl1 c Hcc Ef).
  - apply (StronglySorted_after (fun a b => (composite_score a <= composite_score b)%Q)
                                l1 l2 b c); [intros x; apply Qle_refl| |exact Hcc].
    rewrite <- El. apply sort_values_sorted.
Qed.

(** *** Tier 3: the blocked factories *)

Lemma ascii_compare_refl (c : ascii) : Ascii.compare c c = Eq.
Proof. unfold Ascii.compare. apply N.compare_refl. Qed.

Lemma string_leb_trans (s1 s2 s3 : string) :
  String.leb s1 s2 = true -> String.leb s2 s3 = true -> String.leb s1 s3 = true.
Proof.
  unfold String.leb. revert s2 s3.
  induction s1 as [|a s1 IH]; intros [|c2 s2] [|c3 s3]; simpl; try congruence.
  destruct (Ascii.compare a c2) eqn:E12; try discriminate;
    destruct (Ascii.compare c2 c3) eqn:E23; try discriminate.
  - apply Ascii.compare_eq_iff in E12, E23. subst. rewrite ascii_compare_refl. apply IH.
  - apply Ascii.compare_eq_iff in E12. subst. now rewrite E23.
  - apply Ascii.compare_eq_iff in E23. subst. now rewrite E12.
  - unfold Ascii.compare in *. rewrite N.compare_lt_iff in E12, E23.
    assert (E : (N_of_ascii a ?= N_of_ascii c3)%N = Lt) by (apply N.compare_lt_iff; lia).
    now rewrite E.
Qed.

Lemma sorted_by_leb_sorted (l : list string) :
  StronglySorted (fun a b => String.leb a b = true) (Py.sorted_by String.leb l).
Proof.
  apply sorted_by_sorted.
  - tauto.
  - intros x y Hxy. destruct (String.leb_total x y) as [E|E]; [congruence|exact E].
  - apply string_leb_trans.
Qed.

(** The first row that passes a filter. *)
Lemma filter_head {A} (p : A -> bool) (l : list A) (x : A) (rest : list A) :
  List.filter p l = x :: rest ->
  exists before after,
    l = (before ++ x :: after)%list /\ p x = true /\ Forall (fun y => p y = false) before.
Proof.
  induction l as [|a l IH]; simpl; [discriminate|].
  destruct (p a) eqn:E.
  - intros [= -> _]. exists [], l. split; [reflexivity|]. split; [exact E|constructor].
  - intros Hf. destruct (IH Hf) as (before & after & -> & Hx & Hb).
    exists (a :: before), after. split; [reflexivity|]. split; [exact Hx|].
    constructor; assumption.
Qed.

(** What the blocked part of Tier 3 is made of. *)
Lemma tier3_blocked_part `{DataFrameSort} result data country wc wt wr cat ranked :
  rank_flows result data country wc wt wr (Some cat) = Py.Ok ranked ->
  feasible_flows result <> [] ->
  exists available ids,
    alternative_factories ranked
    = (available
       ++ map (tier3_blocked data country
                 (List.filter (fun r => String.eqb (category_id r) cat
                                        && String.eqb (country_code r) country)
                              (all_flows data)))
              ids)%list /\
    Forall (fun e => t3_status e = "Available") available /\
    StronglySorted (fun a b => String.leb a b = true) ids /\
    Forall (fun fid =>
              In fid (map fa_factory_id (factories data)) /\
              forall f, In f (feasible_flows result) -> factory_id (sf_row f) <> fid)
           ids.
Proof.
  intros Hr Hne.
  destruct (rank_flows_inv _ _ _ _ _ _ _ _ Hr Hne)
    as (scores & used & Hsc & Hused & Ht1 & Ht2 & Ht3).
  cbv zeta in Hused, Ht3.
  pose proof (composite_scores_length _ _ _ _ _ _ _ Hsc) as Hlen.
  set (remaining := remaining_rows result scores) in *.
  set (candidates := List.filter (fun r => negb (bool_decide (rf_factory_id r ∈ used)))
                                 remaining) in *.
  set (best := match candidates with
               | [] => []
               | _ :: _ => Py.drop_duplicates rf_factory_id ∅
                             (sort_values composite_score candidates)
               end) in *.
  eexists _, _. split; [exact Ht3|].
  split.
  { apply List.Forall_forall. intros e He. apply in_map_iff in He.
    now destruct He as (b & <- & _). }
  split; [apply sorted_by_leb_sorted|].
  apply List.Forall_forall. intros fid Hfid.
  apply (Permutation_in _ (sorted_by_perm _ _)) in Hfid.
  apply list_elem_of_In, elem_of_elements in Hfid.
  apply elem_of_difference in Hfid. destruct Hfid as [Hfid Hn3].
  apply elem_of_difference in Hfid. destruct Hfid as [Hall Hnu].
  apply elem_of_list_to_set, list_elem_of_In in Hall.
  split; [exact Hall|].
  intros f Hf E.
  destruct (ranked_rows_cover result scores f Hlen Hf) as (row & Hrow & Erow).
  assert (Efid : rf_factory_id row = fid) by (unfold rf_factory_id; now rewrite Erow).
  destruct (not_chosen result row) eqn:Enc.
  - assert (Hrem : In row remaining).
    { apply (Permutation_in _ (Permutation_sym (remaining_rows_perm result scores))).
      apply filter_In. tauto. }
    assert (Hcand : In row candidates).
    { apply filter_In. split; [exact Hrem|].
      apply negb_true_iff, bool_decide_eq_false. now rewrite Efid. }
    apply Hn3. apply elem_of_list_to_set, list_elem_of_In.
    assert (Hb : best = Py.drop_duplicates rf_factory_id ∅
                          (sort_values composite_score candidates)).
    { unfold best. destruct candidates; [contradiction|reflexivity]. }
    rewrite Hb, <- Efid.
    destruct (drop_duplicates_complete rf_factory_id ∅
                (sort_values composite_score candidates) row) as [Hs|Hs].
    + apply (Permutation_in _ (Permutation_sym (sort_values_perm _ _ _))). exact Hcand.
    + exfalso. revert Hs. apply not_elem_of_empty.
    + exact Hs.
  - apply Hnu. apply Hused. left.
    assert (Hin : In (rf_factory_id row, rf_hub_id row) (chosen_pairs result)).
    { destruct (decide ((rf_factory_id row, rf_hub_id row) ∈ chosen_pairs result))
        as [Hin|Hnin]; [now apply list_elem_of_In|].
      rewrite list_elem_of_In in Hnin. apply not_chosen_spec in Hnin. congruence. }
    unfold chosen_pairs in Hin. apply in_map_iff in Hin.
    destruct Hin as (cf & Ecf & Hcf). apply in_map_iff. exists cf.
    split; [|exact Hcf]. injection Ecf as E1 _. congruence.
Qed.

(** X12.  With a category, Tier 3 ends with the blocked factories: the
    factories of the catalog without a flow in the frame, in ascending
    order of their ids, each without a composite score.  A blocked
    factory is labelled ["Restricted: <reason>"] with the reason of the
    first MADE_IN rule of the destination against the factory's country,
    when there is one and its reason is not empty; every other blocked
    factory is labelled ["Exceeds lead time"], also one that only a
    ROUTED_THROUGH rule blocks. *)
Theorem blocked_factories_are_labelled
        `{DataFrameSort} (result : SolverResult) (data : SupplyChainData)
        (country : string) (wc wt wr : Z) (cat : string) (ranked : Ranked) :
  rank_flows result data country wc wt wr (Some cat) = Py.Ok ranked ->
  feasible_flows result <> [] ->
  exists available blocked,
    alternative_factories ranked = (available ++ blocked)%list /\
    Forall (fun e => t3_status e = "Available") available /\
    StronglySorted (fun a b => String.leb a b = true) (map t3_factory_id blocked) /\
    Forall (fun e =>
              t3_composite_score e = None /\
              In (t3_factory_id e) (map fa_factory_id (factories data)) /\
              (forall f, In f (feasible_flows result) ->
                         factory_id (sf_row f) <> t3_factory_id e) /\
              ((exists before rule after,
                   geopolitical data = (before ++ rule :: after)%list /\
                   gr_destination_country_code rule = country /\
                   gr_restricted_country_code rule = factory_country data (t3_factory_id e) /\
                   gr_restriction_type rule = "MADE_IN" /\
                   Forall (fun r => ~ (gr_destination_country_code r = country /\
                                       gr_restricted_country_code r
                                       = factory_country data (t3_factory_id e) /\
                                       gr_restriction_type r = "MADE_IN")) before /\
                   t3_status e = if String.eqb (gr_reason rule) ""
                                 then "Exceeds lead time"
                                 else "Restricted: " ++ gr_reason rule) \/
               ((forall r, In r (geopolitical data) ->
                           ~ (gr_destination_country_code r = country /\
                              gr_restricted_country_code r
                              = factory_country data (t3_factory_id e) /\
                              gr_restriction_type r = "MADE_IN")) /\
                t3_status e = "Exceeds lead time")))
           blocked.
Proof.
  intros Hr Hne.
  destruct (tier3_blocked_part _ _ _ _ _ _ _ _ Hr Hne)
    as (available & ids & Ht3 & Hav & Hsorted & Hids).
  eexists _, _. split; [exact Ht3|]. split; [exact Hav|].
  split.
  { rewrite map_map.
    rewrite (map_ext _ (fun x => x) (fun fid => tier3_blocked_id data country _ fid)).
    now rewrite map_id. }
  apply List.Forall_map. eapply List.Forall_impl; [|exact Hids].
  intros fid [Hcat Hnone]. rewrite tier3_blocked_id.
  split; [unfold tier3_blocked; now destruct (sort_values _ _)|].
  split; [exact Hcat|]. split; [exact Hnone|].
  assert (Est : t3_status (tier3_blocked data country
                             (List.filter (fun r => String.eqb (category_id r) cat
                                                    && String.eqb (country_code r) country)
                                          (all_flows data)) fid)
                = match _get_restriction_reason data fid country with
                  | Some reason => if String.eqb reason "" then "Exceeds lead time"
                                   else "Restricted: " ++ reason
                  | None => "Exceeds lead time"
                  end).
  { unfold tier3_blocked. now destruct (sort_values _ _). }
  rewrite Est. unfold _get_restriction_reason.
  set (p := fun r => String.eqb (gr_destination_country_code r) country
                     && String.eqb (gr_restricted_country_code r) (factory_country data fid)
                     && String.eqb (gr_restriction_type r) "MADE_IN").
  assert (Hp : forall r, p r = true <->
                         gr_destination_country_code r = country /\
                         gr_restricted_country_code r = factory_country data fid /\
                         gr_restriction_type r = "MADE_IN").
  { intros r. unfold p. rewrite !andb_true_iff, !String.eqb_eq. tauto. }
  destruct (List.filter p (geopolitical data)) as [|rule rest] eqn:Ef.
  - right. split; [|reflexivity]. intros r Hin Hm. apply Hp in Hm.
    assert (Hr' : In r (List.filter p (geopolitical data))) by (apply filter_In; tauto).
    rewrite Ef in Hr'. contradiction.
  - left. destruct (filter_head p _ _ _ Ef) as (before & after & E & Hx & Hb).
    exists before, rule, after. apply Hp in Hx.
    split; [exact E|]. split; [tauto|]. split; [tauto|]. split; [tauto|].
    split; [|reflexivity].
    eapply List.Forall_impl; [|exact Hb]. intros r Hr0 Hm. apply Hp in Hm. congruence.
Qed.

(** X13.  A blocked factory of Tier 3 shows the cheapest of its flows for
    the category and destination, restricted and late flows included: the
    hub, landed cost and transit days are those of a flow of the factory
    whose landed cost is the lowest; a factory without any flow for the
    category and destination shows no hub (["N/A"]), no cost and no
    transit days. *)
Theorem blocked_factories_show_cheapest_route
        `{DataFrameSort} (result : SolverResult) (data : SupplyChainData)
        (country : string) (wc wt wr : Z) (cat : string) (ranked : Ranked) :
  rank_flows result data country wc wt wr (Some cat) = Py.Ok ranked ->
  feasible_flows result <> [] ->
  Forall (fun e =>
            t3_status e = "Available" \/
            let own := List.filter (fun r => String.eqb (category_id r) cat
                                             && String.eqb (country_code r) country
                                             && String.eqb (factory_id r) (t3_factory_id e))
                                   (all_flows data) in
            (own = [] /\ best_hub_id e = None /\ best_hub_name e = "N/A" /\
             t3_cost_per_unit e = None /\ t3_transit_days e = None) \/
            (exists best,
                In best own /\
                best_hub_id e = Some (hub_id best) /\
                best_hub_name e = hub_name data (hub_id best) /\
                t3_cost_per_unit e = Some (total_landed_cost best) /\
                t3_transit_days e = Some (transit_days best) /\
                forall row, In row own ->
                            (total_landed_cost best <= total_landed_cost row)%Q))
         (alternative_factories ranked).
Proof.
  intros Hr Hne.
  destruct (tier3_blocked_part _ _ _ _ _ _ _ _ Hr Hne)
    as (available & ids & Ht3 & Hav & _ & _).
  rewrite Ht3. apply Forall_app. split.
  { eapply List.Forall_impl; [|exact Hav]. intros e He. now left. }
  apply List.Forall_map. apply List.Forall_forall. intros fid _. right.
  rewrite tier3_blocked_id. cbv zeta. rewrite <- filter_filter.
  set (acc := List.filter (fun r => String.eqb (category_id r) cat
                                    && String.eqb (country_code r) country)
                          (all_flows data)).
  set (own := List.filter (fun r => String.eqb (factory_id r) fid) acc).
  unfold tier3_blocked. fold acc. fold own.
  pose proof (sort_values_perm _ total_landed_cost own) as Hperm.
  pose proof (sort_values_sorted _ total_landed_cost own) as Hsorted.
  destruct (sort_values total_landed_cost own) as [|best rest] eqn:Es.
  - left. apply Permutation_nil in Hperm. rewrite Hperm. simpl. tauto.
  - right. exists best. simpl.
    split; [apply (Permutation_in _ Hperm); now left|].
    repeat (split; [reflexivity|]).
    intros row Hrow. apply (Permutation_in _ (Permutation_sym Hperm)) in Hrow.
    inversion Hsorted as [|? ? _ Hall]; subst.
    destruct Hrow as [<-|Hrow]; [apply Qle_refl|].
    rewrite List.Forall_forall in Hall. now apply Hall.
Qed.

(** The fourth category of the wider data set, 1000 units on the first
    route: Tier 2 takes three routes of the two US factories; Tier 3
    lists Mexico and Vietnam with their best routes, then the Chinese
    factory (MADE_IN rule) and the German one (routed through China). *)
Lemma tier3_lists_best_route_per_factory_witness :
  exists r log ranked,
    solve (Scenario.fixed_engine LpStatusOptimal [1000; 0; 0; 0; 0; 0; 0]%Q
                                 [1; 0; 0; 0; 0; 0; 0]%Q)
          WideScenario.data "CAT04" "US" 1000 8 5 3 500 = Py.Ok (r, log) /\
    rank_flows r WideScenario.data "US" 8 5 3 (Some "CAT04") = Py.Ok ranked /\
    feasible_flows r <> [] /\
    map t2_factory_id (other_available ranked) = ["F_US_01"; "F_US_02"; "F_US_02"] /\
    map (fun e => (t3_factory_id e, best_hub_id e, t3_status e))
        (alternative_factories ranked)
    = [("F_MX_01", Some "H_US_01", "Available");
       ("F_VN_01", Some "H_US_01", "Available");
       ("F_CN_01", Some "H_US_02", "Restricted: US-China trade restrictions");
       ("F_DE_01", Some "H_CN_01", "Exceeds lead time")] /\
    exists scores best blocked,
      _compute_composite_scores (feasible_flows r) WideScenario.data "US" 8 5 3
      = Py.Ok scores /\
      alternative_factories ranked
      = (map (tier3_available WideScenario.data) best ++ blocked)%list /\
      Forall (fun e => t3_composite_score e = None) blocked /\
      StronglySorted (fun a b => (composite_score a <= composite_score b)%Q) best /\
      Forall (fun b =>
                In b (ranked_rows r scores) /\
                ~ In (rf_factory_id b) (tier1_origins ranked) /\
                ~ In (rf_factory_id b) (tier2_origins ranked) /\
                forall c, In c (ranked_rows r scores) ->
                          rf_factory_id c = rf_factory_id b ->
                          (composite_score b <= composite_score c)%Q)
             best.
Proof.
  eexists _, _, _.
  match goal with |- ?E /\ _ => assert (Hs : E) by (vm_compute; reflexivity) end.
  split; [exact Hs|].
  match goal with |- ?E /\ _ => assert (Hr : E) by (vm_compute; reflexivity) end.
  split; [exact Hr|].
  match goal with |- ?E /\ _ => assert (Hne : E) by discriminate end.
  split; [exact Hne|].
  split; [reflexivity|]. split; [reflexivity|].
  exact (tier3_lists_best_route_per_factory _ _ _ _ _ _ _ _ Hr Hne).
Defined.

Lemma blocked_factories_are_labelled_witness :
  exists r log ranked,
    solve (Scenario.fixed_engine LpStatusOptimal [1000; 0; 0; 0; 0; 0; 0]%Q
                                 [1; 0; 0; 0; 0; 0; 0]%Q)
          WideScenario.data "CAT04" "US" 1000 8 5 3 500 = Py.Ok (r, log) /\
    rank_flows r WideScenario.data "US" 8 5 3 (Some "CAT04") = Py.Ok ranked /\
    feasible_flows r <> [] /\
    map (fun e => (t3_factory_id e, t3_status e)) (alternative_factories ranked)
    = [("F_MX_01", "Available"); ("F_VN_01", "Available");
       ("F_CN_01", "Restricted: US-China trade restrictions");
       ("F_DE_01", "Exceeds lead time")] /\
    exists available blocked,
      alternative_factories ranked = (available ++ blocked)%list /\
      Forall (fun e => t3_status e = "Available") available /\
      StronglySorted (fun a b => String.leb a b = true) (map t3_factory_id blocked).
Proof.
  eexists _, _, _.
  match goal with |- ?E /\ _ => assert (Hs : E) by (vm_compute; reflexivity) end.
  split; [exact Hs|].
  match goal with |- ?E /\ _ => assert (Hr : E) by (vm_compute; reflexivity) end.
  split; [exact Hr|].
  match goal with |- ?E /\ _ => assert (Hne : E) by discriminate end.
  split; [exact Hne|].
  split; [reflexivity|].
  destruct (blocked_factories_are_labelled _ _ _ _ _ _ _ _ Hr Hne)
    as (available & blocked & H1 & H2 & H3 & _).
  exists available, blocked. split; [exact H1|]. split; [exact H2|exact H3].
Defined.

Lemma blocked_factories_show_cheapest_route_witness :
  exists r log ranked,
    solve (Scenario.fixed_engine LpStatusOptimal [1000; 0; 0; 0; 0; 0; 0]%Q
                                 [1; 0; 0; 0; 0; 0; 0]%Q)
          WideScenario.data "CAT04" "US" 1000 8 5 3 500 = Py.Ok (r, log) /\
    rank_flows r WideScenario.data "US" 8 5 3 (Some "CAT04") = Py.Ok ranked /\
    feasible_flows r <> [] /\
    map (fun e => (t3_factory_id e, best_hub_id e, t3_cost_per_unit e))
        (alternative_factories ranked)
    = [("F_MX_01", Some "H_US_01", Some 155%Q); ("F_VN_01", Some "H_US_01", Some 140%Q);
       ("F_CN_01", Some "H_US_02", Some 40%Q); ("F_DE_01", Some "H_CN_01", Some 160%Q)] /\
    Forall (fun e =>
              t3_status e = "Available" \/
              let own := List.filter (fun r => String.eqb (category_id r) "CAT04"
                                               && String.eqb (country_code r) "US"
                                               && String.eqb (factory_id r) (t3_factory_id e))
                                     (all_flows WideScenario.data) in
              (own = [] /\ best_hub_id e = None /\ best_hub_name e = "N/A" /\
               t3_cost_per_unit e = None /\ t3_transit_days e = None) \/
              (exists best,
                  In best own /\
                  best_hub_id e = Some (hub_id best) /\
                  best_hub_name e = hub_name WideScenario.data (hub_id best) /\
                  t3_cost_per_unit e = Some (total_landed_cost best) /\
                  t3_transit_days e = Some (transit_days best) /\
                  forall row, In row own ->
                              (total_landed_cost best <= total_landed_cost row)%Q))
           (alternative_factories ranked).
Proof.
  eexists _, _, _.
  match goal with |- ?E /\ _ => assert (Hs : E) by (vm_compute; reflexivity) end.
  split; [exact Hs|].
  match goal with |- ?E /\ _ => assert (Hr : E) by (vm_compute; reflexivity) end.
  split; [exact Hr|].
  match goal with |- ?E /\ _ => assert (Hne : E) by discriminate end.
  split; [exact Hne|].
  split; [reflexivity|].
  exact (blocked_factories_show_cheapest_route _ _ _ _ _ _ _ _ Hr Hne).
Defined.

(** ** The ontology *)

Lemma check_restrictions_valid (fe : Ontology.FactoryEntity) (he : Ontology.HubEntity)
      (c : string) (rs : list Ontology.GeopoliticalRestriction) :
  (fst (Ontology.check_restrictions fe he c rs) = true <->
   forall r, In r rs ->
             ~ (Ontology.restriction_type r = "MADE_IN" /\
                Ontology.restricted_country_code r = Ontology.fe_country_code fe) /\
             ~ (Ontology.restriction_type r = "ROUTED_THROUGH" /\
                Ontology.restricted_country_code r = Ontology.he_country_code he)) /\
  (fst (Ontology.check_restrictions fe he c rs) = true ->
   snd (Ontology.check_restrictions fe he c rs) = "Flow is valid").
Proof.
  induction rs as [|r rs [IH1 IH2]]; cbn [Ontology.check_restrictions].
  - split; [|reflexivity]. split; [intros _ r []|reflexivity].
  - destruct (String.eqb (Ontology.restriction_type r) "MADE_IN"
              && String.eqb (Ontology.fe_country_code fe)
                            (Ontology.restricted_country_code r)) eqn:E1.
    { apply andb_true_iff in E1. rewrite !String.eqb_eq in E1. simpl.
      split; [|discriminate]. split; [discriminate|]. intros Hall.
      destruct (Hall r (or_introl eq_refl)) as [Hm _]. exfalso. apply Hm.
      destruct E1. split; congruence. }
    destruct (String.eqb (Ontology.restriction_type r) "ROUTED_THROUGH"
              && String.eqb (Ontology.he_country_code he)
                            (Ontology.restricted_country_code r)) eqn:E2.
    { apply andb_true_iff in E2. rewrite !String.eqb_eq in E2. simpl.
      split; [|discriminate]. split; [discriminate|]. intros Hall.
      destruct (Hall r (or_introl eq_refl)) as [_ Hm]. exfalso. apply Hm.
      destruct E2. split; congruence. }
    split; [|exact IH2]. rewrite IH1. split.
    + intros Hall x [<-|Hx]; [|now apply Hall]. split.
      * intros [Ht Hc]. apply andb_false_iff in E1. rewrite !String.eqb_neq in E1.
        destruct E1; congruence.
      * intros [Ht Hc]. apply andb_false_iff in E2. rewrite !String.eqb_neq in E2.
        destruct E2; congruence.
    + intros Hall x Hx. apply Hall. now right.
Qed.

Lemma validate_flow_accepts (o : Ontology.SupplyChainOntology) (f h c : string) :
  fst (Ontology.validate_flow o f h c) = true <->
  exists fe he,
    Ontology.get_factory o f = Some fe /\ Ontology.get_hub o h = Some he /\
    forall r, In r (Ontology.restrictions o) ->
              Ontology.destination_country_code r = c ->
              ~ (Ontology.restriction_type r = "MADE_IN" /\
                 Ontology.restricted_country_code r = Ontology.fe_country_code fe) /\
              ~ (Ontology.restriction_type r = "ROUTED_THROUGH" /\
                 Ontology.restricted_country_code r = Ontology.he_country_code he).
Proof.
  unfold Ontology.validate_flow, Ontology.get_factory, Ontology.get_hub.
  destruct (Ontology.o_factories o !! f) as [fe|] eqn:Ef;
    [destruct (Ontology.o_hubs o !! h) as [he|] eqn:Eh|].
  - rewrite (proj1 (check_restrictions_valid fe he c
                      (Ontology.get_restrictions_for_country o c))).
    unfold Ontology.get_restrictions_for_country. split.
    + intros Hall. exists fe, he. split; [reflexivity|]. split; [reflexivity|].
      intros r Hr Hd. apply Hall. apply filter_In. split; [exact Hr|].
      now apply String.eqb_eq.
    + intros (fe' & he' & [= <-] & [= <-] & Hall) r Hr.
      apply filter_In in Hr. destruct Hr as [Hr Hd]. apply String.eqb_eq in Hd.
      now apply Hall.
  - split; [discriminate|]. intros (fe' & he' & _ & [=] & _).
  - split; [discriminate|]. intros (fe' & he' & [=] & _).
Qed.

(** X14.  [validate_flow] accepts a route exactly when the factory and the
    hub are known and no rule of the destination is a MADE_IN rule against
    the factory's country or a ROUTED_THROUGH rule against the hub's
    country; an accepted route gets the reason ["Flow is valid"], and a
    route with an unknown factory or hub is rejected as unknown before any
    rule is looked at. *)
Theorem validate_flow_valid_iff (o : Ontology.SupplyChainOntology) (f h c : string) :
  (fst (Ontology.validate_flow o f h c) = true <->
   exists fe he,
     Ontology.get_factory o f = Some fe /\ Ontology.get_hub o h = Some he /\
     forall r, In r (Ontology.restrictions o) ->
               Ontology.destination_country_code r = c ->
               ~ (Ontology.restriction_type r = "MADE_IN" /\
                  Ontology.restricted_country_code r = Ontology.fe_country_code fe) /\
               ~ (Ontology.restriction_type r = "ROUTED_THROUGH" /\
                  Ontology.restricted_country_code r = Ontology.he_country_code he)) /\
  (fst (Ontology.validate_flow o f h c) = true ->
   snd (Ontology.validate_flow o f h c) = "Flow is valid") /\
  (Ontology.get_factory o f = None \/ Ontology.get_hub o h = None ->
   Ontology.validate_flow o f h c = (false, "Unknown factory " ++ f ++ " or hub " ++ h)).
Proof.
  split; [apply validate_flow_accepts|].
  unfold Ontology.validate_flow, Ontology.get_factory, Ontology.get_hub.
  destruct (Ontology.o_factories o !! f) as [fe|];
    [destruct (Ontology.o_hubs o !! h) as [he|]|].
  - split; [|intros [?|?]; discriminate].
    apply (proj2 (check_restrictions_valid fe he c
                    (Ontology.get_restrictions_for_country o c))).
  - split; [discriminate|reflexivity].
  - split; [discriminate|reflexivity].
Qed.

Lemma foldl_insert_dict_of {R V} (key : R -> string) (val : R -> V) (rows : list R) :
  foldl (fun m row => <[key row := val row]> m) ∅ rows
  = Py.dict_of (map (fun row => (key row, val row)) rows).
Proof.
  unfold Py.dict_of. generalize (∅ : gmap string V).
  induction rows as [|r rows IH]; intros m; simpl; [reflexivity|]. apply IH.
Qed.

Lemma restricted_by_check (rules : list RestrictionRow) (fe : Ontology.FactoryEntity)
      (he : Ontology.HubEntity) (c : string) :
  fst (Ontology.check_restrictions fe he c
         (List.filter (fun r => String.eqb (Ontology.destination_country_code r) c)
            (map restriction_entity rules)))
  = negb (GenerateData.restricted_by rules (Ontology.fe_country_code fe)
                                     (Ontology.he_country_code he) c).
Proof.
  induction rules as [|row rules IH]; [reflexivity|].
  cbn [map List.filter GenerateData.restricted_by restriction_entity
         Ontology.destination_country_code].
  destruct (String.eqb (gr_destination_country_code row) c); cbn [negb]; [|exact IH].
  cbn [Ontology.check_restrictions Ontology.restriction_type
         Ontology.restricted_country_code restriction_entity].
  rewrite (String.eqb_sym (Ontology.fe_country_code fe)),
    (String.eqb_sym (Ontology.he_country_code he)).
  destruct (String.eqb (gr_restriction_type row) "MADE_IN"
            && String.eqb (gr_restricted_country_code row) (Ontology.fe_country_code fe));
    [reflexivity|].
  destruct (String.eqb (gr_restriction_type row) "ROUTED_THROUGH"
            && String.eqb (gr_restricted_country_code row) (Ontology.he_country_code he));
    [reflexivity|].
  exact IH.
Qed.

(** X15.  The ontology and the data generator apply the same rules: for a
    known factory and hub, [validate_flow] on the ontology built from a
    data set accepts a route exactly when the generator's restriction
    check over the data set's rule table, applied to the countries of the
    factory and the hub, does not flag it; with the generator's own table
    this is [is_flow_restricted]. *)
Theorem validate_flow_agrees_with_generator
        (data : SupplyChainData) (f h c : string)
        (fe : Ontology.FactoryEntity) (he : Ontology.HubEntity) :
  Ontology.get_factory (Ontology._build_entities data) f = Some fe ->
  Ontology.get_hub (Ontology._build_entities data) h = Some he ->
  fst (Ontology.validate_flow (Ontology._build_entities data) f h c)
  = negb (GenerateData.restricted_by (geopolitical data) (Ontology.fe_country_code fe)
                                     (Ontology.he_country_code he) c) /\
  (geopolitical data = GenerateData.GEOPOLITICAL_RESTRICTIONS ->
   fst (Ontology.validate_flow (Ontology._build_entities data) f h c)
   = negb (GenerateData.is_flow_restricted (Ontology.fe_country_code fe)
                                           (Ontology.he_country_code he) c)).
Proof.
  intros Hf Hh.
  assert (E : fst (Ontology.validate_flow (Ontology._build_entities data) f h c)
              = negb (GenerateData.restricted_by (geopolitical data)
                        (Ontology.fe_country_code fe) (Ontology.he_country_code he) c)).
  { unfold Ontology.validate_flow, Ontology.get_factory, Ontology.get_hub in *.
    rewrite Hf, Hh. apply restricted_by_check. }
  split; [exact E|]. intros Hg. rewrite E, Hg. reflexivity.
Qed.

(** On the wider data set: China to the US through Houston is blocked by
    both checks, Vietnam to the US through Houston passes both. *)
Lemma validate_flow_agrees_with_generator_witness :
  exists fe he,
    Ontology.get_factory (Ontology._build_entities WideScenario.data) "F_CN_01" = Some fe /\
    Ontology.get_hub (Ontology._build_entities WideScenario.data) "H_US_01" = Some he /\
    Ontology.validate_flow (Ontology._build_entities WideScenario.data)
                           "F_CN_01" "H_US_01" "US"
    = (false, "MADE_IN restriction: US blocks products made in CN (US-China trade restrictions)") /\
    GenerateData.is_flow_restricted "CN" "US" "US" = true /\
    Ontology.validate_flow (Ontology._build_entities WideScenario.data)
                           "F_VN_01" "H_US_01" "US" = (true, "Flow is valid") /\
    fst (Ontology.validate_flow (Ontology._build_entities WideScenario.data)
                                "F_CN_01" "H_US_01" "US")
    = negb (GenerateData.is_flow_restricted (Ontology.fe_country_code fe)
                                            (Ontology.he_country_code he) "US").
Proof.
  eexists _, _.
  match goal with |- ?E /\ _ => assert (Hf : E) by (vm_compute; reflexivity) end.
  split; [exact Hf|].
  match goal with |- ?E /\ _ => assert (Hh : E) by (vm_compute; reflexivity) end.
  split; [exact Hh|].
  split; [vm_compute; reflexivity|]. split; [vm_compute; reflexivity|].
  split; [vm_compute; reflexivity|].
  exact (proj2 (validate_flow_agrees_with_generator
                  WideScenario.data "F_CN_01" "H_US_01" "US" _ _ Hf Hh) eq_refl).
Defined.

Lemma build_entities_lookups (data : SupplyChainData) :
  (forall f, Ontology.get_factory (Ontology._build_entities data) f
             = factory_entity <$> last (List.filter (fun r => String.eqb (fa_factory_id r) f)
                                                    (factories data))) /\
  (forall h, Ontology.get_hub (Ontology._build_entities data) h
             = hub_entity <$> last (List.filter (fun r => String.eqb (hu_hub_id r) h)
                                                (hubs data))) /\
  (forall c, Ontology.get_country (Ontology._build_entities data) c
             = country_entity <$> last (List.filter (fun r => String.eqb (co_country_code r) c)
                                                    (countries data))) /\
  Ontology.restrictions (Ontology._build_entities data)
  = map restriction_entity (geopolitical data).
Proof.
  unfold Ontology.get_factory, Ontology.get_hub, Ontology.get_country,
    Ontology._build_entities. cbn [Ontology.o_factories Ontology.o_hubs
                                     Ontology.o_countries Ontology.restrictions].
  split; [|split; [|split; [|reflexivity]]].
  - intros f. rewrite (foldl_insert_dict_of fa_factory_id factory_entity).
    apply dict_of_rows.
  - intros h. rewrite (foldl_insert_dict_of hu_hub_id hub_entity).
    apply dict_of_rows.
  - intros c. rewrite (foldl_insert_dict_of co_country_code country_entity).
    apply dict_of_rows.
Qed.

Lemma last_filter_in {A} (p : A -> bool) (l : list A) (x : A) :
  last (List.filter p l) = Some x -> In x l /\ p x = true.
Proof.
  intros H. apply filter_In. apply list_elem_of_In.
  apply last_Some in H. destruct H as [l' E]. rewrite E.
  apply elem_of_app. right. now left.
Qed.

(** X16.  A factory that the ranker labels restricted for a destination
    has no valid flow to that destination in the ontology built from the
    same data, through any hub. *)
Theorem restricted_factory_has_no_valid_flow
        (data : SupplyChainData) (f c reason : string) :
  _get_restriction_reason data f c = Some reason ->
  forall h, fst (Ontology.validate_flow (Ontology._build_entities data) f h c) = false.
Proof.
  intros Hreason h.
  destruct (fst (Ontology.validate_flow (Ontology._build_entities data) f h c)) eqn:Ev;
    [|reflexivity].
  exfalso. apply validate_flow_accepts in Ev.
  destruct Ev as (fe & he & Hf & _ & Hall).
  destruct (build_entities_lookups data) as (Hfl & _ & _ & Hrs).
  rewrite Hfl in Hf. rewrite Hrs in Hall.
  unfold _get_restriction_reason in Hreason.
  match type of Hreason with
  | match List.filter ?p ?l with _ => _ end = _ =>
      destruct (List.filter p l) as [|rule rest] eqn:Efil; [discriminate|];
      assert (Hrule : In rule (List.filter p l)) by (rewrite Efil; now left)
  end.
  apply filter_In in Hrule. destruct Hrule as [Hin Hp].
  rewrite !andb_true_iff, !String.eqb_eq in Hp. destruct Hp as [[Hd Hc] Ht].
  destruct (Hall (restriction_entity rule) (in_map _ _ _ Hin) Hd) as [Hm _].
  apply Hm. split; [exact Ht|]. cbn [restriction_entity Ontology.restricted_country_code].
  rewrite Hc. unfold factory_country, Py.get_default, _factory_country.
  rewrite dict_of_rows.
  destruct (last (List.filter _ (factories data))) as [row|]; [|discriminate].
  simpl in Hf. injection Hf as <-. reflexivity.
Qed.

Lemma restricted_factory_has_no_valid_flow_witness :
  _get_restriction_reason WideScenario.data "F_CN_01" "US"
  = Some "US-China trade restrictions" /\
  Ontology.validate_flow (Ontology._build_entities WideScenario.data)
                         "F_CN_01" "H_VN_01" "US"
  = (false, "MADE_IN restriction: US blocks products made in CN (US-China trade restrictions)") /\
  forall h, fst (Ontology.validate_flow (Ontology._build_entities WideScenario.data)
                                        "F_CN_01" h "US") = false.
Proof.
  assert (Hr : _get_restriction_reason WideScenario.data "F_CN_01" "US"
               = Some "US-China trade restrictions") by (vm_compute; reflexivity).
  split; [exact Hr|]. split; [vm_compute; reflexivity|].
  exact (restricted_factory_has_no_valid_flow WideScenario.data "F_CN_01" "US" _ Hr).
Defined.

(** X17.  The ontology keeps one entity per id, that of the last row of
    the id: [get_factory], [get_hub] and [get_country] return the entity
    of the last row with the id, [None] for an id without a row;
    [factories_in_region] lists exactly the factory entities of the
    region, each id at most once. *)
Theorem ontology_entities_follow_last_row (data : SupplyChainData) :
  let o := Ontology._build_entities data in
  (forall f, Ontology.get_factory o f
             = factory_entity <$> last (List.filter (fun r => String.eqb (fa_factory_id r) f)
                                                    (factories data))) /\
  (forall h, Ontology.get_hub o h
             = hub_entity <$> last (List.filter (fun r => String.eqb (hu_hub_id r) h)
                                                (hubs data))) /\
  (forall c, Ontology.get_country o c
             = country_entity <$> last (List.filter (fun r => String.eqb (co_country_code r) c)
                                                    (countries data))) /\
  (forall region fe,
      In fe (Ontology.factories_in_region o region) <->
      Ontology.get_factory o (Ontology.fe_factory_id fe) = Some fe /\
      Ontology.fe_region_id fe = region) /\
  (forall region, NoDup (map Ontology.fe_factory_id (Ontology.factories_in_region o region))).
Proof.
  cbv zeta. destruct (build_entities_lookups data) as (Hf & Hh & Hc & _).
  split; [exact Hf|]. split; [exact Hh|]. split; [exact Hc|].
  assert (Hkey : forall k fe,
             Ontology.o_factories (Ontology._build_entities data) !! k = Some fe ->
             Ontology.fe_factory_id fe = k).
  { intros k fe Hk. change (Ontology.get_factory (Ontology._build_entities data) k = Some fe)
      in Hk. rewrite Hf in Hk.
    destruct (last (List.filter _ (factories data))) as [row|] eqn:El; [|discriminate].
    injection Hk as <-. apply last_filter_in in El. destruct El as [_ El].
    now apply String.eqb_eq in El. }
  split.
  - intros region fe. unfold Ontology.factories_in_region, Ontology.get_factory.
    rewrite filter_In, String.eqb_eq, in_map_iff. split.
    + intros [([k fe'] & E & Hin) Hr]. simpl in E. subst fe'.
      apply list_elem_of_In, elem_of_map_to_list in Hin.
      split; [|exact Hr]. now rewrite (Hkey k fe Hin).
    + intros [Hl Hr]. split; [|exact Hr].
      exists (Ontology.fe_factory_id fe, fe). split; [reflexivity|].
      now apply list_elem_of_In, elem_of_map_to_list.
  - intros region. unfold Ontology.factories_in_region.
    apply NoDup_map_filter.
    assert (E : map Ontology.fe_factory_id
                    (map snd (map_to_list (Ontology.o_factories (Ontology._build_entities data))))
                = map fst (map_to_list (Ontology.o_factories (Ontology._build_entities data)))).
    { rewrite map_map. apply map_ext_in. intros [k fe] Hin.
      apply list_elem_of_In, elem_of_map_to_list in Hin. simpl. now apply Hkey. }
    rewrite E. apply NoDup_fst_map_to_list.
Qed.

(** ** Manufacturing cost *)

(** X18.  [FactoryEntity.manufacturing_cost] is never negative for a
    non-negative base cost and multiplier, and rounding to cents keeps
    the order: a base cost and a multiplier that are no higher give a
    manufacturing cost that is no higher. *)
Theorem manufacturing_cost_monotone (fe fe' : Ontology.FactoryEntity) (base_cost base_cost' : Q) :
  (0 <= base_cost <= base_cost')%Q ->
  (0 <= Ontology.fe_cost_multiplier fe <= Ontology.fe_cost_multiplier fe')%Q ->
  (0 <= Ontology.fe_manufacturing_cost fe base_cost
   <= Ontology.fe_manufacturing_cost fe' base_cost')%Q.
Proof.
  intros [Hb0 Hb] [Hm0 Hm]. unfold Ontology.fe_manufacturing_cost. split.
  - assert (E : (Py.round_to 2 0 == 0)%Q) by reflexivity.
    rewrite <- E. apply round_to_mono. now apply Qmult_le_0_compat.
  - apply round_to_mono.
    apply Qle_trans with (base_cost * Ontology.fe_cost_multiplier fe')%Q.
    + rewrite !(Qmult_comm base_cost). now apply Qmult_le_compat_r.
    + apply Qmult_le_compat_r; [exact Hb|]. now apply Qle_trans with (1 := Hm0).
Qed.

(** A base cost of 100.005 at the multipliers 0.38 and 1.05. *)
Lemma manufacturing_cost_monotone_witness :
  let vn := {| Ontology.fe_factory_id := "F_VN_01"; Ontology.fe_factory_name := "Hanoi";
               Ontology.fe_city := "Hanoi"; Ontology.fe_country_code := "VN";
               Ontology.fe_region_id := "SEA"; Ontology.fe_cost_multiplier := 38 # 100 |} in
  let de := {| Ontology.fe_factory_id := "F_DE_01"; Ontology.fe_factory_name := "Munich";
               Ontology.fe_city := "Munich"; Ontology.fe_country_code := "DE";
               Ontology.fe_region_id := "EUR"; Ontology.fe_cost_multiplier := 105 # 100 |} in
  (Ontology.fe_manufacturing_cost vn (100005 # 1000) == 38 # 1)%Q /\
  (Ontology.fe_manufacturing_cost de (100005 # 1000) == 10501 # 100)%Q /\
  (0 <= Ontology.fe_manufacturing_cost vn (100005 # 1000)
   <= Ontology.fe_manufacturing_cost de (100005 # 1000))%Q.
Proof.
  cbv zeta. split; [vm_compute; reflexivity|]. split; [vm_compute; reflexivity|].
  apply manufacturing_cost_monotone; cbn [Ontology.fe_cost_multiplier];
    split; unfold Qle; simpl; lia.
Defined.

(** ** The marker sizes of the knowledge-graph page *)

(** X19.  [_factory_size_dynamic]: when the two extremes coincide every
    marker has size 12 (the quotient is not taken); otherwise a factory
    without a capacity entry gets the smallest marker 8, and the marker
    of a factory whose capacity lies between the extremes has a size
    between 8 and 18. *)
Theorem factory_marker_size_range (fid : string) (cap_series : gmap string Z)
        (cap_min cap_max : Z) :
  (cap_max = cap_min ->
   KnowledgeGraphPage._factory_size_dynamic fid cap_series cap_min cap_max == 12)%Q /\
  (cap_max <> cap_min -> cap_series !! fid = None ->
   KnowledgeGraphPage._factory_size_dynamic fid cap_series cap_min cap_max == 8)%Q /\
  (forall cap, cap_series !! fid = Some cap -> (cap_min <= cap <= cap_max)%Z ->
               (8 <= KnowledgeGraphPage._factory_size_dynamic fid cap_series cap_min cap_max
                <= 18)%Q).
Proof.
  unfold KnowledgeGraphPage._factory_size_dynamic, Py.get_default.
  split; [|split].
  - intros ->. rewrite Z.eqb_refl. reflexivity.
  - intros Hne ->. destruct (Z.eqb_spec cap_max cap_min) as [E|_]; [contradiction|].
    rewrite Z.sub_diag. unfold Qeq, Qdiv, Qmult, Qplus, inject_Z. simpl. lia.
  - intros cap -> [Hlo Hhi].
    destruct (Z.eqb_spec cap_max cap_min) as [E|N]; [split; unfold Qle; simpl; lia|].
    assert (Hpos : (0 < inject_Z (cap_max - cap_min))%Q).
    { rewrite <- (Zlt_Qlt 0). lia. }
    assert (H0 : (0 <= inject_Z (10 * (cap - cap_min)))%Q).
    { rewrite <- (Zle_Qle 0). lia. }
    assert (H1 : (inject_Z (10 * (cap - cap_min)) <= 10 * inject_Z (cap_max - cap_min))%Q).
    { change 10%Q with (inject_Z 10). rewrite <- inject_Z_mult, <- Zle_Qle. lia. }
    assert (Hq0 : (0 <= inject_Z (10 * (cap - cap_min)) / inject_Z (cap_max - cap_min))%Q).
    { apply Qle_shift_div_l; [exact Hpos|]. lra. }
    assert (Hq1 : (inject_Z (10 * (cap - cap_min)) / inject_Z (cap_max - cap_min) <= 10)%Q).
    { apply Qle_shift_div_r; [exact Hpos|]. exact H1. }
    split; lra.
Qed.

Lemma factory_marker_size_range_witness :
  (KnowledgeGraphPage._factory_size_dynamic
     "F_US_01" (get_factory_capacity Scenario.data "CAT03") 1000 3000 == 13)%Q /\
  (8 <= KnowledgeGraphPage._factory_size_dynamic
          "F_US_01" (get_factory_capacity Scenario.data "CAT03") 1000 3000 <= 18)%Q.
Proof.
  split; [vm_compute; reflexivity|].
  apply (proj2 (proj2 (factory_marker_size_range
                         "F_US_01" (get_factory_capacity Scenario.data "CAT03") 1000 3000))
               2000%Z); [vm_compute; reflexivity|lia].
Defined.

(** ** The knowledge graph *)

(** *** The build as a sequence of insertions *)

Lemma foldl_flat_map {A} (f : DiGraph -> A -> DiGraph) (k : A -> list graph_op)
      (l : list A) (g : DiGraph) :
  (forall g x, f g x = foldl apply_op g (k x)) ->
  foldl f g l = foldl apply_op g (flat_map k l).
Proof.
  intros Hf. revert g. induction l as [|x l IH]; intros g; simpl; [reflexivity|].
  rewrite foldl_app, <- Hf. apply IH.
Qed.

Lemma build_as_ops (data : SupplyChainData) :
  build data = foldl apply_op empty_graph (build_ops data).
Proof.
  unfold build, build_ops. rewrite !foldl_app.
  unfold add_restricts, add_delivers_to, add_ships_to, add_hub_nodes,
    add_factory_nodes, add_country_nodes, add_region_nodes.
  rewrite <- (foldl_flat_map _ region_op) by reflexivity.
  rewrite <- (foldl_flat_map _ country_op) by reflexivity.
  rewrite <- (foldl_flat_map _ factory_op) by reflexivity.
  rewrite <- (foldl_flat_map _ hub_op) by reflexivity.
  rewrite <- (foldl_flat_map
                (fun g row => let '(f, h, (cost, days)) := row in
                              add_edge g ("factory:" ++ f) ("hub:" ++ h)
                                       (ships_to_attrs cost days)) ships_to_op)
    by (intros g [[f h] [cost days]]; reflexivity).
  rewrite <- (foldl_flat_map
                (fun g row => let '(h, c, (cost, days)) := row in
                              add_edge g ("hub:" ++ h) ("country:" ++ c)
                                       (delivers_to_attrs cost days)) delivers_to_op)
    by (intros g [[h c] [cost days]]; reflexivity).
  rewrite <- (foldl_flat_map _ restricts_op) by reflexivity.
  reflexivity.
Qed.

(** *** Edges *)

Lemma edge_add_node (g : DiGraph) (n : string) (a : gmap string attr) (u v : string) :
  edge (add_node g n a) u v = edge g u v.
Proof.
  unfold add_node, edge. destruct (_succ g !! n) eqn:En; simpl; [reflexivity|].
  rewrite lookup_insert. destruct (decide (n = u)) as [->|]; [|reflexivity].
  rewrite En. simpl. apply lookup_empty.
Qed.

Lemma edge_add_edge (g : DiGraph) (u' v' : string) (a : gmap string attr) (u v : string) :
  edge (add_edge g u' v' a) u v
  = if decide (u' = u /\ v' = v) then Some (a ∪ default ∅ (edge g u' v')) else edge g u v.
Proof.
  unfold add_edge.
  set (g1 := match _succ g !! u' with None => add_node g u' ∅ | Some _ => g end).
  set (g2 := match _succ g1 !! v' with None => add_node g1 v' ∅ | Some _ => g1 end).
  assert (E2 : forall x y, edge g2 x y = edge g x y).
  { intros x y. unfold g2, g1.
    destruct (_succ _ !! v'); destruct (_succ g !! u'); rewrite ?edge_add_node; reflexivity. }
  assert (Ed : forall x y, default ∅ (_succ g2 !! x) !! y = edge g x y).
  { intros x y. rewrite default_lookup. apply E2. }
  unfold edge at 1. simpl. rewrite lookup_insert.
  destruct (decide (u' = u)) as [->|Hu]; simpl.
  - rewrite lookup_insert. destruct (decide (v' = v)) as [->|Hv].
    + rewrite decide_True by tauto. now rewrite Ed.
    + rewrite decide_False by tauto. apply Ed.
  - rewrite decide_False by tauto. apply E2.
Qed.

Lemma edge_apply_op (g : DiGraph) (o : graph_op) (u v : string) :
  edge (apply_op g o) u v = edge_step u v (edge g u v) o.
Proof.
  destruct o as [n a|u' v' a]; simpl; [apply edge_add_node|].
  rewrite edge_add_edge. destruct (decide (u' = u /\ v' = v)) as [[-> ->]|]; reflexivity.
Qed.

Lemma edge_apply_ops (g : DiGraph) (ops : list graph_op) (u v : string) :
  edge (foldl apply_op g ops) u v = foldl (edge_step u v) (edge g u v) ops.
Proof.
  revert g. induction ops as [|o ops IH]; intros g; simpl; [reflexivity|].
  now rewrite IH, edge_apply_op.
Qed.

Lemma edge_build (data : SupplyChainData) (u v : string) :
  edge (build data) u v = foldl (edge_step u v) None (build_ops data).
Proof. rewrite build_as_ops, edge_apply_ops. reflexivity. Qed.

(** Insertions that do not concern the pair leave its edge alone. *)
Lemma edge_steps_skip (u v : string) (ops : list graph_op) (cur : option (gmap string attr)) :
  (forall a, ~ In (AddEdge u v a) ops) ->
  foldl (edge_step u v) cur ops = cur.
Proof.
  revert cur. induction ops as [|o ops IH]; intros cur Hno; simpl; [reflexivity|].
  rewrite IH by (intros a Ha; apply (Hno a); now right).
  destruct o as [n a|u' v' a]; simpl; [reflexivity|].
  destruct (decide (u' = u /\ v' = v)) as [[-> ->]|]; [|reflexivity].
  exfalso. apply (Hno a). now left.
Qed.

(** The edge carries, key by key, what the last insertion of the pair
    gave it. *)
Lemma edge_steps_last (u v : string) (ops1 ops2 : list graph_op) (a : gmap string attr)
      (cur : option (gmap string attr)) :
  (forall b, ~ In (AddEdge u v b) ops2) ->
  exists old, foldl (edge_step u v) cur (ops1 ++ AddEdge u v a :: ops2) = Some (a ∪ old) /\
              old = default ∅ (foldl (edge_step u v) cur ops1).
Proof.
  intros Hno. rewrite foldl_app. cbn [foldl edge_step].
  rewrite decide_True by tauto. rewrite edge_steps_skip by exact Hno. eauto.
Qed.

(** An edge of the graph was inserted, and has the type of its last
    insertion. *)
Lemma edge_steps_inserted (u v : string) (ops : list graph_op) (attrs : gmap string attr) :
  foldl (edge_step u v) None ops = Some attrs ->
  exists ops1 a ops2,
    ops = (ops1 ++ AddEdge u v a :: ops2)%list /\
    (forall b, ~ In (AddEdge u v b) ops2) /\
    attrs = a ∪ default ∅ (foldl (edge_step u v) None ops1).
Proof.
  induction ops as [|o ops IH] using rev_ind; [discriminate|].
  rewrite foldl_app. cbn [foldl].
  destruct o as [n na|u' v' a]; cbn [edge_step].
  - intros H. destruct (IH H) as (ops1 & a & ops2 & -> & Hno & E).
    exists ops1, a, (ops2 ++ [AddNode n na])%list.
    split; [now rewrite <- app_assoc|]. split; [|exact E].
    intros b Hb. apply in_app_or in Hb. destruct Hb as [Hb|[Hb|[]]]; [|discriminate].
    exact (Hno b Hb).
  - destruct (decide (u' = u /\ v' = v)) as [[-> ->]|Hne].
    + intros [= <-]. exists ops, a, []. split; [reflexivity|].
      split; [intros b []|reflexivity].
    + intros H. destruct (IH H) as (ops1 & a0 & ops2 & -> & Hno & E).
      exists ops1, a0, (ops2 ++ [AddEdge u' v' a])%list.
      split; [now rewrite <- app_assoc|]. split; [|exact E].
      intros b Hb. apply in_app_or in Hb. destruct Hb as [Hb|[Hb|[]]].
      * exact (Hno b Hb).
      * injection Hb as -> ->. tauto.
Qed.

(** *** The groups of the flow table *)

Lemma Qmin_cases (a b : Q) :
  (Qmin a b = a /\ (a <= b)%Q) \/ (Qmin a b = b /\ (b <= a)%Q).
Proof.
  unfold Qmin. destruct (Qle_bool a b) eqn:E.
  - left. split; [reflexivity|now apply Qle_bool_iff].
  - right. split; [reflexivity|]. apply Qlt_le_weak, Qnot_le_lt.
    intros H. apply Qle_bool_iff in H. congruence.
Qed.

(** A group exists for the keys of the rows, and holds the least value of
    each column over the rows of the key. *)
Lemma groupby_min_spec (key : FlowRow -> string * string) (fq : FlowRow -> Q)
      (fz : FlowRow -> Z) (rows : list FlowRow) (k : string * string) :
  ((forall x, ~ In (k, x) (groupby_min key fq fz rows)) <->
   forall r, In r rows -> key r <> k) /\
  (forall q z, In (k, (q, z)) (groupby_min key fq fz rows) ->
               (exists r, In r rows /\ key r = k /\ fq r = q) /\
               (forall r, In r rows -> key r = k -> (q <= fq r)%Q) /\
               (exists r, In r rows /\ key r = k /\ fz r = z) /\
               (forall r, In r rows -> key r = k -> (z <= fz r)%Z)).
Proof.
  unfold groupby_min.
  set (step := fun (m : gmap (string * string) (Q * Z)) r =>
                 match m !! key r with
                 | None => <[key r := (fq r, fz r)]> m
                 | Some old => <[key r := (Qmin (fst old) (fq r), Z.min (snd old) (fz r))]> m
                 end).
  assert (H : (foldl step ∅ rows !! k = None <-> forall r, In r rows -> key r <> k) /\
              (forall q z, foldl step ∅ rows !! k = Some (q, z) ->
                           (exists r, In r rows /\ key r = k /\ fq r = q) /\
                           (forall r, In r rows -> key r = k -> (q <= fq r)%Q) /\
                           (exists r, In r rows /\ key r = k /\ fz r = z) /\
                           (forall r, In r rows -> key r = k -> (z <= fz r)%Z))).
  { induction rows as [|r rows [IH1 IH2]] using rev_ind.
    - simpl. split; [split; [intros _ r []|intros _; apply lookup_empty]|].
      intros q z Hl. rewrite lookup_empty in Hl. discriminate.
    - rewrite foldl_app. cbn [foldl]. set (m := foldl step ∅ rows) in *.
      assert (Estep : step m r = match m !! key r with
                                 | None => <[key r := (fq r, fz r)]> m
                                 | Some old => <[key r := (Qmin (fst old) (fq r),
                                                           Z.min (snd old) (fz r))]> m
                                 end) by reflexivity.
      rewrite Estep. clear Estep.
      destruct (decide (key r = k)) as [Ek|Nk].
      + subst k. split.
        * split.
          -- destruct (m !! key r); intros Hn; rewrite lookup_insert_eq in Hn;
               discriminate.
          -- intros Hall. exfalso. apply (Hall r); [apply in_or_app; right; now left|].
             reflexivity.
        * intros q z. destruct (m !! key r) as [[q0 z0]|] eqn:Em; intros Hl.
          -- rewrite lookup_insert_eq in Hl. injection Hl as <- <-. simpl.
             destruct (IH2 q0 z0 eq_refl) as ((r1 & Hr1 & Ek1 & Eq1) & Hq & (r2 & Hr2 & Ek2 & Ez2) & Hz).
             split; [|split; [|split]].
             ++ destruct (Qmin_cases q0 (fq r)) as [[-> _]|[-> _]].
                ** exists r1. split; [apply in_or_app; now left|tauto].
                ** exists r. split; [apply in_or_app; right; now left|tauto].
             ++ intros r' Hr' Ek'. apply in_app_or in Hr'.
                destruct (Qmin_cases q0 (fq r)) as [[-> Hle]|[-> Hle]];
                  destruct Hr' as [Hr'|[<-|[]]].
                ** now apply Hq.
                ** exact Hle.
                ** eapply Qle_trans; [exact Hle|]. now apply Hq.
                ** apply Qle_refl.
             ++ destruct (Z.min_spec z0 (fz r)) as [[_ ->]|[_ ->]].
                ** exists r2. split; [apply in_or_app; now left|tauto].
                ** exists r. split; [apply in_or_app; right; now left|tauto].
             ++ intros r' Hr' Ek'. apply in_app_or in Hr'.
                destruct Hr' as [Hr'|[<-|[]]]; [|lia].
                pose proof (Hz r' Hr' Ek'). lia.
          -- rewrite lookup_insert_eq in Hl. injection Hl as <- <-.
             assert (Hnone : forall r', In r' rows -> key r' <> key r) by now apply IH1.
             split; [|split; [|split]].
             ++ exists r. split; [apply in_or_app; right; now left|tauto].
             ++ intros r' Hr' Ek'. apply in_app_or in Hr'.
                destruct Hr' as [Hr'|[<-|[]]]; [|apply Qle_refl].
                exfalso. exact (Hnone r' Hr' Ek').
             ++ exists r. split; [apply in_or_app; right; now left|tauto].
             ++ intros r' Hr' Ek'. apply in_app_or in Hr'.
                destruct Hr' as [Hr'|[<-|[]]]; [|lia].
                exfalso. exact (Hnone r' Hr' Ek').
      + assert (El : forall x, match m !! key r with
                               | None => <[key r := (fq r, fz r)]> m
                               | Some old => <[key r := x old]> m
                               end !! k = m !! k).
        { intros x. destruct (m !! key r); now rewrite lookup_insert_ne. }
        rewrite (El (fun old => (Qmin (fst old) (fq r), Z.min (snd old) (fz r)))).
        split.
        * rewrite IH1. split.
          -- intros Hall r' Hr'. apply in_app_or in Hr'.
             destruct Hr' as [Hr'|[<-|[]]]; [now apply Hall|exact Nk].
          -- intros Hall r' Hr'. apply Hall. apply in_or_app. now left.
        * intros q z Hl.
          destruct (IH2 q z Hl) as ((r1 & Hr1 & Ek1 & Eq1) & Hq & (r2 & Hr2 & Ek2 & Ez2) & Hz).
          split; [|split; [|split]].
          -- exists r1. split; [apply in_or_app; now left|tauto].
          -- intros r' Hr' Ek'. apply in_app_or in Hr'.
             destruct Hr' as [Hr'|[<-|[]]]; [now apply Hq|contradiction].
          -- exists r2. split; [apply in_or_app; now left|tauto].
          -- intros r' Hr' Ek'. apply in_app_or in Hr'.
             destruct Hr' as [Hr'|[<-|[]]]; [now apply Hz|contradiction]. }
  destruct H as [H1 H2]. split.
  - rewrite <- H1. split.
    + intros Hn. destruct (foldl step ∅ rows !! k) as [x|] eqn:E; [|reflexivity].
      exfalso. apply (Hn x). now apply list_elem_of_In, elem_of_map_to_list.
    + intros Hn x Hx. apply list_elem_of_In, elem_of_map_to_list in Hx. congruence.
  - intros q z Hin. apply H2. apply elem_of_map_to_list. now apply list_elem_of_In.
Qed.

Lemma groupby_min_NoDup (key : FlowRow -> string * string) (fq : FlowRow -> Q)
      (fz : FlowRow -> Z) (rows : list FlowRow) :
  NoDup (map fst (groupby_min key fq fz rows)).
Proof. unfold groupby_min. apply NoDup_fst_map_to_list. Qed.

Lemma groupby_min_functional (key : FlowRow -> string * string) (fq : FlowRow -> Q)
      (fz : FlowRow -> Z) (rows : list FlowRow) k x y :
  In (k, x) (groupby_min key fq fz rows) -> In (k, y) (groupby_min key fq fz rows) -> x = y.
Proof.
  unfold groupby_min. intros Hx Hy.
  apply list_elem_of_In, elem_of_map_to_list in Hx.
  apply list_elem_of_In, elem_of_map_to_list in Hy. congruence.
Qed.

(** *** The insertions of each kind *)

Lemma in_region_ops (data : SupplyChainData) (u v : string) (a : gmap string attr) :
  In (AddEdge u v a)
     (flat_map region_op (regions data) ++ flat_map country_op (countries data)
      ++ flat_map factory_op (factories data) ++ flat_map hub_op (hubs data))%list ->
  a = {["edge_type" := AStr "IN_REGION"]} /\
  (exists x, u = "country:" ++ x \/ u = "factory:" ++ x \/ u = "hub:" ++ x) /\
  exists y, v = "region:" ++ y.
Proof.
  rewrite !in_app_iff, !in_flat_map.
  intros [H|[H|[H|H]]]; destruct H as (row & _ & Hop); simpl in Hop.
  - destruct Hop as [E|[]]. discriminate.
  - destruct Hop as [E|[E|[]]]; [discriminate|]. injection E as <- <- <-.
    split; [reflexivity|]. split; [eexists; left; reflexivity|eexists; reflexivity].
  - destruct Hop as [E|[E|[]]]; [discriminate|]. injection E as <- <- <-.
    split; [reflexivity|].
    split; [eexists; right; left; reflexivity|eexists; reflexivity].
  - destruct Hop as [E|[E|[]]]; [discriminate|]. injection E as <- <- <-.
    split; [reflexivity|].
    split; [eexists; right; right; reflexivity|eexists; reflexivity].
Qed.

Lemma in_ships_to_ops (l : list (string * string * (Q * Z))) (u v : string)
      (a : gmap string attr) :
  In (AddEdge u v a) (flat_map ships_to_op l) <->
  exists f h q z, In (f, h, (q, z)) l /\ u = "factory:" ++ f /\ v = "hub:" ++ h /\
                  a = ships_to_attrs q z.
Proof.
  rewrite in_flat_map. split.
  - intros ([[f h] [q z]] & Hin & [E|[]]). injection E as <- <- <-.
    exists f, h, q, z. simpl. tauto.
  - intros (f & h & q & z & Hin & -> & -> & ->). exists (f, h, (q, z)).
    split; [exact Hin|]. now left.
Qed.

Lemma in_delivers_to_ops (l : list (string * string * (Q * Z))) (u v : string)
      (a : gmap string attr) :
  In (AddEdge u v a) (flat_map delivers_to_op l) <->
  exists h c q z, In (h, c, (q, z)) l /\ u = "hub:" ++ h /\ v = "country:" ++ c /\
                  a = delivers_to_attrs q z.
Proof.
  rewrite in_flat_map. split.
  - intros ([[h c] [q z]] & Hin & [E|[]]). injection E as <- <- <-.
    exists h, c, q, z. simpl. tauto.
  - intros (h & c & q & z & Hin & -> & -> & ->). exists (h, c, (q, z)).
    split; [exact Hin|]. now left.
Qed.

Lemma in_restricts_ops (l : list RestrictionRow) (u v : string) (a : gmap string attr) :
  In (AddEdge u v a) (flat_map restricts_op l) <->
  exists row, In row l /\ u = "country:" ++ gr_destination_country_code row /\
              v = "country:" ++ gr_restricted_country_code row /\ a = restricts_attrs row.
Proof.
  rewrite in_flat_map. split.
  - intros (row & Hin & [E|[]]). injection E as <- <- <-. eauto.
  - intros (row & Hin & -> & -> & ->). exists row. split; [exact Hin|]. now left.
Qed.

(** Every inserted edge, by kind. *)
Lemma build_edge_ops (data : SupplyChainData) (u v : string) (a : gmap string attr) :
  In (AddEdge u v a) (build_ops data) ->
  (a = {["edge_type" := AStr "IN_REGION"]} /\
   (exists x, u = "country:" ++ x \/ u = "factory:" ++ x \/ u = "hub:" ++ x) /\
   exists y, v = "region:" ++ y) \/
  (exists f h q z, In (f, h, (q, z)) (ships_to_groups data) /\
                   u = "factory:" ++ f /\ v = "hub:" ++ h /\ a = ships_to_attrs q z) \/
  (exists h c q z, In (h, c, (q, z)) (delivers_to_groups data) /\
                   u = "hub:" ++ h /\ v = "country:" ++ c /\ a = delivers_to_attrs q z) \/
  (exists row, In row (geopolitical data) /\
               u = "country:" ++ gr_destination_country_code row /\
               v = "country:" ++ gr_restricted_country_code row /\ a = restricts_attrs row).
Proof.
  unfold build_ops. rewrite !in_app_iff. intros [H|[H|[H|[H|[H|[H|H]]]]]].
  - left. apply (in_region_ops data u v a). rewrite !in_app_iff. tauto.
  - left. apply (in_region_ops data u v a). rewrite !in_app_iff. tauto.
  - left. apply (in_region_ops data u v a). rewrite !in_app_iff. tauto.
  - left. apply (in_region_ops data u v a). rewrite !in_app_iff. tauto.
  - right. left. now apply in_ships_to_ops.
  - right. right. left. now apply in_delivers_to_ops.
  - right. right. right. now apply in_restricts_ops.
Qed.

(** *** Edge types *)

Lemma edge_type_in_region (T : string) :
  has_edge_type {["edge_type" := AStr "IN_REGION"]} T = String.eqb "IN_REGION" T.
Proof. unfold has_edge_type. now rewrite lookup_singleton_eq. Qed.

Lemma edge_type_ships_to (q : Q) (z : Z) (T : string) :
  has_edge_type (ships_to_attrs q z) T = String.eqb "SHIPS_TO" T.
Proof. unfold has_edge_type, ships_to_attrs. cbn [list_to_map foldr curry fst snd].
       now rewrite lookup_insert_eq. Qed.

Lemma edge_type_delivers_to (q : Q) (z : Z) (T : string) :
  has_edge_type (delivers_to_attrs q z) T = String.eqb "DELIVERS_TO" T.
Proof. unfold has_edge_type, delivers_to_attrs. cbn [list_to_map foldr curry fst snd].
       now rewrite lookup_insert_eq. Qed.

Lemma edge_type_restricts (row : RestrictionRow) (T : string) :
  has_edge_type (restricts_attrs row) T = String.eqb "RESTRICTS" T.
Proof. unfold has_edge_type, restricts_attrs. cbn [list_to_map foldr curry fst snd].
       now rewrite lookup_insert_eq. Qed.

Lemma edge_type_union (a old : gmap string attr) (T : string) :
  is_Some (a !! "edge_type") -> has_edge_type (a ∪ old) T = has_edge_type a T.
Proof.
  intros [x Hx]. unfold has_edge_type.
  now rewrite (lookup_union_Some_l a old _ _ Hx), Hx.
Qed.

Lemma build_op_has_type (data : SupplyChainData) (u v : string) (a : gmap string attr) :
  In (AddEdge u v a) (build_ops data) -> is_Some (a !! "edge_type").
Proof.
  intros H. destruct (build_edge_ops data u v a H)
    as [(-> & _)|[(f & h & q & z & _ & _ & _ & ->)|[(h & c & q & z & _ & _ & _ & ->)
                                                   |(row & _ & _ & _ & ->)]]].
  - rewrite lookup_singleton_eq. eauto.
  - unfold ships_to_attrs. cbn [list_to_map foldr curry fst snd].
    rewrite lookup_insert_eq. eauto.
  - unfold delivers_to_attrs. cbn [list_to_map foldr curry fst snd].
    rewrite lookup_insert_eq. eauto.
  - unfold restricts_attrs. cbn [list_to_map foldr curry fst snd].
    rewrite lookup_insert_eq. eauto.
Qed.

(** An edge of the built graph has the type of an insertion of its pair. *)
Lemma build_edge_kind (data : SupplyChainData) (u v : string) (attrs : gmap string attr)
      (T : string) :
  edge (build data) u v = Some attrs -> has_edge_type attrs T = true ->
  exists a, In (AddEdge u v a) (build_ops data) /\ has_edge_type a T = true.
Proof.
  rewrite edge_build. intros He Ht.
  destruct (edge_steps_inserted u v _ attrs He) as (ops1 & a & ops2 & E & _ & ->).
  assert (Hin : In (AddEdge u v a) (build_ops data)).
  { rewrite E. apply in_or_app. right. now left. }
  exists a. split; [exact Hin|].
  now rewrite edge_type_union in Ht by (eapply build_op_has_type; exact Hin).
Qed.

(** *** Nodes *)

Lemma nodes_ok_empty : nodes_ok empty_graph.
Proof. intros n. simpl. now rewrite !lookup_empty. Qed.

Lemma nodes_ok_add_node (g : DiGraph) (n : string) (a : gmap string attr) :
  nodes_ok g -> nodes_ok (add_node g n a).
Proof.
  intros Hg k. unfold add_node. destruct (_succ g !! n) eqn:En; simpl.
  - rewrite lookup_insert. destruct (decide (n = k)) as [<-|]; [|apply Hg].
    rewrite En. split; discriminate.
  - rewrite !lookup_insert. destruct (decide (n = k)); [split; discriminate|apply Hg].
Qed.

Lemma node_add_node (g : DiGraph) (n : string) (a : gmap string attr) (k : string) :
  nodes_ok g ->
  _node (add_node g n a) !! k = node_step k (_node g !! k) (AddNode n a).
Proof.
  intros Hg. unfold add_node. cbn [node_step].
  destruct (_succ g !! n) eqn:En; simpl; rewrite lookup_insert;
    destruct (decide (n = k)) as [<-|]; try reflexivity.
  apply Hg in En. rewrite En. simpl. now rewrite (right_id_L ∅ (∪)).
Qed.

Lemma succ_add_node_ensure (g : DiGraph) (n k : string) :
  _succ (match _succ g !! n with None => add_node g n ∅ | Some _ => g end) !! k = None
  <-> _succ g !! k = None /\ n <> k.
Proof.
  destruct (_succ g !! n) eqn:En.
  - split; [|tauto]. intros Hk. split; [exact Hk|]. intros <-. congruence.
  - unfold add_node. rewrite En. simpl. rewrite lookup_insert.
    destruct (decide (n = k)) as [<-|]; [split; [discriminate|tauto]|tauto].
Qed.

Lemma node_add_node_ensure (g : DiGraph) (n k : string) :
  nodes_ok g ->
  _node (match _succ g !! n with None => add_node g n ∅ | Some _ => g end) !! k
  = if decide (n = k) then Some (default ∅ (_node g !! k)) else _node g !! k.
Proof.
  intros Hg. destruct (_succ g !! n) eqn:En.
  - destruct (decide (n = k)) as [<-|]; [|reflexivity].
    destruct (_node g !! n) eqn:E; [reflexivity|]. apply Hg in E. congruence.
  - rewrite node_add_node by exact Hg. cbn [node_step].
    destruct (decide (n = k)) as [<-|]; [|reflexivity].
    apply Hg in En. rewrite En. simpl. now rewrite (right_id_L ∅ (∪)).
Qed.

Lemma nodes_ok_ensure (g : DiGraph) (n : string) :
  nodes_ok g ->
  nodes_ok (match _succ g !! n with None => add_node g n ∅ | Some _ => g end).
Proof. intros Hg. destruct (_succ g !! n); [exact Hg|now apply nodes_ok_add_node]. Qed.

Lemma nodes_ok_add_edge (g : DiGraph) (u v : string) (a : gmap string attr) :
  nodes_ok g -> nodes_ok (add_edge g u v a).
Proof.
  intros Hg. unfold add_edge.
  set (g1 := match _succ g !! u with None => add_node g u ∅ | Some _ => g end).
  set (g2 := match _succ g1 !! v with None => add_node g1 v ∅ | Some _ => g1 end).
  assert (H1 : nodes_ok g1) by now apply nodes_ok_ensure.
  assert (H2 : nodes_ok g2) by now apply nodes_ok_ensure.
  assert (Hu : _succ g2 !! u <> None).
  { intros E. apply succ_add_node_ensure in E. destruct E as [E _].
    apply succ_add_node_ensure in E. tauto. }
  intros k. simpl. rewrite lookup_insert.
  destruct (decide (u = k)) as [<-|]; [|apply H2].
  split; [|discriminate]. intros E. apply H2 in E. contradiction.
Qed.

Lemma node_add_edge (g : DiGraph) (u v : string) (a : gmap string attr) (k : string) :
  nodes_ok g ->
  _node (add_edge g u v a) !! k = node_step k (_node g !! k) (AddEdge u v a).
Proof.
  intros Hg. unfold add_edge. cbn [_node node_step].
  rewrite node_add_node_ensure by now apply nodes_ok_ensure.
  rewrite node_add_node_ensure by exact Hg.
  destruct (decide (v = k)) as [Hv|Hv]; destruct (decide (u = k)) as [Hu|Hu].
  - rewrite decide_True by tauto. reflexivity.
  - rewrite decide_True by tauto. reflexivity.
  - rewrite decide_True by tauto. reflexivity.
  - rewrite decide_False by tauto. reflexivity.
Qed.

Lemma node_apply_ops (g : DiGraph) (ops : list graph_op) (k : string) :
  nodes_ok g ->
  nodes_ok (foldl apply_op g ops) /\
  _node (foldl apply_op g ops) !! k = foldl (node_step k) (_node g !! k) ops.
Proof.
  revert g. induction ops as [|o ops IH]; intros g Hg; simpl; [tauto|].
  assert (Ho : nodes_ok (apply_op g o)).
  { destruct o; [now apply nodes_ok_add_node|now apply nodes_ok_add_edge]. }
  destruct (IH _ Ho) as [IH1 IH2]. split; [exact IH1|]. rewrite IH2. f_equal.
  destruct o; [now apply node_add_node|now apply node_add_edge].
Qed.

Lemma nodes_ok_build (data : SupplyChainData) : nodes_ok (build data).
Proof.
  rewrite build_as_ops. apply (node_apply_ops empty_graph (build_ops data) "").
  apply nodes_ok_empty.
Qed.

Lemma node_build (data : SupplyChainData) (k : string) :
  _node (build data) !! k = foldl (node_step k) None (build_ops data).
Proof.
  rewrite build_as_ops.
  now rewrite (proj2 (node_apply_ops empty_graph (build_ops data) k nodes_ok_empty)).
Qed.

(** An insertion concerns a node when it adds the node or an edge at it. *)
Lemma node_steps_none (k : string) (ops : list graph_op) (cur : option (gmap string attr)) :
  foldl (node_step k) cur ops = None <->
  cur = None /\
  (forall a, ~ In (AddNode k a) ops) /\
  (forall u v a, In (AddEdge u v a) ops -> u <> k /\ v <> k).
Proof.
  revert cur. induction ops as [|o ops IH]; intros cur; simpl.
  - split; [intros ->; split; [reflexivity|split; [intros a []|intros u v a []]]|tauto].
  - rewrite IH. destruct o as [n a|u v a]; cbn [node_step].
    + destruct (decide (n = k)) as [->|Hn].
      * split; [intros [? _]; discriminate|].
        intros (_ & Hno & _). exfalso. apply (Hno a). now left.
      * split.
        -- intros (-> & H1 & H2). split; [reflexivity|]. split.
           ++ intros b [E|Hb]; [congruence|exact (H1 b Hb)].
           ++ intros u v b [E|Hb]; [discriminate|exact (H2 u v b Hb)].
        -- intros (-> & H1 & H2). split; [reflexivity|]. split.
           ++ intros b Hb. apply (H1 b). now right.
           ++ intros u v b Hb. apply (H2 u v b). now right.
    + destruct (decide (u = k \/ v = k)) as [Huv|Huv].
      * split; [intros [? _]; discriminate|].
        intros (_ & _ & Hno). exfalso. destruct (Hno u v a (or_introl eq_refl)). tauto.
      * split.
        -- intros (-> & H1 & H2). split; [reflexivity|]. split.
           ++ intros b [E|Hb]; [discriminate|exact (H1 b Hb)].
           ++ intros u' v' b [E|Hb]; [injection E as <- <- <-; tauto|exact (H2 u' v' b Hb)].
        -- intros (-> & H1 & H2). split; [reflexivity|]. split.
           ++ intros b Hb. apply (H1 b). now right.
           ++ intros u' v' b Hb. apply (H2 u' v' b). now right.
Qed.

(** The value of an attribute that every [add_node] of the node sets is
    the one its last [add_node] gave. *)
Lemma node_steps_attr (k key : string) (V : attr) (ops : list graph_op)
      (attrs : gmap string attr) :
  foldl (node_step k) None ops = Some attrs ->
  attrs !! key = Some V ->
  (forall a, In (AddNode k a) ops -> is_Some (a !! key)) ->
  exists a, In (AddNode k a) ops /\ a !! key = Some V.
Proof.
  revert attrs. induction ops as [|o ops IH] using rev_ind; intros attrs; [discriminate|].
  rewrite foldl_app. cbn [foldl]. intros Hf Hv Hall.
  assert (Hall' : forall a, In (AddNode k a) ops -> is_Some (a !! key)).
  { intros a Ha. apply Hall. apply in_or_app. now left. }
  destruct o as [n a|u v a]; cbn [node_step] in Hf.
  - destruct (decide (n = k)) as [->|Hn].
    + injection Hf as <-. exists a. split; [apply in_or_app; right; now left|].
      destruct (Hall a ltac:(apply in_or_app; right; now left)) as [x Hx].
      rewrite (lookup_union_Some_l a _ _ _ Hx) in Hv. congruence.
    + destruct (IH attrs Hf Hv Hall') as (b & Hb & Eb).
      exists b. split; [apply in_or_app; now left|exact Eb].
  - destruct (decide (u = k \/ v = k)) as [Huv|Huv].
    + injection Hf as <-.
      destruct (foldl (node_step k) None ops) as [prev|] eqn:Ep; simpl in Hv.
      * destruct (IH prev eq_refl Hv Hall') as (b & Hb & Eb).
        exists b. split; [apply in_or_app; now left|exact Eb].
      * rewrite lookup_empty in Hv. discriminate.
    + destruct (IH attrs Hf Hv Hall') as (b & Hb & Eb).
      exists b. split; [apply in_or_app; now left|exact Eb].
Qed.

Lemma node_steps_attr_all (k key : string) (V : attr) (ops : list graph_op) :
  (exists a, In (AddNode k a) ops) ->
  (forall a, In (AddNode k a) ops -> a !! key = Some V) ->
  exists attrs, foldl (node_step k) None ops = Some attrs /\ attrs !! key = Some V.
Proof.
  intros [a0 Ha0] Hall.
  destruct (foldl (node_step k) None ops) as [attrs|] eqn:Ef.
  - exists attrs. split; [reflexivity|].
    revert attrs Ef. induction ops as [|o ops IH] using rev_ind; intros attrs; [discriminate|].
    rewrite foldl_app. cbn [foldl]. intros Hf.
    assert (Hall' : forall a, In (AddNode k a) ops -> a !! key = Some V).
    { intros a Ha. apply Hall. apply in_or_app. now left. }
    destruct o as [n a|u v a]; cbn [node_step] in Hf.
    + destruct (decide (n = k)) as [->|Hn].
      * injection Hf as <-. apply lookup_union_Some_l.
        apply Hall. apply in_or_app. right. now left.
      * apply IH; try assumption.
        apply in_app_or in Ha0. destruct Ha0 as [Ha0|[E|[]]]; [exact Ha0|congruence].
    + assert (Ha0' : In (AddNode k a0) ops).
      { apply in_app_or in Ha0. destruct Ha0 as [Ha0|[E|[]]]; [exact Ha0|discriminate]. }
      destruct (decide (u = k \/ v = k)) as [Huv|Huv].
      * injection Hf as <-.
        destruct (foldl (node_step k) None ops) as [prev|] eqn:Ep; simpl.
        -- now apply IH.
        -- exfalso. apply node_steps_none in Ep. destruct Ep as (_ & Hno & _).
           exact (Hno a0 Ha0').
      * now apply IH.
  - exfalso. apply node_steps_none in Ef. destruct Ef as (_ & Hno & _). exact (Hno a0 Ha0).
Qed.

(** The inserted nodes, by kind. *)
Lemma build_node_ops (data : SupplyChainData) (n : string) (a : gmap string attr) :
  In (AddNode n a) (build_ops data) ->
  (a !! "node_type" = Some (AStr "region") /\
   exists row, In row (regions data) /\ n = "region:" ++ rg_region_id row) \/
  (a !! "node_type" = Some (AStr "country") /\
   exists row, In row (countries data) /\ n = "country:" ++ co_country_code row) \/
  (a !! "node_type" = Some (AStr "factory") /\
   exists row, In row (factories data) /\ n = "factory:" ++ fa_factory_id row /\
               a !! "region_id" = Some (AStr (fa_region_id row))) \/
  (a !! "node_type" = Some (AStr "hub") /\
   exists row, In row (hubs data) /\ n = "hub:" ++ hu_hub_id row).
Proof.
  unfold build_ops. rewrite !in_app_iff, !in_flat_map.
  intros [H|[H|[H|[H|[H|[H|H]]]]]]; destruct H as (row & Hrow & Hop).
  - left. destruct Hop as [E|[]]. injection E as <- <-.
    split; [cbn [list_to_map foldr curry fst snd]; apply lookup_insert_eq|eauto].
  - right. left. destruct Hop as [E|[E|[]]]; [|discriminate]. injection E as <- <-.
    split; [cbn [list_to_map foldr curry fst snd]; apply lookup_insert_eq|eauto].
  - right. right. left. destruct Hop as [E|[E|[]]]; [|discriminate]. injection E as <- <-.
    split; [cbn [list_to_map foldr curry fst snd]; apply lookup_insert_eq|].
    exists row. split; [exact Hrow|]. split; [reflexivity|].
    cbn [list_to_map foldr curry fst snd].
    repeat (rewrite lookup_insert_ne by discriminate). apply lookup_insert_eq.
  - right. right. right. destruct Hop as [E|[E|[]]]; [|discriminate]. injection E as <- <-.
    split; [cbn [list_to_map foldr curry fst snd]; apply lookup_insert_eq|eauto].
  - destruct Hop as [E|[]]. discriminate.
  - destruct Hop as [E|[]]. discriminate.
  - destruct Hop as [E|[]]. discriminate.
Qed.

Lemma node_steps_some (n : string) (ops : list graph_op) (attrs : gmap string attr) :
  foldl (node_step n) None ops = Some attrs ->
  (exists a, In (AddNode n a) ops) \/
  (exists u v a, In (AddEdge u v a) ops /\ (u = n \/ v = n)).
Proof.
  revert attrs. induction ops as [|o ops IH] using rev_ind; intros attrs; [discriminate|].
  rewrite foldl_app. cbn [foldl]. intros Hf.
  assert (Hlift : (exists a, In (AddNode n a) ops) \/
                  (exists u v a, In (AddEdge u v a) ops /\ (u = n \/ v = n)) ->
                  (exists a, In (AddNode n a) (ops ++ [o])) \/
                  (exists u v a, In (AddEdge u v a) (ops ++ [o]) /\ (u = n \/ v = n))).
  { intros [(a & Ha)|(u & v & a & Ha & Huv)].
    - left. exists a. apply in_or_app. now left.
    - right. exists u, v, a. split; [apply in_or_app; now left|exact Huv]. }
  destruct o as [k a|u v a]; cbn [node_step] in Hf.
  - destruct (decide (k = n)) as [->|Hk].
    + left. exists a. apply in_or_app. right. now left.
    + apply Hlift. eapply IH. exact Hf.
  - destruct (decide (u = n \/ v = n)) as [Huv|Huv].
    + right. exists u, v, a. split; [apply in_or_app; right; now left|exact Huv].
    + apply Hlift. eapply IH. exact Hf.
Qed.

(** Every node key of the built graph starts with the prefix of a node
    type. *)
Lemma build_node_prefix (data : SupplyChainData) (n : string) :
  _node (build data) !! n <> None ->
  exists x, n = "region:" ++ x \/ n = "country:" ++ x \/ n = "factory:" ++ x \/ n = "hub:" ++ x.
Proof.
  rewrite node_build. intros Hn.
  destruct (foldl (node_step n) None (build_ops data)) as [attrs|] eqn:Ef; [|congruence].
  destruct (node_steps_some n _ attrs Ef) as [(a & Ha)|(u & v & a & Ha & Huv)].
  - destruct (build_node_ops data n a Ha)
      as [(_ & row & _ & ->)|[(_ & row & _ & ->)|[(_ & row & _ & -> & _)|(_ & row & _ & ->)]]];
      eauto.
  - destruct (build_edge_ops data u v a Ha)
      as [(_ & (x & Hx) & y & ->)
         |[(f & h & q & z & _ & -> & -> & _)
          |[(h & c & q & z & _ & -> & -> & _)|(row & _ & -> & -> & _)]]];
      destruct Huv as [<- | <-]; eauto.
Qed.

(** *** The edges of the built graph *)

Lemma groupby_min_has_key (key : FlowRow -> string * string) (fq : FlowRow -> Q)
      (fz : FlowRow -> Z) (rows : list FlowRow) (r : FlowRow) :
  In r rows -> exists x, In (key r, x) (groupby_min key fq fz rows).
Proof.
  intros Hr.
  destruct (decide (Exists (fun kx => fst kx = key r) (groupby_min key fq fz rows)))
    as [Hex|Hno].
  - apply List.Exists_exists in Hex. destruct Hex as ([k x] & Hin & E). simpl in E.
    subst k. eauto.
  - exfalso.
    assert (Hall : forall x, ~ In (key r, x) (groupby_min key fq fz rows)).
    { intros x Hx. apply Hno. apply List.Exists_exists. exists (key r, x). tauto. }
    exact (proj1 (proj1 (groupby_min_spec key fq fz rows (key r))) Hall r Hr eq_refl).
Qed.

Lemma edge_inserted (data : SupplyChainData) (u v : string) (attrs : gmap string attr) :
  edge (build data) u v = Some attrs -> exists a, In (AddEdge u v a) (build_ops data).
Proof.
  rewrite edge_build. intros He.
  destruct (edge_steps_inserted u v _ attrs He) as (ops1 & a & ops2 & E & _).
  exists a. rewrite E. apply in_or_app. right. now left.
Qed.

Lemma NoDup_fst_split {K V} (l1 l2 : list (K * V)) (k : K) (x : V) :
  NoDup (map fst (l1 ++ (k, x) :: l2)) ->
  (forall y, ~ In (k, y) l1) /\ (forall y, ~ In (k, y) l2).
Proof.
  rewrite map_app. simpl. intros Hnd. apply NoDup_app in Hnd.
  destruct Hnd as (_ & H1 & H2). apply NoDup_cons in H2. destruct H2 as [H2 _].
  split.
  - intros y Hy. apply (H1 k).
    + apply list_elem_of_In. apply (in_map fst _ (k, y)). exact Hy.
    + now left.
  - intros y Hy. apply H2. apply list_elem_of_In. apply (in_map fst _ (k, y)). exact Hy.
Qed.

Lemma edge_steps_once (u v : string) (pre post : list graph_op) (a : gmap string attr) :
  (forall b, ~ In (AddEdge u v b) pre) ->
  (forall b, ~ In (AddEdge u v b) post) ->
  foldl (edge_step u v) None (pre ++ AddEdge u v a :: post) = Some a.
Proof.
  intros Hpre Hpost.
  destruct (edge_steps_last u v pre post a None Hpost) as (old & -> & ->).
  rewrite edge_steps_skip by exact Hpre. simpl. now rewrite (right_id_L ∅ (∪)).
Qed.

(** A SHIPS_TO edge carries the group of its pair, and nothing else. *)
Lemma ships_edge_value (data : SupplyChainData) (f h : string) (q : Q) (z : Z) :
  In (f, h, (q, z)) (ships_to_groups data) ->
  edge (build data) ("factory:" ++ f) ("hub:" ++ h) = Some (ships_to_attrs q z).
Proof.
  intros Hin. destruct (in_split _ _ Hin) as (l1 & l2 & El).
  pose proof (groupby_min_NoDup (fun r => (factory_id r, hub_id r)) transport_cost
                                transit_days (all_flows data)) as Hnd.
  fold (ships_to_groups data) in Hnd. rewrite El in Hnd.
  apply NoDup_fst_split in Hnd. destruct Hnd as [Hn1 Hn2].
  rewrite edge_build.
  assert (E : build_ops data
              = ((flat_map region_op (regions data) ++ flat_map country_op (countries data)
                  ++ flat_map factory_op (factories data) ++ flat_map hub_op (hubs data)
                  ++ flat_map ships_to_op l1)
                 ++ AddEdge ("factory:" ++ f) ("hub:" ++ h) (ships_to_attrs q z)
                    :: (flat_map ships_to_op l2
                        ++ flat_map delivers_to_op (delivers_to_groups data)
                        ++ flat_map restricts_op (geopolitical data)))%list).
  { unfold build_ops. rewrite El, flat_map_app. cbn [flat_map ships_to_op fst snd app].
    rewrite <- !app_assoc. reflexivity. }
  rewrite E. apply edge_steps_once.
  - intros b Hb. rewrite !in_app_iff in Hb.
    assert (Hr : In (AddEdge ("factory:" ++ f) ("hub:" ++ h) b)
                    (flat_map region_op (regions data) ++ flat_map country_op (countries data)
                     ++ flat_map factory_op (factories data) ++ flat_map hub_op (hubs data))
                 \/ In (AddEdge ("factory:" ++ f) ("hub:" ++ h) b) (flat_map ships_to_op l1))
      by (rewrite !in_app_iff; tauto).
    clear Hb. destruct Hr as [Hb|Hb].
    + apply in_region_ops in Hb. destruct Hb as (_ & _ & y & Ey). simplify_eq/=.
    + apply in_ships_to_ops in Hb. destruct Hb as (f' & h' & q' & z' & Hin' & E1 & E2 & _).
      simplify_eq/=. exact (Hn1 _ Hin').
  - intros b Hb. apply in_app_or in Hb. destruct Hb as [Hb|Hb].
    + apply in_ships_to_ops in Hb. destruct Hb as (f' & h' & q' & z' & Hin' & E1 & E2 & _).
      simplify_eq/=. exact (Hn2 _ Hin').
    + apply in_app_or in Hb. destruct Hb as [Hb|Hb].
      * apply in_delivers_to_ops in Hb. destruct Hb as (h' & c' & q' & z' & _ & E1 & _).
        simplify_eq/=.
      * apply in_restricts_ops in Hb. destruct Hb as (row & _ & E1 & _). simplify_eq/=.
Qed.

(** A DELIVERS_TO edge carries the group of its pair, and nothing else. *)
Lemma delivers_edge_value (data : SupplyChainData) (h c : string) (q : Q) (z : Z) :
  In (h, c, (q, z)) (delivers_to_groups data) ->
  edge (build data) ("hub:" ++ h) ("country:" ++ c) = Some (delivers_to_attrs q z).
Proof.
  intros Hin. destruct (in_split _ _ Hin) as (l1 & l2 & El).
  pose proof (groupby_min_NoDup (fun r => (hub_id r, country_code r)) last_mile_cost
                                transit_days (all_flows data)) as Hnd.
  fold (delivers_to_groups data) in Hnd. rewrite El in Hnd.
  apply NoDup_fst_split in Hnd. destruct Hnd as [Hn1 Hn2].
  rewrite edge_build.
  assert (E : build_ops data
              = ((flat_map region_op (regions data) ++ flat_map country_op (countries data)
                  ++ flat_map factory_op (factories data) ++ flat_map hub_op (hubs data)
                  ++ flat_map ships_to_op (ships_to_groups data)
                  ++ flat_map delivers_to_op l1)
                 ++ AddEdge ("hub:" ++ h) ("country:" ++ c) (delivers_to_attrs q z)
                    :: (flat_map delivers_to_op l2
                        ++ flat_map restricts_op (geopolitical data)))%list).
  { unfold build_ops. rewrite El, flat_map_app. cbn [flat_map delivers_to_op fst snd app].
    rewrite <- !app_assoc. reflexivity. }
  rewrite E. apply edge_steps_once.
  - intros b Hb. rewrite !in_app_iff in Hb.
    assert (Hr : In (AddEdge ("hub:" ++ h) ("country:" ++ c) b)
                    (flat_map region_op (regions data) ++ flat_map country_op (countries data)
                     ++ flat_map factory_op (factories data) ++ flat_map hub_op (hubs data))
                 \/ In (AddEdge ("hub:" ++ h) ("country:" ++ c) b)
                       (flat_map ships_to_op (ships_to_groups data))
                 \/ In (AddEdge ("hub:" ++ h) ("country:" ++ c) b) (flat_map delivers_to_op l1))
      by (rewrite !in_app_iff; tauto).
    clear Hb. destruct Hr as [Hb|[Hb|Hb]].
    + apply in_region_ops in Hb. destruct Hb as (_ & _ & y & Ey). simplify_eq/=.
    + apply in_ships_to_ops in Hb. destruct Hb as (f' & h' & q' & z' & _ & E1 & _).
      simplify_eq/=.
    + apply in_delivers_to_ops in Hb.
      destruct Hb as (h' & c' & q' & z' & Hin' & E1 & E2 & _).
      simplify_eq/=. exact (Hn1 _ Hin').
  - intros b Hb. apply in_app_or in Hb. destruct Hb as [Hb|Hb].
    + apply in_delivers_to_ops in Hb.
      destruct Hb as (h' & c' & q' & z' & Hin' & E1 & E2 & _).
      simplify_eq/=. exact (Hn2 _ Hin').
    + apply in_restricts_ops in Hb. destruct Hb as (row & _ & E1 & _). simplify_eq/=.
Qed.

Lemma build_ships_iff (data : SupplyChainData) (u v : string) :
  typed_edge (build data) "SHIPS_TO" u v <->
  exists row, In row (all_flows data) /\
              u = "factory:" ++ factory_id row /\ v = "hub:" ++ hub_id row.
Proof.
  split.
  - intros (attrs & He & Ht).
    destruct (build_edge_kind data u v attrs _ He Ht) as (a & Ha & Hta).
    destruct (build_edge_ops data u v a Ha)
      as [(-> & _)|[(f & h & q & z & Hg & -> & -> & _)
                   |[(h & c & q & z & _ & _ & _ & ->)|(row & _ & _ & _ & ->)]]].
    + rewrite edge_type_in_region in Hta. discriminate.
    + apply (proj2 (groupby_min_spec _ _ _ _ _)) in Hg.
      destruct Hg as ((r & Hr & Ek & _) & _). exists r. injection Ek as <- <-. tauto.
    + rewrite edge_type_delivers_to in Hta. discriminate.
    + rewrite edge_type_restricts in Hta. discriminate.
  - intros (row & Hrow & -> & ->).
    destruct (groupby_min_has_key (fun r => (factory_id r, hub_id r)) transport_cost
                                  transit_days (all_flows data) row Hrow) as [[q z] Hg].
    exists (ships_to_attrs q z). split; [now apply ships_edge_value|].
    now rewrite edge_type_ships_to.
Qed.

Lemma build_delivers_iff (data : SupplyChainData) (u v : string) :
  delivers_to (build data) u v <->
  exists row, In row (all_flows data) /\
              u = "hub:" ++ hub_id row /\ v = "country:" ++ country_code row.
Proof.
  split.
  - intros (attrs & He & Ht).
    destruct (build_edge_kind data u v attrs _ He Ht) as (a & Ha & Hta).
    destruct (build_edge_ops data u v a Ha)
      as [(-> & _)|[(f & h & q & z & _ & _ & _ & ->)
                   |[(h & c & q & z & Hg & -> & -> & _)|(row & _ & _ & _ & ->)]]].
    + rewrite edge_type_in_region in Hta. discriminate.
    + rewrite edge_type_ships_to in Hta. discriminate.
    + apply (proj2 (groupby_min_spec _ _ _ _ _)) in Hg.
      destruct Hg as ((r & Hr & Ek & _) & _). exists r. injection Ek as <- <-. tauto.
    + rewrite edge_type_restricts in Hta. discriminate.
  - intros (row & Hrow & -> & ->).
    destruct (groupby_min_has_key (fun r => (hub_id r, country_code r)) last_mile_cost
                                  transit_days (all_flows data) row Hrow) as [[q z] Hg].
    exists (delivers_to_attrs q z). split; [now apply delivers_edge_value|].
    now rewrite edge_type_delivers_to.
Qed.

Lemma flows_with_spec (data : SupplyChainData) (key : FlowRow -> string * string)
      (k : string * string) (r : FlowRow) :
  In r (flows_with data key k) <-> In r (all_flows data) /\ key r = k.
Proof.
  unfold flows_with. rewrite filter_In, bool_decide_eq_true. tauto.
Qed.

(** The edge of a pair of the flow table carries the minima over the
    rows of the pair. *)
Lemma ships_edge_least (data : SupplyChainData) (f h : string) :
  (exists row, In row (all_flows data) /\ factory_id row = f /\ hub_id row = h) ->
  let own := flows_with data (fun r => (factory_id r, hub_id r)) (f, h) in
  exists q z,
    edge (build data) ("factory:" ++ f) ("hub:" ++ h) = Some (ships_to_attrs q z) /\
    In q (map transport_cost own) /\ Forall (fun r => (q <= transport_cost r)%Q) own /\
    In z (map transit_days own) /\ Forall (fun r => (z <= transit_days r)%Z) own.
Proof.
  intros (row & Hrow & <- & <-) own.
  destruct (groupby_min_has_key (fun r => (factory_id r, hub_id r)) transport_cost
                                transit_days (all_flows data) row Hrow) as [[q z] Hg].
  exists q, z. split; [apply (ships_edge_value data _ _ q z Hg)|].
  apply (proj2 (groupby_min_spec _ _ _ _ _)) in Hg.
  destruct Hg as ((r1 & Hr1 & Ek1 & Eq1) & Hq & (r2 & Hr2 & Ek2 & Ez2) & Hz).
  split; [|split; [|split]].
  - apply in_map_iff. exists r1. split; [exact Eq1|]. now apply flows_with_spec.
  - apply List.Forall_forall. intros r Hr. apply flows_with_spec in Hr. now apply Hq.
  - apply in_map_iff. exists r2. split; [exact Ez2|]. now apply flows_with_spec.
  - apply List.Forall_forall. intros r Hr. apply flows_with_spec in Hr. now apply Hz.
Qed.

Lemma delivers_edge_least (data : SupplyChainData) (h c : string) :
  (exists row, In row (all_flows data) /\ hub_id row = h /\ country_code row = c) ->
  let own := flows_with data (fun r => (hub_id r, country_code r)) (h, c) in
  exists q z,
    edge (build data) ("hub:" ++ h) ("country:" ++ c) = Some (delivers_to_attrs q z) /\
    In q (map last_mile_cost own) /\ Forall (fun r => (q <= last_mile_cost r)%Q) own /\
    In z (map transit_days own) /\ Forall (fun r => (z <= transit_days r)%Z) own.
Proof.
  intros (row & Hrow & <- & <-) own.
  destruct (groupby_min_has_key (fun r => (hub_id r, country_code r)) last_mile_cost
                                transit_days (all_flows data) row Hrow) as [[q z] Hg].
  exists q, z. split; [apply (delivers_edge_value data _ _ q z Hg)|].
  apply (proj2 (groupby_min_spec _ _ _ _ _)) in Hg.
  destruct Hg as ((r1 & Hr1 & Ek1 & Eq1) & Hq & (r2 & Hr2 & Ek2 & Ez2) & Hz).
  split; [|split; [|split]].
  - apply in_map_iff. exists r1. split; [exact Eq1|]. now apply flows_with_spec.
  - apply List.Forall_forall. intros r Hr. apply flows_with_spec in Hr. now apply Hq.
  - apply in_map_iff. exists r2. split; [exact Ez2|]. now apply flows_with_spec.
  - apply List.Forall_forall. intros r Hr. apply flows_with_spec in Hr. now apply Hz.
Qed.

(** X20.  The SHIPS_TO edges of the graph are the (factory, hub) pairs of
    the flow table and the DELIVERS_TO edges its (hub, country) pairs.
    The edge of a pair carries the type and two minima over the rows of
    the pair and nothing else: the least transport cost (respectively
    last-mile cost) and the least transit days, each attained by a row of
    the pair. *)
Theorem graph_edges_follow_flows (data : SupplyChainData) :
  (forall u v, typed_edge (build data) "SHIPS_TO" u v <->
               exists row, In row (all_flows data) /\
                           u = "factory:" ++ factory_id row /\ v = "hub:" ++ hub_id row) /\
  (forall u v, typed_edge (build data) "DELIVERS_TO" u v <->
               exists row, In row (all_flows data) /\
                           u = "hub:" ++ hub_id row /\ v = "country:" ++ country_code row) /\
  (forall row, In row (all_flows data) ->
     let own := flows_with data (fun r => (factory_id r, hub_id r))
                           (factory_id row, hub_id row) in
     exists q z,
       edge (build data) ("factory:" ++ factory_id row) ("hub:" ++ hub_id row)
       = Some (list_to_map [("edge_type", AStr "SHIPS_TO");
                            ("min_transport_cost", AFloat q);
                            ("min_transit_days", AInt z)]) /\
       In q (map transport_cost own) /\ Forall (fun r => (q <= transport_cost r)%Q) own /\
       In z (map transit_days own) /\ Forall (fun r => (z <= transit_days r)%Z) own) /\
  (forall row, In row (all_flows data) ->
     let own := flows_with data (fun r => (hub_id r, country_code r))
                           (hub_id row, country_code row) in
     exists q z,
       edge (build data) ("hub:" ++ hub_id row) ("country:" ++ country_code row)
       = Some (list_to_map [("edge_type", AStr "DELIVERS_TO");
                            ("min_last_mile_cost", AFloat q);
                            ("min_transit_days", AInt z)]) /\
       In q (map last_mile_cost own) /\ Forall (fun r => (q <= last_mile_cost r)%Q) own /\
       In z (map transit_days own) /\ Forall (fun r => (z <= transit_days r)%Z) own).
Proof.
  split; [apply build_ships_iff|]. split; [apply build_delivers_iff|]. split.
  - intros row Hrow. apply (ships_edge_least data (factory_id row) (hub_id row)). eauto.
  - intros row Hrow. apply (delivers_edge_least data (hub_id row) (country_code row)). eauto.
Qed.

(** *** The edge views on the built graph *)

Lemma chars_length (s x : string) : In x (Py.chars s) -> String.length x = 1%nat.
Proof.
  unfold Py.chars. rewrite in_map_iff. intros (c & <- & _). reflexivity.
Qed.

(** No node key of the built graph is a single character. *)
Lemma single_char_no_node (data : SupplyChainData) (x : string) :
  String.length x = 1%nat -> _node (build data) !! x = None.
Proof.
  intros Hl. destruct (_node (build data) !! x) eqn:E; [|reflexivity]. exfalso.
  destruct (build_node_prefix data x) as [y [-> | [-> | [-> | ->]]]];
    [congruence|discriminate..].
Qed.

Lemma unique_singleton (n : string) : Py.unique [n] = [n].
Proof.
  unfold Py.unique. cbn [Py.drop_duplicates].
  rewrite bool_decide_eq_false_2 by apply not_elem_of_empty. reflexivity.
Qed.

Lemma filter_none {A} (p : A -> bool) (l : list A) :
  (forall x, In x l -> p x = false) -> List.filter p l = [].
Proof.
  induction l as [|a l IH]; intros H; simpl; [reflexivity|].
  rewrite (H a) by now left. apply IH. intros x Hx. apply H. now right.
Qed.

(** Asked for the edges at a string that is no node, networkx looks for
    the characters of the string: the built graph has none of them. *)
Lemma nbunch_iter_build (data : SupplyChainData) (n : string) :
  Py.unique (nbunch_iter (build data) n)
  = match _node (build data) !! n with Some _ => [n] | None => [] end.
Proof.
  unfold nbunch_iter. destruct (_node (build data) !! n); [apply unique_singleton|].
  rewrite filter_none; [reflexivity|].
  intros c Hc. apply bool_decide_eq_false_2.
  rewrite (proj1 (nodes_ok_build data c)); [apply is_Some_None|].
  apply single_char_no_node. now apply (chars_length n).
Qed.

Lemma edges_data_build (data : SupplyChainData) (n : string) :
  edges_data (build data) n
  = map (fun e => (n, fst e, snd e)) (out_edges (build data) n).
Proof.
  unfold edges_data, out_edges. rewrite nbunch_iter_build.
  destruct (_node (build data) !! n) eqn:E.
  - cbn [flat_map]. apply app_nil_r.
  - rewrite (proj1 (nodes_ok_build data n) E). cbn [flat_map default].
    now rewrite map_to_list_empty.
Qed.

Lemma in_edges_data_build (data : SupplyChainData) (n : string) :
  in_edges_data (build data) n
  = map (fun e => (fst e, n, snd e)) (in_edges (build data) n).
Proof.
  unfold in_edges_data, in_edges. rewrite nbunch_iter_build.
  destruct (_node (build data) !! n) eqn:E.
  - cbn [flat_map]. apply app_nil_r.
  - rewrite (proj1 (wf_nodes _ (well_formed_build data) n)
                   (proj1 (nodes_ok_build data n) E)).
    cbn [flat_map default]. now rewrite map_to_list_empty.
Qed.

Lemma in_edges_data_build_iff (data : SupplyChainData) (n u v : string)
      (a : gmap string attr) :
  In (u, v, a) (edges_data (build data) n) <-> u = n /\ edge (build data) n v = Some a.
Proof.
  rewrite edges_data_build, in_map_iff. split.
  - intros ([t b] & E & Hin). simpl in E. injection E as <- <- <-.
    split; [reflexivity|now apply in_out_edges].
  - intros [-> He]. exists (v, a). split; [reflexivity|now apply in_out_edges].
Qed.

Lemma in_in_edges_data_build_iff (data : SupplyChainData) (n u v : string)
      (a : gmap string attr) :
  In (u, v, a) (in_edges_data (build data) n) <-> v = n /\ edge (build data) u n = Some a.
Proof.
  rewrite in_edges_data_build, in_map_iff. split.
  - intros ([t b] & E & Hin). simpl in E. injection E as <- <- <-.
    split; [reflexivity|now apply (in_in_edges _ _ _ _ (well_formed_build data))].
  - intros [-> He]. exists (u, a). split; [reflexivity|].
    now apply (in_in_edges _ _ _ _ (well_formed_build data)).
Qed.

(** An edge starts at a node. *)
Lemma edge_source_node (data : SupplyChainData) (u v : string) (a : gmap string attr) :
  edge (build data) u v = Some a -> _node (build data) !! u <> None.
Proof.
  unfold edge. intros He Hn. rewrite (proj1 (nodes_ok_build data u) Hn) in He.
  discriminate.
Qed.

Lemma NoDup_all_same {A} (l : list A) (a : A) :
  NoDup l -> In a l -> (forall x, In x l -> x = a) -> length l = 1%nat.
Proof.
  intros Hnd Ha Hall. destruct l as [|x [|y l]]; [contradiction|reflexivity|].
  exfalso. apply NoDup_cons in Hnd. destruct Hnd as [Hx _]. apply Hx.
  rewrite (Hall x) by now left. rewrite (Hall y) by (right; now left). now left.
Qed.

(** X21.  [impact_analysis], read on the tables: the result for a hub
    lists exactly the countries that some row of the flow table reaches
    through the hub and no row reaches through another hub, each with the
    occurrences of "country:" removed from its code.  Every row of the
    flow table counts, whatever its category and its feasibility flags. *)
Theorem impact_analysis_reads_all_flows (data : SupplyChainData) (hub : string) (c : string) :
  In c (impact_analysis (build data) hub) <->
  exists cc,
    c = Py.replace_with_empty "country:" cc /\
    (exists row, In row (all_flows data) /\ hub_id row = hub /\ country_code row = cc) /\
    (forall row, In row (all_flows data) -> country_code row = cc -> hub_id row = hub).
Proof.
  destruct (impact_analysis_of_well_formed (build data) hub (well_formed_build data))
    as [Hnone Hsome].
  destruct (_node (build data) !! ("hub:" ++ hub)) as [attrs|] eqn:En.
  - rewrite (Hsome ltac:(discriminate) c). split.
    + intros (t & -> & Hs & Hd & _ & Hall).
      destruct (prefix_split _ _ Hs) as [cc ->]. exists cc.
      split; [apply (replace_prefixed "c" "ountry:" cc)|]. split.
      * apply build_delivers_iff in Hd. destruct Hd as (row & Hrow & E1 & E2).
        simplify_eq/=. eauto.
      * intros row Hrow Ec.
        assert (Hd' : delivers_to (build data) ("hub:" ++ hub_id row) ("country:" ++ cc)).
        { apply build_delivers_iff. exists row. rewrite Ec. tauto. }
        apply Hall in Hd'. simplify_eq/=. reflexivity.
    + intros (cc & -> & (row & Hrow & Eh & Ec) & Hall).
      assert (Hd : delivers_to (build data) ("hub:" ++ hub) ("country:" ++ cc)).
      { apply build_delivers_iff. exists row. rewrite Eh, Ec. tauto. }
      assert (Hu : forall u, delivers_to (build data) u ("country:" ++ cc) ->
                             u = "hub:" ++ hub).
      { intros u Hu. apply build_delivers_iff in Hu.
        destruct Hu as (row' & Hrow' & -> & E2). simplify_eq/=.
        now rewrite (Hall row' Hrow' (eq_sym E2)). }
      exists ("country:" ++ cc).
      split; [symmetry; apply (replace_prefixed "c" "ountry:" cc)|].
      split; [apply (prefix_app "country:" cc)|]. split; [exact Hd|]. split; [|exact Hu].
      rewrite <- (serving_hubs_length _ _ (well_formed_build data)).
      apply (NoDup_all_same _ ("hub:" ++ hub)).
      * apply serving_hubs_NoDup.
      * now apply (serving_hubs_spec _ _ _ (well_formed_build data)).
      * intros x Hx. apply Hu. now apply (serving_hubs_spec _ _ _ (well_formed_build data)).
  - rewrite (Hnone eq_refl). split; [intros []|].
    intros (cc & _ & (row & Hrow & Eh & Ec) & _). exfalso.
    assert (Hd : delivers_to (build data) ("hub:" ++ hub) ("country:" ++ cc)).
    { apply build_delivers_iff. exists row. rewrite Eh, Ec. tauto. }
    destruct Hd as (a & He & _). exact (edge_source_node data _ _ a He En).
Qed.

(** *** The RESTRICTS edges *)

(** The rules of the table for a destination and a restricted country. *)
Lemma restricts_steps (c r : string) (geo : list RestrictionRow) :
  match last (rules_of_pair c r geo) with
  | None =>
      foldl (edge_step ("country:" ++ c) ("country:" ++ r)) None
            (flat_map restricts_op geo) = None
  | Some row =>
      exists attrs,
        foldl (edge_step ("country:" ++ c) ("country:" ++ r)) None
              (flat_map restricts_op geo) = Some attrs /\
        has_edge_type attrs "RESTRICTS" = true /\
        attrs !! "restriction_type" = Some (AStr (gr_restriction_type row)) /\
        attrs !! "reason" = Some (AStr (gr_reason row))
  end.
Proof.
  induction geo as [|x geo IH] using rev_ind; [reflexivity|].
  unfold rules_of_pair in *. rewrite List.filter_app, flat_map_app, foldl_app.
  cbn [List.filter flat_map restricts_op app foldl edge_step].
  destruct (bool_decide_reflect (gr_destination_country_code x = c /\
                                 gr_restricted_country_code x = r)) as [[Ec Er]|Hne].
  - rewrite last_snoc. subst c r. rewrite decide_True by tauto.
    eexists. split; [reflexivity|].
    split; [|split].
    + unfold has_edge_type.
      rewrite (lookup_union_Some_l _ _ _ (AStr "RESTRICTS")); [reflexivity|].
      reflexivity.
    + apply lookup_union_Some_l. reflexivity.
    + apply lookup_union_Some_l. reflexivity.
  - rewrite app_nil_r. rewrite decide_False; [exact IH|].
    intros [E1 E2]. apply Hne. simplify_eq/=. tauto.
Qed.

Lemma restricts_edge_steps (data : SupplyChainData) (c r : string) :
  edge (build data) ("country:" ++ c) ("country:" ++ r)
  = foldl (edge_step ("country:" ++ c) ("country:" ++ r)) None
          (flat_map restricts_op (geopolitical data)).
Proof.
  rewrite edge_build.
  pose (P := (flat_map region_op (regions data) ++ flat_map country_op (countries data)
              ++ flat_map factory_op (factories data) ++ flat_map hub_op (hubs data)
              ++ flat_map ships_to_op (ships_to_groups data)
              ++ flat_map delivers_to_op (delivers_to_groups data))%list).
  assert (E : build_ops data = (P ++ flat_map restricts_op (geopolitical data))%list).
  { unfold build_ops, P. rewrite <- !app_assoc. reflexivity. }
  rewrite E, foldl_app. rewrite (edge_steps_skip _ _ P None); [reflexivity|].
  intros b Hb. unfold P in Hb.
  assert (Hr : In (AddEdge ("country:" ++ c) ("country:" ++ r) b)
                  (flat_map region_op (regions data) ++ flat_map country_op (countries data)
                   ++ flat_map factory_op (factories data) ++ flat_map hub_op (hubs data))
               \/ In (AddEdge ("country:" ++ c) ("country:" ++ r) b)
                     (flat_map ships_to_op (ships_to_groups data))
               \/ In (AddEdge ("country:" ++ c) ("country:" ++ r) b)
                     (flat_map delivers_to_op (delivers_to_groups data)))
    by (rewrite !in_app_iff in *; tauto).
  clear Hb. destruct Hr as [Hb|[Hb|Hb]].
  - apply in_region_ops in Hb. destruct Hb as (_ & _ & y & Ey). simplify_eq/=.
  - apply in_ships_to_ops in Hb. destruct Hb as (f' & h' & q' & z' & _ & E1 & _).
    simplify_eq/=.
  - apply in_delivers_to_ops in Hb. destruct Hb as (h' & c' & q' & z' & _ & E1 & _).
    simplify_eq/=.
Qed.

(** The RESTRICTS edges leaving a node. *)
Lemma build_restricts_iff (data : SupplyChainData) (u v : string) :
  typed_edge (build data) "RESTRICTS" u v <->
  exists row, In row (geopolitical data) /\
              u = "country:" ++ gr_destination_country_code row /\
              v = "country:" ++ gr_restricted_country_code row.
Proof.
  split.
  - intros (attrs & He & Ht).
    destruct (build_edge_kind data u v attrs _ He Ht) as (a & Ha & Hta).
    destruct (build_edge_ops data u v a Ha)
      as [(-> & _)|[(f & h & q & z & _ & _ & _ & ->)
                   |[(h & c & q & z & _ & _ & _ & ->)|(row & Hrow & -> & -> & _)]]].
    + rewrite edge_type_in_region in Hta. discriminate.
    + rewrite edge_type_ships_to in Hta. discriminate.
    + rewrite edge_type_delivers_to in Hta. discriminate.
    + eauto.
  - intros (row & Hrow & -> & ->). unfold typed_edge. rewrite restricts_edge_steps.
    pose proof (restricts_steps (gr_destination_country_code row)
                                (gr_restricted_country_code row) (geopolitical data)) as Hs.
    destruct (last (rules_of_pair _ _ (geopolitical data))) as [row'|] eqn:El.
    + destruct Hs as (attrs & -> & Ht & _). eauto.
    + exfalso. apply last_None in El.
      assert (Hin : In row (rules_of_pair (gr_destination_country_code row)
                                          (gr_restricted_country_code row)
                                          (geopolitical data))).
      { apply filter_In. split; [exact Hrow|]. now apply bool_decide_eq_true. }
      rewrite El in Hin. exact Hin.
Qed.

Lemma mapM_Some_In {A B} (f : A -> option B) (l : list A) (k : list B) :
  mapM f l = Some k ->
  length k = length l /\ forall y, In y k <-> exists x, In x l /\ f x = Some y.
Proof.
  intros H. apply mapM_Some in H. induction H as [|x y l k Hxy _ [IHl IH]].
  - split; [reflexivity|]. intros y. split; [intros []|intros (x & [] & _)].
  - split; [simpl; now rewrite IHl|]. intros z. simpl. rewrite IH. split.
    + intros [<-|(x' & Hx' & E)]; eauto.
    + intros (x' & [<-|Hx'] & E); [left; congruence|eauto].
Qed.

(** X22.  [get_restriction_graph] on the built graph never fails on a
    missing key, and reports one restriction per restricted country of
    the destination: the type and the reason of the last rule of the
    table for that pair of countries.  An earlier rule for the same pair,
    of whatever type, is not reported. *)
Theorem restriction_graph_keeps_last_rule (data : SupplyChainData) (c : string) :
  exists l,
    get_restriction_graph (build data) c = Some l /\
    (forall e, In e l <->
               exists r row,
                 last (rules_of_pair c r (geopolitical data)) = Some row /\
                 e = {| restricted_country := Py.replace_with_empty "country:" r;
                        re_restriction_type := AStr (gr_restriction_type row);
                        re_reason := AStr (gr_reason row) |}) /\
    length l = length (Py.unique (map gr_restricted_country_code
                                      (rules_of c (geopolitical data)))).
Proof.
  set (g := build data).
  set (edges := List.filter (fun e : string * string * gmap string attr =>
                               has_edge_type (snd e) "RESTRICTS")
                            (edges_data g ("country:" ++ c))).
  set (F := fun e : string * string * gmap string attr =>
              let '(_, target, attrs) := e in
              match attrs !! "restriction_type", attrs !! "reason" with
              | Some ty, Some reason =>
                  Some {| restricted_country := Py.replace_with_empty "country:" target;
                          re_restriction_type := ty;
                          re_reason := reason |}
              | _, _ => None
              end).
  (* what the call does on one edge *)
  assert (Hedge : forall u t a,
             In (u, t, a) edges <->
             exists r row, t = "country:" ++ r /\
                           last (rules_of_pair c r (geopolitical data)) = Some row /\
                           edge g ("country:" ++ c) t = Some a /\ u = "country:" ++ c /\
                           F (u, t, a)
                           = Some {| restricted_country :=
                                       Py.replace_with_empty "country:" r;
                                     re_restriction_type := AStr (gr_restriction_type row);
                                     re_reason := AStr (gr_reason row) |}).
  { intros u t a. unfold edges. rewrite filter_In. unfold g.
    rewrite in_edges_data_build_iff. cbn [snd]. split.
    - intros [[-> He] Ht].
      destruct (proj1 (build_restricts_iff data _ _) (ex_intro _ a (conj He Ht)))
        as (row0 & Hrow0 & E1 & ->).
      simplify_eq/=. exists (gr_restricted_country_code row0).
      pose proof (restricts_steps (gr_destination_country_code row0)
                                  (gr_restricted_country_code row0) (geopolitical data)) as Hs.
      rewrite <- restricts_edge_steps in Hs.
      destruct (last (rules_of_pair _ _ (geopolitical data))) as [row|]; [|congruence].
      destruct Hs as (attrs & Ea & _ & Hty & Hre).
      exists row. rewrite He in Ea. injection Ea as <-.
      split; [reflexivity|]. split; [reflexivity|]. split; [exact He|].
      split; [reflexivity|]. rewrite Hty, Hre.
      now rewrite (replace_prefixed "c" "ountry:").
    - intros (r & row & -> & El & He & -> & _). split; [tauto|].
      pose proof (restricts_steps c r (geopolitical data)) as Hs.
      rewrite <- restricts_edge_steps, El in Hs.
      destruct Hs as (attrs & Ea & Ht & _). unfold g in He. congruence. }
  assert (Hsome : Forall (fun e => is_Some (F e)) edges).
  { apply List.Forall_forall. intros [[u t] a] Hin. apply Hedge in Hin.
    destruct Hin as (r & row & _ & _ & _ & _ & ->). eauto. }
  apply mapM_is_Some in Hsome. destruct Hsome as [l Hl]. exists l.
  split; [exact Hl|]. destruct (mapM_Some_In F edges l Hl) as [Hlen Hmem]. split.
  - intros e. rewrite Hmem. split.
    + intros ([[u t] a] & Hin & HF). apply Hedge in Hin.
      destruct Hin as (r & row & _ & El & _ & _ & HF'). exists r, row.
      split; [exact El|congruence].
    + intros (r & row & El & ->).
      pose proof (restricts_steps c r (geopolitical data)) as Hs.
      rewrite <- restricts_edge_steps, El in Hs. destruct Hs as (attrs & Ea & _).
      exists ("country:" ++ c, "country:" ++ r, attrs).
      assert (Hin : In ("country:" ++ c, "country:" ++ r, attrs) edges).
      { apply Hedge. exists r, row.
        split; [reflexivity|]. split; [exact El|]. split; [exact Ea|].
        split; [reflexivity|].
        pose proof (restricts_steps c r (geopolitical data)) as Hs.
        rewrite <- restricts_edge_steps, El in Hs.
        destruct Hs as (attrs' & Ea' & _ & Hty & Hre).
        rewrite Ea in Ea'. injection Ea' as <-.
        cbn [F]. rewrite Hty, Hre. now rewrite (replace_prefixed "c" "ountry:"). }
      split; [exact Hin|]. apply Hedge in Hin.
      destruct Hin as (r' & row' & E & El' & _ & _ & HF).
      assert (Er : r' = r) by (clear -E; simplify_eq/=; reflexivity). subst r'.
      rewrite El in El'. injection El' as <-. exact HF.
  - rewrite Hlen. rewrite <- (length_map (fun e => snd (fst e)) edges).
    rewrite <- (length_map (fun r => "country:" ++ r)
                           (Py.unique (map gr_restricted_country_code
                                           (rules_of c (geopolitical data))))).
    apply Permutation_length. apply NoDup_Permutation.
    + unfold edges, g. rewrite edges_data_build.
      apply NoDup_map_filter.
      rewrite map_map. cbn [fst snd]. apply (NoDup_fst_map_to_list _).
    + apply NoDup_map_inj; [|apply unique_NoDup]. intros x y E. now simplify_eq/=.
    + intros t. rewrite !list_elem_of_In, !in_map_iff. split.
      * intros ([[u t'] a] & E & Hin). cbn [fst snd] in E. subst t'.
        apply Hedge in Hin. destruct Hin as (r & row & -> & El & _).
        exists r. split; [reflexivity|]. apply unique_complete. apply in_map_iff.
        apply last_filter_in in El. destruct El as [Hrow Hsel].
        apply bool_decide_eq_true in Hsel. destruct Hsel as [Ec Er].
        exists row. split; [exact Er|]. apply filter_In. split; [exact Hrow|].
        now apply bool_decide_eq_true.
      * intros (r & <- & Hr). unfold Py.unique in Hr.
        apply drop_duplicates_in in Hr. destruct Hr as [Hr _].
        apply in_map_iff in Hr. destruct Hr as (row0 & <- & Hrow0).
        apply filter_In in Hrow0. destruct Hrow0 as [Hrow0 Hc].
        apply bool_decide_eq_true in Hc. subst c.
        pose proof (restricts_steps (gr_destination_country_code row0)
                                    (gr_restricted_country_code row0)
                                    (geopolitical data)) as Hs.
        rewrite <- restricts_edge_steps in Hs.
        destruct (last (rules_of_pair _ _ (geopolitical data))) as [row|] eqn:El.
        -- destruct Hs as (attrs & Ea & _).
           exists ("country:" ++ gr_destination_country_code row0,
                   "country:" ++ gr_restricted_country_code row0, attrs).
           split; [reflexivity|]. apply Hedge.
           exists (gr_restricted_country_code row0), row.
           split; [reflexivity|]. split; [exact El|]. split; [exact Ea|].
           split; [reflexivity|].
           pose proof (restricts_steps (gr_destination_country_code row0)
                                       (gr_restricted_country_code row0)
                                       (geopolitical data)) as Hs.
           rewrite <- restricts_edge_steps, El in Hs.
           destruct Hs as (attrs' & Ea' & _ & Hty & Hre).
           rewrite Ea in Ea'. injection Ea' as <-.
           cbn [F]. rewrite Hty, Hre. now rewrite (replace_prefixed "c" "ountry:").
        -- exfalso. apply last_None in El.
           assert (Hin : In row0 (rules_of_pair (gr_destination_country_code row0)
                                                (gr_restricted_country_code row0)
                                                (geopolitical data))).
           { apply filter_In. split; [exact Hrow0|]. now apply bool_decide_eq_true. }
           rewrite El in Hin. exact Hin.
Qed.

(** *** Routes and hub usage *)

Lemma flat_map_none {A B} (F : A -> list B) (l : list A) :
  (forall x, In x l -> F x = []) -> flat_map F l = [].
Proof.
  induction l as [|a l IH]; intros H; simpl; [reflexivity|].
  rewrite (H a) by now left. apply IH. intros x Hx. apply H. now right.
Qed.

(** Among entries with distinct keys, only the entry of a key counts. *)
Lemma flat_map_at_key {V B} (G : string -> V -> list B) (k : string) (l : list (string * V)) :
  NoDup (map fst l) ->
  (forall e, In e l -> fst e <> k -> G (fst e) (snd e) = []) ->
  flat_map (fun e => G (fst e) (snd e)) l
  = match List.find (fun e => String.eqb (fst e) k) l with
    | Some e => G k (snd e)
    | None => []
    end.
Proof.
  induction l as [|[k' v] l IH]; intros Hnd Hno; [reflexivity|].
  cbn [map fst] in Hnd. apply NoDup_cons in Hnd. destruct Hnd as [Hk Hnd].
  cbn [flat_map List.find fst snd]. destruct (String.eqb_spec k' k) as [->|Hne].
  - rewrite flat_map_none; [apply app_nil_r|].
    intros e He. apply Hno; [now right|]. intros E. apply Hk. rewrite <- E.
    apply list_elem_of_In. now apply in_map.
  - pose proof (Hno (k', v) (or_introl eq_refl) Hne) as E0. cbn [fst snd] in E0.
    rewrite E0. cbn [app].
    apply IH; [exact Hnd|]. intros e He. apply Hno. now right.
Qed.

Lemma find_map_to_list {V} (m : gmap string V) (k : string) :
  List.find (fun e => String.eqb (fst e) k) (map_to_list m)
  = (fun v => (k, v)) <$> m !! k.
Proof.
  destruct (m !! k) as [v|] eqn:E; simpl.
  - destruct (List.find _ _) as [[k' v']|] eqn:Ef.
    + apply find_some in Ef. destruct Ef as [Hin Hk]. cbn [fst] in Hk.
      apply String.eqb_eq in Hk. subst k'.
      apply list_elem_of_In, elem_of_map_to_list in Hin. congruence.
    + exfalso.
      assert (Hin : In (k, v) (map_to_list m))
        by now apply list_elem_of_In, elem_of_map_to_list.
      pose proof (find_none _ _ Ef (k, v) Hin) as Hk. cbn [fst] in Hk.
      rewrite String.eqb_refl in Hk. discriminate.
  - destruct (List.find _ _) as [[k' v']|] eqn:Ef; [|reflexivity].
    apply find_some in Ef. destruct Ef as [Hin Hk]. cbn [fst] in Hk.
    apply String.eqb_eq in Hk. subst k'.
    apply list_elem_of_In, elem_of_map_to_list in Hin. congruence.
Qed.

Lemma flat_map_filter_map {A B} (F : A -> list B) (P : A -> bool) (R : A -> B)
      (l : list A) :
  (forall x, In x l -> F x = if P x then [R x] else []) ->
  flat_map F l = map R (List.filter P l).
Proof.
  induction l as [|a l IH]; intros H; simpl; [reflexivity|].
  rewrite (H a) by now left. rewrite IH by (intros x Hx; apply H; now right).
  now destruct (P a).
Qed.

(** Keys that all carry a prefix are the prefixed codes of a list. *)
Lemma prefixed_keys (p : string) (ks : list string) :
  (forall k, In k ks -> exists x, k = p ++ x) ->
  exists xs, ks = map (fun x => p ++ x) xs.
Proof.
  induction ks as [|k ks IH]; intros H; [exists []; reflexivity|].
  destruct (H k (or_introl eq_refl)) as [x ->].
  destruct IH as [xs ->]; [intros k' Hk'; apply H; now right|].
  exists (x :: xs). reflexivity.
Qed.

Lemma NoDup_map_inv {A B} (g : A -> B) (l : list A) : NoDup (map g l) -> NoDup l.
Proof.
  induction l as [|a l IH]; simpl; [constructor|].
  rewrite !NoDup_cons. intros [Ha Hl]. split; [|now apply IH].
  intros Hin. apply Ha. apply list_elem_of_In. apply in_map.
  now apply list_elem_of_In.
Qed.

(** The hubs a factory ships to that deliver to a country, from the
    out-edges of the factory node. *)
Lemma routes_of_out_edges (data : SupplyChainData) (f c : string) :
  find_all_routes (build data) f c
  = map (fun e =>
           {| rt_factory_id := f;
              rt_hub_id := Py.replace_with_empty "hub:" (fst e);
              rt_country_code := c;
              rt_transport_cost :=
                edge (build data) ("factory:" ++ f) (fst e)
                     ≫= (fun a => a !! "min_transport_cost");
              rt_last_mile_cost :=
                edge (build data) (fst e) ("country:" ++ c)
                     ≫= (fun a => a !! "min_last_mile_cost") |})
        (List.filter (fun e => has_edge_type (snd e) "SHIPS_TO"
                               && delivers_tob (build data) (fst e) ("country:" ++ c))
                     (out_edges (build data) ("factory:" ++ f))).
Proof.
  set (g := build data).
  assert (E0 : find_all_routes g f c
               = flat_map
                   (fun e1 : string * string * gmap string attr =>
                      let '(_, hub_node, ship_attrs) := e1 in
                      if negb (has_edge_type ship_attrs "SHIPS_TO") then []
                      else
                        flat_map
                          (fun e2 : string * string * gmap string attr =>
                             let '(_, dest_node, deliver_attrs) := e2 in
                             if negb (has_edge_type deliver_attrs "DELIVERS_TO") then []
                             else if String.eqb dest_node ("country:" ++ c) then
                               [ {| rt_factory_id := f;
                                    rt_hub_id := Py.replace_with_empty "hub:" hub_node;
                                    rt_country_code := c;
                                    rt_transport_cost := ship_attrs !! "min_transport_cost";
                                    rt_last_mile_cost :=
                                      deliver_attrs !! "min_last_mile_cost" |} ]
                             else [])
                          (edges_data g hub_node))
                   (edges_data g ("factory:" ++ f))).
  { unfold find_all_routes. destruct (_node g !! ("factory:" ++ f)) eqn:En; [reflexivity|].
    unfold g. rewrite (edges_data_build data ("factory:" ++ f)). unfold out_edges.
    rewrite (proj1 (nodes_ok_build data _) En). cbn [default].
    now rewrite map_to_list_empty. }
  rewrite E0. unfold g at 2. rewrite edges_data_build, flat_map_concat_map, map_map.
  rewrite <- flat_map_concat_map. apply flat_map_filter_map.
  intros [t a] Hin. cbn [fst snd]. apply in_out_edges in Hin.
  destruct (has_edge_type a "SHIPS_TO"); cbn [negb andb]; [|reflexivity].
  unfold g. rewrite edges_data_build, flat_map_concat_map, map_map.
  rewrite <- flat_map_concat_map. cbn [fst snd].
  rewrite (flat_map_at_key
             (fun d a2 =>
                if negb (has_edge_type a2 "DELIVERS_TO") then []
                else if String.eqb d ("country:" ++ c) then
                  [ {| rt_factory_id := f;
                       rt_hub_id := Py.replace_with_empty "hub:" t;
                       rt_country_code := c;
                       rt_transport_cost := a !! "min_transport_cost";
                       rt_last_mile_cost := a2 !! "min_last_mile_cost" |} ]
                else [])
             ("country:" ++ c)).
  - unfold out_edges. rewrite find_map_to_list. unfold g in Hin. rewrite Hin.
    unfold delivers_tob, edge.
    destruct (_succ (build data) !! t) as [nbrs|]; cbn [default from_option id mbind option_bind];
      [|rewrite lookup_empty; reflexivity].
    destruct (nbrs !! ("country:" ++ c)) as [a2|]; cbn [fmap option_fmap option_map snd];
      [|reflexivity].
    destruct (has_edge_type a2 "DELIVERS_TO"); cbn [negb]; [|reflexivity].
    rewrite String.eqb_refl. reflexivity.
  - apply (NoDup_fst_map_to_list _).
  - intros [d a2] _ Hne. cbn [fst snd] in *.
    destruct (has_edge_type a2 "DELIVERS_TO"); cbn [negb]; [|reflexivity].
    destruct (String.eqb_spec d ("country:" ++ c)); [contradiction|reflexivity].
Qed.

(** X23.  [find_all_routes] on the built graph reports one route per hub
    that some row of the flow table links to the factory and some row,
    possibly another one, links to the country: the two rows need not
    agree on the category, and their feasibility flags are not read.  The
    route carries the hub code without the occurrences of "hub:", the
    least transport cost over the rows of the factory and the hub, and
    the least last-mile cost over the rows of the hub and the country. *)
Theorem find_all_routes_joins_flow_rows (data : SupplyChainData) (f c : string) :
  exists hs,
    NoDup hs /\
    (forall h, In h hs <->
               (exists row, In row (all_flows data) /\
                            factory_id row = f /\ hub_id row = h) /\
               (exists row, In row (all_flows data) /\
                            hub_id row = h /\ country_code row = c)) /\
    find_all_routes (build data) f c = map (fun h => route_via (build data) f h c) hs /\
    (forall h, In h hs ->
       exists q q',
         route_via (build data) f h c
         = {| rt_factory_id := f;
              rt_hub_id := Py.replace_with_empty "hub:" h;
              rt_country_code := c;
              rt_transport_cost := Some (AFloat q);
              rt_last_mile_cost := Some (AFloat q') |} /\
         In q (map transport_cost
                   (flows_with data (fun r => (factory_id r, hub_id r)) (f, h))) /\
         Forall (fun r => (q <= transport_cost r)%Q)
                (flows_with data (fun r => (factory_id r, hub_id r)) (f, h)) /\
         In q' (map last_mile_cost
                    (flows_with data (fun r => (hub_id r, country_code r)) (h, c))) /\
         Forall (fun r => (q' <= last_mile_cost r)%Q)
                (flows_with data (fun r => (hub_id r, country_code r)) (h, c))).
Proof.
  set (l' := List.filter
               (fun e : string * gmap string attr =>
                  has_edge_type (snd e) "SHIPS_TO"
                  && delivers_tob (build data) (fst e) ("country:" ++ c))
               (out_edges (build data) ("factory:" ++ f))).
  assert (Hl' : forall t, In t (map fst l') <->
                          typed_edge (build data) "SHIPS_TO" ("factory:" ++ f) t /\
                          delivers_to (build data) t ("country:" ++ c)).
  { intros t. rewrite in_map_iff. split.
    - intros ([t' a] & E & Hin). cbn [fst] in E. subst t'. apply filter_In in Hin.
      destruct Hin as [Hin HP]. cbn [fst snd] in HP. apply andb_true_iff in HP.
      apply in_out_edges in Hin. split; [exists a; tauto|].
      now apply delivers_tob_spec.
    - intros [(a & He & Ht) Hd]. exists (t, a). split; [reflexivity|].
      apply filter_In. split; [now apply in_out_edges|]. cbn [fst snd].
      rewrite Ht. now apply delivers_tob_spec. }
  destruct (prefixed_keys "hub:" (map fst l')) as [hs Hhs].
  { intros t Ht. apply Hl' in Ht. destruct Ht as [Hs _].
    apply build_ships_iff in Hs. destruct Hs as (row & _ & _ & ->). eauto. }
  assert (Hmem : forall h, In h hs <->
               (exists row, In row (all_flows data) /\
                            factory_id row = f /\ hub_id row = h) /\
               (exists row, In row (all_flows data) /\
                            hub_id row = h /\ country_code row = c)).
  { intros h. transitivity (In ("hub:" ++ h) (map fst l')).
    - rewrite Hhs, in_map_iff. split; [eauto|].
      intros (h' & E & Hin). simplify_eq/=. exact Hin.
    - rewrite Hl', build_ships_iff, build_delivers_iff. split.
      + intros [(row & Hrow & E1 & E2) (row' & Hrow' & E3 & E4)]. simplify_eq/=.
        split; [exists row|exists row']; (split; [assumption|split; congruence]).
      + intros [(row & Hrow & <- & <-) (row' & Hrow' & E & <-)].
        split; [exists row|exists row']; rewrite ?E; tauto. }
  exists hs. split; [|split; [exact Hmem|split]].
  - apply (NoDup_map_inv (fun x => "hub:" ++ x)). rewrite <- Hhs. unfold l', out_edges.
    apply NoDup_map_filter. apply (NoDup_fst_map_to_list _).
  - rewrite routes_of_out_edges. fold l'.
    rewrite <- (map_map fst
                        (fun t => {| rt_factory_id := f;
                                     rt_hub_id := Py.replace_with_empty "hub:" t;
                                     rt_country_code := c;
                                     rt_transport_cost :=
                                       edge (build data) ("factory:" ++ f) t
                                            ≫= (fun a => a !! "min_transport_cost");
                                     rt_last_mile_cost :=
                                       edge (build data) t ("country:" ++ c)
                                            ≫= (fun a => a !! "min_last_mile_cost") |})).
    rewrite Hhs, map_map. reflexivity.
  - intros h Hh. apply Hmem in Hh. destruct Hh as [Hs Hd].
    destruct (ships_edge_least data f h Hs) as (q & z & Eq & Hq1 & Hq2 & _).
    destruct (delivers_edge_least data h c Hd) as (q' & z' & Eq' & Hq1' & Hq2' & _).
    exists q, q'. split; [|tauto]. unfold route_via. rewrite Eq, Eq'.
    now rewrite (replace_prefixed "h" "ub:").
Qed.

(** X24.  [hub_utilization_risk] on the built graph: the feeding
    factories are the distinct factories of the rows of the flow table
    through the hub, the served countries the distinct countries of these
    rows, each once and without the occurrences of its prefix, and the
    two counts are their numbers.  For a hub with no row all is empty. *)
Theorem hub_utilization_counts_flow_rows (data : SupplyChainData) (hub : string) :
  exists fs cs,
    NoDup fs /\ NoDup cs /\
    (forall f, In f fs <->
               exists row, In row (all_flows data) /\ factory_id row = f /\ hub_id row = hub) /\
    (forall c, In c cs <->
               exists row, In row (all_flows data) /\ hub_id row = hub /\ country_code row = c) /\
    hub_utilization_risk (build data) hub
    = {| hr_hub_id := hub;
         feeding_factories := map (Py.replace_with_empty "factory:") fs;
         served_countries := map (Py.replace_with_empty "country:") cs;
         factory_count := Z.of_nat (length fs);
         country_count := Z.of_nat (length cs) |}.
Proof.
  set (lf := List.filter (fun e : string * gmap string attr =>
                            has_edge_type (snd e) "SHIPS_TO")
                         (in_edges (build data) ("hub:" ++ hub))).
  set (lc := List.filter (fun e : string * gmap string attr =>
                            has_edge_type (snd e) "DELIVERS_TO")
                         (out_edges (build data) ("hub:" ++ hub))).
  assert (Hlf : forall u, In u (map fst lf) <->
                          typed_edge (build data) "SHIPS_TO" u ("hub:" ++ hub)).
  { intros u. rewrite in_map_iff. split.
    - intros ([u' a] & E & Hin). cbn [fst] in E. subst u'. apply filter_In in Hin.
      destruct Hin as [Hin HP]. apply (in_in_edges _ _ _ _ (well_formed_build data)) in Hin.
      exists a. tauto.
    - intros (a & He & Ht). exists (u, a). split; [reflexivity|].
      apply filter_In. split; [|exact Ht].
      now apply (in_in_edges _ _ _ _ (well_formed_build data)). }
  assert (Hlc : forall v, In v (map fst lc) <->
                          delivers_to (build data) ("hub:" ++ hub) v).
  { intros v. rewrite in_map_iff. split.
    - intros ([v' a] & E & Hin). cbn [fst] in E. subst v'. apply filter_In in Hin.
      destruct Hin as [Hin HP]. apply in_out_edges in Hin. exists a. tauto.
    - intros (a & He & Ht). exists (v, a). split; [reflexivity|].
      apply filter_In. split; [|exact Ht]. now apply in_out_edges. }
  destruct (prefixed_keys "factory:" (map fst lf)) as [fs Hfs].
  { intros u Hu. apply Hlf, build_ships_iff in Hu. destruct Hu as (row & _ & -> & _). eauto. }
  destruct (prefixed_keys "country:" (map fst lc)) as [cs Hcs].
  { intros v Hv. apply Hlc, build_delivers_iff in Hv. destruct Hv as (row & _ & _ & ->).
    eauto. }
  exists fs, cs. split; [|split; [|split; [|split]]].
  - apply (NoDup_map_inv (fun x => "factory:" ++ x)). rewrite <- Hfs. unfold lf, in_edges.
    apply NoDup_map_filter. apply (NoDup_fst_map_to_list _).
  - apply (NoDup_map_inv (fun x => "country:" ++ x)). rewrite <- Hcs. unfold lc, out_edges.
    apply NoDup_map_filter. apply (NoDup_fst_map_to_list _).
  - intros f. transitivity (In ("factory:" ++ f) (map fst lf)).
    + rewrite Hfs, in_map_iff. split; [eauto|].
      intros (f' & E & Hin). simplify_eq/=. exact Hin.
    + rewrite Hlf, build_ships_iff. split.
      * intros (row & Hrow & E1 & E2). simplify_eq/=. eauto.
      * intros (row & Hrow & <- & <-). eauto.
  - intros c. transitivity (In ("country:" ++ c) (map fst lc)).
    + rewrite Hcs, in_map_iff. split; [eauto|].
      intros (c' & E & Hin). simplify_eq/=. exact Hin.
    + rewrite Hlc, build_delivers_iff. split.
      * intros (row & Hrow & E1 & E2). simplify_eq/=. eauto.
      * intros (row & Hrow & <- & <-). eauto.
  - unfold hub_utilization_risk.
    rewrite in_edges_data_build, edges_data_build.
    assert (Ef : map (fun e : string * string * gmap string attr =>
                        Py.replace_with_empty "factory:" (fst (fst e)))
                     (List.filter (fun e => has_edge_type (snd e) "SHIPS_TO")
                                  (map (fun e : string * gmap string attr =>
                                          (fst e, "hub:" ++ hub, snd e))
                                       (in_edges (build data) ("hub:" ++ hub))))
                 = map (Py.replace_with_empty "factory:") fs).
    { rewrite filter_map_comm, map_map. cbn [fst snd]. fold lf.
      rewrite <- (map_map fst (Py.replace_with_empty "factory:")), Hfs, map_map.
      apply map_ext. intros x. apply (replace_prefixed "f" "actory:"). }
    assert (Ec : map (fun e : string * string * gmap string attr =>
                        Py.replace_with_empty "country:" (snd (fst e)))
                     (List.filter (fun e => has_edge_type (snd e) "DELIVERS_TO")
                                  (map (fun e : string * gmap string attr =>
                                          ("hub:" ++ hub, fst e, snd e))
                                       (out_edges (build data) ("hub:" ++ hub))))
                 = map (Py.replace_with_empty "country:") cs).
    { rewrite filter_map_comm, map_map. cbn [fst snd]. fold lc.
      rewrite <- (map_map fst (Py.replace_with_empty "country:")), Hcs, map_map.
      apply map_ext. intros x. apply (replace_prefixed "c" "ountry:"). }
    rewrite Ef, Ec, !length_map. reflexivity.
Qed.

(** *** The typed nodes *)

Lemma region_node_op (data : SupplyChainData) (row : RegionRow) :
  In row (regions data) ->
  exists a, In (AddNode ("region:" ++ rg_region_id row) a) (build_ops data).
Proof.
  intros Hrow. eexists. unfold build_ops. rewrite !in_app_iff. left.
  apply in_flat_map. exists row. split; [exact Hrow|]. left. reflexivity.
Qed.

Lemma country_node_op (data : SupplyChainData) (row : CountryRow) :
  In row (countries data) ->
  exists a, In (AddNode ("country:" ++ co_country_code row) a) (build_ops data).
Proof.
  intros Hrow. eexists. unfold build_ops. rewrite !in_app_iff. right. left.
  apply in_flat_map. exists row. split; [exact Hrow|]. left. reflexivity.
Qed.

Lemma factory_node_op (data : SupplyChainData) (row : FactoryRow) :
  In row (factories data) ->
  exists a, In (AddNode ("factory:" ++ fa_factory_id row) a) (build_ops data).
Proof.
  intros Hrow. eexists. unfold build_ops. rewrite !in_app_iff. right. right. left.
  apply in_flat_map. exists row. split; [exact Hrow|]. left. reflexivity.
Qed.

Lemma hub_node_op (data : SupplyChainData) (row : HubRow) :
  In row (hubs data) ->
  exists a, In (AddNode ("hub:" ++ hu_hub_id row) a) (build_ops data).
Proof.
  intros Hrow. eexists. unfold build_ops. rewrite !in_app_iff. right. right. right. left.
  apply in_flat_map. exists row. split; [exact Hrow|]. left. reflexivity.
Qed.

Lemma in_get_nodes_by_type (g : DiGraph) (T n : string) :
  In n (get_nodes_by_type g T) <->
  exists attrs, _node g !! n = Some attrs /\ attrs !! "node_type" = Some (AStr T).
Proof.
  unfold get_nodes_by_type. rewrite in_map_iff. split.
  - intros ([n' attrs] & E & Hin). cbn [fst] in E. subst n'. apply filter_In in Hin.
    destruct Hin as [Hin HT]. cbn [snd] in HT.
    apply list_elem_of_In, elem_of_map_to_list in Hin. exists attrs. split; [exact Hin|].
    destruct (attrs !! "node_type") as [[s| |]|]; try discriminate.
    apply String.eqb_eq in HT. now subst s.
  - intros (attrs & Hn & HT). exists (n, attrs). split; [reflexivity|].
    apply filter_In. split; [now apply list_elem_of_In, elem_of_map_to_list|].
    cbn [snd]. rewrite HT. apply String.eqb_refl.
Qed.

(** X25.  [get_nodes_by_type] on the built graph lists, each once, the
    node keys of the rows of the table of that type: "region:", "country:",
    "factory:" or "hub:" followed by the identifier.  A node that only an
    edge created (a hub or a factory of the flow table that is missing
    from its own table, a region no row of the region table names) has no
    type and is listed for no type; no other type has nodes. *)
Theorem nodes_by_type_are_table_rows (data : SupplyChainData) (T : string) :
  NoDup (get_nodes_by_type (build data) T) /\
  forall n,
    In n (get_nodes_by_type (build data) T) <->
    (T = "region" /\ exists row, In row (regions data) /\ n = "region:" ++ rg_region_id row) \/
    (T = "country" /\
     exists row, In row (countries data) /\ n = "country:" ++ co_country_code row) \/
    (T = "factory" /\
     exists row, In row (factories data) /\ n = "factory:" ++ fa_factory_id row) \/
    (T = "hub" /\ exists row, In row (hubs data) /\ n = "hub:" ++ hu_hub_id row).
Proof.
  split.
  - unfold get_nodes_by_type. apply NoDup_map_filter. apply (NoDup_fst_map_to_list _).
  - intros n. rewrite in_get_nodes_by_type, node_build. split.
    + intros (attrs & Hf & HT).
      destruct (node_steps_attr n "node_type" (AStr T) _ attrs Hf HT) as (a & Ha & HaT).
      { intros a Ha.
        destruct (build_node_ops data n a Ha)
          as [(E & _)|[(E & _)|[(E & _)|(E & _)]]]; rewrite E; eauto. }
      destruct (build_node_ops data n a Ha)
        as [(E & row & Hrow & ->)|[(E & row & Hrow & ->)
           |[(E & row & Hrow & -> & _)|(E & row & Hrow & ->)]]];
        rewrite E in HaT; injection HaT as <-.
      * left. eauto.
      * right. left. eauto.
      * right. right. left. eauto.
      * right. right. right. eauto.
    + intros [(-> & row & Hrow & ->)|[(-> & row & Hrow & ->)
             |[(-> & row & Hrow & ->)|(-> & row & Hrow & ->)]]].
      * apply node_steps_attr_all; [now apply region_node_op|].
        intros a Ha.
        destruct (build_node_ops data _ a Ha)
          as [(E & _)|[(_ & r & _ & Er)|[(_ & r & _ & Er & _)|(_ & r & _ & Er)]]];
          [exact E|simplify_eq/=..].
      * apply node_steps_attr_all; [now apply country_node_op|].
        intros a Ha.
        destruct (build_node_ops data _ a Ha)
          as [(_ & r & _ & Er)|[(E & _)|[(_ & r & _ & Er & _)|(_ & r & _ & Er)]]];
          [simplify_eq/=|exact E|simplify_eq/=..].
      * apply node_steps_attr_all; [now apply factory_node_op|].
        intros a Ha.
        destruct (build_node_ops data _ a Ha)
          as [(_ & r & _ & Er)|[(_ & r & _ & Er)|[(E & _)|(_ & r & _ & Er)]]];
          [simplify_eq/=..|exact E|simplify_eq/=].
      * apply node_steps_attr_all; [now apply hub_node_op|].
        intros a Ha.
        destruct (build_node_ops data _ a Ha)
          as [(_ & r & _ & Er)|[(_ & r & _ & Er)|[(_ & r & _ & Er & _)|(E & _)]]];
          [simplify_eq/=..|exact E].
Qed.

(** *** Supply diversity *)

Lemma add_to_region_spec (r x : string) (d : list (attr * gset string)) :
  Forall (fun e => exists s, fst e = AStr s) d ->
  NoDup (map fst d) ->
  Forall (fun e => exists s, fst e = AStr s) (add_to_region (AStr r) x d) /\
  NoDup (map fst (add_to_region (AStr r) x d)) /\
  (forall R, In R (map fst (add_to_region (AStr r) x d)) <->
             R = AStr r \/ In R (map fst d)) /\
  (forall R S, In (R, S) (add_to_region (AStr r) x d) <->
               (R <> AStr r /\ In (R, S) d) \/
               (R = AStr r /\
                ((exists S0, In (R, S0) d /\ S = {[x]} ∪ S0) \/
                 ((forall S0, ~ In (R, S0) d) /\ S = {[x]})))).
Proof.
  induction d as [|[R0 S0] d IH]; intros Hk Hnd.
  - cbn [add_to_region map fst]. split; [|split; [|split]].
    + apply List.Forall_cons; [eexists; reflexivity|apply List.Forall_nil].
    + apply NoDup_singleton.
    + intros R. simpl. split; [intros [<-|[]]; now left|intros [->|[]]; now left].
    + intros R S. simpl. split.
      * intros [E|[]]. injection E as <- <-. right. split; [reflexivity|]. right.
        split; [intros S0 []|reflexivity].
      * intros [[_ []]|[-> [(S1 & [] & _)|[_ ->]]]]. now left.
  - apply List.Forall_cons_iff in Hk. destruct Hk as [[s Es] Hk]. cbn [fst] in Es. subst R0.
    cbn [map fst] in Hnd. apply NoDup_cons in Hnd. destruct Hnd as [Hhead Hnd].
    rewrite list_elem_of_In in Hhead.
    assert (Hfresh : forall S, ~ In (AStr s, S) d).
    { intros S HS. apply Hhead. now apply (in_map fst _ (AStr s, S)). }
    cbn [add_to_region attr_eqb]. destruct (String.eqb_spec s r) as [->|Hsr].
    + split; [|split; [|split]].
      * apply List.Forall_cons; [eexists; reflexivity|exact Hk].
      * cbn [map fst]. apply NoDup_cons. rewrite list_elem_of_In.
        split; [exact Hhead|exact Hnd].
      * intros R. cbn [map fst]. simpl. split.
        -- intros [E|H]; [left; congruence|right; right; exact H].
        -- intros [E|[E|H]]; [left; congruence|left; exact E|right; exact H].
      * intros R S. simpl. split.
        -- intros [E|Hin].
           ++ injection E as <- <-. right. split; [reflexivity|]. left.
              exists S0. split; [now left|reflexivity].
           ++ left. split; [|now right]. intros ->. exact (Hfresh S Hin).
        -- intros [[Hne [E|Hin]]|[-> [(S1 & [E|Hin] & ->)|[Hno _]]]].
           ++ injection E as <- <-. congruence.
           ++ now right.
           ++ injection E as <-. now left.
           ++ exfalso. exact (Hfresh S1 Hin).
           ++ exfalso. apply (Hno S0). now left.
    + destruct (IH Hk Hnd) as (IH1 & IH2 & IH3 & IH4).
      split; [|split; [|split]].
      * apply List.Forall_cons; [eexists; reflexivity|exact IH1].
      * cbn [map fst]. apply NoDup_cons. split; [|exact IH2].
        rewrite list_elem_of_In, IH3. intros [E|Hin]; [congruence|tauto].
      * intros R. cbn [map fst]. simpl. rewrite IH3. tauto.
      * intros R S. simpl. rewrite IH4. split.
        -- intros [E|[[Hne Hin]|[-> [(S1 & Hin & ->)|[Hno ->]]]]].
           ++ injection E as <- <-. left. split; [congruence|now left].
           ++ left. split; [exact Hne|now right].
           ++ right. split; [reflexivity|]. left. exists S1. split; [now right|reflexivity].
           ++ right. split; [reflexivity|]. right. split; [|reflexivity].
              intros S1 [E|Hin]; [congruence|exact (Hno S1 Hin)].
        -- intros [[Hne [E|Hin]]|[-> [(S1 & [E|Hin] & ->)|[Hno ->]]]].
           ++ now left.
           ++ right. left. tauto.
           ++ congruence.
           ++ right. right. split; [reflexivity|]. left. eauto.
           ++ right. right. split; [reflexivity|]. right. split; [|reflexivity].
              intros S1 Hin. apply (Hno S1). now right.
Qed.

Lemma list_to_set_snoc (l : list string) (x : string) :
  (list_to_set (l ++ [x]) : gset string) = {[x]} ∪ list_to_set l.
Proof.
  apply set_eq. intros y.
  rewrite elem_of_union, elem_of_singleton, !elem_of_list_to_set, elem_of_app,
    list_elem_of_singleton.
  tauto.
Qed.

Section RegionSets.
Context {F : Type} (rk : F -> string) (nm : F -> string).

(** Adding the items of a list one by one groups their names by key. *)
Lemma fold_add_to_region (xs : list F) :
  let d := foldl (fun d f => add_to_region (AStr (rk f)) (nm f) d) [] xs in
  Forall (fun e => exists s, fst e = AStr s) d /\
  NoDup (map fst d) /\
  forall R S,
    In (R, S) d <->
    exists r, R = AStr r /\ (exists f, In f xs /\ rk f = r) /\
              S = list_to_set (map nm (List.filter (fun f => String.eqb (rk f) r) xs)).
Proof.
  induction xs as [|f xs IH] using rev_ind.
  - cbn. split; [apply List.Forall_nil|]. split; [apply NoDup_nil_2|].
    intros R S. split; [intros []|intros (r & _ & (f & [] & _) & _)].
  - rewrite foldl_app. cbn [foldl]. cbv zeta in IH.
    set (d := foldl (fun d f => add_to_region (AStr (rk f)) (nm f) d) [] xs) in *.
    destruct IH as (Hk & Hnd & Hin).
    destruct (add_to_region_spec (rk f) (nm f) d Hk Hnd) as (Hk' & Hnd' & _ & Hin').
    split; [exact Hk'|]. split; [exact Hnd'|].
    assert (Hfilter : forall r,
               List.filter (fun f0 => String.eqb (rk f0) r) (xs ++ [f])
               = (List.filter (fun f0 => String.eqb (rk f0) r) xs
                  ++ if String.eqb (rk f) r then [f] else [])%list).
    { intros r. rewrite List.filter_app. cbn [List.filter].
      now destruct (String.eqb (rk f) r). }
    intros R S. rewrite Hin'. split.
    + intros [[Hne HS]|[-> [(S0 & HS0 & ->)|[Hno ->]]]].
      * apply Hin in HS. destruct HS as (r & -> & (f0 & Hf0 & E0) & ->).
        exists r. split; [reflexivity|].
        split; [exists f0; split; [apply in_or_app; now left|exact E0]|].
        rewrite Hfilter. destruct (String.eqb_spec (rk f) r) as [E|_]; [congruence|].
        now rewrite app_nil_r.
      * apply Hin in HS0. destruct HS0 as (r & E & _ & ->). injection E as <-.
        exists (rk f). split; [reflexivity|].
        split; [exists f; split; [apply in_or_app; right; now left|reflexivity]|].
        rewrite Hfilter, String.eqb_refl, map_app. cbn [map].
        now rewrite list_to_set_snoc.
      * exists (rk f). split; [reflexivity|].
        split; [exists f; split; [apply in_or_app; right; now left|reflexivity]|].
        rewrite Hfilter, String.eqb_refl, map_app. cbn [map].
        rewrite list_to_set_snoc.
        rewrite (filter_none (fun f0 => String.eqb (rk f0) (rk f)) xs).
        -- cbn [map]. rewrite list_to_set_nil. now rewrite (right_id_L ∅ (∪)).
        -- intros f0 Hf0. destruct (String.eqb_spec (rk f0) (rk f)) as [E|]; [|reflexivity].
           exfalso. eapply Hno. apply Hin. exists (rk f). split; [reflexivity|].
           split; [eauto|reflexivity].
    + intros (r & -> & (f0 & Hf0 & E0) & ->). rewrite Hfilter.
      destruct (String.eqb_spec (rk f) r) as [E|Hne].
      * clear f0 Hf0 E0. subst r. right. split; [reflexivity|].
        destruct (List.filter (fun f1 => String.eqb (rk f1) (rk f)) xs) as [|f1 l] eqn:El.
        -- right. split.
           ++ intros S0 HS0. apply Hin in HS0.
              destruct HS0 as (r & E & (f1 & Hf1 & E1) & _). injection E as <-.
              assert (Hf1' : In f1 (List.filter (fun f1 => String.eqb (rk f1) (rk f)) xs)).
              { apply filter_In. split; [exact Hf1|]. now apply String.eqb_eq. }
              rewrite El in Hf1'. exact Hf1'.
           ++ rewrite map_app. cbn [map]. rewrite list_to_set_snoc, list_to_set_nil.
              now rewrite (right_id_L ∅ (∪)).
        -- left. exists (list_to_set (map nm (f1 :: l))). split.
           ++ apply Hin. exists (rk f). split; [reflexivity|]. split; [|now rewrite El].
              assert (Hf1 : In f1 (List.filter (fun f1 => String.eqb (rk f1) (rk f)) xs))
                by (rewrite El; now left).
              apply filter_In in Hf1. destruct Hf1 as [Hf1 E1].
              apply String.eqb_eq in E1. eauto.
           ++ rewrite map_app. cbn [map]. now rewrite list_to_set_snoc.
      * left. split; [congruence|]. apply Hin. exists r. split; [reflexivity|].
        rewrite app_nil_r. split; [|reflexivity].
        apply in_app_or in Hf0. destruct Hf0 as [Hf0|[<-|[]]]; [eauto|congruence].
Qed.

End RegionSets.

(** An insertion that is no [add_node] of a node keeps its attributes. *)
Lemma node_steps_keep (n : string) (ops : list graph_op) (cur : option (gmap string attr)) :
  (forall a, ~ In (AddNode n a) ops) ->
  default ∅ (foldl (node_step n) cur ops) = default ∅ cur.
Proof.
  revert cur. induction ops as [|o ops IH]; intros cur Hno; [reflexivity|].
  cbn [foldl]. rewrite IH by (intros a Ha; apply (Hno a); now right).
  destruct o as [k a|u v a]; cbn [node_step].
  - destruct (decide (k = n)) as [->|]; [|reflexivity].
    exfalso. apply (Hno a). now left.
  - destruct (decide (u = n \/ v = n)); reflexivity.
Qed.

(** The factory rows give a factory node the region of the last row of
    its id. *)
Lemma factory_steps (f : string) (rows : list FactoryRow) :
  match last (List.filter (fun r => String.eqb (fa_factory_id r) f) rows) with
  | None => foldl (node_step ("factory:" ++ f)) None (flat_map factory_op rows) = None
  | Some row =>
      exists attrs,
        foldl (node_step ("factory:" ++ f)) None (flat_map factory_op rows) = Some attrs /\
        attrs !! "region_id" = Some (AStr (fa_region_id row))
  end.
Proof.
  induction rows as [|x rows IH] using rev_ind; [reflexivity|].
  rewrite List.filter_app, flat_map_app, foldl_app.
  cbn [List.filter flat_map factory_op app foldl node_step].
  destruct (String.eqb_spec (fa_factory_id x) f) as [E|Hne].
  - rewrite last_snoc. subst f.
    rewrite !decide_True by (first [reflexivity|left; reflexivity]).
    cbn [default from_option id].
    eexists. split; [reflexivity|].
    apply lookup_union_Some_l. cbn [list_to_map foldr curry fst snd].
    repeat (rewrite lookup_insert_ne by discriminate). apply lookup_insert_eq.
  - rewrite app_nil_r.
    assert (H1 : "factory:" ++ fa_factory_id x <> "factory:" ++ f)
      by (intros E; simplify_eq/=; congruence).
    assert (H2 : ~ ("factory:" ++ fa_factory_id x = "factory:" ++ f \/
                    "region:" ++ fa_region_id x = "factory:" ++ f))
      by (intros [E|E]; [exact (H1 E)|simplify_eq/=]).
    rewrite (decide_False (P := "factory:" ++ fa_factory_id x = "factory:" ++ f)) by exact H1.
    rewrite (decide_False (P := _ \/ _)) by exact H2. exact IH.
Qed.

Lemma region_of_factory (data : SupplyChainData) (f : string) :
  region_of (build data) ("factory:" ++ f) = AStr (region_or_unknown data f).
Proof.
  unfold region_of, region_or_unknown, Py.get_default, _factory_region.
  rewrite dict_of_rows, node_build.
  pose (pre := (flat_map region_op (regions data)
                ++ flat_map country_op (countries data))%list).
  pose (post := (flat_map hub_op (hubs data)
                 ++ flat_map ships_to_op (ships_to_groups data)
                 ++ flat_map delivers_to_op (delivers_to_groups data)
                 ++ flat_map restricts_op (geopolitical data))%list).
  assert (E : build_ops data
              = (pre ++ flat_map factory_op (factories data) ++ post)%list).
  { unfold build_ops, pre, post. rewrite <- !app_assoc. reflexivity. }
  rewrite E, !foldl_app.
  assert (Hpre : foldl (node_step ("factory:" ++ f)) None pre = None).
  { apply node_steps_none. split; [reflexivity|]. unfold pre. split.
    - intros a Ha. rewrite in_app_iff, !in_flat_map in Ha.
      destruct Ha as [(row & _ & [Ha|[]])|(row & _ & [Ha|[Ha|[]]])]; simplify_eq/=.
    - intros u v a Ha. rewrite in_app_iff, !in_flat_map in Ha.
      destruct Ha as [(row & _ & [Ha|[]])|(row & _ & [Ha|[Ha|[]]])]; simplify_eq/=.
      split; intros E'; simplify_eq/=. }
  rewrite Hpre. rewrite node_steps_keep.
  - pose proof (factory_steps f (factories data)) as Hs.
    destruct (last (List.filter _ (factories data))) as [row|]; cbn [fmap option_fmap option_map].
    + destruct Hs as (attrs & -> & Hr). cbn [default from_option id]. now rewrite Hr.
    + rewrite Hs. cbn [default from_option]. now rewrite lookup_empty.
  - intros a Ha. unfold post in Ha. rewrite !in_app_iff, !in_flat_map in Ha.
    destruct Ha as [(row & _ & [Ha|[Ha|[]]])|[(row & _ & [Ha|[]])
                   |[(row & _ & [Ha|[]])|(row & _ & [Ha|[]])]]]; simplify_eq/=.
Qed.

(** *** Folding over the edge views *)

Lemma foldl_cond_map {A B C} (P : A -> bool) (k : A -> B) (G : C -> B -> C)
      (l : list A) (c : C) :
  foldl (fun c a => if negb (P a) then c else G c (k a)) c l
  = foldl G c (map k (List.filter P l)).
Proof.
  revert c. induction l as [|a l IH]; intros c; [reflexivity|].
  cbn [foldl List.filter]. rewrite IH. now destruct (P a).
Qed.

Lemma foldl_nested {A B C} (inner : A -> list B) (G : C -> B -> C) (l : list A) (c : C) :
  foldl (fun c a => foldl G c (inner a)) c l = foldl G c (flat_map inner l).
Proof.
  revert c. induction l as [|a l IH]; intros c; [reflexivity|].
  cbn [foldl flat_map]. now rewrite foldl_app, IH.
Qed.

Lemma foldl_map_arg {A B C} (k : A -> B) (G : C -> B -> C) (l : list A) (c : C) :
  foldl G c (map k l) = foldl (fun c a => G c (k a)) c l.
Proof.
  revert c. induction l as [|a l IH]; intros c; [reflexivity|].
  cbn [foldl map]. apply IH.
Qed.

Lemma foldl_ext_all {A C} (G G' : C -> A -> C) (l : list A) (c : C) :
  (forall c a, G c a = G' c a) -> foldl G c l = foldl G' c l.
Proof.
  intros H. revert c. induction l as [|a l IH]; intros c; [reflexivity|].
  cbn [foldl]. now rewrite H, IH.
Qed.

(** The factory nodes [supply_diversity] walks over, in order. *)
Lemma factories_by_region_nodes (data : SupplyChainData) (c : string) :
  factories_by_region (build data) c
  = foldl (fun d fn => add_to_region (region_of (build data) fn) fn d) []
          (flat_map
             (fun e1 : string * gmap string attr =>
                if has_edge_type (snd e1) "DELIVERS_TO"
                then map fst (List.filter
                                (fun e2 : string * gmap string attr =>
                                   has_edge_type (snd e2) "SHIPS_TO")
                                (in_edges (build data) (fst e1)))
                else [])
             (in_edges (build data) ("country:" ++ c))).
Proof.
  unfold factories_by_region. rewrite in_edges_data_build.
  rewrite <- foldl_nested. rewrite foldl_map_arg. apply foldl_ext_all.
  intros d [hub_node attrs]. cbn [fst snd].
  destruct (has_edge_type attrs "DELIVERS_TO"); cbn [negb]; [|reflexivity].
  rewrite in_edges_data_build, foldl_map_arg.
  rewrite <- (foldl_cond_map
                (fun e2 : string * gmap string attr => has_edge_type (snd e2) "SHIPS_TO")
                fst
                (fun d fn => add_to_region (region_of (build data) fn) fn d)).
  apply foldl_ext_all. intros d' [fn sa]. reflexivity.
Qed.

Lemma size_of_names (S : gset string) (l : list string) :
  NoDup l ->
  (forall x, x ∈ S <-> exists f, In f l /\ "factory:" ++ f = x) ->
  size S = length l.
Proof.
  intros Hnd HS. unfold size, set_size. cbn.
  rewrite <- (length_map (fun f => "factory:" ++ f) l).
  apply Permutation_length. apply NoDup_Permutation.
  - apply NoDup_elements.
  - apply NoDup_map_inj; [|exact Hnd]. intros x y E. now simplify_eq/=.
  - intros x. rewrite elem_of_elements, HS, list_elem_of_In, in_map_iff.
    split; intros (f & H1 & H2); exists f; tauto.
Qed.

Lemma in_unique (l : list string) (s : string) : In s (Py.unique l) <-> In s l.
Proof.
  split; [|apply unique_complete]. unfold Py.unique. intros H.
  now apply drop_duplicates_in in H.
Qed.

(** The factory nodes walked over are the factories that reach the
    country. *)
Lemma supply_nodes (data : SupplyChainData) (c : string) :
  exists fs,
    (forall f, In f fs <-> reaches data f c) /\
    factories_by_region (build data) c
    = foldl (fun d f => add_to_region (AStr (region_or_unknown data f)) ("factory:" ++ f) d)
            [] fs.
Proof.
  set (nodes := flat_map
             (fun e1 : string * gmap string attr =>
                if has_edge_type (snd e1) "DELIVERS_TO"
                then map fst (List.filter
                                (fun e2 : string * gmap string attr =>
                                   has_edge_type (snd e2) "SHIPS_TO")
                                (in_edges (build data) (fst e1)))
                else [])
             (in_edges (build data) ("country:" ++ c))).
  assert (Hnodes : forall fn, In fn nodes <->
                              exists hn, delivers_to (build data) hn ("country:" ++ c) /\
                                         typed_edge (build data) "SHIPS_TO" fn hn).
  { intros fn. unfold nodes. rewrite in_flat_map. split.
    - intros ([hn a] & Hin & Hfn). cbn [fst snd] in Hfn.
      apply (in_in_edges _ _ _ _ (well_formed_build data)) in Hin.
      destruct (has_edge_type a "DELIVERS_TO") eqn:Ha; [|contradiction].
      apply in_map_iff in Hfn. destruct Hfn as ([fn' sa] & E & Hin2). cbn [fst] in E.
      subst fn'. apply filter_In in Hin2. destruct Hin2 as [Hin2 Hsa].
      apply (in_in_edges _ _ _ _ (well_formed_build data)) in Hin2.
      exists hn. split; [exists a; tauto|exists sa; tauto].
    - intros (hn & (a & Ha & Hta) & (sa & Hsa & Htsa)). exists (hn, a). split.
      + now apply (in_in_edges _ _ _ _ (well_formed_build data)).
      + cbn [fst snd]. rewrite Hta. apply in_map_iff. exists (fn, sa).
        split; [reflexivity|]. apply filter_In. split; [|exact Htsa].
        now apply (in_in_edges _ _ _ _ (well_formed_build data)). }
  destruct (prefixed_keys "factory:" nodes) as [fs Hfs].
  { intros fn Hfn. apply Hnodes in Hfn. destruct Hfn as (hn & _ & Hs).
    apply build_ships_iff in Hs. destruct Hs as (row & _ & -> & _). eauto. }
  exists fs. split.
  - intros f. transitivity (In ("factory:" ++ f) nodes).
    + rewrite Hfs, in_map_iff. split; [eauto|].
      intros (f' & E & Hin). simplify_eq/=. exact Hin.
    + rewrite Hnodes. unfold reaches. split.
      * intros (hn & Hd & Hs). apply build_delivers_iff in Hd. apply build_ships_iff in Hs.
        destruct Hd as (row & Hrow & -> & E2). destruct Hs as (row' & Hrow' & E3 & E4).
        simplify_eq/=. exists (hub_id row). split; [exists row'|exists row]; 
          (split; [assumption|split; congruence]).
      * intros (h & (row & Hrow & <- & <-) & (row' & Hrow' & E & <-)).
        exists ("hub:" ++ hub_id row). split.
        -- apply build_delivers_iff. exists row'. rewrite E. tauto.
        -- apply build_ships_iff. exists row. tauto.
  - rewrite factories_by_region_nodes. fold nodes. rewrite Hfs, foldl_map_arg.
    apply foldl_ext_all. intros d f. now rewrite region_of_factory.
Qed.

(** X26.  [supply_diversity] on the built graph has one entry per region
    with a factory that reaches the country, where a factory reaches a
    country when some row of the flow table links it to a hub and some
    row, possibly of another category, links that hub to the country.
    The count of a region is the number of distinct such factories whose
    region, as the data loader gives it, is that region; a factory
    without a row in the factories table is counted under "unknown".
    Restricted and late flows count like the others. *)
Theorem supply_diversity_counts_reaching_factories (data : SupplyChainData) (c : string) :
  NoDup (map fst (supply_diversity (build data) c)) /\
  forall R n,
    In (R, n) (supply_diversity (build data) c) <->
    exists r fs,
      R = AStr r /\ n = Z.of_nat (length fs) /\ fs <> [] /\ NoDup fs /\
      forall f, In f fs <-> reaches data f c /\ region_or_unknown data f = r.
Proof.
  destruct (supply_nodes data c) as (all & Hall & Efold).
  destruct (fold_add_to_region (region_or_unknown data) (fun f => "factory:" ++ f) all)
    as (_ & Hnd & Hin).
  cbv zeta in Hnd, Hin. rewrite <- Efold in Hnd, Hin.
  unfold supply_diversity. split.
  - rewrite map_map. cbn [fst]. exact Hnd.
  - assert (Hsize : forall r fs,
               NoDup fs ->
               (forall f, In f fs <-> reaches data f c /\ region_or_unknown data f = r) ->
               size (list_to_set
                       (map (fun f => "factory:" ++ f)
                            (List.filter (fun f => String.eqb (region_or_unknown data f) r)
                                         all)) : gset string)
               = length fs).
    { intros r fs Hfs Hmem. apply size_of_names; [exact Hfs|].
      intros x. rewrite elem_of_list_to_set, list_elem_of_In, in_map_iff.
      split; intros (f & H1 & H2).
      - exists f. split; [|exact H1]. apply Hmem. apply filter_In in H2.
        destruct H2 as [H2 H3]. apply String.eqb_eq in H3. split; [now apply Hall|exact H3].
      - exists f. split; [exact H2|]. apply Hmem in H1. destruct H1 as [H1 H3].
        apply filter_In. split; [now apply Hall|now apply String.eqb_eq]. }
    intros R n. rewrite in_map_iff. split.
    + intros ([R' S] & E & HS). cbn [fst snd] in E. injection E as -> <-.
      apply Hin in HS. destruct HS as (r & -> & (f0 & Hf0 & E0) & ->).
      set (fs := Py.unique (List.filter (fun f => String.eqb (region_or_unknown data f) r)
                                        all)).
      assert (Hmem : forall f, In f fs <-> reaches data f c /\ region_or_unknown data f = r).
      { intros f. unfold fs. rewrite in_unique, filter_In, String.eqb_eq, Hall. tauto. }
      exists r, fs. split; [reflexivity|].
      split; [now rewrite (Hsize r fs (unique_NoDup _) Hmem)|].
      split; [|split; [apply unique_NoDup|exact Hmem]].
      intros Efs. assert (Hf : In f0 fs) by (apply Hmem; split; [now apply Hall|exact E0]).
      rewrite Efs in Hf. exact Hf.
    + intros (r & fs & -> & -> & Hne & Hfs & Hmem).
      exists (AStr r,
              list_to_set (map (fun f => "factory:" ++ f)
                               (List.filter (fun f => String.eqb (region_or_unknown data f) r)
                                            all))).
      cbn [fst snd]. split; [now rewrite (Hsize r fs Hfs Hmem)|].
      apply Hin. exists r. split; [reflexivity|]. split; [|reflexivity].
      destruct fs as [|f0 fs]; [congruence|]. exists f0.
      destruct (proj1 (Hmem f0) (or_introl eq_refl)) as [H1 H2].
      split; [now apply Hall|exact H2].
Qed.
